(** * SMS birthday notification: the ingestion / matching / delivery pipeline

    A shallow embedding of the JavaScript services of the repository
    (ExcelParser, DateMatcher, SMSService, BirthdayCheckService, Scheduler,
    ConfigurationManager, and the Configuration and Associate models)
    together with the ECMAScript built-ins they rest on (Date arithmetic,
    String.prototype.trim, parseInt on digit groups, the regular
    expressions of the validators).

    Conventions of the embedding

    - A JavaScript exception is a [Throw] completion carrying the
      [error.message]; [try_catch] is [try { } catch (error) { }].
    - Observable effects (calls of [logger.log], HTTP requests, [delay]) are
      collected, in order, in a list of [Event]s.
    - Everything the process reads from outside (environment, file system,
      workbook contents, clock, time zone, HTTP gateway, the engine's own
      lenient [Date] string parser) is a field of the [Host] record. *)

From Stdlib Require Import ZArith List String Ascii Bool Lia QArith Qround.
From Stdlib Require Import DecimalString Lqa.
Import ListNotations.

Local Open Scope Z_scope.

Infix "^^" := String.append (at level 60, right associativity).

(* ================================================================== *)
(** ** ECMAScript built-ins *)
(* ================================================================== *)

Module JS.

(** *** Strings *)

Definition nl : string := String "010"%char EmptyString.
Definition dquote : string := String "034"%char EmptyString.
(** The no-break space U+00A0. *)
Definition nbsp : string := String "160"%char EmptyString.

Definition is_digit (c : ascii) : bool :=
  let n := nat_of_ascii c in (Nat.leb 48 n && Nat.leb n 57)%bool.

(** White space and line terminators, as [trim] strips them and [\s]
    matches them.  A string is a sequence of code units below 256; among
    these the class holds TAB, LF, VT, FF, CR, SPACE and the no-break space
    U+00A0. *)
Definition is_space (c : ascii) : bool :=
  let n := nat_of_ascii c in
  ((Nat.leb 9 n && Nat.leb n 13) || Nat.eqb n 32 || Nat.eqb n 160)%bool.

Fixpoint trimStart (s : string) : string :=
  match s with
  | EmptyString => EmptyString
  | String c r => if is_space c then trimStart r else s
  end.

Fixpoint all_space (s : string) : bool :=
  match s with
  | EmptyString => true
  | String c r => (is_space c && all_space r)%bool
  end.

Fixpoint trimEnd (s : string) : string :=
  match s with
  | EmptyString => EmptyString
  | String c r => if all_space s then EmptyString else String c (trimEnd r)
  end.

Definition trim (s : string) : string := trimEnd (trimStart s).

Fixpoint startsWith (s p : string) : bool :=
  match p, s with
  | EmptyString, _ => true
  | String _ _, EmptyString => false
  | String a p', String b s' => (Ascii.eqb a b && startsWith s' p')%bool
  end.

Fixpoint includes (s p : string) : bool :=
  (startsWith s p ||
   match s with
   | EmptyString => false
   | String _ r => includes r p
   end)%bool.

Definition is_empty (s : string) : bool :=
  match s with EmptyString => true | _ => false end.

(** Decimal rendering of an integer inside a template literal. *)
Definition show_nat (n : nat) : string := NilEmpty.string_of_uint (Nat.to_uint n).
Definition show_Z (z : Z) : string := NilZero.string_of_int (Z.to_int z).

(** [parseInt] on the text captured by a [\d] group: the value of the longest
    prefix of decimal digits, [None] (NaN) when there is none. *)
Fixpoint digits_value (acc : Z) (s : string) : Z :=
  match s with
  | String c r =>
      if is_digit c then digits_value (10 * acc + (Z.of_nat (nat_of_ascii c) - 48)) r
      else acc
  | EmptyString => acc
  end.

Definition parseInt (s : string) : option Z :=
  match s with
  | String c _ => if is_digit c then Some (digits_value 0 s) else None
  | EmptyString => None
  end.

(** *** Numbers

    A Number is NaN, an infinity or a finite value.  A finite value is
    written as a rational; the results of [*] and [+] are rounded to the
    nearest double (binary64, ties to even), as the arithmetic of the
    engine does.  The sign of zero is not kept. *)

Inductive Num : Type :=
| NaN
| PInf
| NInf
| Fin (q : Q).

(** [floor (log2 (n / d))], for positive [n] and [d]. *)
Definition binade (n d : Z) : Z :=
  let k := Z.log2 n - Z.log2 d in
  let reached := if 0 <=? k then 2 ^ k * d <=? n else d <=? 2 ^ (- k) * n in
  if reached then k else k - 1.

(** The whole number nearest to [n / d], the even one of the two when
    [n / d] lies half way, for [n >= 0] and [d > 0]. *)
Definition nearestEven (n d : Z) : Z :=
  let f := n / d in
  let r := n mod d in
  if 2 * r <? d then f
  else if d <? 2 * r then f + 1
  else if Z.even f then f else f + 1.

(** The double nearest to the real number [q]: a significand of at most 53
    bits times [2^e], with [e] from -1074 to 971; an infinity beyond the
    largest double. *)
Definition round64 (q : Q) : Num :=
  let r := Qred q in
  let n := Z.abs (Qnum r) in
  let d := Z.pos (Qden r) in
  if n =? 0 then Fin 0
  else
    let e := Z.max (binade n d - 52) (-1074) in
    let m := if 0 <=? e then nearestEven n (d * 2 ^ e)
             else nearestEven (n * 2 ^ (- e)) d in
    if (971 <? e) || ((e =? 971) && (2 ^ 53 <=? m))
    then (if 0 <? Qnum r then PInf else NInf)
    else
      let s := if 0 <? Qnum r then m else - m in
      Fin (if 0 <=? e then inject_Z (s * 2 ^ e) else s # Z.to_pos (2 ^ (- e))).

Definition Qtrunc (q : Q) : Z :=
  if Qle_bool 0 q then Qfloor q else Qceiling q.

(** ToBoolean on a Number. *)
Definition num_truthy (n : Num) : bool :=
  match n with
  | NaN => false
  | Fin q => negb (Qeq_bool q 0)
  | _ => true
  end.

(** [a * b] for a finite positive [b]. *)
Definition num_mul_pos (a : Num) (b : Q) : Num :=
  match a with
  | Fin q => round64 (q * b)
  | other => other
  end.

(** [a + b] for a finite or NaN [a]. *)
Definition num_add (a b : Num) : Num :=
  match a, b with
  | NaN, _ | _, NaN => NaN
  | Fin x, Fin y => round64 (x + y)
  | Fin _, inf => inf
  | PInf, NInf | NInf, PInf => NaN
  | inf, _ => inf
  end.

(** *** Date: time values and calendar arithmetic (ECMA-262, 21.4.1) *)

Definition msPerDay : Z := 86400000.
Definition msPerHour : Z := 3600000.
Definition msPerMinute : Z := 60000.
Definition msPerSecond : Z := 1000.

Definition Day (t : Z) : Z := t / msPerDay.
Definition TimeWithinDay (t : Z) : Z := t mod msPerDay.

Definition DaysInYear (y : Z) : Z :=
  if negb (y mod 4 =? 0) then 365
  else if negb (y mod 100 =? 0) then 366
  else if negb (y mod 400 =? 0) then 365
  else 366.

Definition DayFromYear (y : Z) : Z :=
  365 * (y - 1970) + (y - 1969) / 4 - (y - 1901) / 100 + (y - 1601) / 400.

Definition TimeFromYear (y : Z) : Z := msPerDay * DayFromYear y.

(** The largest [y] with [TimeFromYear y <= t]: an estimate from the mean
    length of the Gregorian year, corrected by at most one year
    (see [YearFromTime_spec]). *)
Definition YearFromTime (t : Z) : Z :=
  let d := Day t in
  let y := 1970 + (400 * d) / 146097 in
  if d <? DayFromYear y then y - 1
  else if DayFromYear (y + 1) <=? d then y + 1
  else y.

Definition InLeapYear (t : Z) : Z :=
  if DaysInYear (YearFromTime t) =? 366 then 1 else 0.

Definition DayWithinYear (t : Z) : Z := Day t - DayFromYear (YearFromTime t).

Definition MonthFromTime (t : Z) : Z :=
  let d := DayWithinYear t in
  let L := InLeapYear t in
  if d <? 31 then 0
  else if d <? 59 + L then 1
  else if d <? 90 + L then 2
  else if d <? 120 + L then 3
  else if d <? 151 + L then 4
  else if d <? 181 + L then 5
  else if d <? 212 + L then 6
  else if d <? 243 + L then 7
  else if d <? 273 + L then 8
  else if d <? 304 + L then 9
  else if d <? 334 + L then 10
  else 11.

Definition DateFromTime (t : Z) : Z :=
  let d := DayWithinYear t in
  let L := InLeapYear t in
  match MonthFromTime t with
  | 0 => d + 1
  | 1 => d - 30
  | 2 => d - 58 - L
  | 3 => d - 89 - L
  | 4 => d - 119 - L
  | 5 => d - 150 - L
  | 6 => d - 180 - L
  | 7 => d - 211 - L
  | 8 => d - 242 - L
  | 9 => d - 272 - L
  | 10 => d - 303 - L
  | _ => d - 333 - L
  end.

Definition HourFromTime (t : Z) : Z := (t / msPerHour) mod 24.
Definition MinFromTime (t : Z) : Z := (t / msPerMinute) mod 60.
Definition SecFromTime (t : Z) : Z := (t / msPerSecond) mod 60.
Definition msFromTime (t : Z) : Z := t mod msPerSecond.

Definition MakeTime (h m s ms : Z) : Z :=
  h * msPerHour + m * msPerMinute + s * msPerSecond + ms.

(** Days from 1 January to the first day of month [mn] (0-based). *)
Definition monthStart (mn leap : Z) : Z :=
  match mn with
  | 0 => 0
  | 1 => 31
  | 2 => 59 + leap
  | 3 => 90 + leap
  | 4 => 120 + leap
  | 5 => 151 + leap
  | 6 => 181 + leap
  | 7 => 212 + leap
  | 8 => 243 + leap
  | 9 => 273 + leap
  | 10 => 304 + leap
  | _ => 334 + leap
  end.

(** [MakeDay]: month overflow is carried into the year and the day of the
    month is a plain offset, so 30 February is 1 (or 2) March. *)
Definition MakeDay (year month date : Z) : Z :=
  let ym := year + month / 12 in
  let mn := month mod 12 in
  let leap := if DaysInYear ym =? 366 then 1 else 0 in
  DayFromYear ym + monthStart mn leap + date - 1.

Definition MakeDate (day time : Z) : Z := day * msPerDay + time.

Definition maxTime : Z := 8640000000000000.

Definition TimeClip (t : Z) : option Z :=
  if maxTime <? Z.abs t then None else Some t.

(** The host's time zone: [LocalTZA t isUTC] is the offset of local time
    from UTC, in milliseconds, at the instant [t]. *)
Record TimeZone : Type := { LocalTZA : Z -> bool -> Z }.

Definition fixedZone (offset : Z) : TimeZone := {| LocalTZA := fun _ _ => offset |}.
Definition utcZone : TimeZone := fixedZone 0.

Definition LocalTime (tz : TimeZone) (t : Z) : Z := t + LocalTZA tz t true.
Definition UTC (tz : TimeZone) (t : Z) : Z := t - LocalTZA tz t false.

(** A Date object: its time value, [None] for NaN (an Invalid Date). *)
Record Date : Type := mkDate { timeValue : option Z }.

Definition invalidDate : Date := mkDate None.

(** [isNaN(date.getTime())] *)
Definition isInvalid (d : Date) : bool :=
  match timeValue d with None => true | Some _ => false end.

Definition getTime (d : Date) : Num :=
  match timeValue d with
  | None => NaN
  | Some t => Fin (inject_Z t)
  end.

(** The local-time getters; [None] is NaN. *)
Definition getFullYear (tz : TimeZone) (d : Date) : option Z :=
  option_map (fun t => YearFromTime (LocalTime tz t)) (timeValue d).
Definition getMonth (tz : TimeZone) (d : Date) : option Z :=
  option_map (fun t => MonthFromTime (LocalTime tz t)) (timeValue d).
Definition getDate (tz : TimeZone) (d : Date) : option Z :=
  option_map (fun t => DateFromTime (LocalTime tz t)) (timeValue d).
Definition getHours (tz : TimeZone) (d : Date) : option Z :=
  option_map (fun t => HourFromTime (LocalTime tz t)) (timeValue d).

(** [a === b] on two numbers that are NaN or whole: NaN equals nothing. *)
Definition strict_eq (a b : option Z) : bool :=
  match a, b with
  | Some x, Some y => x =? y
  | _, _ => false
  end.

(** [a > b] on such numbers. *)
Definition num_gt (a : option Z) (b : Z) : bool :=
  match a with Some x => b <? x | None => false end.

Definition num_sub (a : option Z) (b : Z) : option Z := option_map (fun x => x - b) a.

(** [new Date(value)] for a Number. *)
Definition newDateOfNumber (n : Num) : Date :=
  match n with
  | Fin q =>
      if Qle_bool (inject_Z (- maxTime)) q && Qle_bool q (inject_Z maxTime)
      then mkDate (Some (Qtrunc q))
      else invalidDate
  | _ => invalidDate
  end.

(** [new Date(year, month, date)]: local midnight of the given day; a year
    from 0 to 99 means 1900 + year; any NaN argument gives an Invalid Date. *)
Definition newDate (tz : TimeZone) (year month date : option Z) : Date :=
  match year, month, date with
  | Some y, Some m, Some dt =>
      let yr := if (0 <=? y) && (y <=? 99) then 1900 + y else y in
      let finalDate := MakeDate (MakeDay yr m dt) (MakeTime 0 0 0 0) in
      mkDate (TimeClip (UTC tz finalDate))
  | _, _, _ => invalidDate
  end.

(** Left padding with zeros, [String(n).padStart(w, '0')] for [n >= 0]. *)
Fixpoint zeros (k : nat) : string :=
  match k with O => EmptyString | S k' => String "0"%char (zeros k') end.

Definition pad (w : nat) (n : Z) : string :=
  let s := show_Z n in zeros (w - String.length s) ^^ s.

(** [Date.prototype.toISOString]: UTC, [YYYY-MM-DDTHH:mm:ss.sssZ], with the
    expanded six-digit year outside 0..9999; [None] when the date is invalid
    (a RangeError is thrown). *)
Definition toISOString (d : Date) : option string :=
  match timeValue d with
  | None => None
  | Some t =>
      let y := YearFromTime t in
      let year :=
        if (0 <=? y) && (y <=? 9999) then pad 4 y
        else if y <? 0 then "-" ^^ pad 6 (- y)
        else "+" ^^ pad 6 y in
      Some (year ^^ "-" ^^ pad 2 (MonthFromTime t + 1) ^^ "-" ^^ pad 2 (DateFromTime t)
            ^^ "T" ^^ pad 2 (HourFromTime t) ^^ ":" ^^ pad 2 (MinFromTime t)
            ^^ ":" ^^ pad 2 (SecFromTime t) ^^ "." ^^ pad 3 (msFromTime t) ^^ "Z")
  end.

End JS.

(* ================================================================== *)
(** ** Run-time model: values, completions, events, host *)
(* ================================================================== *)

Module Runtime.
Import JS.

(** The JavaScript values a worksheet cell or an object field can hold.
    [VObject] stands for any other object (truthy, neither a string nor a
    Date). *)
Inductive Value : Type :=
| VUndefined
| VNull
| VBool (b : bool)
| VNumber (n : Num)
| VString (s : string)
| VDate (d : Date)
| VObject.

(** ToBoolean, as used by [!value]. *)
Definition truthy (v : Value) : bool :=
  match v with
  | VUndefined | VNull => false
  | VBool b => b
  | VNumber n => num_truthy n
  | VString s => negb (is_empty s)
  | VDate _ | VObject => true
  end.

(** models/Associate.js *)
Record Associate : Type := mkAssociate {
  name : string;
  dateOfBirth : Value;
  rowNumber : Z
}.

(** An element of an array of associates; [None] is a null or undefined
    element. *)
Definition Element : Type := option Associate.

(** The fields of models/Configuration.js the services read. *)
Record Configuration : Type := {
  excelFilePath : string;
  recipientMobileNumber : string;
  smsApiUrl : string;
  smsApiKey : string;
  smsSenderId : string
}.

(** A worksheet row as [sheet_to_json(ws, {header: 1})] yields it; [None] is
    a missing row. *)
Definition Row : Type := option (list Value).

Record Workbook : Type := {
  SheetNames : list string;
  sheet_to_json : string -> list Row
}.

(** How evaluation of a statement or call ends.  [OutOfFuel] is never a
    JavaScript outcome: it marks a recursion of the model that was cut. *)
Inductive Completion (A : Type) : Type :=
| Normal (a : A)
| Throw (message : string)
| OutOfFuel.
Arguments Normal {A} a.
Arguments Throw {A} message.
Arguments OutOfFuel {A}.

(** How a call that needs no fuel ends: it returns or it throws. *)
Inductive Settled (A : Type) : Type :=
| Returned (a : A)
| Raised (message : string).
Arguments Returned {A} a.
Arguments Raised {A} message.

Definition ofSettled {A} (r : Settled A) : Completion A :=
  match r with
  | Returned a => Normal a
  | Raised message => Throw message
  end.

(** The body of the POST request sent to the gateway, with its headers. *)
Record Request : Type := {
  req_url : string;
  req_to : string;
  req_from : string;
  req_message : string;
  req_authorization : string;
  req_timeout : Z
}.

(** The JSON body of a gateway response, reduced to the fields that are
    read; an absent, null or empty field is [None]. *)
Record ResponseData : Type := {
  data_messageId : option string;
  data_id : option string;
  data_status : option string;
  data_message : option string;
  data_error : option string
}.

(** The ways [axios.post] settles.  [data = None] is a null or undefined
    response body. *)
Inductive AxiosOutcome : Type :=
| Resolved (status : Z) (data : option ResponseData)
| RejectedWithResponse (status : Z) (data : option ResponseData)
| RejectedNoResponse
| RejectedOther (message : string).

Inductive Event : Type :=
| EvLog (level message : string)      (* logger.log(level, message) *)
| EvHttpPost (req : Request)          (* axios.post(...) *)
| EvDelay (ms : Z)                    (* this.delay(ms) *)
| EvInvoke (method : string).         (* entry of a method, recorded for counting calls *)

(** Everything read from outside the process. *)
Record Host : Type := {
  tz : TimeZone;
  (** [new Date(text)]: the engine's own, implementation-defined parser *)
  dateParse : string -> Date;
  (** time value of the k-th [new Date()] *)
  clock : nat -> Z;
  (** [new Configuration().loadFromEnvironment()] and the errors of its [validate()] *)
  environment : Configuration;
  validationErrors : list string;
  path_resolve : string -> string;
  path_extname : string -> string;
  fs_existsSync : string -> bool;
  xlsx_readFile : string -> Settled Workbook;
  (** outcome of the k-th HTTP request *)
  axios_post : nat -> Request -> AxiosOutcome
}.

Record ExcelParserObj : Type := { ep_logger : bool }.

Record SMSServiceObj : Type := {
  apiUrl : string;
  apiKey : string;
  senderId : string;
  recipientNumber : string
}.

(** The fields of a BirthdayCheckService instance.  [logger = false] is a
    null logger; a logger that is present is assumed not to throw (the
    repository's Logger guards its file writes with try/catch). *)
Record Service : Type := {
  logger : bool;
  config : option Configuration;
  excelParser : option ExcelParserObj;
  dateMatcher : option unit;
  smsService : option SMSServiceObj
}.

(** The local variables of [performDailyCheck], declared with [let] /
    [const] before its outer try block and read again in its catch block. *)
Record Locals : Type := {
  errors : list string;
  associates : list Associate;
  birthdaysFound : list Element;
  notificationSent : bool
}.

Record Sys : Type := {
  service : Service;
  frame : Locals;
  posts : nat;        (* HTTP requests issued so far *)
  clockReads : nat    (* [new Date()] evaluated so far *)
}.

(** State, exceptions and an event log. *)
Definition M (A : Type) : Type := Sys -> Completion A * Sys * list Event.

Definition ret {A} (a : A) : M A := fun s => (Normal a, s, []).

Definition bind {A B} (m : M A) (f : A -> M B) : M B :=
  fun s =>
    match m s with
    | (Normal a, s1, e1) =>
        match f a s1 with
        | (c, s2, e2) => (c, s2, (e1 ++ e2)%list)
        end
    | (Throw msg, s1, e1) => (Throw msg, s1, e1)
    | (OutOfFuel, s1, e1) => (OutOfFuel, s1, e1)
    end.

Definition throw {A} (msg : string) : M A := fun s => (Throw msg, s, []).

Definition outOfFuel {A} : M A := fun s => (OutOfFuel, s, []).

(** [try { m } catch (error) { handler error.message }] *)
Definition try_catch {A} (m : M A) (handler : string -> M A) : M A :=
  fun s =>
    match m s with
    | (Throw msg, s1, e1) =>
        match handler msg s1 with
        | (c, s2, e2) => (c, s2, (e1 ++ e2)%list)
        end
    | other => other
    end.

Definition emit (e : Event) : M unit := fun s => (Normal tt, s, [e]).

(** A call without effects of its own. *)
Definition liftS {A} (r : Settled A) : M A := fun s => (ofSettled r, s, []).

Definition getService : M Service := fun s => (Normal (service s), s, []).

Definition setService (f : Service -> Service) : M unit :=
  fun s => (Normal tt,
            {| service := f (service s); frame := frame s;
               posts := posts s; clockReads := clockReads s |},
            []).

Definition getLocals : M Locals := fun s => (Normal (frame s), s, []).

Definition setLocals (f : Locals -> Locals) : M unit :=
  fun s => (Normal tt,
            {| service := service s; frame := f (frame s);
               posts := posts s; clockReads := clockReads s |},
            []).

(** [new Date()] *)
Definition now (h : Host) : M Date :=
  fun s => (Normal (mkDate (Some (clock h (clockReads s)))),
            {| service := service s; frame := frame s;
               posts := posts s; clockReads := S (clockReads s) |},
            []).

(** [axios.post(url, body, config)] *)
Definition post (h : Host) (req : Request) : M AxiosOutcome :=
  fun s => (Normal (axios_post h (posts s) req),
            {| service := service s; frame := frame s;
               posts := S (posts s); clockReads := clockReads s |},
            [EvHttpPost req]).

(** [log(level, message) { if (this.logger) this.logger.log(level, message); }] *)
Definition log (hasLogger : bool) (level message : string) : M unit :=
  if hasLogger then emit (EvLog level message) else ret tt.

Definition result_of {A} (r : Completion A * Sys * list Event) : Completion A := fst (fst r).
Definition state_of {A} (r : Completion A * Sys * list Event) : Sys := snd (fst r).
Definition events_of {A} (r : Completion A * Sys * list Event) : list Event := snd r.

End Runtime.

Declare Scope js_scope.
Delimit Scope js_scope with js.
Notation "x <- m ;; k" := (Runtime.bind m (fun x => k))
  (at level 61, m at next level, right associativity) : js_scope.
Notation "m ;; k" := (Runtime.bind m (fun _ => k))
  (at level 61, right associativity) : js_scope.
Local Open Scope js_scope.

(* ================================================================== *)
(** ** services/ExcelParser.js *)
(* ================================================================== *)

Module ExcelParser.
Import JS Runtime.

(** The three regular expressions of [datePatterns]. *)
Inductive Pattern : Type :=
| SlashYearLast     (* /^(\d{1,2})\/(\d{1,2})\/(\d{4})$/ *)
| IsoYearFirst      (* /^(\d{4})-(\d{1,2})-(\d{1,2})$/ *)
| DashYearLast.     (* /^(\d{1,2})-(\d{1,2})-(\d{4})$/ *)

Definition datePatterns : list Pattern := [SlashYearLast; IsoYearFirst; DashYearLast].

Definition Pattern_eqb (p q : Pattern) : bool :=
  match p, q with
  | SlashYearLast, SlashYearLast | IsoYearFirst, IsoYearFirst | DashYearLast, DashYearLast => true
  | _, _ => false
  end.

(** [pattern.toString()] *)
Definition toString (p : Pattern) : string :=
  match p with
  | SlashYearLast => "/^(\d{1,2})\/(\d{1,2})\/(\d{4})$/"
  | IsoYearFirst => "/^(\d{4})-(\d{1,2})-(\d{1,2})$/"
  | DashYearLast => "/^(\d{1,2})-(\d{1,2})-(\d{4})$/"
  end.

(** The capture groups [match[1]], [match[2]], [match[3]]. *)
Record Groups : Type := { g1 : string; g2 : string; g3 : string }.

(** The longest prefix of at most [max] decimal digits, and the rest. *)
Fixpoint span_digits (max : nat) (s : string) : string * string :=
  match max, s with
  | S k, String c r =>
      if is_digit c
      then let '(d, rest) := span_digits k r in (String c d, rest)
      else (EmptyString, s)
  | _, _ => (EmptyString, s)
  end.

(** [\d{lo,hi}] followed by the literal [sep]: the group and what follows the
    separator.  A digit group is always followed by a non-digit here, so the
    greedy choice is the only one that can succeed. *)
Definition digits_then (lo hi : nat) (sep : ascii) (s : string) : option (string * string) :=
  let '(d, rest) := span_digits hi s in
  if Nat.leb lo (String.length d) then
    match rest with
    | String c r => if Ascii.eqb c sep then Some (d, r) else None
    | EmptyString => None
    end
  else None.

(** [\d{lo,hi}$] *)
Definition digits_end (lo hi : nat) (s : string) : option string :=
  let '(d, rest) := span_digits hi s in
  if Nat.leb lo (String.length d) && is_empty rest then Some d else None.

Definition match3 (lo1 hi1 : nat) (sep : ascii) (lo2 hi2 lo3 hi3 : nat) (s : string)
  : option Groups :=
  match digits_then lo1 hi1 sep s with
  | None => None
  | Some (a, r1) =>
      match digits_then lo2 hi2 sep r1 with
      | None => None
      | Some (b, r2) =>
          match digits_end lo3 hi3 r2 with
          | None => None
          | Some c => Some {| g1 := a; g2 := b; g3 := c |}
          end
      end
  end.

(** [trimmed.match(pattern)] *)
Definition regexMatch (p : Pattern) (s : string) : option Groups :=
  match p with
  | SlashYearLast => match3 1 2 "/"%char 1 2 4 4 s
  | IsoYearFirst => match3 4 4 "-"%char 1 2 1 2 s
  | DashYearLast => match3 1 2 "-"%char 1 2 4 4 s
  end.

(** [excelSerialToDate(serial)] *)
Definition excelSerialToDate (h : Host) (serial : Num) : Date :=
  let excelEpoch := newDate (tz h) (Some 1899) (Some 11) (Some 30) in
  let msPerDay := 24 * 60 * 60 * 1000 in
  newDateOfNumber (num_add (getTime excelEpoch) (num_mul_pos serial (inject_Z msPerDay))).

(** [parseMatchedDate(match, pattern)].  Nothing in its try block throws, so
    the catch that returns null is never entered and the result is always a
    Date object. *)
Definition parseMatchedDate (h : Host) (m : Groups) (pattern : Pattern) : option Date :=
  let patternStr := toString pattern in
  if includes patternStr "YYYY" && startsWith patternStr "/^(\d{4})" then
    let year := parseInt (g1 m) in
    let month := num_sub (parseInt (g2 m)) 1 in
    let day := parseInt (g3 m) in
    Some (newDate (tz h) year month day)
  else
    let first := parseInt (g1 m) in
    let second := parseInt (g2 m) in
    let year := parseInt (g3 m) in
    if num_gt first 12 then
      Some (newDate (tz h) year (num_sub second 1) first)
    else if num_gt second 12 then
      Some (newDate (tz h) year (num_sub first 1) second)
    else
      Some (newDate (tz h) year (num_sub first 1) second).

(** The [for (const pattern of datePatterns)] loop of [parseDate]. *)
Fixpoint tryPatterns (h : Host) (trimmed : string) (patterns : list Pattern) : option Date :=
  match patterns with
  | [] => None
  | pattern :: rest =>
      match regexMatch pattern trimmed with
      | Some m =>
          match parseMatchedDate h m pattern with
          | Some date => if negb (isInvalid date) then Some date else tryPatterns h trimmed rest
          | None => tryPatterns h trimmed rest
          end
      | None => tryPatterns h trimmed rest
      end
  end.

(** [parseDate(value)]: [None] is null. *)
Definition parseDate (h : Host) (value : Value) : option Date :=
  if negb (truthy value) then None
  else
    match value with
    | VDate d => if isInvalid d then None else Some d
    | VNumber n =>
        let date := excelSerialToDate h n in
        if isInvalid date then None else Some date
    | VString s =>
        let trimmed := trim s in
        let parsed := dateParse h trimmed in
        if negb (isInvalid parsed) then Some parsed
        else tryPatterns h trimmed datePatterns
    | _ => None
    end.

(** [row[i]]: undefined past the end of the array. *)
Definition cell (row : list Value) (i : nat) : Value := nth i row VUndefined.

(** [!row || row.length === 0 || (row.length === 1 && !row[0])] *)
Definition isEmptyRow (row : Row) : bool :=
  match row with
  | None => true
  | Some cells =>
      Nat.eqb (List.length cells) 0
      || (Nat.eqb (List.length cells) 1 && negb (truthy (cell cells 0)))
  end.

(** [!name || typeof name !== 'string' || name.trim() === ''];
    [None] when the test holds, otherwise the string. *)
Definition validName (v : Value) : option string :=
  match v with
  | VString s => if is_empty s || is_empty (trim s) then None else Some s
  | _ => None
  end.

(** The variables the loop of [parseFile] updates. *)
Record LoopState : Type := {
  parsed : list Associate;     (* const associates = [] *)
  validRows : Z;
  skippedRows : Z
}.

(** The [for (let i = 0; i < data.length; i++)] loop of [parseFile], from
    index [i] on, [data] being the rows not yet visited. *)
Fixpoint parseRows (this : ExcelParserObj) (h : Host) (data : list Row) (i : Z)
                   (st : LoopState) : M LoopState :=
  match data with
  | [] => ret st
  | row :: rest =>
      let rowNumber := i + 1 in
      if isEmptyRow row then parseRows this h rest (i + 1) st
      else
        let cells := match row with Some c => c | None => [] end in
        let name := cell cells 0 in
        let dobValue := cell cells 1 in
        match validName name with
        | None =>
            log (ep_logger this) "WARN"
                ("Row " ^^ show_Z rowNumber ^^ ": Missing or invalid name, skipping row") ;;
            parseRows this h rest (i + 1)
              {| parsed := parsed st; validRows := validRows st;
                 skippedRows := skippedRows st + 1 |}
        | Some nm =>
            match parseDate h dobValue with
            | None =>
                log (ep_logger this) "WARN"
                    ("Row " ^^ show_Z rowNumber ^^ ": Invalid or missing date of birth for "
                     ^^ dquote ^^ nm ^^ dquote ^^ ", skipping row") ;;
                parseRows this h rest (i + 1)
                  {| parsed := parsed st; validRows := validRows st;
                     skippedRows := skippedRows st + 1 |}
            | Some dateOfBirth =>
                let associate := mkAssociate (trim nm) (VDate dateOfBirth) rowNumber in
                parseRows this h rest (i + 1)
                  {| parsed := (parsed st ++ [associate])%list;
                     validRows := validRows st + 1;
                     skippedRows := skippedRows st |}
            end
        end
  end.

(** [s.toLowerCase()] on code units below 256: the capitals A to Z, and
    the accented capitals U+00C0 to U+00DE except the sign U+00D7, are moved
    up by 32. *)
Fixpoint lower (s : string) : string :=
  match s with
  | EmptyString => EmptyString
  | String c r =>
      let n := nat_of_ascii c in
      let capital :=
        (Nat.leb 65 n && Nat.leb n 90)
        || (Nat.leb 192 n && Nat.leb n 222 && negb (Nat.eqb n 215)) in
      String (if capital then ascii_of_nat (n + 32) else c) (lower r)
  end.

(** [parseFile(filePath)] *)
Definition parseFile (this : ExcelParserObj) (h : Host) (filePath : string)
  : M (list Associate) :=
  try_catch
    (let resolvedPath := path_resolve h filePath in
     (if negb (fs_existsSync h resolvedPath)
      then throw ("Excel file not found at path: " ^^ filePath)
      else ret tt) ;;
     let ext := lower (path_extname h resolvedPath) in
     (if negb (String.eqb ext ".xlsx") && negb (String.eqb ext ".xls")
      then throw ("Invalid file format: " ^^ ext ^^ ". Expected .xlsx or .xls")
      else ret tt) ;;
     log (ep_logger this) "INFO" ("Reading Excel file: " ^^ filePath) ;;
     workbook <- liftS (xlsx_readFile h resolvedPath) ;;
     match SheetNames workbook with
     | [] => throw "Excel file contains no worksheets"
     | firstSheetName :: _ =>
         if is_empty firstSheetName then throw "Excel file contains no worksheets"
         else
           log (ep_logger this) "INFO" ("Processing worksheet: " ^^ firstSheetName) ;;
           let data := sheet_to_json workbook firstSheetName in
           st <- parseRows this h data 0
                   {| parsed := []; validRows := 0; skippedRows := 0 |} ;;
           log (ep_logger this) "INFO"
               ("Parsing complete: " ^^ show_Z (validRows st) ^^ " valid associates, "
                ^^ show_Z (skippedRows st) ^^ " rows skipped") ;;
           ret (parsed st)
     end)
    (fun message =>
       if includes message "Excel file not found"
          || includes message "Invalid file format"
          || includes message "no worksheets"
       then throw message
       else throw ("Failed to parse Excel file: " ^^ message)).

End ExcelParser.

(* ================================================================== *)
(** ** services/DateMatcher.js *)
(* ================================================================== *)

Module DateMatcher.
Import JS Runtime.

(** The callback of [associates.filter] in [findBirthdaysOnDate]. *)
Definition isBirthday (h : Host) (targetMonth targetDay : option Z) (associate : Element) : bool :=
  match associate with
  | None => false
  | Some a =>
      match dateOfBirth a with
      | VDate d =>
          strict_eq (getMonth (tz h) d) targetMonth && strict_eq (getDate (tz h) d) targetDay
      | _ => false
      end
  end.

(** [findBirthdaysOnDate(associates, date)]; [associates = None] is a value
    that is not an array, [date] any value. *)
Definition findBirthdaysOnDate (h : Host) (associates : option (list Element)) (date : Value)
  : list Element :=
  match associates with
  | None => []
  | Some l =>
      match date with
      | VDate d =>
          if isInvalid d then []
          else
            let targetMonth := getMonth (tz h) d in
            let targetDay := getDate (tz h) d in
            filter (isBirthday h targetMonth targetDay) l
      | _ => []
      end
  end.

(** [findBirthdaysToday(associates)] *)
Definition findBirthdaysToday (h : Host) (associates : option (list Element))
  : M (list Element) :=
  match associates with
  | None => ret []
  | Some _ =>
      today <- now h ;;
      ret (findBirthdaysOnDate h associates (VDate today))
  end.

End DateMatcher.

(* ================================================================== *)
(** ** services/SMSService.js *)
(* ================================================================== *)

Module SMSService.
Import JS Runtime.

Fixpoint join (sep : string) (l : list string) : string :=
  match l with
  | [] => EmptyString
  | [x] => x
  | x :: rest => x ^^ sep ^^ join sep rest
  end.

(** [validateConfiguration()] *)
Definition validateConfiguration (this : SMSServiceObj) : Settled unit :=
  let errors :=
    ((if is_empty (apiUrl this) then ["SMS API URL is required"%string] else []) ++
     (if is_empty (apiKey this) then ["SMS API key is required"%string] else []) ++
     (if is_empty (senderId this) then ["SMS sender ID is required"%string] else []) ++
     (if is_empty (recipientNumber this) then ["Recipient mobile number is required"%string] else []))%list in
  if Nat.ltb 0 (List.length errors) then
    Raised ("SMS Service configuration validation failed:" ^^ nl ^^
            join nl (map (fun err => "  - " ^^ err) errors))
  else Returned tt.

(** [new SMSService(config)] for a config object that is present. *)
Definition new (smsApiUrl smsApiKey smsSenderId recipientMobileNumber : string)
  : Settled SMSServiceObj :=
  let this := {| apiUrl := smsApiUrl; apiKey := smsApiKey; senderId := smsSenderId;
                 recipientNumber := recipientMobileNumber |} in
  match validateConfiguration this with
  | Returned _ => Returned this
  | Raised m => Raised m
  end.

(** The [forEach] of [formatMessage]; reading [name] of a null element
    throws a TypeError. *)
Fixpoint appendNames (message : string) (associates : list Element) : Settled string :=
  match associates with
  | [] => Returned message
  | Some associate :: rest => appendNames (message ^^ "- " ^^ name associate ^^ nl) rest
  | None :: _ => Raised "Cannot read properties of null (reading 'name')"
  end.

(** [formatMessage(associates)]; [None] is null or undefined. *)
Definition formatMessage (associates : option (list Element)) : Settled string :=
  match associates with
  | None => Returned EmptyString
  | Some [] => Returned EmptyString
  | Some l =>
      match appendNames ("Birthday Alert! Today's birthdays:" ^^ nl) l with
      | Returned message => Returned (trim message)
      | Raised m => Raised m
      end
  end.

(** The result object of a delivery attempt; an absent key is [None]. *)
Record SMSResult : Type := {
  success : bool;
  messageId : option string;
  error : option string;
  timestamp : Date;
  attempts : option nat
}.

Record ApiResult : Type := { api_messageId : string; api_status : string }.

(** What the try block of [sendSMS] can throw to its own catch block. *)
Inductive Thrown : Type :=
| AxiosError (response : option (Z * option ResponseData)) (request : bool) (message : string)
| PlainError (message : string).

(** [a || b] on optional strings: the empty string is falsy. *)
Definition truthy_str (o : option string) : option string :=
  match o with
  | Some s => if is_empty s then None else Some s
  | None => None
  end.

Definition or_else (o : option string) (d : string) : string :=
  match truthy_str o with Some s => s | None => d end.

Definition or_opt (a b : option string) : option string :=
  match truthy_str a with Some s => Some s | None => b end.

(** The try block of [sendSMS], after [axios.post] has settled. *)
Definition sendSMS_try (outcome : AxiosOutcome) : Thrown + ApiResult :=
  match outcome with
  | Resolved status data =>
      if (200 <=? status) && (status <? 300) then
        match data with
        | Some d =>
            inr {| api_messageId := or_else (or_opt (data_messageId d) (data_id d)) "unknown";
                   api_status := or_else (data_status d) "sent" |}
        | None => inl (PlainError "Cannot read properties of null (reading 'messageId')")
        end
      else inl (PlainError ("SMS API returned status " ^^ show_Z status))
  | RejectedWithResponse status data => inl (AxiosError (Some (status, data)) true "")
  | RejectedNoResponse => inl (AxiosError None true "")
  | RejectedOther message => inl (AxiosError None false message)
  end.

(** The catch block of [sendSMS]: the message of the Error it throws. *)
Definition sendSMS_catch (error : Thrown) : string :=
  match error with
  | AxiosError (Some (status, data)) _ _ =>
      let message :=
        or_else (or_opt (match data with Some d => data_message d | None => None end)
                        (match data with Some d => data_error d | None => None end))
                "Unknown error" in
      if (status =? 401) || (status =? 403) then "Authentication failed: " ^^ message
      else if status =? 400 then "Invalid request: " ^^ message
      else "API error (" ^^ show_Z status ^^ "): " ^^ message
  | AxiosError None true _ => "Network error: Unable to reach SMS API"
  | AxiosError None false message => "SMS sending failed: " ^^ message
  | PlainError message => "SMS sending failed: " ^^ message
  end.

(** [sendSMS(message)] *)
Definition sendSMS (this : SMSServiceObj) (h : Host) (message : string) : M ApiResult :=
  outcome <- post h {| req_url := apiUrl this;
                       req_to := recipientNumber this;
                       req_from := senderId this;
                       req_message := message;
                       req_authorization := "Bearer " ^^ apiKey this;
                       req_timeout := 10000 |} ;;
  match sendSMS_try outcome with
  | inr result => ret result
  | inl error => throw (sendSMS_catch error)
  end.

(** [delay(ms)] *)
Definition delay (ms : Z) : M unit := emit (EvDelay ms).

Definition maxAttempts : nat := 3.

(** [sendWithRetry(message, timestamp, attempt)], the recursion cut after
    [fuel] calls. *)
Fixpoint sendWithRetry_fuel (fuel : nat) (this : SMSServiceObj) (h : Host)
    (message : string) (timestamp : Date) (attempt : nat) : M SMSResult :=
  match fuel with
  | O => outOfFuel
  | S fuel' =>
      try_catch
        (result <- sendSMS this h message ;;
         ret {| success := true;
                messageId := Some (api_messageId result);
                error := None;
                timestamp := timestamp;
                attempts := Some attempt |})
        (fun errorMessage =>
           if Nat.leb maxAttempts attempt then
             ret {| success := false;
                    messageId := None;
                    error := Some errorMessage;
                    timestamp := timestamp;
                    attempts := Some attempt |}
           else
             let delayMs := Z.of_nat (2 ^ attempt) * 1000 in
             delay delayMs ;;
             sendWithRetry_fuel fuel' this h message timestamp (attempt + 1))
  end.

(** One call per attempt from [attempt] up to [maxAttempts], and one call
    when [attempt] is already past it. *)
Definition sendWithRetry (this : SMSServiceObj) (h : Host)
    (message : string) (timestamp : Date) (attempt : nat) : M SMSResult :=
  sendWithRetry_fuel (S (maxAttempts - attempt)) this h message timestamp attempt.

Definition sendBirthdayNotification_name : string := "SMSService.sendBirthdayNotification".

(** [sendBirthdayNotification(associates)]; [None] is null or undefined. *)
Definition sendBirthdayNotification (this : SMSServiceObj) (h : Host)
    (associates : option (list Element)) : M SMSResult :=
  emit (EvInvoke sendBirthdayNotification_name) ;;
  timestamp <- now h ;;
  match associates with
  | None | Some [] =>
      ret {| success := false;
             messageId := None;
             error := Some "No associates provided for notification"%string;
             timestamp := timestamp;
             attempts := None |}
  | Some _ =>
      message <- liftS (formatMessage associates) ;;
      sendWithRetry this h message timestamp 1
  end.

End SMSService.

(* ================================================================== *)
(** ** services/BirthdayCheckService.js *)
(* ================================================================== *)

Module BirthdayCheckService.
Import JS Runtime.

(** [new BirthdayCheckService(logger)] *)
Definition new (hasLogger : bool) : Service :=
  {| logger := hasLogger; config := None; excelParser := None;
     dateMatcher := None; smsService := None |}.

(** [this.log(level, message)] *)
Definition log (level message : string) : M unit :=
  this <- getService ;;
  Runtime.log (logger this) level message.

(** [Configuration.maskMobileNumber] *)
Definition maskMobileNumber (mobileNumber : string) : string :=
  if is_empty mobileNumber || Nat.ltb (String.length mobileNumber) 4 then "****"
  else substring 0 3 mobileNumber ^^ "****"
       ^^ substring (String.length mobileNumber - 2) 2 mobileNumber.

(** The object returned by [performDailyCheck]. *)
Record CheckResult : Type := {
  totalAssociatesChecked : Z;
  res_birthdaysFound : list Element;
  res_notificationSent : bool;
  res_errors : list string
}.

(** [initialize()] *)
Definition initialize (h : Host) : M unit :=
  try_catch
    (log "INFO" "Initializing Birthday Check Service..." ;;
     (* this.config = new Configuration(); this.config.loadFromEnvironment(); *)
     setService (fun this =>
       {| logger := logger this; config := Some (environment h);
          excelParser := excelParser this; dateMatcher := dateMatcher this;
          smsService := smsService this |}) ;;
     let validation_errors := validationErrors h in
     (if negb (Nat.eqb (List.length validation_errors) 0) then
        let errorMessage :=
          "Configuration validation failed:" ^^ nl ^^
          SMSService.join nl (map (fun err => "  - " ^^ err) validation_errors) in
        log "ERROR" errorMessage ;;
        throw errorMessage
      else ret tt) ;;
     log "INFO" "Configuration loaded and validated successfully" ;;
     setService (fun this =>
       {| logger := logger this; config := config this;
          excelParser := Some {| ep_logger := logger this |};
          dateMatcher := dateMatcher this; smsService := smsService this |}) ;;
     setService (fun this =>
       {| logger := logger this; config := config this;
          excelParser := excelParser this;
          dateMatcher := Some tt; smsService := smsService this |}) ;;
     sms <- liftS (SMSService.new (smsApiUrl (environment h)) (smsApiKey (environment h))
                     (smsSenderId (environment h)) (recipientMobileNumber (environment h))) ;;
     setService (fun this =>
       {| logger := logger this; config := config this;
          excelParser := excelParser this;
          dateMatcher := dateMatcher this; smsService := Some sms |}) ;;
     log "INFO" "All components initialized successfully")
    (fun message =>
       log "ERROR" ("Initialization failed: " ^^ message) ;;
       throw message).

(** [birthdaysFound.forEach(associate => this.log('INFO', `  - ${associate.name}`))] *)
Fixpoint logNames (l : list Element) : M unit :=
  match l with
  | [] => ret tt
  | Some associate :: rest => log "INFO" ("  - " ^^ name associate) ;; logNames rest
  | None :: _ => throw "Cannot read properties of null (reading 'name')"
  end.

Definition len {A} (l : list A) : Z := Z.of_nat (List.length l).

(** [errors.push(errorMsg)] *)
Definition pushError (errorMsg : string) : M unit :=
  setLocals (fun f =>
    {| errors := (errors f ++ [errorMsg])%list; associates := associates f;
       birthdaysFound := birthdaysFound f; notificationSent := notificationSent f |}).

(** Step 2 of [performDailyCheck]: [Some r] when the catch block returns [r]
    from the function. *)
Definition loadAssociates (h : Host) : M (option CheckResult) :=
  try_catch
    (this <- getService ;;
     match excelParser this, config this with
     | Some parser, Some cfg =>
         loaded <- ExcelParser.parseFile parser h (excelFilePath cfg) ;;
         setLocals (fun f =>
           {| errors := errors f; associates := loaded;
              birthdaysFound := birthdaysFound f; notificationSent := notificationSent f |}) ;;
         log "INFO" ("Successfully loaded " ^^ show_Z (len loaded) ^^ " associates") ;;
         ret None
     | None, _ => throw "Cannot read properties of null (reading 'parseFile')"
     | _, None => throw "Cannot read properties of null (reading 'excelFilePath')"
     end)
    (fun message =>
       let errorMsg := "Failed to parse Excel file: " ^^ message in
       log "ERROR" errorMsg ;;
       pushError errorMsg ;;
       f <- getLocals ;;
       ret (Some {| totalAssociatesChecked := 0;
                    res_birthdaysFound := [];
                    res_notificationSent := false;
                    res_errors := errors f |})).

(** Step 3. *)
Definition matchBirthdays (h : Host) : M (option CheckResult) :=
  try_catch
    (this <- getService ;;
     f <- getLocals ;;
     match dateMatcher this with
     | Some _ =>
         found <- DateMatcher.findBirthdaysToday h (Some (map Some (associates f))) ;;
         setLocals (fun f =>
           {| errors := errors f; associates := associates f;
              birthdaysFound := found; notificationSent := notificationSent f |}) ;;
         (if 0 <? len found then
            log "INFO" ("Found " ^^ show_Z (len found) ^^ " birthday(s) today:") ;;
            logNames found
          else
            log "INFO" "No birthdays found today") ;;
         ret None
     | None => throw "Cannot read properties of null (reading 'findBirthdaysToday')"
     end)
    (fun message =>
       let errorMsg := "Failed to match birthdays: " ^^ message in
       log "ERROR" errorMsg ;;
       pushError errorMsg ;;
       f <- getLocals ;;
       ret (Some {| totalAssociatesChecked := len (associates f);
                    res_birthdaysFound := [];
                    res_notificationSent := false;
                    res_errors := errors f |})).

(** Step 4. *)
Definition sendNotification (h : Host) : M unit :=
  f <- getLocals ;;
  if 0 <? len (birthdaysFound f) then
    log "INFO" "Sending birthday notification SMS..." ;;
    try_catch
      (this <- getService ;;
       match smsService this with
       | None => throw "Cannot read properties of null (reading 'sendBirthdayNotification')"
       | Some sms =>
           smsResult <- SMSService.sendBirthdayNotification sms h (Some (birthdaysFound f)) ;;
           if SMSService.success smsResult then
             setLocals (fun f =>
               {| errors := errors f; associates := associates f;
                  birthdaysFound := birthdaysFound f; notificationSent := true |}) ;;
             match config this with
             | None => throw "Cannot read properties of null (reading 'maskMobileNumber')"
             | Some cfg =>
                 let maskedNumber := maskMobileNumber (recipientMobileNumber cfg) in
                 match toISOString (SMSService.timestamp smsResult) with
                 | None => throw "Invalid time value"
                 | Some iso =>
                     log "INFO" ("SMS notification sent successfully to " ^^ maskedNumber
                                 ^^ " at " ^^ iso) ;;
                     (match SMSService.truthy_str (SMSService.messageId smsResult) with
                      | Some id => log "INFO" ("Message ID: " ^^ id)
                      | None => ret tt
                      end) ;;
                     (match SMSService.attempts smsResult with
                      | Some n =>
                          if Nat.ltb 1 n
                          then log "INFO" ("Delivery succeeded after " ^^ show_nat n
                                           ^^ " attempt(s)")
                          else ret tt
                      | None => ret tt
                      end)
                 end
             end
           else
             let errorMsg :=
               "SMS notification failed: " ^^
               match SMSService.error smsResult with
               | Some e => e
               | None => "undefined"
               end in
             log "ERROR" errorMsg ;;
             pushError errorMsg ;;
             (match SMSService.attempts smsResult with
              | Some n =>
                  if Nat.ltb 0 n
                  then log "ERROR" ("Failed after " ^^ show_nat n ^^ " attempt(s)")
                  else ret tt
              | None => ret tt
              end)
       end)
      (fun message =>
         let errorMsg := "Failed to send SMS notification: " ^^ message in
         log "ERROR" errorMsg ;;
         pushError errorMsg)
  else ret tt.

(** The try block of [performDailyCheck]. *)
Definition dailyCheck (h : Host) : M CheckResult :=
  log "INFO" "=== Starting Daily Birthday Check ===" ;;
  (* Step 1 *)
  this <- getService ;;
  (match config this with
   | None => initialize h
   | Some _ => ret tt
   end) ;;
  (* Step 2 *)
  this <- getService ;;
  (match config this with
   | Some cfg => log "INFO" ("Loading associate data from: " ^^ excelFilePath cfg)
   | None => throw "Cannot read properties of null (reading 'excelFilePath')"
   end) ;;
  returned <- loadAssociates h ;;
  match returned with
  | Some result => ret result
  | None =>
      (* Step 3 *)
      log "INFO" "Checking for birthdays today..." ;;
      returned <- matchBirthdays h ;;
      match returned with
      | Some result => ret result
      | None =>
          (* Step 4 *)
          sendNotification h ;;
          (* Step 5 *)
          f <- getLocals ;;
          log "INFO" "=== Daily Birthday Check Complete ===" ;;
          log "INFO" ("Total associates checked: " ^^ show_Z (len (associates f))) ;;
          log "INFO" ("Birthdays found: " ^^ show_Z (len (birthdaysFound f))) ;;
          log "INFO" ("Notification sent: " ^^ (if notificationSent f then "Yes" else "No")) ;;
          (if 0 <? len (errors f)
           then log "WARN" ("Errors encountered: " ^^ show_Z (len (errors f)))
           else ret tt) ;;
          ret {| totalAssociatesChecked := len (associates f);
                 res_birthdaysFound := birthdaysFound f;
                 res_notificationSent := notificationSent f;
                 res_errors := errors f |}
      end
  end.

(** [performDailyCheck()] *)
Definition performDailyCheck (h : Host) : M CheckResult :=
  setLocals (fun _ =>
    {| errors := []; associates := []; birthdaysFound := []; notificationSent := false |}) ;;
  try_catch
    (dailyCheck h)
    (fun message =>
       let errorMsg := "Unexpected error during birthday check: " ^^ message in
       log "ERROR" errorMsg ;;
       pushError errorMsg ;;
       f <- getLocals ;;
       ret {| totalAssociatesChecked := len (associates f);
              res_birthdaysFound := birthdaysFound f;
              res_notificationSent := notificationSent f;
              res_errors := errors f |}).

End BirthdayCheckService.

(* ================================================================== *)
(** ** Reference notions used to state the properties *)
(* ================================================================== *)

Module Calendar.
Import JS.

(** Length of month [m] (0-based) in year [y]. *)
Definition DaysInMonth (y m : Z) : Z :=
  match m with
  | 1 => if DaysInYear y =? 366 then 29 else 28
  | 3 | 5 | 8 | 10 => 30
  | _ => 31
  end.

(** [(y, m, d)] names a day of the Gregorian calendar; [m] is 0-based. *)
Definition validYMD (y m d : Z) : Prop :=
  0 <= m <= 11 /\ 1 <= d <= DaysInMonth y m.

(** The local calendar fields of a valid date. *)
Definition localYMD (z : TimeZone) (d : Date) : option (Z * Z * Z) :=
  match getFullYear z d, getMonth z d, getDate z d with
  | Some y, Some m, Some dd => Some (y, m, dd)
  | _, _, _ => None
  end.

End Calendar.

Module Reference.
Import JS Runtime.

(** The record is an associate whose date of birth is a valid Date with the
    same local month and day of the month as [target]. *)
Definition bornOnDayOf (z : TimeZone) (target : Date) (r : Element) : Prop :=
  exists a d mo dy,
    r = Some a /\ dateOfBirth a = VDate d /\
    getMonth z d = Some mo /\ getDate z d = Some dy /\
    getMonth z target = Some mo /\ getDate z target = Some dy.

(** A host whose local time has a fixed offset from UTC. *)
Definition fixedOffsetHost (h : Host) (off : Z) : Prop :=
  tz h = fixedZone off /\ Z.abs off <= msPerDay.

(** A year the constructor takes literally and that is far inside the range
    of time values. *)
Definition plainYear (y : Z) : Prop :=
  -200000 <= y <= 200000 /\ ~ 0 <= y <= 99.

(** The request [sendSMS] posts for [message]. *)
Definition requestOf (this : SMSServiceObj) (message : string) : Request :=
  {| req_url := apiUrl this;
     req_to := recipientNumber this;
     req_from := senderId this;
     req_message := message;
     req_authorization := "Bearer " ^^ apiKey this;
     req_timeout := 10000 |}.

(** The state after one more HTTP request. *)
Definition afterPost (s : Sys) : Sys :=
  {| service := service s; frame := frame s; posts := S (posts s);
     clockReads := clockReads s |}.

(** The state after one more reading of the clock. *)
Definition afterClock (s : Sys) : Sys :=
  {| service := service s; frame := frame s; posts := posts s;
     clockReads := S (clockReads s) |}.

(** The ways one send can fail. *)
Inductive FailureClass : Type :=
| AuthenticationRejected     (* the gateway answered 401 or 403 *)
| MalformedRequest           (* the gateway answered 400 *)
| OtherStatus                (* any other status that is not 2xx *)
| TransportFailure           (* no response was received *)
| OtherFailure.              (* the request could not be set up, or a 2xx answer had no body *)

(** [None] when the send succeeds. *)
Definition classify (o : AxiosOutcome) : option FailureClass :=
  match o with
  | Resolved status data =>
      if (200 <=? status) && (status <? 300)
      then match data with Some _ => None | None => Some OtherFailure end
      else Some OtherStatus
  | RejectedWithResponse status _ =>
      if (status =? 401) || (status =? 403) then Some AuthenticationRejected
      else if status =? 400 then Some MalformedRequest
      else Some OtherStatus
  | RejectedNoResponse => Some TransportFailure
  | RejectedOther _ => Some OtherFailure
  end.

(** How the error text of a failed send starts, by class. *)
Definition errorPrefix (o : AxiosOutcome) : string :=
  match o with
  | RejectedWithResponse status _ =>
      if (status =? 401) || (status =? 403) then "Authentication failed: "
      else if status =? 400 then "Invalid request: "
      else "API error ("
  | RejectedNoResponse => "Network error: "
  | _ => "SMS sending failed: "
  end.

Definition isHttpPost (e : Event) : bool :=
  match e with EvHttpPost _ => true | _ => false end.

Definition isDelay (e : Event) : bool :=
  match e with EvDelay _ => true | _ => false end.

Definition isInvoke (method : string) (e : Event) : bool :=
  match e with EvInvoke m => String.eqb m method | _ => false end.

Definition isLog (e : Event) : bool :=
  match e with EvLog _ _ => true | _ => false end.

Definition count (p : Event -> bool) (l : list Event) : nat := List.length (filter p l).

(** Text made of decimal digits only. *)
Fixpoint all_digits (s : string) : bool :=
  match s with
  | EmptyString => true
  | String c r => is_digit c && all_digits r
  end.

(** A run of [lo] to [hi] decimal digits. *)
Definition digitGroup (lo hi : nat) (s : string) : Prop :=
  all_digits s = true /\ (lo <= String.length s <= hi)%nat.

(** The separator of a year-last date text: a hyphen or a slash. *)
Definition separator (hyphen : bool) : ascii := if hyphen then "-"%char else "/"%char.

(** The text [a/b/y] or [a-b-y]. *)
Definition yearLastText (hyphen : bool) (a b y : string) : string :=
  a ^^ String (separator hyphen) (b ^^ String (separator hyphen) y).

Definition yearLastPattern (hyphen : bool) : ExcelParser.Pattern :=
  if hyphen then ExcelParser.DashYearLast else ExcelParser.SlashYearLast.

(** The value of a run of digits. *)
Definition valueOf (s : string) : Z := digits_value 0 s.

(** The Date the disambiguation rule of [parseMatchedDate] builds from the
    numbers [first], [second] and [year]: day-first when [first > 12],
    month-first otherwise. *)
Definition disambiguated (z : TimeZone) (first second year : Z) : Date :=
  if 12 <? first
  then newDate z (Some year) (Some (second - 1)) (Some first)
  else newDate z (Some year) (Some (first - 1)) (Some second).

(** Text without white space. *)
Fixpoint no_space (s : string) : bool :=
  match s with
  | EmptyString => true
  | String c r => negb (is_space c) && no_space r
  end.

(** A value that is neither a Date, nor a number, nor a string. *)
Definition otherShape (v : Value) : Prop :=
  match v with
  | VDate _ | VNumber _ | VString _ => False
  | _ => True
  end.

(** Local midnight of 30 December 1899, as a local time value. *)
Definition excelEpochLocal : Z := MakeDate (MakeDay 1899 11 30) (MakeTime 0 0 0 0).

(** The offset from UTC of the zone of the host at that local time. *)
Definition epochOffset (h : Host) : Z := LocalTZA (tz h) excelEpochLocal false.

(** The instant [ms] milliseconds after local midnight of 30 December 1899
    in the zone of the host. *)
Definition serialInstant (h : Host) (ms : Z) : Z := excelEpochLocal - epochOffset h + ms.

(** [serial] days are the whole number [ms] of milliseconds. *)
Definition wholeMs (serial : Q) (ms : Z) : Prop :=
  (serial * inject_Z msPerDay == inject_Z ms)%Q.

(** A row the loop of [parseFile] passes over in silence: no row at all, a
    row without cells, or a row of one cell that is empty. *)
Definition blankRow (row : Row) : Prop :=
  row = None \/ row = Some [] \/ exists c, row = Some [c] /\ truthy c = false.

(** The first cell of the row is not a text with something other than white
    space in it. *)
Definition nameMissing (row : Row) : Prop :=
  match row with
  | Some (VString s :: _) => all_space s = true
  | _ => True
  end.

(** The diagnostic for a row without a name. *)
Definition missingNameWarning (rowNumber : Z) : Event :=
  EvLog "WARN" ("Row " ^^ show_Z rowNumber ^^ ": Missing or invalid name, skipping row").

Definition countSkipped (st : ExcelParser.LoopState) : ExcelParser.LoopState :=
  {| ExcelParser.parsed := ExcelParser.parsed st;
     ExcelParser.validRows := ExcelParser.validRows st;
     ExcelParser.skippedRows := ExcelParser.skippedRows st + 1 |}.

(** [wp m s Q]: the run of [m] from [s] ends with a completion, a state and
    events that satisfy [Q]. *)
Definition wp {A} (m : M A) (s : Sys) (Q : Completion A -> Sys -> list Event -> Prop) : Prop :=
  Q (result_of (m s)) (state_of (m s)) (events_of (m s)).

(** The error text of a failed send; empty when the send succeeds. *)
Definition failureText (o : AxiosOutcome) : string :=
  match SMSService.sendSMS_try o with
  | inl e => SMSService.sendSMS_catch e
  | inr _ => EmptyString
  end.

(** The event is neither a call of [sendBirthdayNotification] nor an HTTP
    request. *)
Definition noSend (e : Event) : bool :=
  negb (isInvoke SMSService.sendBirthdayNotification_name e) && negb (isHttpPost e).

(** Every HTTP request among the events carries [message]. *)
Definition postsCarry (message : string) (l : list Event) : Prop :=
  forall req, In (EvHttpPost req) l -> req_message req = message.

(** The service once [initialize] has succeeded in the environment of [h]. *)
Definition initialized (h : Host) (hasLogger : bool) (sms : SMSServiceObj) : Service :=
  {| logger := hasLogger; config := Some (environment h);
     excelParser := Some {| ep_logger := hasLogger |};
     dateMatcher := Some tt; smsService := Some sms |}.

(** After step 1 of [performDailyCheck] from state [s], the service has its
    configuration [cfg] and the components [parser] and [sms]: either it had
    them already, or it had no configuration and [initialize] succeeds. *)
Definition readyWith (h : Host) (s : Sys) (cfg : Configuration)
           (parser : ExcelParserObj) (sms : SMSServiceObj) : Prop :=
  (config (service s) = Some cfg /\ excelParser (service s) = Some parser
   /\ dateMatcher (service s) = Some tt /\ smsService (service s) = Some sms)
  \/
  (config (service s) = None /\ validationErrors h = []
   /\ SMSService.new (smsApiUrl (environment h)) (smsApiKey (environment h))
        (smsSenderId (environment h)) (recipientMobileNumber (environment h)) = Returned sms
   /\ cfg = environment h /\ parser = {| ep_logger := logger (service s) |}).

(** A computation that neither reads nor writes the state, only logs, and
    returns or throws. *)
Definition stateless {A} (m : M A) : Prop :=
  exists c e, (forall s, m s = (c, s, e)) /\ c <> OutOfFuel /\ forallb isLog e = true.

(** An event of the retry loop for [message]: the request for it, or a delay. *)
Definition retryEvent (this : SMSServiceObj) (message : string) (e : Event) : Prop :=
  e = EvHttpPost (requestOf this message) \/ exists ms, e = EvDelay ms.

(** What a run may emit given the matched list [found]: at most one call of
    [sendBirthdayNotification], no call and no request at all when [found]
    is empty, and requests that all carry the one message formatted from
    [found]. *)
Definition sendsFor (found : list Element) (l : list Event) : Prop :=
  (count (isInvoke SMSService.sendBirthdayNotification_name) l <= 1)%nat
  /\ (found = [] -> forallb noSend l = true)
  /\ (forall req, In (EvHttpPost req) l ->
        SMSService.formatMessage (Some found) = Returned (req_message req)).

(** The events other than calls of the logger. *)
Definition sends (l : list Event) : list Event := filter (fun e => negb (isLog e)) l.

(** What the try block of [performDailyCheck] guarantees when it starts
    with no match recorded and no notification sent. *)
Definition dailyPost (s : Sys) (c : Completion BirthdayCheckService.CheckResult) (s1 : Sys)
           (e : list Event) : Prop :=
  match c with
  | Normal r =>
      sendsFor (BirthdayCheckService.res_birthdaysFound r) e
      /\ (BirthdayCheckService.res_birthdaysFound r = [] ->
          BirthdayCheckService.res_notificationSent r = false)
  | Throw _ => sends e = [] /\ frame s1 = frame s
  | OutOfFuel => False
  end.

(** The state in which the try block of [performDailyCheck] starts. *)
Definition freshFrame (s : Sys) : Sys :=
  {| service := service s;
     frame := {| errors := []; associates := []; birthdaysFound := [];
                 notificationSent := false |};
     posts := posts s; clockReads := clockReads s |}.

(** No element of the array is null. *)
Definition allPresent (l : list Element) : Prop := Forall (fun x => x <> None) l.

(** Every send fails, whatever the request and however many were made. *)
Definition gatewayAlwaysFails (h : Host) : Prop :=
  forall k req, classify (axios_post h k req) <> None.

(** The state with the HTTP counter advanced by the three attempts. *)
Definition afterThreePosts (s : Sys) : Sys := afterPost (afterPost (afterPost s)).

End Reference.

(** A concrete host for the examples: UTC, an engine whose Date parser
    accepts nothing, a workbook with one sheet, and a gateway that rejects
    the first two requests and accepts the third. *)
Module Demo.
Import JS Runtime.

Definition cfg : Configuration :=
  {| excelFilePath := "./data/associates.xlsx";
     recipientMobileNumber := "+1234567890";
     smsApiUrl := "https://api.example.com/sms";
     smsApiKey := "test-api-key";
     smsSenderId := "BirthdayBot" |}.

Definition rows : list Row :=
  [ Some [VString "Name"; VString "Date of Birth"];
    Some [VString "John Doe"; VString "02/29/2000"];
    Some [];
    Some [VUndefined; VString "01/15/1990"];
    Some [VString "Jane Smith"; VString "13/01/1985"] ].

Definition okData : ResponseData :=
  {| data_messageId := Some "msg-1"%string; data_id := None; data_status := None;
     data_message := None; data_error := None |}.

Definition errData : ResponseData :=
  {| data_messageId := None; data_id := None; data_status := None;
     data_message := Some "Invalid API key"%string; data_error := None |}.

(** 29 February 2024, 09:00 UTC. *)
Definition today : Z := MakeDate (MakeDay 2024 1 29) (MakeTime 9 0 0 0).

Definition hostOf (sheet : list Row) (gateway : nat -> AxiosOutcome) : Host :=
  {| tz := utcZone;
     dateParse := fun _ => invalidDate;
     clock := fun _ => today;
     environment := cfg;
     validationErrors := [];
     path_resolve := fun p => p;
     path_extname := fun _ => ".xlsx"%string;
     fs_existsSync := fun _ => true;
     xlsx_readFile := fun _ =>
       Returned {| SheetNames := ["Sheet1"%string]; sheet_to_json := fun _ => sheet |};
     axios_post := fun k _ => gateway k |}.

Definition host (gateway : nat -> AxiosOutcome) : Host := hostOf rows gateway.

(** The same host when the environment lacks the API key. *)
Definition invalidHost : Host :=
  {| tz := utcZone;
     dateParse := fun _ => invalidDate;
     clock := fun _ => today;
     environment := {| excelFilePath := excelFilePath cfg;
                       recipientMobileNumber := recipientMobileNumber cfg;
                       smsApiUrl := smsApiUrl cfg;
                       smsApiKey := EmptyString;
                       smsSenderId := smsSenderId cfg |};
     validationErrors := ["SMS API key is required (SMS_API_KEY)"%string];
     path_resolve := fun p => p;
     path_extname := fun _ => ".xlsx"%string;
     fs_existsSync := fun _ => true;
     xlsx_readFile := fun _ => Raised "unreachable";
     axios_post := fun _ _ => RejectedNoResponse |}.

Definition failTwice (k : nat) : AxiosOutcome :=
  match k with
  | O => RejectedWithResponse 401 (Some errData)
  | S O => RejectedNoResponse
  | _ => Resolved 200 (Some okData)
  end.

Definition alwaysDown (k : nat) : AxiosOutcome := RejectedNoResponse.

Definition sms : SMSServiceObj :=
  {| apiUrl := smsApiUrl cfg; apiKey := smsApiKey cfg;
     senderId := smsSenderId cfg; recipientNumber := recipientMobileNumber cfg |}.

Definition emptyFrame : Locals :=
  {| errors := []; associates := []; birthdaysFound := []; notificationSent := false |}.

(** The state of a process that has just built its service. *)
Definition start (hasLogger : bool) : Sys :=
  {| service := BirthdayCheckService.new hasLogger; frame := emptyFrame;
     posts := 0; clockReads := 0 |}.

Definition born (who : string) (y m d : Z) (row : Z) : Element :=
  Some (mkAssociate who (VDate (newDate utcZone (Some y) (Some m) (Some d))) row).

End Demo.

(* ================================================================== *)
(** ** Regular expressions tested between [^] and [$] *)
(* ================================================================== *)

Module Regex.
Import JS.

(** The constructs of the patterns that [RegExp.prototype.test] is applied
    to in Configuration.js and Scheduler.js. *)
Inductive Re : Type :=
| Chr (c : ascii)               (* the character itself *)
| Range (lo hi : ascii)         (* [lo-hi]; \d is [0-9] *)
| Seq (a b : Re)
| Alt (a b : Re)                (* a|b *)
| Opt (a : Re)                  (* a? *)
| Rep (lo hi : nat) (a : Re).   (* a{lo,hi} *)

Definition in_range (lo hi c : ascii) : bool :=
  Nat.leb (nat_of_ascii lo) (nat_of_ascii c) && Nat.leb (nat_of_ascii c) (nat_of_ascii hi).

(** [matchK r s k]: a prefix of [s] matches [r] and what follows it
    satisfies [k]; every way of matching is tried, as the backtracking of
    the engine does. *)
Fixpoint matchK (r : Re) (s : string) (k : string -> bool) {struct r} : bool :=
  match r with
  | Chr c =>
      match s with
      | String x s' => Ascii.eqb x c && k s'
      | EmptyString => false
      end
  | Range lo hi =>
      match s with
      | String x s' => in_range lo hi x && k s'
      | EmptyString => false
      end
  | Seq a b => matchK a s (fun s' => matchK b s' k)
  | Alt a b => matchK a s k || matchK b s k
  | Opt a => matchK a s k || k s
  | Rep lo hi a =>
      (fix rep (lo hi : nat) (s : string) {struct hi} : bool :=
         match hi with
         | O => Nat.eqb lo 0 && k s
         | S hi' => matchK a s (rep (Nat.pred lo) hi') || (Nat.eqb lo 0 && k s)
         end) lo hi s
  end.

(** [/^r$/.test(s)] *)
Definition test (r : Re) (s : string) : bool := matchK r s is_empty.

(** The class [\s] on code units below 256: TAB, LF, VT, FF, CR, SPACE and
    the no-break space U+00A0. *)
Definition white (c : ascii) : bool := is_space c || Nat.eqb (nat_of_ascii c) 160.

End Regex.

(* ================================================================== *)
(** ** models/Configuration.js *)
(* ================================================================== *)

Module Configuration.
Import JS Runtime.

Record ConfigurationObj : Type := {
  excelFilePath : string;
  recipientMobileNumber : string;
  smsApiUrl : string;
  smsApiKey : string;
  smsSenderId : string;
  scheduledTime : string;
  logLevel : string;
  logFilePath : string
}.

(** [process.env]: an unset variable is [None]. *)
Definition Env : Type := string -> option string.

(** [new Configuration()] *)
Definition new : ConfigurationObj :=
  {| excelFilePath := ""; recipientMobileNumber := ""; smsApiUrl := ""; smsApiKey := "";
     smsSenderId := ""; scheduledTime := ""; logLevel := "INFO";
     logFilePath := "./logs/birthday-system.log" |}.

(** [loadFromEnvironment()]; it assigns every field, so the result does not
    depend on the instance it is called on. *)
Definition loadFromEnvironment (env : Env) (this : ConfigurationObj) : ConfigurationObj :=
  {| excelFilePath := SMSService.or_else (env "EXCEL_FILE_PATH"%string) "";
     recipientMobileNumber := SMSService.or_else (env "RECIPIENT_MOBILE_NUMBER"%string) "";
     smsApiUrl := SMSService.or_else (env "SMS_API_URL"%string) "";
     smsApiKey := SMSService.or_else (env "SMS_API_KEY"%string) "";
     smsSenderId := SMSService.or_else (env "SMS_SENDER_ID"%string) "";
     scheduledTime := SMSService.or_else (env "SCHEDULED_TIME"%string) "09:00";
     logLevel := SMSService.or_else (env "LOG_LEVEL"%string) "INFO";
     logFilePath := SMSService.or_else (env "LOG_FILE_PATH"%string) "./logs/birthday-system.log" |}.

(** [mobileNumber.replace(/[\s-]/g, '')] *)
Fixpoint removeSeparators (s : string) : string :=
  match s with
  | EmptyString => EmptyString
  | String c r =>
      if Regex.white c || Ascii.eqb c "-" then removeSeparators r
      else String c (removeSeparators r)
  end.

(** [/^\+\d{10,15}$/] *)
Definition mobileRegex : Regex.Re :=
  Regex.Seq (Regex.Chr "+") (Regex.Rep 10 15 (Regex.Range "0" "9")).

(** [validateMobileNumber(mobileNumber)] *)
Definition validateMobileNumber (mobileNumber : Value) : bool :=
  match mobileNumber with
  | VString s =>
      if is_empty s then false
      else
        let cleaned := removeSeparators s in
        Regex.test mobileRegex cleaned
  | _ => false
  end.

(** [validateFilePath(filePath)]; neither [path.resolve] on a string nor
    [fs.existsSync] throws, so the catch block is never entered. *)
Definition validateFilePath (h : Host) (filePath : Value) : bool :=
  match filePath with
  | VString s =>
      if is_empty s then false
      else
        let resolvedPath := path_resolve h s in
        fs_existsSync h resolvedPath
  | _ => false
  end.

(** [/^([0-1]?[0-9]|2[0-3]):[0-5][0-9]$/] *)
Definition timeRegex : Regex.Re :=
  Regex.Seq
    (Regex.Alt (Regex.Seq (Regex.Opt (Regex.Range "0" "1")) (Regex.Range "0" "9"))
               (Regex.Seq (Regex.Chr "2") (Regex.Range "0" "3")))
    (Regex.Seq (Regex.Chr ":") (Regex.Seq (Regex.Range "0" "5") (Regex.Range "0" "9"))).

(** [validateScheduledTime(time)] *)
Definition validateScheduledTime (time : Value) : bool :=
  match time with
  | VString s => if is_empty s then false else Regex.test timeRegex s
  | _ => false
  end.

Record ValidationResult : Type := { isValid : bool; errors : list string }.

(** [validate()] *)
Definition validate (h : Host) (this : ConfigurationObj) : ValidationResult :=
  let errors :=
    ((if is_empty (excelFilePath this)
      then ["Excel file path is required (EXCEL_FILE_PATH)"%string]
      else if negb (validateFilePath h (VString (excelFilePath this)))
      then ["Excel file not found at path: " ^^ excelFilePath this]
      else [])
     ++
     (if is_empty (recipientMobileNumber this)
      then ["Recipient mobile number is required (RECIPIENT_MOBILE_NUMBER)"%string]
      else if negb (validateMobileNumber (VString (recipientMobileNumber this)))
      then ["Recipient mobile number format is invalid. Expected format: +[country code][number] (e.g., +1234567890)"%string]
      else [])
     ++
     (if is_empty (smsApiUrl this) then ["SMS API URL is required (SMS_API_URL)"%string] else [])
     ++
     (if is_empty (smsApiKey this) then ["SMS API key is required (SMS_API_KEY)"%string] else [])
     ++
     (if is_empty (smsSenderId this) then ["SMS sender ID is required (SMS_SENDER_ID)"%string] else [])
     ++
     (if negb (validateScheduledTime (VString (scheduledTime this)))
      then ["Scheduled time format is invalid. Expected format: HH:MM (e.g., 09:00)"%string]
      else []))%list in
  {| isValid := Nat.eqb (List.length errors) 0; errors := errors |}.

(** [maskApiKey(apiKey)] *)
Definition maskApiKey (apiKey : string) : string :=
  if is_empty apiKey || Nat.ltb (String.length apiKey) 4 then "****"
  else substring 0 4 apiKey ^^ "****".

(** [toSafeObject()] *)
Definition toSafeObject (this : ConfigurationObj) : ConfigurationObj :=
  {| excelFilePath := excelFilePath this;
     recipientMobileNumber :=
       BirthdayCheckService.maskMobileNumber (recipientMobileNumber this);
     smsApiUrl := smsApiUrl this;
     smsApiKey := maskApiKey (smsApiKey this);
     smsSenderId := smsSenderId this;
     scheduledTime := scheduledTime this;
     logLevel := logLevel this;
     logFilePath := logFilePath this |}.

(** The fields the services read from a configuration. *)
Definition fieldsRead (this : ConfigurationObj) : Runtime.Configuration :=
  {| Runtime.excelFilePath := excelFilePath this;
     Runtime.recipientMobileNumber := recipientMobileNumber this;
     Runtime.smsApiUrl := smsApiUrl this;
     Runtime.smsApiKey := smsApiKey this;
     Runtime.smsSenderId := smsSenderId this |}.

End Configuration.

(* ================================================================== *)
(** ** services/ConfigurationManager.js *)
(* ================================================================== *)

Module ConfigurationManager.
Import JS Runtime.

Record ConfigurationManagerObj : Type := {
  config : option Configuration.ConfigurationObj
}.

(** [new ConfigurationManager()] *)
Definition new : ConfigurationManagerObj := {| config := None |}.

(** [load()]: the completion and the instance afterwards. *)
Definition load (h : Host) (env : Configuration.Env) (this : ConfigurationManagerObj)
  : Settled Configuration.ConfigurationObj * ConfigurationManagerObj :=
  let loaded := Configuration.loadFromEnvironment env Configuration.new in
  let this := {| config := Some loaded |} in
  let validationResult := Configuration.validate h loaded in
  if negb (Configuration.isValid validationResult) then
    let errorMessage :=
      "Configuration validation failed:" ^^ nl ^^
      SMSService.join nl (map (fun err => "  - " ^^ err) (Configuration.errors validationResult)) in
    (Raised errorMessage, this)
  else (Returned loaded, this).

(** [getConfig()] *)
Definition getConfig (this : ConfigurationManagerObj) : Settled Configuration.ConfigurationObj :=
  match config this with
  | None => Raised "Configuration has not been loaded. Call load() first."
  | Some c => Returned c
  end.

(** [reload()] *)
Definition reload (h : Host) (env : Configuration.Env) (this : ConfigurationManagerObj)
  : Settled Configuration.ConfigurationObj * ConfigurationManagerObj :=
  load h env this.

End ConfigurationManager.

(* ================================================================== *)
(** ** models/Associate.js *)
(* ================================================================== *)

Module AssociateMethods.
Import JS Runtime.

(** [value.getMonth()] and [value.getDate()] on any value: a TypeError
    unless the value is a Date. *)
Definition callGetter (getter : TimeZone -> Date -> option Z) (object method : string)
           (h : Host) (v : Value) : Settled (option Z) :=
  match v with
  | VDate d => Returned (getter (tz h) d)
  | VUndefined => Raised ("Cannot read properties of undefined (reading '" ^^ method ^^ "')")
  | VNull => Raised ("Cannot read properties of null (reading '" ^^ method ^^ "')")
  | _ => Raised (object ^^ "." ^^ method ^^ " is not a function")
  end.

(** [isBirthdayOnDate(date)] *)
Definition isBirthdayOnDate (h : Host) (this : Associate) (date : Value) : Settled bool :=
  match callGetter getMonth "this.dateOfBirth" "getMonth" h (dateOfBirth this) with
  | Raised m => Raised m
  | Returned birthMonth =>
      match callGetter getMonth "date" "getMonth" h date with
      | Raised m => Raised m
      | Returned month =>
          if strict_eq birthMonth month then
            match callGetter getDate "this.dateOfBirth" "getDate" h (dateOfBirth this) with
            | Raised m => Raised m
            | Returned birthDay =>
                match callGetter getDate "date" "getDate" h date with
                | Raised m => Raised m
                | Returned day => Returned (strict_eq birthDay day)
                end
            end
          else Returned false
      end
  end.

(** [isBirthdayToday()] *)
Definition isBirthdayToday (h : Host) (this : Associate) : M bool :=
  today <- now h ;;
  liftS (isBirthdayOnDate h this (VDate today)).

End AssociateMethods.

(* ================================================================== *)
(** ** services/Scheduler.js *)
(* ================================================================== *)

Declare Scope sched_scope.
Delimit Scope sched_scope with sched.

Module Scheduler.
Import JS Runtime.

(** A task of node-cron, as [cron.schedule] registers it. *)
Record CronTask : Type := {
  expression : string;
  timezone : string;
  running : bool
}.

(** What the scheduler reads from node-cron and from the engine. *)
Record Platform : Type := {
  (** the message of the error [cron.schedule] throws for an expression it
      rejects *)
  cron_rejects : string -> option string;
  (** [Intl.DateTimeFormat().resolvedOptions().timeZone] *)
  timeZone : string;
  (** [error.stack] of an error with the given message *)
  stack : string -> string
}.

(** The fields of a Scheduler instance.  [birthdayCheckService = false] is
    null; the instance it otherwise refers to is [service] of [Sys].
    [cronJob] is the position of the task in the registry of node-cron. *)
Record SchedulerObj : Type := {
  scheduledTime : string;
  logger : bool;
  birthdayCheckService : bool;
  cronJob : option nat;
  isRunning : bool
}.

Record World : Type := {
  this : SchedulerObj;
  registry : list CronTask;
  sys : Sys
}.

(** State, exceptions and the event log, over a [World]. *)
Definition MW (A : Type) : Type := World -> Completion A * World * list Event.

Definition retW {A} (a : A) : MW A := fun w => (Normal a, w, []).

Definition bindW {A B} (m : MW A) (f : A -> MW B) : MW B :=
  fun w =>
    match m w with
    | (Normal a, w1, e1) =>
        match f a w1 with
        | (c, w2, e2) => (c, w2, (e1 ++ e2)%list)
        end
    | (Throw msg, w1, e1) => (Throw msg, w1, e1)
    | (OutOfFuel, w1, e1) => (OutOfFuel, w1, e1)
    end.

Definition throwW {A} (msg : string) : MW A := fun w => (Throw msg, w, []).

Definition try_catchW {A} (m : MW A) (handler : string -> MW A) : MW A :=
  fun w =>
    match m w with
    | (Throw msg, w1, e1) =>
        match handler msg w1 with
        | (c, w2, e2) => (c, w2, (e1 ++ e2)%list)
        end
    | other => other
    end.

(** A call into the services, which see [sys] only. *)
Definition liftM {A} (m : M A) : MW A :=
  fun w =>
    match m (sys w) with
    | (c, s, e) => (c, {| this := this w; registry := registry w; sys := s |}, e)
    end.

Definition getThis : MW SchedulerObj := fun w => (Normal (this w), w, []).

Definition setThis (f : SchedulerObj -> SchedulerObj) : MW unit :=
  fun w => (Normal tt, {| this := f (this w); registry := registry w; sys := sys w |}, []).

Notation "x <- m ;; k" := (bindW m (fun x => k))
  (at level 61, m at next level, right associativity) : sched_scope.
Notation "m ;; k" := (bindW m (fun _ => k))
  (at level 61, right associativity) : sched_scope.
Local Open Scope sched_scope.

(** [new Scheduler(options)]: [scheduledTime = None] is an option that is
    absent. *)
Definition new (scheduledTime : option string) (logger : bool) : SchedulerObj :=
  {| scheduledTime := SMSService.or_else scheduledTime "09:00";
     logger := logger;
     birthdayCheckService := false;
     cronJob := None;
     isRunning := false |}.

(** [this.log(level, message)] *)
Definition log (level message : string) : MW unit :=
  self <- getThis ;;
  liftM (Runtime.log (logger self) level message).

(** [/^([0-1][0-9]|2[0-3]):([0-5][0-9])$/] *)
Definition timeRegex : Regex.Re :=
  Regex.Seq
    (Regex.Alt (Regex.Seq (Regex.Range "0" "1") (Regex.Range "0" "9"))
               (Regex.Seq (Regex.Chr "2") (Regex.Range "0" "3")))
    (Regex.Seq (Regex.Chr ":") (Regex.Seq (Regex.Range "0" "5") (Regex.Range "0" "9"))).

(** [validateTimeFormat(time)] *)
Definition validateTimeFormat (time : string) : bool := Regex.test timeRegex time.

(** [s.split(sep)] for a separator of one character: the pieces between
    the separators, at least one. *)
Fixpoint split (sep : ascii) (s : string) : list string :=
  match s with
  | EmptyString => [EmptyString]
  | String c r =>
      if Ascii.eqb c sep then EmptyString :: split sep r
      else
        match split sep r with
        | piece :: pieces => String c piece :: pieces
        | [] => [String c EmptyString]
        end
  end.

(** An array element inside a template literal: a missing one reads
    "undefined". *)
Definition element (l : list string) (i : nat) : string := nth i l "undefined"%string.

(** [timeToCronExpression(time)] *)
Definition timeToCronExpression (time : string) : string :=
  let parts := split ":" time in
  let hours := element parts 0 in
  let minutes := element parts 1 in
  minutes ^^ " " ^^ hours ^^ " * * *".

(** [this.birthdayCheckService = new BirthdayCheckService(this.logger)] *)
Definition createService : MW unit :=
  fun w =>
    (Normal tt,
     {| this := {| scheduledTime := scheduledTime (this w);
                   logger := logger (this w);
                   birthdayCheckService := true;
                   cronJob := cronJob (this w);
                   isRunning := isRunning (this w) |};
        registry := registry w;
        sys := {| service := BirthdayCheckService.new (logger (this w));
                  frame := frame (sys w);
                  posts := posts (sys w);
                  clockReads := clockReads (sys w) |} |},
     []).

(** [initialize()] *)
Definition initialize (h : Host) : MW unit :=
  try_catchW
    (log "INFO" "Initializing Scheduler..." ;;
     self <- getThis ;;
     (if negb (validateTimeFormat (scheduledTime self)) then
        throwW ("Invalid scheduled time format: " ^^ scheduledTime self
                ^^ ". Expected HH:MM format (24-hour).")
      else retW tt) ;;
     log "INFO" ("Scheduled time validated: " ^^ scheduledTime self) ;;
     createService ;;
     liftM (BirthdayCheckService.initialize h) ;;
     log "INFO" "Scheduler initialized successfully")
    (fun message =>
       log "ERROR" ("Scheduler initialization failed: " ^^ message) ;;
       throwW message).

(** [this.birthdayCheckService.performDailyCheck()] *)
Definition callPerformDailyCheck (h : Host) : MW BirthdayCheckService.CheckResult :=
  self <- getThis ;;
  if birthdayCheckService self then liftM (BirthdayCheckService.performDailyCheck h)
  else throwW "Cannot read properties of null (reading 'performDailyCheck')".

(** [executeTask()] *)
Definition executeTask (p : Platform) (h : Host) : MW unit :=
  try_catchW
    (today <- liftM (now h) ;;
     (match toISOString today with
      | Some iso => log "INFO" ("Scheduled task triggered at " ^^ iso)
      | None => throwW "Invalid time value"
      end) ;;
     result <- callPerformDailyCheck h ;;
     if 0 <? BirthdayCheckService.len (BirthdayCheckService.res_errors result) then
       log "WARN" ("Scheduled task completed with "
                   ^^ show_Z (BirthdayCheckService.len (BirthdayCheckService.res_errors result))
                   ^^ " error(s)")
     else
       log "INFO" "Scheduled task completed successfully")
    (fun message =>
       log "ERROR" ("Scheduled task execution failed: " ^^ message) ;;
       log "ERROR" ("Stack trace: " ^^ stack p message)).

(** [cron.schedule(expression, callback, { scheduled: true, timezone })]:
    the new task is appended to the registry and its position returned. *)
Definition cron_schedule (p : Platform) (expression timezone : string) : MW nat :=
  fun w =>
    match cron_rejects p expression with
    | Some message => (Throw message, w, [])
    | None =>
        (Normal (List.length (registry w)),
         {| this := this w;
            registry := (registry w ++ [{| expression := expression; timezone := timezone;
                                           running := true |}])%list;
            sys := sys w |},
         [])
    end.

(** The registry once the task at position [job] is stopped. *)
Fixpoint stopped (job : nat) (tasks : list CronTask) : list CronTask :=
  match tasks, job with
  | [], _ => []
  | t :: rest, O =>
      {| expression := expression t; timezone := timezone t; running := false |} :: rest
  | t :: rest, S job' => t :: stopped job' rest
  end.

(** [this.cronJob.stop()] *)
Definition cron_stop (job : nat) : MW unit :=
  fun w =>
    (Normal tt, {| this := this w; registry := stopped job (registry w); sys := sys w |}, []).

(** [start()], once the service is there: the check of [isRunning] and what
    follows it. *)
Definition startJob (p : Platform) : MW unit :=
  self <- getThis ;;
  if isRunning self then
    log "WARN" "Scheduler is already running"
  else
    let cronExpression := timeToCronExpression (scheduledTime self) in
    log "INFO" ("Starting scheduler with cron expression: " ^^ cronExpression) ;;
    log "INFO" ("Daily birthday checks will run at " ^^ scheduledTime self) ;;
    job <- cron_schedule p cronExpression (timeZone p) ;;
    setThis (fun self =>
      {| scheduledTime := scheduledTime self; logger := logger self;
         birthdayCheckService := birthdayCheckService self;
         cronJob := Some job; isRunning := isRunning self |}) ;;
    setThis (fun self =>
      {| scheduledTime := scheduledTime self; logger := logger self;
         birthdayCheckService := birthdayCheckService self;
         cronJob := cronJob self; isRunning := true |}) ;;
    log "INFO" "Scheduler started successfully" ;;
    log "INFO" ("Timezone: " ^^ timeZone p).

(** [start()] *)
Definition start (p : Platform) (h : Host) : MW unit :=
  try_catchW
    (self <- getThis ;;
     (if negb (birthdayCheckService self) then initialize h else retW tt) ;;
     startJob p)
    (fun message =>
       log "ERROR" ("Failed to start scheduler: " ^^ message) ;;
       throwW message).

(** [stop()] *)
Definition stop : MW unit :=
  try_catchW
    (self <- getThis ;;
     if negb (isRunning self) then
       log "WARN" "Scheduler is not running"
     else
       (match cronJob self with
        | Some job =>
            cron_stop job ;;
            setThis (fun self =>
              {| scheduledTime := scheduledTime self; logger := logger self;
                 birthdayCheckService := birthdayCheckService self;
                 cronJob := None; isRunning := isRunning self |})
        | None => retW tt
        end) ;;
       setThis (fun self =>
         {| scheduledTime := scheduledTime self; logger := logger self;
            birthdayCheckService := birthdayCheckService self;
            cronJob := cronJob self; isRunning := false |}) ;;
       log "INFO" "Scheduler stopped successfully")
    (fun message =>
       log "ERROR" ("Failed to stop scheduler: " ^^ message) ;;
       throwW message).

(** [isSchedulerRunning()] *)
Definition isSchedulerRunning (self : SchedulerObj) : bool := isRunning self.

(** [runNow()] *)
Definition runNow (h : Host) : MW BirthdayCheckService.CheckResult :=
  try_catchW
    (self <- getThis ;;
     (if negb (birthdayCheckService self) then initialize h else retW tt) ;;
     log "INFO" "Manual birthday check triggered" ;;
     result <- callPerformDailyCheck h ;;
     retW result)
    (fun message =>
       log "ERROR" ("Manual birthday check failed: " ^^ message) ;;
       throwW message).

End Scheduler.

(* ================================================================== *)
(** ** index.js *)
(* ================================================================== *)

Declare Scope app_scope.
Delimit Scope app_scope with app.

Module Index.
Import JS Runtime.

(** The state of the process: the module variable [scheduler] ([None] is
    null), the tasks of node-cron, and the services. *)
Record App : Type := {
  scheduler : option Scheduler.SchedulerObj;
  registry : list Scheduler.CronTask;
  sys : Sys
}.

(** State, exceptions and the event log, over an [App]. *)
Definition MP (A : Type) : Type := App -> Completion A * App * list Event.

Definition retP {A} (a : A) : MP A := fun app => (Normal a, app, []).

Definition bindP {A B} (m : MP A) (f : A -> MP B) : MP B :=
  fun app =>
    match m app with
    | (Normal a, app1, e1) =>
        match f a app1 with
        | (c, app2, e2) => (c, app2, (e1 ++ e2)%list)
        end
    | (Throw msg, app1, e1) => (Throw msg, app1, e1)
    | (OutOfFuel, app1, e1) => (OutOfFuel, app1, e1)
    end.

Definition try_catchP {A} (m : MP A) (handler : string -> MP A) : MP A :=
  fun app =>
    match m app with
    | (Throw msg, app1, e1) =>
        match handler msg app1 with
        | (c, app2, e2) => (c, app2, (e1 ++ e2)%list)
        end
    | other => other
    end.

Definition getApp : MP App := fun app => (Normal app, app, []).

Notation "x <- m ;; k" := (bindP m (fun x => k))
  (at level 61, m at next level, right associativity) : app_scope.
Notation "m ;; k" := (bindP m (fun _ => k))
  (at level 61, right associativity) : app_scope.
Local Open Scope app_scope.

(** [logger.info(message)] and [logger.error(message)], on the logger of
    the module. *)
Definition info (message : string) : MP unit :=
  fun app => (Normal tt, app, [EvLog "INFO" message]).

Definition error (message : string) : MP unit :=
  fun app => (Normal tt, app, [EvLog "ERROR" message]).

Definition rule : string := "========================================".

(** [scheduler = new Scheduler({ scheduledTime, logger })] *)
Definition newScheduler (scheduledTime : string) : MP unit :=
  fun app =>
    (Normal tt,
     {| scheduler := Some (Scheduler.new (Some scheduledTime) true);
        registry := registry app; sys := sys app |},
     []).

(** [scheduler.method()], for a method [m] of the Scheduler. *)
Definition call {A} (method : string) (m : Scheduler.MW A) : MP A :=
  fun app =>
    match scheduler app with
    | None => (Throw ("Cannot read properties of null (reading '" ^^ method ^^ "')"), app, [])
    | Some self =>
        match m {| Scheduler.this := self; Scheduler.registry := registry app;
                   Scheduler.sys := sys app |} with
        | (c, w, e) =>
            (c,
             {| scheduler := Some (Scheduler.this w); registry := Scheduler.registry w;
                sys := Scheduler.sys w |},
             e)
        end
    end.

(** [startApplication()]; the result is the code of [process.exit], [None]
    when the function returns without leaving the process. *)
Definition startApplication (p : Scheduler.Platform) (h : Host) (env : Configuration.Env)
  : MP (option Z) :=
  try_catchP
    (info rule ;;
     info "Birthday Notification System Starting..." ;;
     info rule ;;
     let scheduledTime := SMSService.or_else (env "SCHEDULED_TIME"%string) "09:00" in
     info "Configuration loaded from environment" ;;
     info ("Scheduled time: " ^^ scheduledTime) ;;
     newScheduler scheduledTime ;;
     info "Initializing scheduler and validating configuration..." ;;
     call "initialize" (Scheduler.initialize h) ;;
     info "Starting scheduler..." ;;
     call "start" (Scheduler.start p h) ;;
     info rule ;;
     info "Birthday Notification System Started Successfully" ;;
     info ("Daily checks scheduled at " ^^ scheduledTime) ;;
     info "Press Ctrl+C to stop the application" ;;
     info rule ;;
     retP None)
    (fun message =>
       error rule ;;
       error "Failed to start Birthday Notification System" ;;
       error ("Error: " ^^ message) ;;
       error rule ;;
       retP (Some 1)).

(** [shutdown(signal)] *)
Definition shutdown (signal : string) : MP (option Z) :=
  info rule ;;
  info ("Received " ^^ signal ^^ " signal") ;;
  info "Shutting down Birthday Notification System..." ;;
  info rule ;;
  try_catchP
    (app <- getApp ;;
     (match scheduler app with
      | Some self =>
          if Scheduler.isSchedulerRunning self then
            info "Stopping scheduler..." ;;
            call "stop" Scheduler.stop ;;
            info "Scheduler stopped successfully"
          else retP tt
      | None => retP tt
      end) ;;
     info rule ;;
     info "Birthday Notification System Shutdown Complete" ;;
     info rule ;;
     retP (Some 0))
    (fun message =>
       error ("Error during shutdown: " ^^ message) ;;
       retP (Some 1)).

End Index.

(* ================================================================== *)
(** ** Notions used to state the properties of these services *)
(* ================================================================== *)

Module Notions.
Import JS Runtime Calendar Reference.

(** *** Configuration and Scheduler: the formats they accept *)

(** [hh] and [mm] are the two parts of a time of day: an hour from 0 to 23
    written with [hourDigits] to 2 digits, a minute from 0 to 59 written
    with 2 digits. *)
Definition clockText (hourDigits : nat) (hh mm : string) : Prop :=
  all_digits hh = true /\ (hourDigits <= String.length hh <= 2)%nat /\ valueOf hh <= 23
  /\ all_digits mm = true /\ String.length mm = 2%nat /\ valueOf mm <= 59.

(** *** Configuration and ConfigurationManager: secrets, validation, loading *)

(** The configuration with the two secrets replaced. *)
Definition withSecrets (this : Configuration.ConfigurationObj) (apiKey mobileNumber : string)
  : Configuration.ConfigurationObj :=
  {| Configuration.excelFilePath := Configuration.excelFilePath this;
     Configuration.recipientMobileNumber := mobileNumber;
     Configuration.smsApiUrl := Configuration.smsApiUrl this;
     Configuration.smsApiKey := apiKey;
     Configuration.smsSenderId := Configuration.smsSenderId this;
     Configuration.scheduledTime := Configuration.scheduledTime this;
     Configuration.logLevel := Configuration.logLevel this;
     Configuration.logFilePath := Configuration.logFilePath this |}.

(** The host fields that stand for the configuration are the ones the
    Configuration class computes from the environment [env]. *)
Definition readsEnvironment (h : Host) (env : Configuration.Env) : Prop :=
  let loaded := Configuration.loadFromEnvironment env Configuration.new in
  environment h = Configuration.fieldsRead loaded
  /\ validationErrors h = Configuration.errors (Configuration.validate h loaded).

(** The text [initialize] throws for the validation errors [errs]. *)
Definition validationFailure (errs : list string) : string :=
  "Configuration validation failed:" ^^ nl ^^
  SMSService.join nl (map (fun err => "  - " ^^ err) errs).

(** The service once its configuration is set to that of the host. *)
Definition configured (h : Host) (this : Service) : Service :=
  {| logger := logger this; config := Some (environment h);
     excelParser := excelParser this; dateMatcher := dateMatcher this;
     smsService := smsService this |}.

(** *** Scheduler: the life of the daily job *)

(** [wpW m w Q]: the run of the scheduler method [m] from the world [w]
    ends with a completion, a world and events that satisfy [Q]. *)
Definition wpW {A} (m : Scheduler.MW A) (w : Scheduler.World)
           (Q : Completion A -> Scheduler.World -> list Event -> Prop) : Prop :=
  Q (fst (fst (m w))) (snd (fst (m w))) (snd (m w)).

(** The world with another state of the services. *)
Definition withSys (w : Scheduler.World) (s : Sys) : Scheduler.World :=
  {| Scheduler.this := Scheduler.this w; Scheduler.registry := Scheduler.registry w;
     Scheduler.sys := s |}.

(** The number of tasks of the registry that are running. *)
Definition runningTasks (w : Scheduler.World) : nat :=
  List.length (filter Scheduler.running (Scheduler.registry w)).

(** The scheduler holds a job exactly when it says it is running, that job
    is running, and no other task of the registry is. *)
Definition oneJob (w : Scheduler.World) : Prop :=
  if Scheduler.isRunning (Scheduler.this w)
  then runningTasks w = 1%nat
       /\ exists job task,
            Scheduler.cronJob (Scheduler.this w) = Some job
            /\ nth_error (Scheduler.registry w) job = Some task
            /\ Scheduler.running task = true
  else runningTasks w = 0%nat /\ Scheduler.cronJob (Scheduler.this w) = None.

(** The methods of a Scheduler. *)
Inductive Call : Type :=
| CallInitialize
| CallExecuteTask
| CallStart
| CallStop
| CallRunNow.

(** One call: the world it leaves, whatever it returns or throws. *)
Definition perform (p : Scheduler.Platform) (h : Host) (c : Call) (w : Scheduler.World)
  : Scheduler.World :=
  match c with
  | CallInitialize => snd (fst (Scheduler.initialize h w))
  | CallExecuteTask => snd (fst (Scheduler.executeTask p h w))
  | CallStart => snd (fst (Scheduler.start p h w))
  | CallStop => snd (fst (Scheduler.stop w))
  | CallRunNow => snd (fst (Scheduler.runNow h w))
  end.

(** The world after the calls, made one after the other. *)
Definition performAll (p : Scheduler.Platform) (h : Host) (calls : list Call)
           (w : Scheduler.World) : Scheduler.World :=
  fold_left (fun w c => perform p h c w) calls w.

(** The world in which a scheduler has just been constructed and node-cron
    has no task. *)
Definition constructed (scheduledTime : option string) (logger : bool) (s : Sys)
  : Scheduler.World :=
  {| Scheduler.this := Scheduler.new scheduledTime logger;
     Scheduler.registry := [];
     Scheduler.sys := s |}.

(** What the methods other than [start] and [stop] leave alone. *)
Definition sameJob (w w' : Scheduler.World) : Prop :=
  Scheduler.registry w' = Scheduler.registry w
  /\ Scheduler.cronJob (Scheduler.this w') = Scheduler.cronJob (Scheduler.this w)
  /\ Scheduler.isRunning (Scheduler.this w') = Scheduler.isRunning (Scheduler.this w)
  /\ Scheduler.scheduledTime (Scheduler.this w') = Scheduler.scheduledTime (Scheduler.this w)
  /\ Scheduler.logger (Scheduler.this w') = Scheduler.logger (Scheduler.this w).

(** The task [start] registers for the scheduled time [time]. *)
Definition dailyTask (p : Scheduler.Platform) (time : string) : Scheduler.CronTask :=
  {| Scheduler.expression := Scheduler.timeToCronExpression time;
     Scheduler.timezone := Scheduler.timeZone p;
     Scheduler.running := true |}.

(** The scheduler once it holds the job at position [job]. *)
Definition started (self : Scheduler.SchedulerObj) (job : nat) : Scheduler.SchedulerObj :=
  {| Scheduler.scheduledTime := Scheduler.scheduledTime self;
     Scheduler.logger := Scheduler.logger self;
     Scheduler.birthdayCheckService := Scheduler.birthdayCheckService self;
     Scheduler.cronJob := Some job;
     Scheduler.isRunning := true |}.

(** The scheduler once it holds no job. *)
Definition halted (self : Scheduler.SchedulerObj) : Scheduler.SchedulerObj :=
  {| Scheduler.scheduledTime := Scheduler.scheduledTime self;
     Scheduler.logger := Scheduler.logger self;
     Scheduler.birthdayCheckService := Scheduler.birthdayCheckService self;
     Scheduler.cronJob := None;
     Scheduler.isRunning := false |}.

(** The state [w] with one more task, held by the scheduler. *)
Definition afterStart (p : Scheduler.Platform) (w : Scheduler.World) : Scheduler.World :=
  {| Scheduler.this := started (Scheduler.this w) (List.length (Scheduler.registry w));
     Scheduler.registry :=
       (Scheduler.registry w
        ++ [dailyTask p (Scheduler.scheduledTime (Scheduler.this w))])%list;
     Scheduler.sys := Scheduler.sys w |}.

(** The world once the job the scheduler holds is stopped and dropped. *)
Definition afterStop (w : Scheduler.World) : Scheduler.World :=
  {| Scheduler.this := halted (Scheduler.this w);
     Scheduler.registry :=
       match Scheduler.cronJob (Scheduler.this w) with
       | Some job => Scheduler.stopped job (Scheduler.registry w)
       | None => Scheduler.registry w
       end;
     Scheduler.sys := Scheduler.sys w |}.

(** The text [Scheduler.initialize] throws for a scheduled time it rejects. *)
Definition invalidTime (time : string) : string :=
  "Invalid scheduled time format: " ^^ time ^^ ". Expected HH:MM format (24-hour).".

(** The scheduler once it has built its service. *)
Definition withService (self : Scheduler.SchedulerObj) : Scheduler.SchedulerObj :=
  {| Scheduler.scheduledTime := Scheduler.scheduledTime self;
     Scheduler.logger := Scheduler.logger self;
     Scheduler.birthdayCheckService := true;
     Scheduler.cronJob := Scheduler.cronJob self;
     Scheduler.isRunning := Scheduler.isRunning self |}.

(** The world after [Scheduler.initialize] has built the service and the
    service has stored a configuration that fails validation. *)
Definition afterFailedInitialize (h : Host) (w : Scheduler.World) : Scheduler.World :=
  {| Scheduler.this := withService (Scheduler.this w);
     Scheduler.registry := Scheduler.registry w;
     Scheduler.sys :=
       {| service := configured h (BirthdayCheckService.new (Scheduler.logger (Scheduler.this w)));
          frame := frame (Scheduler.sys w);
          posts := posts (Scheduler.sys w);
          clockReads := clockReads (Scheduler.sys w) |} |}.

(** *** ExcelParser: dates, failures and the rows read *)

(** The text [y-m-d]. *)
Definition yearFirstText (y m d : string) : string :=
  y ^^ String "-" (m ^^ String "-" d).

(** The texts the catch block of [parseFile] throws again as they are. *)
Definition ownMessage (message : string) : bool :=
  includes message "Excel file not found"
  || includes message "Invalid file format"
  || includes message "no worksheets".

(** The extension is one of the two that [parseFile] accepts. *)
Definition excelExtension (ext : string) : bool :=
  String.eqb ext ".xlsx" || String.eqb ext ".xls".

(** The state in which the loop of [parseFile] starts. *)
Definition noRows : ExcelParser.LoopState :=
  {| ExcelParser.parsed := []; ExcelParser.validRows := 0; ExcelParser.skippedRows := 0 |}.

(** The associates the loop of [parseFile] collects from the rows [data]. *)
Definition parsedRows (this : ExcelParserObj) (h : Host) (data : list Row) (s : Sys)
  : list Associate :=
  match result_of (ExcelParser.parseRows this h data 0 noRows s) with
  | Normal st => ExcelParser.parsed st
  | _ => []
  end.

(** What the loop of [parseFile] makes of one row: the associate, [None]
    for a row it rejects with a warning. *)
Definition reading (h : Host) (rowNumber : Z) (cells : list Value) : option Associate :=
  match ExcelParser.validName (ExcelParser.cell cells 0),
        ExcelParser.parseDate h (ExcelParser.cell cells 1) with
  | Some nm, Some d => Some (mkAssociate (trim nm) (VDate d) rowNumber)
  | _, _ => None
  end.

(** The associates read from the rows [data], the first of which has the
    number [first]. *)
Fixpoint readings (h : Host) (first : Z) (data : list Row) : list Associate :=
  match data with
  | [] => []
  | row :: rest =>
      match row with
      | Some cells =>
          if ExcelParser.isEmptyRow row then readings h (first + 1) rest
          else
            match reading h first cells with
            | Some a => a :: readings h (first + 1) rest
            | None => readings h (first + 1) rest
            end
      | None => readings h (first + 1) rest
      end
  end.

(** The number of rows rejected with a warning. *)
Fixpoint rejected (h : Host) (data : list Row) : Z :=
  match data with
  | [] => 0
  | row :: rest =>
      match row with
      | Some cells =>
          if ExcelParser.isEmptyRow row then rejected h rest
          else
            match reading h 0 cells with
            | Some _ => rejected h rest
            | None => 1 + rejected h rest
            end
      | None => rejected h rest
      end
  end.

(** Strictly increasing numbers. *)
Fixpoint increasing (l : list Z) : Prop :=
  match l with
  | [] => True
  | x :: rest => (forall y, In y rest -> x < y) /\ increasing rest
  end.

(** An associate as [parseFile] builds it from a sheet of [rows] rows: a
    name that is not empty and has no white space at either end, a valid
    Date, and the number of a row of the sheet. *)
Definition wellFormed (rows : nat) (a : Associate) : Prop :=
  name a <> EmptyString
  /\ trim (name a) = name a
  /\ (exists d, dateOfBirth a = VDate d /\ isInvalid d = false)
  /\ 1 <= rowNumber a <= Z.of_nat rows.

(** A warning of the logger. *)
Definition isWarning (e : Event) : bool :=
  match e with EvLog level _ => String.eqb level "WARN" | _ => false end.

(** *** SMSService: the message and the retry loop *)

(** The first line of every notification. *)
Definition heading : string := "Birthday Alert! Today's birthdays:".

(** The line of the message for one associate. *)
Definition nameLine (a : Associate) : string := "- " ^^ name a.

(** A name as [parseFile] leaves it: not empty, no white space at either
    end. *)
Definition trimmedName (a : Associate) : Prop :=
  name a <> EmptyString /\ trim (name a) = name a.

(** What the try block of [performDailyCheck] guarantees on the matched
    list: its elements are associates with trimmed names, and when it is not
    empty and the SMS service is there ([R]), the service is called exactly
    once and at least one request is made. *)
Definition oncePost (R : Prop) (s : Sys) (c : Completion BirthdayCheckService.CheckResult)
           (s1 : Sys) (e : list Event) : Prop :=
  match c with
  | Normal r =>
      exists found,
        BirthdayCheckService.res_birthdaysFound r = map Some found
        /\ Forall trimmedName found
        /\ (found <> [] -> R ->
            count (isInvoke SMSService.sendBirthdayNotification_name) e = 1%nat
            /\ (1 <= count isHttpPost e)%nat)
  | Throw _ => frame s1 = frame s
  | OutOfFuel => False
  end.

(** The events of a run of [sendWithRetry] that starts at [attempt] and
    makes [failures] failed sends, each followed by its delay, before its
    last send. *)
Fixpoint retryTrace (req : Request) (attempt failures : nat) : list Event :=
  match failures with
  | O => [EvHttpPost req]
  | S failures' =>
      EvHttpPost req :: EvDelay (Z.of_nat (2 ^ attempt) * 1000)
        :: retryTrace req (S attempt) failures'
  end.

(** The state after [n] more HTTP requests. *)
Fixpoint afterPosts (n : nat) (s : Sys) : Sys :=
  match n with
  | O => s
  | S n' => afterPosts n' (afterPost s)
  end.

(** *** BirthdayCheckService: the result of a run *)

(** A result whose fields agree with one another: at most one error; the
    notification is sent exactly when there is no error and somebody has a
    birthday; no more birthdays than associates, and each of them the
    record of an associate. *)
Definition coherent (r : BirthdayCheckService.CheckResult) : Prop :=
  (List.length (BirthdayCheckService.res_errors r) <= 1)%nat
  /\ (BirthdayCheckService.res_notificationSent r = true
      <-> BirthdayCheckService.res_errors r = []
          /\ BirthdayCheckService.res_birthdaysFound r <> [])
  /\ 0 <= BirthdayCheckService.len (BirthdayCheckService.res_birthdaysFound r)
     <= BirthdayCheckService.totalAssociatesChecked r
  /\ allPresent (BirthdayCheckService.res_birthdaysFound r).

(** The result built from the local variables of [performDailyCheck]. *)
Definition resultOf (f : Locals) : BirthdayCheckService.CheckResult :=
  {| BirthdayCheckService.totalAssociatesChecked := BirthdayCheckService.len (associates f);
     BirthdayCheckService.res_birthdaysFound := birthdaysFound f;
     BirthdayCheckService.res_notificationSent := notificationSent f;
     BirthdayCheckService.res_errors := errors f |}.

(** *** index.js: starting and stopping the application *)

(** The process before [startApplication]: no scheduler, no task. *)
Definition launched (s : Sys) : Index.App :=
  {| Index.scheduler := None; Index.registry := []; Index.sys := s |}.

(** The number of tasks of node-cron that are running. *)
Definition runningJobs (app : Index.App) : nat :=
  List.length (filter Scheduler.running (Index.registry app)).

(** The scheduled time, the configuration and node-cron all let the
    application start. *)
Definition startable (p : Scheduler.Platform) (h : Host) (env : Configuration.Env) : bool :=
  let loaded := Configuration.loadFromEnvironment env Configuration.new in
  Scheduler.validateTimeFormat (Configuration.scheduledTime loaded)
  && Configuration.isValid (Configuration.validate h loaded)
  && match Scheduler.cron_rejects p
             (Scheduler.timeToCronExpression (Configuration.scheduledTime loaded)) with
     | None => true
     | Some _ => false
     end.

(** The world of the scheduler of an application. *)
Definition worldOf (self : Scheduler.SchedulerObj) (app : Index.App) : Scheduler.World :=
  {| Scheduler.this := self; Scheduler.registry := Index.registry app;
     Scheduler.sys := Index.sys app |}.

(** The application that holds the scheduler of a world. *)
Definition appOf (w : Scheduler.World) : Index.App :=
  {| Index.scheduler := Some (Scheduler.this w); Index.registry := Scheduler.registry w;
     Index.sys := Scheduler.sys w |}.

(** [wpP m app Q]: the run of [m] from [app] ends with a completion, a
    state and events that satisfy [Q]. *)
Definition wpP {A} (m : Index.MP A) (app : Index.App)
           (Q : Completion A -> Index.App -> list Event -> Prop) : Prop :=
  Q (fst (fst (m app))) (snd (fst (m app))) (snd (m app)).

End Notions.

(** *** Concrete inputs *)

Module Samples.
Import JS Runtime Notions.

(** The environment variables behind the configuration of [Demo.host]. *)
Definition env : Configuration.Env :=
  fun name =>
    if String.eqb name "EXCEL_FILE_PATH" then Some "./data/associates.xlsx"%string
    else if String.eqb name "RECIPIENT_MOBILE_NUMBER" then Some "+1234567890"%string
    else if String.eqb name "SMS_API_URL" then Some "https://api.example.com/sms"%string
    else if String.eqb name "SMS_API_KEY" then Some "test-api-key"%string
    else if String.eqb name "SMS_SENDER_ID" then Some "BirthdayBot"%string
    else None.

(** A node-cron that accepts every expression, in the zone UTC. *)
Definition platform : Scheduler.Platform :=
  {| Scheduler.cron_rejects := fun _ => None;
     Scheduler.timeZone := "UTC";
     Scheduler.stack := fun message => "Error: " ^^ message |}.

(** [Demo.host] with a workbook that the library cannot read. *)
Definition unreadableHost : Host :=
  {| tz := utcZone;
     dateParse := fun _ => invalidDate;
     clock := fun _ => Demo.today;
     environment := Demo.cfg;
     validationErrors := [];
     path_resolve := fun p => p;
     path_extname := fun _ => ".xlsx"%string;
     fs_existsSync := fun _ => true;
     xlsx_readFile := fun _ => Raised "Unsupported file";
     axios_post := fun _ _ => RejectedNoResponse |}.

(** A scheduler for 09:00 that has built its service. *)
Definition ready : Scheduler.World :=
  {| Scheduler.this := withService (Scheduler.new (Some "09:00"%string) true);
     Scheduler.registry := [];
     Scheduler.sys := Demo.start true |}.

End Samples.

(* ================================================================== *)
(** ** Properties of the Date arithmetic *)
(* ================================================================== *)

Import JS Runtime Calendar.

Lemma DayFromYear_step (y : Z) : DayFromYear (y + 1) = DayFromYear y + DaysInYear y.
Proof.
  unfold DayFromYear, DaysInYear.
  destruct (Z.eqb_spec (y mod 4) 0); cbn [negb];
    [ destruct (Z.eqb_spec (y mod 100) 0); cbn [negb];
      [ destruct (Z.eqb_spec (y mod 400) 0); cbn [negb] | ] | ].
  all: Z.div_mod_to_equations; lia.
Qed.

Lemma DaysInYear_range (y : Z) : 365 <= DaysInYear y <= 366.
Proof.
  unfold DaysInYear.
  repeat match goal with |- context [negb ?b] => destruct b; cbn [negb] end; lia.
Qed.

Lemma DayFromYear_mono (y1 y2 : Z) : y1 <= y2 -> DayFromYear y1 <= DayFromYear y2.
Proof.
  intros Hle. unfold DayFromYear. Z.div_mod_to_equations. lia.
Qed.

(** [YearFromTime] meets its defining property in ECMA-262. *)
Lemma YearFromTime_spec (t : Z) :
  DayFromYear (YearFromTime t) <= Day t < DayFromYear (YearFromTime t + 1).
Proof.
  unfold YearFromTime. cbv zeta.
  set (d := Day t). clearbody d.
  destruct (Z.ltb_spec d (DayFromYear (1970 + 400 * d / 146097))).
  - replace (1970 + 400 * d / 146097 - 1 + 1) with (1970 + 400 * d / 146097) by lia.
    split; [ | lia ]. unfold DayFromYear in *. Z.div_mod_to_equations. lia.
  - destruct (Z.leb_spec (DayFromYear (1970 + 400 * d / 146097 + 1)) d).
    + split; [ lia | ]. unfold DayFromYear in *. Z.div_mod_to_equations. lia.
    + lia.
Qed.

Lemma YearFromTime_unique (t y : Z) :
  DayFromYear y <= Day t < DayFromYear (y + 1) -> YearFromTime t = y.
Proof.
  intros [Hlo Hhi].
  pose proof (YearFromTime_spec t) as [Slo Shi].
  destruct (Z.lt_trichotomy (YearFromTime t) y) as [Hlt | [Heq | Hgt]]; [ | exact Heq | ].
  - pose proof (DayFromYear_mono (YearFromTime t + 1) y ltac:(lia)). lia.
  - pose proof (DayFromYear_mono (y + 1) (YearFromTime t) ltac:(lia)). lia.
Qed.

Lemma Day_MakeDate (day : Z) : Day (MakeDate day (MakeTime 0 0 0 0)) = day.
Proof.
  unfold Day, MakeDate, MakeTime, msPerDay. rewrite Z.add_0_r.
  apply Z.div_mul. discriminate.
Qed.

(** Case split on whether [y] is a leap year, rewriting the test everywhere. *)
Ltac leap_cases y :=
  let e := fresh "Hleap" in
  destruct (DaysInYear y =? 366) eqn:e;
  [ apply Z.eqb_eq in e | apply Z.eqb_neq in e ].

Ltac month_cases m :=
  let Hc := fresh "Hc" in
  assert (Hc : m = 0 \/ m = 1 \/ m = 2 \/ m = 3 \/ m = 4 \/ m = 5 \/ m = 6 \/
               m = 7 \/ m = 8 \/ m = 9 \/ m = 10 \/ m = 11) by lia;
  repeat (destruct Hc as [Hc | Hc]); subst m.

Lemma monthStart_bounds (y m d : Z) :
  validYMD y m d ->
  0 <= monthStart m (if DaysInYear y =? 366 then 1 else 0) + d - 1 < DaysInYear y.
Proof.
  unfold validYMD, DaysInMonth. intros [Hm Hd].
  pose proof (DaysInYear_range y). revert Hd.
  leap_cases y; intros Hd; month_cases m; cbn [monthStart] in *; lia.
Qed.

(** Calendar fields of the local midnight built by [MakeDay]. *)
Lemma fields_of_MakeDay (y m d : Z) :
  validYMD y m d ->
  let t := MakeDate (MakeDay y m d) (MakeTime 0 0 0 0) in
  YearFromTime t = y /\ MonthFromTime t = m /\ DateFromTime t = d.
Proof.
  intros Hv t.
  pose proof (monthStart_bounds y m d Hv) as Hb.
  destruct Hv as [Hm Hd].
  assert (Hym : y + m / 12 = y) by (Z.div_mod_to_equations; lia).
  assert (Hmn : m mod 12 = m) by (apply Z.mod_small; lia).
  assert (HD : Day t = DayFromYear y + monthStart m (if DaysInYear y =? 366 then 1 else 0) + d - 1).
  { unfold t. rewrite Day_MakeDate. unfold MakeDay. cbv zeta. rewrite Hym, Hmn. reflexivity. }
  assert (HY : YearFromTime t = y).
  { apply YearFromTime_unique. rewrite DayFromYear_step. lia. }
  assert (HW : DayWithinYear t = monthStart m (if DaysInYear y =? 366 then 1 else 0) + d - 1).
  { unfold DayWithinYear. rewrite HY, HD. lia. }
  assert (HL : InLeapYear t = if DaysInYear y =? 366 then 1 else 0).
  { unfold InLeapYear. rewrite HY. reflexivity. }
  clearbody t. clear HD Hym Hmn.
  unfold DaysInMonth in Hd.
  assert (HM : MonthFromTime t = m).
  { unfold MonthFromTime. cbv zeta. rewrite HW, HL. clear HW HL. revert Hd Hb.
    leap_cases y; intros Hd Hb; month_cases m; cbn [monthStart] in *;
      repeat match goal with
             | |- context [?a <? ?b] => destruct (Z.ltb_spec a b); try lia
             end; reflexivity. }
  split; [ exact HY | split; [ exact HM | ] ].
  unfold DateFromTime. cbv zeta. rewrite HM, HW, HL. clear - Hm.
  month_cases m; cbn [monthStart]; lia.
Qed.


Lemma fixedZone_roundtrip (off t : Z) :
  LocalTime (fixedZone off) (UTC (fixedZone off) t) = t.
Proof. unfold LocalTime, UTC, fixedZone. cbn. lia. Qed.

Lemma MakeDay_bound (y m d : Z) :
  -200000 <= y <= 200000 -> validYMD y m d ->
  -80000000 <= MakeDay y m d <= 80000000.
Proof.
  intros Hy Hv. pose proof (monthStart_bounds y m d Hv) as Hb.
  destruct Hv as [Hm Hd].
  unfold MakeDay. cbv zeta.
  replace (y + m / 12) with y by (Z.div_mod_to_equations; lia).
  rewrite (Z.mod_small m 12) by lia.
  pose proof (DaysInYear_range y).
  assert (-80000000 + 400 <= DayFromYear y <= 80000000 - 400)
    by (unfold DayFromYear; Z.div_mod_to_equations; lia).
  lia.
Qed.

(** [new Date(y, m, d)] read back with the local getters, in a zone with a
    fixed offset: the constructor and the getters are inverse on calendar
    days (years 0 to 99 excepted, which the constructor maps to 19xx). *)
Lemma newDate_fields (off y m d : Z) :
  Z.abs off <= msPerDay ->
  -200000 <= y <= 200000 -> ~ 0 <= y <= 99 ->
  validYMD y m d ->
  localYMD (fixedZone off) (newDate (fixedZone off) (Some y) (Some m) (Some d))
  = Some (y, m, d).
Proof.
  intros Hoff Hy Hny Hv.
  pose proof (MakeDay_bound y m d Hy Hv) as Hb.
  pose proof (fields_of_MakeDay y m d Hv) as HF. cbv zeta in HF.
  unfold newDate.
  replace ((0 <=? y) && (y <=? 99)) with false
    by (symmetry; apply andb_false_iff; rewrite Z.leb_gt, Z.leb_gt; lia).
  set (t := MakeDate (MakeDay y m d) (MakeTime 0 0 0 0)) in *.
  assert (Ht : t = MakeDay y m d * msPerDay)
    by (unfold t, MakeDate, MakeTime; lia).
  unfold TimeClip.
  replace (maxTime <? Z.abs (UTC (fixedZone off) t)) with false.
  2:{ symmetry. apply Z.ltb_ge. unfold UTC, fixedZone, maxTime, msPerDay in *. cbn. lia. }
  unfold localYMD, getFullYear, getMonth, getDate. cbn [timeValue option_map].
  rewrite fixedZone_roundtrip.
  destruct HF as (-> & -> & ->). reflexivity.
Qed.

(* ================================================================== *)
(** ** DateMatcher *)
(* ================================================================== *)

Import Reference.

Lemma strict_eq_true (a b : option Z) :
  strict_eq a b = true <-> exists x, a = Some x /\ b = Some x.
Proof.
  destruct a as [x | ], b as [y | ]; cbn; split; intros H;
    try discriminate; try (destruct H as (z & H1 & H2); discriminate).
  - apply Z.eqb_eq in H. subst. eauto.
  - destruct H as (z & H1 & H2). inversion H1; inversion H2; subst. apply Z.eqb_refl.
Qed.

Lemma isBirthday_iff (h : Host) (target : Date) (r : Element) :
  DateMatcher.isBirthday h (getMonth (tz h) target) (getDate (tz h) target) r = true
  <-> bornOnDayOf (tz h) target r.
Proof.
  unfold DateMatcher.isBirthday, bornOnDayOf. split.
  - destruct r as [a | ]; [ | discriminate ].
    destruct (dateOfBirth a) as [ | | | | | d | ] eqn:E; try discriminate.
    rewrite andb_true_iff, !strict_eq_true.
    intros [(mo & H1 & H2) (dy & H3 & H4)].
    exists a, d, mo, dy. repeat split; assumption.
  - intros (a & d & mo & dy & -> & E & H1 & H2 & H3 & H4).
    rewrite E, andb_true_iff, !strict_eq_true. split; eauto.
Qed.

(** In a zone with a fixed offset, a record born on the calendar day
    (y, m, d) is selected for the target day (Y, M, D) exactly when the
    months and the days of the month agree. *)
Lemma findBirthdaysOnDate_calendar (h : Host) (off : Z) (who : string) (row : Z)
      (y m d Y M D : Z) :
  fixedOffsetHost h off ->
  plainYear y -> validYMD y m d ->
  plainYear Y -> validYMD Y M D ->
  let record := Some (mkAssociate who (VDate (newDate (tz h) (Some y) (Some m) (Some d))) row) in
  DateMatcher.findBirthdaysOnDate h (Some [record])
      (VDate (newDate (tz h) (Some Y) (Some M) (Some D)))
  = if (m =? M) && (d =? D) then [record] else [].
Proof.
  intros [Hz Hoff] [Hy Hy'] Hv [HY HY'] HV record. unfold record. rewrite Hz.
  pose proof (newDate_fields off y m d Hoff Hy Hy' Hv) as Hb.
  pose proof (newDate_fields off Y M D Hoff HY HY' HV) as Ht.
  unfold localYMD in Hb, Ht.
  unfold DateMatcher.findBirthdaysOnDate, DateMatcher.isBirthday, isInvalid.
  rewrite Hz. cbn [filter dateOfBirth].
  destruct (newDate (fixedZone off) (Some Y) (Some M) (Some D)) as [[tv | ]] eqn:ET;
    cbn [timeValue] in *; [ | discriminate ].
  destruct (newDate (fixedZone off) (Some y) (Some m) (Some d)) as [[bv | ]] eqn:EB;
    cbn [timeValue] in *; [ | discriminate ].
  cbn [getFullYear getMonth getDate option_map timeValue] in *.
  inversion Hb as [[Hb1 Hb2 Hb3]]. inversion Ht as [[Ht1 Ht2 Ht3]].
  cbn [strict_eq]. reflexivity.
Qed.

(** C3.  [findBirthdaysOnDate] returns exactly the records, in input order,
    whose birth (month, day) equals the (month, day) of a valid target
    date; whether a record is selected depends on its birth date through
    the month and the day only, never the year; and a record born on
    29 February is selected for a 29 February target only, not for
    28 February or 1 March. *)
Theorem findBirthdaysOnDate_month_day :
  forall (h : Host) (records : list Element) (t : Z),
    let target := mkDate (Some t) in
    let result := DateMatcher.findBirthdaysOnDate h (Some records) (VDate target) in
    (exists keep : Element -> bool,
        (forall r, keep r = true <-> bornOnDayOf (tz h) target r) /\
        result = filter keep records)
    /\
    (forall off who row y y' m d Y M D,
        fixedOffsetHost h off ->
        plainYear y -> validYMD y m d ->
        plainYear y' -> validYMD y' m d ->
        plainYear Y -> validYMD Y M D ->
        let born yr := Some (mkAssociate who (VDate (newDate (tz h) (Some yr) (Some m) (Some d))) row) in
        let on r := DateMatcher.findBirthdaysOnDate h (Some [r])
                      (VDate (newDate (tz h) (Some Y) (Some M) (Some D))) in
        (on (born y) = [born y] <-> (m = M /\ d = D)) /\
        (on (born y) = [] <-> ~ (m = M /\ d = D)) /\
        (on (born y) = [born y] <-> on (born y') = [born y']))
    /\
    (forall off who row y Y,
        fixedOffsetHost h off ->
        plainYear y -> DaysInYear y = 366 -> plainYear Y ->
        let leapling := Some (mkAssociate who (VDate (newDate (tz h) (Some y) (Some 1) (Some 29))) row) in
        let on M D := DateMatcher.findBirthdaysOnDate h (Some [leapling])
                        (VDate (newDate (tz h) (Some Y) (Some M) (Some D))) in
        on 1 28 = [] /\ on 2 1 = [] /\ (DaysInYear Y = 366 -> on 1 29 = [leapling])).
Proof.
  intros h records t target result. split; [ | split ].
  - exists (DateMatcher.isBirthday h (getMonth (tz h) target) (getDate (tz h) target)).
    split; [ intros r; apply isBirthday_iff | reflexivity ].
  - intros off who row y y' m d Y M D Hh Hy Hv Hy' Hv' HY HV born on.
    assert (E : forall yr, plainYear yr -> validYMD yr m d ->
                on (born yr) = if (m =? M) && (d =? D) then [born yr] else []).
    { intros yr H1 H2. unfold on, born.
      apply (findBirthdaysOnDate_calendar h off who row yr m d Y M D); assumption. }
    rewrite (E y Hy Hv), (E y' Hy' Hv').
    destruct (Z.eqb_spec m M); destruct (Z.eqb_spec d D); cbn [andb];
      (split; [ | split ]); split; intros; try tauto; try discriminate; lia.
  - intros off who row y Y Hh Hy Hleap HY leapling on.
    assert (Hv : validYMD y 1 29).
    { unfold validYMD, DaysInMonth. rewrite Hleap. cbn. lia. }
    assert (E : forall M D, validYMD Y M D ->
                on M D = if (1 =? M) && (29 =? D) then [leapling] else []).
    { intros M D HV. unfold on, leapling.
      apply (findBirthdaysOnDate_calendar h off who row y 1 29 Y M D); assumption. }
    split; [ | split ].
    + apply (E 1 28). unfold validYMD, DaysInMonth.
      destruct (DaysInYear Y =? 366); lia.
    + apply (E 2 1). unfold validYMD, DaysInMonth. lia.
    + intros HL. apply (E 1 29). unfold validYMD, DaysInMonth. rewrite HL. cbn. lia.
Qed.

(** The leap-day examples of the specification, in UTC: born 2000-02-29,
    targets 2024-02-29, 2023-02-28 and 2023-03-01; and order is kept. *)
Example findBirthdaysOnDate_examples :
  let h := Demo.host Demo.alwaysDown in
  let leapling := Demo.born "Leap Year Baby" 2000 1 29 1 in
  let other := Demo.born "Feb 28 Birthday" 1990 1 28 2 in
  let later := Demo.born "Born 1996" 1996 1 29 3 in
  let on Y M D := DateMatcher.findBirthdaysOnDate h (Some [leapling; other; None; later])
                    (VDate (newDate utcZone (Some Y) (Some M) (Some D))) in
  on 2024 1 29 = [leapling; later] /\ on 2023 1 28 = [other] /\ on 2023 2 1 = [].
Proof. vm_compute. repeat split. Qed.

(* ================================================================== *)
(** ** SMSService *)
(* ================================================================== *)

Lemma sendSMS_run (this : SMSServiceObj) (h : Host) (message : string) (s : Sys) :
  SMSService.sendSMS this h message s =
  (match SMSService.sendSMS_try (axios_post h (posts s) (requestOf this message)) with
   | inr result => Normal result
   | inl error => Throw (SMSService.sendSMS_catch error)
   end,
   afterPost s,
   [EvHttpPost (requestOf this message)]).
Proof.
  unfold SMSService.sendSMS, bind, post. cbn.
  fold (requestOf this message). fold (afterPost s).
  destruct (SMSService.sendSMS_try _); cbn; reflexivity.
Qed.

Lemma startsWith_append (p x : string) : startsWith (p ^^ x) p = true.
Proof.
  induction p as [ | c p IH]; [ destruct x; reflexivity | ].
  cbn. rewrite Ascii.eqb_refl. exact IH.
Qed.

Lemma classify_failure (o : AxiosOutcome) (c : FailureClass) :
  classify o = Some c ->
  exists e, SMSService.sendSMS_try o = inl e /\
            startsWith (SMSService.sendSMS_catch e) (errorPrefix o) = true.
Proof.
  destruct o as [status data | status data | | message];
    unfold classify, SMSService.sendSMS_try, errorPrefix.
  - destruct ((200 <=? status) && (status <? 300)).
    + destruct data; [ discriminate | ]. intros _. eexists. split; [ reflexivity | ].
      apply startsWith_append.
    + intros _. eexists. split; [ reflexivity | ]. apply startsWith_append.
  - intros _. eexists. split; [ reflexivity | ]. unfold SMSService.sendSMS_catch.
    destruct ((status =? 401) || (status =? 403)); [ apply startsWith_append | ].
    destruct (status =? 400); apply startsWith_append.
  - intros _. eexists. split; reflexivity.
  - intros _. eexists. split; [ reflexivity | ]. apply startsWith_append.
Qed.

Lemma classify_success (o : AxiosOutcome) :
  classify o = None -> exists r, SMSService.sendSMS_try o = inr r.
Proof.
  destruct o as [status data | status data | | message]; cbn; try discriminate.
  - destruct ((200 <=? status) && (status <? 300)); [ | discriminate ].
    destruct data; [ eauto | discriminate ].
  - destruct ((status =? 401) || (status =? 403)); [ discriminate | ].
    destruct (status =? 400); discriminate.
Qed.

(** One call of [sendWithRetry] whose send fails before the last attempt:
    one request, one delay of [2^attempt] seconds, then the next attempt. *)
Lemma sendWithRetry_fuel_fail (fuel : nat) this h message timestamp attempt s e :
  SMSService.sendSMS_try (axios_post h (posts s) (requestOf this message)) = inl e ->
  Nat.leb SMSService.maxAttempts attempt = false ->
  SMSService.sendWithRetry_fuel (S fuel) this h message timestamp attempt s =
  let next := SMSService.sendWithRetry_fuel fuel this h message timestamp (attempt + 1)
                (afterPost s) in
  (result_of next, state_of next,
   EvHttpPost (requestOf this message) :: EvDelay (Z.of_nat (2 ^ attempt) * 1000)
     :: events_of next).
Proof.
  intros He Hlt. cbn [SMSService.sendWithRetry_fuel].
  unfold try_catch at 1. unfold bind at 1. rewrite sendSMS_run, He, Hlt.
  unfold bind, SMSService.delay, emit.
  destruct (SMSService.sendWithRetry_fuel fuel this h message timestamp (attempt + 1)
              (afterPost s)) as [[c s'] ev].
  reflexivity.
Qed.

Lemma sendWithRetry_fuel_last (fuel : nat) this h message timestamp attempt s e :
  SMSService.sendSMS_try (axios_post h (posts s) (requestOf this message)) = inl e ->
  Nat.leb SMSService.maxAttempts attempt = true ->
  SMSService.sendWithRetry_fuel (S fuel) this h message timestamp attempt s =
  (Normal {| SMSService.success := false;
             SMSService.messageId := None;
             SMSService.error := Some (SMSService.sendSMS_catch e);
             SMSService.timestamp := timestamp;
             SMSService.attempts := Some attempt |},
   afterPost s, [EvHttpPost (requestOf this message)]).
Proof.
  intros He Hge. cbn [SMSService.sendWithRetry_fuel].
  unfold try_catch at 1. unfold bind at 1. rewrite sendSMS_run, He, Hge.
  reflexivity.
Qed.

Lemma sendWithRetry_fuel_ok (fuel : nat) this h message timestamp attempt s r :
  SMSService.sendSMS_try (axios_post h (posts s) (requestOf this message)) = inr r ->
  SMSService.sendWithRetry_fuel (S fuel) this h message timestamp attempt s =
  (Normal {| SMSService.success := true;
             SMSService.messageId := Some (SMSService.api_messageId r);
             SMSService.error := None;
             SMSService.timestamp := timestamp;
             SMSService.attempts := Some attempt |},
   afterPost s, [EvHttpPost (requestOf this message)]).
Proof.
  intros He. cbn [SMSService.sendWithRetry_fuel].
  unfold try_catch at 1. unfold bind at 1. rewrite sendSMS_run, He.
  reflexivity.
Qed.

(** C4.  Starting at attempt 1, when the first two sends fail, whatever the
    class of each failure, [sendWithRetry] issues three requests with a
    delay of 2000 ms before the second and 4000 ms before the third; it
    returns success with an attempt count of 3 when the third send succeeds,
    and failure with an attempt count of 3 and the text of the last error
    when the third send fails too. *)
Theorem sendWithRetry_three_attempts :
  forall (this : SMSServiceObj) (h : Host) (message : string) (timestamp : Date) (s : Sys)
         (c1 c2 : FailureClass),
    let req := requestOf this message in
    classify (axios_post h (posts s) req) = Some c1 ->
    classify (axios_post h (S (posts s)) req) = Some c2 ->
    let third := axios_post h (S (S (posts s))) req in
    let run := SMSService.sendWithRetry this h message timestamp 1 s in
    events_of run = [EvHttpPost req; EvDelay 2000; EvHttpPost req; EvDelay 4000; EvHttpPost req]
    /\
    match classify third with
    | None =>
        exists id,
          result_of run = Normal {| SMSService.success := true;
                                    SMSService.messageId := Some id;
                                    SMSService.error := None;
                                    SMSService.timestamp := timestamp;
                                    SMSService.attempts := Some 3%nat |}
    | Some _ =>
        exists text,
          startsWith text (errorPrefix third) = true /\
          result_of run = Normal {| SMSService.success := false;
                                    SMSService.messageId := None;
                                    SMSService.error := Some text;
                                    SMSService.timestamp := timestamp;
                                    SMSService.attempts := Some 3%nat |}
    end.
Proof.
  intros this h message timestamp s c1 c2 req H1 H2 third run.
  destruct (classify_failure _ _ H1) as (e1 & E1 & _).
  destruct (classify_failure _ _ H2) as (e2 & E2 & _).
  unfold run, SMSService.sendWithRetry. cbn [SMSService.maxAttempts Nat.sub].
  rewrite (sendWithRetry_fuel_fail 2 this h message timestamp 1 s e1 E1 eq_refl). cbv zeta.
  cbn [Nat.add].
  rewrite (sendWithRetry_fuel_fail 1 this h message timestamp 2 (afterPost s) e2 E2 eq_refl).
  cbv zeta. cbn [Nat.add].
  destruct (classify third) as [c3 | ] eqn:H3.
  - destruct (classify_failure _ _ H3) as (e3 & E3 & P3).
    rewrite (sendWithRetry_fuel_last 0 this h message timestamp 3 (afterPost (afterPost s))
               e3 E3 eq_refl).
    split; [ reflexivity | ]. exists (SMSService.sendSMS_catch e3).
    split; [ exact P3 | reflexivity ].
  - destruct (classify_success _ H3) as (r3 & E3).
    rewrite (sendWithRetry_fuel_ok 0 this h message timestamp 3 (afterPost (afterPost s))
               r3 E3).
    split; [ reflexivity | ]. eexists. reflexivity.
Qed.

Lemma sendWithRetry_three_attempts_witness :
  let h := Demo.host Demo.failTwice in
  let ts := mkDate (Some Demo.today) in
  let run := SMSService.sendWithRetry Demo.sms h "Birthday Alert!" ts 1 (Demo.start true) in
  classify (axios_post h 0 (requestOf Demo.sms "Birthday Alert!")) = Some AuthenticationRejected /\
  classify (axios_post h 1 (requestOf Demo.sms "Birthday Alert!")) = Some TransportFailure /\
  events_of run = [EvHttpPost (requestOf Demo.sms "Birthday Alert!"); EvDelay 2000;
                   EvHttpPost (requestOf Demo.sms "Birthday Alert!"); EvDelay 4000;
                   EvHttpPost (requestOf Demo.sms "Birthday Alert!")] /\
  exists id,
    result_of run = Normal {| SMSService.success := true;
                              SMSService.messageId := Some id;
                              SMSService.error := None;
                              SMSService.timestamp := ts;
                              SMSService.attempts := Some 3%nat |}.
Proof.
  cbv zeta.
  split; [ reflexivity | split; [ reflexivity | ] ].
  exact (sendWithRetry_three_attempts Demo.sms (Demo.host Demo.failTwice) "Birthday Alert!"
           (mkDate (Some Demo.today)) (Demo.start true)
           AuthenticationRejected TransportFailure eq_refl eq_refl).
Defined.

(** The same run when the gateway is never reached: failure after the third
    attempt, with the transport error text. *)
Example sendWithRetry_always_failing :
  let h := Demo.host Demo.alwaysDown in
  let ts := mkDate (Some Demo.today) in
  let run := SMSService.sendWithRetry Demo.sms h "Birthday Alert!" ts 1 (Demo.start true) in
  result_of run = Normal {| SMSService.success := false;
                            SMSService.messageId := None;
                            SMSService.error := Some "Network error: Unable to reach SMS API"%string;
                            SMSService.timestamp := ts;
                            SMSService.attempts := Some 3%nat |}
  /\ filter isDelay (events_of run) = [EvDelay 2000; EvDelay 4000]
  /\ count isHttpPost (events_of run) = 3%nat.
Proof. vm_compute. repeat split. Qed.

(** [sendWithRetry] always returns a result, with an attempt count between
    the attempt it started at and the cap. *)
Lemma sendWithRetry_fuel_total (fuel : nat) :
  forall this h message timestamp attempt s,
    (SMSService.maxAttempts - attempt < fuel)%nat ->
    exists r n,
      result_of (SMSService.sendWithRetry_fuel fuel this h message timestamp attempt s) = Normal r
      /\ SMSService.attempts r = Some n
      /\ (attempt <= n <= Nat.max attempt SMSService.maxAttempts)%nat
      /\ SMSService.timestamp r = timestamp
      /\ (1 <= count isHttpPost
                 (events_of (SMSService.sendWithRetry_fuel fuel this h message timestamp attempt s)))%nat.
Proof.
  induction fuel as [ | fuel IH]; intros this h message timestamp attempt s Hf; [ lia | ].
  destruct (SMSService.sendSMS_try (axios_post h (posts s) (requestOf this message)))
    as [e | r] eqn:E.
  - destruct (Nat.leb SMSService.maxAttempts attempt) eqn:Hc.
    + rewrite (sendWithRetry_fuel_last fuel this h message timestamp attempt s e E Hc).
      apply Nat.leb_le in Hc. eexists. exists attempt. cbn. repeat split; lia.
    + rewrite (sendWithRetry_fuel_fail fuel this h message timestamp attempt s e E Hc).
      cbv zeta. apply Nat.leb_gt in Hc. unfold SMSService.maxAttempts in *.
      destruct (IH this h message timestamp (attempt + 1)%nat (afterPost s) ltac:(unfold SMSService.maxAttempts; lia))
        as (r & n & Hr & Hn & Hb & Ht & Hp).
      exists r, n. cbn [result_of events_of fst snd] in *.
      repeat split; try assumption; try lia.
      unfold count in *. cbn. lia.
  - rewrite (sendWithRetry_fuel_ok fuel this h message timestamp attempt s r E).
    eexists. exists attempt. cbn. repeat split; lia.
Qed.

Lemma sendWithRetry_total this h message timestamp s :
  exists r n,
    result_of (SMSService.sendWithRetry this h message timestamp 1 s) = Normal r
    /\ SMSService.attempts r = Some n /\ (1 <= n <= 3)%nat
    /\ SMSService.timestamp r = timestamp
    /\ (1 <= count isHttpPost
               (events_of (SMSService.sendWithRetry this h message timestamp 1 s)))%nat.
Proof.
  unfold SMSService.sendWithRetry.
  destruct (sendWithRetry_fuel_total (S (SMSService.maxAttempts - 1)) this h message timestamp 1 s
              ltac:(lia)) as (r & n & H1 & H2 & H3 & H4 & H5).
  exists r, n. unfold SMSService.maxAttempts in *. cbn in H3. repeat split; try assumption; lia.
Qed.

(** C10.  For a null, undefined or empty list of associates,
    [sendBirthdayNotification] reads the clock and returns at once: no HTTP
    request, no delay, and a result with success = false, the text
    "No associates provided for notification" and the timestamp, but no
    attempt count.  Every result returned after a send was attempted carries
    an attempt count from 1 to 3. *)
Theorem sendBirthdayNotification_without_associates :
  forall (this : SMSServiceObj) (h : Host) (s : Sys),
    (forall associates,
        associates = None \/ associates = Some [] ->
        SMSService.sendBirthdayNotification this h associates s =
        (Normal {| SMSService.success := false;
                   SMSService.messageId := None;
                   SMSService.error := Some "No associates provided for notification"%string;
                   SMSService.timestamp := mkDate (Some (clock h (clockReads s)));
                   SMSService.attempts := None |},
         afterClock s,
         [EvInvoke SMSService.sendBirthdayNotification_name]))
    /\
    (forall associates r,
        let run := SMSService.sendBirthdayNotification this h associates s in
        result_of run = Normal r ->
        (SMSService.attempts r = None /\ count isHttpPost (events_of run) = 0%nat
         /\ (associates = None \/ associates = Some []))
        \/
        (exists n, SMSService.attempts r = Some n /\ (1 <= n <= 3)%nat
                   /\ (1 <= count isHttpPost (events_of run))%nat
                   /\ exists a l, associates = Some (a :: l))).
Proof.
  intros this h s. split.
  - intros associates [-> | ->]; reflexivity.
  - intros associates r run Hr.
    destruct associates as [[ | a l] | ].
    + left. unfold run in *. cbn in Hr. inversion Hr; subst. cbn. auto.
    + right. unfold run in *. clear run.
      unfold SMSService.sendBirthdayNotification, bind, emit, now, liftS in *.
      cbn [fst snd result_of events_of] in *.
      destruct (SMSService.formatMessage (Some (a :: l))) as [message | m] eqn:EF;
        cbn [fst snd result_of events_of ofSettled] in *; try discriminate.
      pose proof (sendWithRetry_total this h message
                    (mkDate (Some (clock h (clockReads s))))
                    {| service := service s; frame := frame s; posts := posts s;
                       clockReads := S (clockReads s) |})
        as (r' & n & H1 & H2 & H3 & H4 & H5).
      destruct (SMSService.sendWithRetry this h message _ _) as [[c s'] ev].
      cbn [fst snd result_of events_of app] in *.
      rewrite H1 in Hr. inversion Hr; subst r'.
      exists n. split; [ assumption | split; [ lia | split ] ].
      * unfold count in *. cbn. exact H5.
      * eauto.
    + left. unfold run in *. cbn in Hr. inversion Hr; subst. cbn. auto.
Qed.

Example sendBirthdayNotification_examples :
  let h := Demo.host Demo.failTwice in
  let call a := SMSService.sendBirthdayNotification Demo.sms h a (Demo.start true) in
  option_map SMSService.attempts
    (match result_of (call None) with Normal r => Some r | _ => None end) = Some None
  /\ events_of (call (Some [])) = [EvInvoke SMSService.sendBirthdayNotification_name]
  /\ option_map SMSService.attempts
       (match result_of (call (Some [Demo.born "John Doe" 2000 1 29 2])) with
        | Normal r => Some r | _ => None end) = Some (Some 3%nat).
Proof. vm_compute. repeat split. Qed.

(* ================================================================== *)
(** ** ExcelParser: date texts *)
(* ================================================================== *)

Lemma digit_not_space (c : ascii) : is_digit c = true -> is_space c = false.
Proof.
  unfold is_digit, is_space. cbv zeta. intros H.
  apply andb_true_iff in H. destruct H as [H1 H2].
  apply Nat.leb_le in H1. apply Nat.leb_le in H2.
  apply orb_false_iff. split; [ apply orb_false_iff; split | ].
  - apply andb_false_iff. right. apply Nat.leb_gt. lia.
  - apply Nat.eqb_neq. lia.
  - apply Nat.eqb_neq. lia.
Qed.

Lemma separator_not_digit (hyphen : bool) : is_digit (separator hyphen) = false.
Proof. destruct hyphen; reflexivity. Qed.

Lemma separator_not_space (hyphen : bool) : is_space (separator hyphen) = false.
Proof. destruct hyphen; reflexivity. Qed.

Lemma trimEnd_no_space (s : string) : no_space s = true -> trimEnd s = s.
Proof.
  induction s as [ | c r IH]; [ reflexivity | ].
  cbn. intros H. apply andb_true_iff in H. destruct H as [Hc Hr].
  apply negb_true_iff in Hc. rewrite Hc. cbn. rewrite (IH Hr). reflexivity.
Qed.

Lemma trim_no_space (s : string) : no_space s = true -> trim s = s.
Proof.
  intros H. unfold trim.
  assert (E : trimStart s = s).
  { destruct s as [ | c r]; [ reflexivity | ]. cbn in *.
    apply andb_true_iff in H. destruct H as [Hc _].
    apply negb_true_iff in Hc. rewrite Hc. reflexivity. }
  rewrite E. apply trimEnd_no_space. exact H.
Qed.

Lemma no_space_digits (s : string) : all_digits s = true -> no_space s = true.
Proof.
  induction s as [ | c r IH]; [ reflexivity | ].
  cbn. intros H. apply andb_true_iff in H. destruct H as [Hc Hr].
  rewrite (digit_not_space c Hc), (IH Hr). reflexivity.
Qed.

Lemma no_space_append (a b : string) :
  no_space a = true -> no_space b = true -> no_space (a ^^ b) = true.
Proof.
  induction a as [ | c r IH]; cbn; [ auto | ].
  intros H Hb. apply andb_true_iff in H. destruct H as [Hc Hr].
  rewrite Hc, (IH Hr Hb). reflexivity.
Qed.

Lemma no_space_yearLastText (hyphen : bool) (a b y : string) :
  all_digits a = true -> all_digits b = true -> all_digits y = true ->
  no_space (yearLastText hyphen a b y) = true.
Proof.
  intros Ha Hb Hy. unfold yearLastText.
  apply no_space_append; [ apply no_space_digits, Ha | ].
  cbn. rewrite separator_not_space. cbn.
  apply no_space_append; [ apply no_space_digits, Hb | ].
  cbn. rewrite separator_not_space. cbn. apply no_space_digits, Hy.
Qed.

(** A run of digits that fits is taken whole, up to the first non-digit. *)
Lemma span_digits_group (max : nat) (d : string) (c : ascii) (rest : string) :
  all_digits d = true -> (String.length d <= max)%nat -> is_digit c = false ->
  ExcelParser.span_digits max (d ^^ String c rest) = (d, String c rest).
Proof.
  revert max. induction d as [ | x d IH]; intros max Hd Hl Hc.
  - cbn. destruct max; cbn; [ reflexivity | rewrite Hc; reflexivity ].
  - cbn in Hd, Hl. apply andb_true_iff in Hd. destruct Hd as [Hx Hd].
    destruct max as [ | max]; [ lia | ].
    cbn. rewrite Hx. rewrite (IH max Hd ltac:(lia) Hc). reflexivity.
Qed.

Lemma span_digits_all (max : nat) (d : string) :
  all_digits d = true -> (String.length d <= max)%nat ->
  ExcelParser.span_digits max d = (d, EmptyString).
Proof.
  revert max. induction d as [ | x d IH]; intros max Hd Hl.
  - destruct max; reflexivity.
  - cbn in Hd, Hl. apply andb_true_iff in Hd. destruct Hd as [Hx Hd].
    destruct max as [ | max]; [ lia | ].
    cbn. rewrite Hx. rewrite (IH max Hd ltac:(lia)). reflexivity.
Qed.

Lemma digits_then_group (lo hi : nat) (d : string) (c : ascii) (rest : string) :
  digitGroup lo hi d -> is_digit c = false ->
  ExcelParser.digits_then lo hi c (d ^^ String c rest) = Some (d, rest).
Proof.
  intros [Hd [Hlo Hhi]] Hc. unfold ExcelParser.digits_then.
  rewrite (span_digits_group hi d c rest Hd Hhi Hc).
  replace (Nat.leb lo (String.length d)) with true by (symmetry; apply Nat.leb_le; exact Hlo).
  rewrite Ascii.eqb_refl. reflexivity.
Qed.

Lemma digits_then_other (lo hi : nat) (sep : ascii) (d : string) (c : ascii) (rest : string) :
  all_digits d = true -> (String.length d <= hi)%nat -> is_digit c = false ->
  Ascii.eqb c sep = false ->
  ExcelParser.digits_then lo hi sep (d ^^ String c rest) = None.
Proof.
  intros Hd Hhi Hc Hs. unfold ExcelParser.digits_then.
  rewrite (span_digits_group hi d c rest Hd Hhi Hc), Hs.
  destruct (Nat.leb lo (String.length d)); reflexivity.
Qed.

Lemma digits_then_short (lo hi : nat) (sep : ascii) (d : string) (c : ascii) (rest : string) :
  all_digits d = true -> (String.length d <= hi)%nat -> (String.length d < lo)%nat ->
  is_digit c = false ->
  ExcelParser.digits_then lo hi sep (d ^^ String c rest) = None.
Proof.
  intros Hd Hhi Hlo Hc. unfold ExcelParser.digits_then.
  rewrite (span_digits_group hi d c rest Hd Hhi Hc).
  replace (Nat.leb lo (String.length d)) with false by (symmetry; apply Nat.leb_gt; exact Hlo).
  reflexivity.
Qed.

Lemma digits_end_group (lo hi : nat) (d : string) :
  digitGroup lo hi d -> ExcelParser.digits_end lo hi d = Some d.
Proof.
  intros [Hd [Hlo Hhi]]. unfold ExcelParser.digits_end.
  rewrite (span_digits_all hi d Hd Hhi).
  replace (Nat.leb lo (String.length d)) with true by (symmetry; apply Nat.leb_le; exact Hlo).
  reflexivity.
Qed.

(** A year-last text is matched by its own pattern, with the three runs of
    digits as groups, and by neither of the other two patterns. *)
Lemma regexMatch_yearLast (hyphen : bool) (a b y : string) :
  digitGroup 1 2 a -> digitGroup 1 2 b -> digitGroup 4 4 y ->
  forall p,
    ExcelParser.regexMatch p (yearLastText hyphen a b y) =
    if ExcelParser.Pattern_eqb p (yearLastPattern hyphen)
    then Some {| ExcelParser.g1 := a; ExcelParser.g2 := b; ExcelParser.g3 := y |}
    else None.
Proof.
  intros Ha Hb Hy p.
  pose proof (separator_not_digit hyphen) as Hs.
  assert (Own : ExcelParser.match3 1 2 (separator hyphen) 1 2 4 4 (yearLastText hyphen a b y)
                = Some {| ExcelParser.g1 := a; ExcelParser.g2 := b; ExcelParser.g3 := y |}).
  { unfold ExcelParser.match3, yearLastText.
    rewrite (digits_then_group 1 2 a _ _ Ha Hs), (digits_then_group 1 2 b _ _ Hb Hs),
            (digits_end_group 4 4 y Hy). reflexivity. }
  assert (Iso : ExcelParser.match3 4 4 "-"%char 1 2 1 2 (yearLastText hyphen a b y) = None).
  { unfold ExcelParser.match3, yearLastText.
    destruct Ha as [Ha [_ Hl]].
    rewrite (digits_then_short 4 4 "-"%char a _ _ Ha ltac:(lia) ltac:(lia) Hs). reflexivity. }
  assert (Other : ExcelParser.match3 1 2 (separator (negb hyphen)) 1 2 4 4
                    (yearLastText hyphen a b y) = None).
  { unfold ExcelParser.match3, yearLastText.
    destruct Ha as [Ha [_ Hl]].
    rewrite (digits_then_other 1 2 (separator (negb hyphen)) a _ _ Ha Hl Hs); [ reflexivity | ].
    destruct hyphen; reflexivity. }
  destruct p, hyphen; cbn [ExcelParser.regexMatch ExcelParser.Pattern_eqb yearLastPattern];
    first [ exact Own | exact Iso | exact Other ].
Qed.

Lemma parseInt_digits (s : string) :
  all_digits s = true -> (1 <= String.length s)%nat -> parseInt s = Some (valueOf s).
Proof.
  destruct s as [ | c r]; cbn; [ lia | ].
  intros H _. apply andb_true_iff in H. destruct H as [Hc _].
  unfold parseInt, valueOf. rewrite Hc. reflexivity.
Qed.

(** No pattern text contains "YYYY": the branch of [parseMatchedDate] meant
    for the year-first pattern is never taken. *)
Lemma yearFirst_branch_unreachable (p : ExcelParser.Pattern) :
  includes (ExcelParser.toString p) "YYYY" = false.
Proof. destruct p; vm_compute; reflexivity. Qed.

Lemma parseMatchedDate_yearLast (h : Host) (p : ExcelParser.Pattern) (a b y : string) :
  digitGroup 1 2 a -> digitGroup 1 2 b -> digitGroup 4 4 y ->
  ExcelParser.parseMatchedDate h
    {| ExcelParser.g1 := a; ExcelParser.g2 := b; ExcelParser.g3 := y |} p
  = Some (disambiguated (tz h) (valueOf a) (valueOf b) (valueOf y)).
Proof.
  intros [Ha [Hal _]] [Hb [Hbl _]] [Hy [Hyl _]].
  unfold ExcelParser.parseMatchedDate. cbv zeta.
  rewrite yearFirst_branch_unreachable. cbn [andb ExcelParser.g1 ExcelParser.g2 ExcelParser.g3].
  rewrite (parseInt_digits a Ha Hal), (parseInt_digits b Hb Hbl),
          (parseInt_digits y Hy ltac:(lia)).
  unfold disambiguated, num_gt, num_sub. cbn [option_map].
  destruct (12 <? valueOf a); [ reflexivity | ].
  destruct (12 <? valueOf b); reflexivity.
Qed.

Lemma tryPatterns_yearLast (h : Host) (hyphen : bool) (a b y : string) :
  digitGroup 1 2 a -> digitGroup 1 2 b -> digitGroup 4 4 y ->
  let chosen := disambiguated (tz h) (valueOf a) (valueOf b) (valueOf y) in
  ExcelParser.tryPatterns h (yearLastText hyphen a b y) ExcelParser.datePatterns
  = if isInvalid chosen then None else Some chosen.
Proof.
  intros Ha Hb Hy chosen.
  unfold ExcelParser.datePatterns. cbn [ExcelParser.tryPatterns].
  rewrite !(regexMatch_yearLast hyphen a b y Ha Hb Hy).
  destruct hyphen; cbn [ExcelParser.Pattern_eqb yearLastPattern];
    rewrite (parseMatchedDate_yearLast h _ a b y Ha Hb Hy); fold chosen;
    destruct (isInvalid chosen); reflexivity.
Qed.

Lemma parseDate_yearLast (h : Host) (hyphen : bool) (a b y : string) :
  digitGroup 1 2 a -> digitGroup 1 2 b -> digitGroup 4 4 y ->
  isInvalid (dateParse h (yearLastText hyphen a b y)) = true ->
  let chosen := disambiguated (tz h) (valueOf a) (valueOf b) (valueOf y) in
  ExcelParser.parseDate h (VString (yearLastText hyphen a b y))
  = if isInvalid chosen then None else Some chosen.
Proof.
  intros Ha Hb Hy Hn chosen.
  assert (Ht : trim (yearLastText hyphen a b y) = yearLastText hyphen a b y).
  { apply trim_no_space, no_space_yearLastText; [ apply Ha | apply Hb | apply Hy ]. }
  unfold ExcelParser.parseDate.
  assert (Htr : truthy (VString (yearLastText hyphen a b y)) = true).
  { destruct Ha as [Ha [Hl _]]. destruct a; [ cbn in Hl; lia | reflexivity ]. }
  rewrite Htr. cbn [negb]. cbv zeta. rewrite Ht, Hn. cbn [negb].
  apply tryPatterns_yearLast; assumption.
Qed.

(** C7, as the code has it.  For a text [a/b/y] or [a-b-y] (one or two
    digits, one or two digits, four digits), the text is matched by its
    year-last pattern and [parseMatchedDate] builds the date as follows:
    when the first number is above 12 it is the day and the second the
    month; otherwise, whether or not the second number is above 12, the
    first number is the month and the second the day.  [parseDate] returns
    that date whenever the engine's own parser rejects the text. *)
Theorem parseMatchedDate_month_or_day_first :
  forall (h : Host) (hyphen : bool) (a b y : string),
    digitGroup 1 2 a -> digitGroup 1 2 b -> digitGroup 4 4 y ->
    let text := yearLastText hyphen a b y in
    let groups := {| ExcelParser.g1 := a; ExcelParser.g2 := b; ExcelParser.g3 := y |} in
    let first := valueOf a in
    let second := valueOf b in
    let year := valueOf y in
    let dayFirst := newDate (tz h) (Some year) (Some (second - 1)) (Some first) in
    let monthFirst := newDate (tz h) (Some year) (Some (first - 1)) (Some second) in
    let chosen := if 12 <? first then dayFirst else monthFirst in
    ExcelParser.regexMatch (yearLastPattern hyphen) text = Some groups
    /\ ExcelParser.parseMatchedDate h groups (yearLastPattern hyphen) = Some chosen
    /\ (isInvalid (dateParse h text) = true ->
        ExcelParser.parseDate h (VString text) = if isInvalid chosen then None else Some chosen).
Proof.
  intros h hyphen a b y Ha Hb Hy text groups first second year dayFirst monthFirst chosen.
  split; [ | split ].
  - unfold text. rewrite (regexMatch_yearLast hyphen a b y Ha Hb Hy).
    destruct hyphen; reflexivity.
  - exact (parseMatchedDate_yearLast h _ a b y Ha Hb Hy).
  - intros Hn. exact (parseDate_yearLast h hyphen a b y Ha Hb Hy Hn).
Qed.

Lemma parseMatchedDate_month_or_day_first_witness :
  let h := Demo.host Demo.alwaysDown in
  (digitGroup 1 2 "13" /\ digitGroup 1 2 "01" /\ digitGroup 4 4 "1985") /\
  ExcelParser.regexMatch ExcelParser.SlashYearLast "13/01/1985"
  = Some {| ExcelParser.g1 := "13"; ExcelParser.g2 := "01"; ExcelParser.g3 := "1985" |}
  /\ ExcelParser.parseMatchedDate h
       {| ExcelParser.g1 := "13"; ExcelParser.g2 := "01"; ExcelParser.g3 := "1985" |}
       ExcelParser.SlashYearLast
     = Some (newDate utcZone (Some 1985) (Some 0) (Some 13))
  /\ (isInvalid (dateParse h "13/01/1985") = true ->
      ExcelParser.parseDate h (VString "13/01/1985")
      = Some (newDate utcZone (Some 1985) (Some 0) (Some 13))).
Proof.
  cbv zeta.
  assert (Ha : digitGroup 1 2 "13") by (split; [ reflexivity | cbn; lia ]).
  assert (Hb : digitGroup 1 2 "01") by (split; [ reflexivity | cbn; lia ]).
  assert (Hy : digitGroup 4 4 "1985") by (split; [ reflexivity | cbn; lia ]).
  split; [ auto | ].
  exact (parseMatchedDate_month_or_day_first (Demo.host Demo.alwaysDown) false
           "13" "01" "1985" Ha Hb Hy).
Defined.

(** The claim as worded fails: for "01/13/2000" (second number above 12) the
    second number is the day and the first the month, 13 January 2000; had
    the second number been the month and the first the day, the date would
    be [new Date(2000, 12, 1)], 1 January 2001. *)
Lemma parseMatchedDate_second_above_12 :
  let h := Demo.host Demo.alwaysDown in
  let groups := {| ExcelParser.g1 := "01"; ExcelParser.g2 := "13"; ExcelParser.g3 := "2000" |} in
  ExcelParser.regexMatch ExcelParser.SlashYearLast "01/13/2000" = Some groups
  /\ option_map (localYMD utcZone) (ExcelParser.parseMatchedDate h groups ExcelParser.SlashYearLast)
     = Some (Some (2000, 0, 13))
  /\ option_map (localYMD utcZone) (ExcelParser.parseDate h (VString "01/13/2000"))
     = Some (Some (2000, 0, 13))
  /\ localYMD utcZone (newDate utcZone (Some 2000) (Some (13 - 1)) (Some 1))
     = Some (2001, 0, 1).
Proof. vm_compute. repeat split. Qed.

Lemma digits_value_bounds (s : string) :
  all_digits s = true ->
  forall acc, 0 <= acc ->
    acc * 10 ^ Z.of_nat (String.length s) <= digits_value acc s
    /\ digits_value acc s < (acc + 1) * 10 ^ Z.of_nat (String.length s).
Proof.
  induction s as [ | c r IH]; intros Hs acc Hacc.
  - cbn. lia.
  - cbn [digits_value String.length].
    rewrite Nat2Z.inj_succ, Z.pow_succ_r by lia.
    cbn in Hs. apply andb_true_iff in Hs. destruct Hs as [Hc Hr].
    rewrite Hc.
    unfold is_digit in Hc. cbv zeta in Hc. apply andb_true_iff in Hc.
    destruct Hc as [H1 H2]. apply Nat.leb_le in H1. apply Nat.leb_le in H2.
    set (d := Z.of_nat (nat_of_ascii c) - 48).
    assert (Hd : 0 <= d <= 9) by (unfold d; lia). clearbody d.
    set (P := 10 ^ Z.of_nat (String.length r)) in *.
    assert (HP : 0 < P) by (apply Z.pow_pos_nonneg; lia).
    destruct (IH Hr (10 * acc + d) ltac:(lia)) as [L U]. clearbody P.
    assert (0 <= d * P) by (apply Z.mul_nonneg_nonneg; lia).
    assert (0 <= (9 - d) * P) by (apply Z.mul_nonneg_nonneg; lia).
    split; lia.
Qed.

Lemma valueOf_bounds (lo hi : nat) (s : string) :
  digitGroup lo hi s -> 0 <= valueOf s < 10 ^ Z.of_nat hi.
Proof.
  intros [Hs [_ Hh]]. unfold valueOf.
  destruct (digits_value_bounds s Hs 0 ltac:(lia)) as [L U].
  assert (10 ^ Z.of_nat (String.length s) <= 10 ^ Z.of_nat hi)
    by (apply Z.pow_le_mono_r; lia).
  assert (0 < 10 ^ Z.of_nat (String.length s)) by (apply Z.pow_pos_nonneg; lia).
  lia.
Qed.

Lemma monthStart_range (m leap : Z) :
  0 <= leap <= 1 -> 0 <= monthStart (m mod 12) leap <= 335.
Proof.
  intros Hl. pose proof (Z.mod_pos_bound m 12 ltac:(lia)) as Hm.
  set (k := m mod 12) in *. clearbody k.
  month_cases k; cbn [monthStart]; lia.
Qed.

(** With a four-digit year and two-digit month and day numbers, the Date
    constructor never yields an Invalid Date in a zone with a fixed offset:
    numbers outside the calendar are carried over. *)
Lemma newDate_small_valid (off y m d : Z) :
  Z.abs off <= msPerDay ->
  0 <= y < 10000 -> -1 <= m < 100 -> 0 <= d < 100 ->
  isInvalid (newDate (fixedZone off) (Some y) (Some m) (Some d)) = false.
Proof.
  intros Hoff Hy Hm Hd. unfold newDate, isInvalid, TimeClip. cbn [timeValue].
  set (yr := if (0 <=? y) && (y <=? 99) then 1900 + y else y).
  assert (Hyr : 100 <= yr < 10000).
  { unfold yr. destruct (Z.leb_spec 0 y), (Z.leb_spec y 99); cbn [andb]; lia. }
  clearbody yr.
  assert (Hb : -1000000 <= MakeDay yr m d <= 4000000).
  { unfold MakeDay. cbv zeta.
    pose proof (monthStart_range m (if DaysInYear (yr + m / 12) =? 366 then 1 else 0)
                  ltac:(destruct (DaysInYear (yr + m / 12) =? 366); lia)) as Hs.
    assert (99 <= yr + m / 12 <= 10008) by (Z.div_mod_to_equations; lia).
    set (ym := yr + m / 12) in *. clearbody ym.
    assert (-700000 <= DayFromYear ym <= 3000000)
      by (unfold DayFromYear; Z.div_mod_to_equations; lia).
    lia. }
  replace (maxTime <? Z.abs (UTC (fixedZone off) (MakeDate (MakeDay yr m d) (MakeTime 0 0 0 0))))
    with false; [ reflexivity | ].
  symmetry. apply Z.ltb_ge.
  unfold UTC, fixedZone, MakeDate, MakeTime, maxTime, msPerDay in *. cbn [LocalTZA]. lia.
Qed.

Lemma disambiguated_valid (h : Host) (off : Z) (a b y : string) :
  fixedOffsetHost h off ->
  digitGroup 1 2 a -> digitGroup 1 2 b -> digitGroup 4 4 y ->
  isInvalid (disambiguated (tz h) (valueOf a) (valueOf b) (valueOf y)) = false.
Proof.
  intros [Hz Hoff] Ha Hb Hy. rewrite Hz.
  pose proof (valueOf_bounds 1 2 a Ha) as Ba.
  pose proof (valueOf_bounds 1 2 b Hb) as Bb.
  pose proof (valueOf_bounds 4 4 y Hy) as By.
  change (10 ^ Z.of_nat 2) with 100 in *. change (10 ^ Z.of_nat 4) with 10000 in *.
  unfold disambiguated.
  destruct (12 <? valueOf a); apply newDate_small_valid; assumption || lia.
Qed.

(** C5, as the code has it.  [parseDate] returns null, and never throws, for
    every value that is neither a Date, a number nor a string, for every
    falsy value, and for every text that the engine's parser rejects and
    that none of the three patterns matches.  A year-last text is never
    rejected for its month and day numbers: in a zone with a fixed offset,
    when the engine's parser rejects it, [parseDate] returns the date the
    Date constructor builds, numbers outside the calendar carried over. *)
Theorem parseDate_unparseable :
  forall (h : Host),
    (forall v, otherShape v \/ truthy v = false -> ExcelParser.parseDate h v = None)
    /\
    (forall s,
        isInvalid (dateParse h (trim s)) = true ->
        (forall p, ExcelParser.regexMatch p (trim s) = None) ->
        ExcelParser.parseDate h (VString s) = None)
    /\
    (forall off hyphen a b y,
        fixedOffsetHost h off ->
        digitGroup 1 2 a -> digitGroup 1 2 b -> digitGroup 4 4 y ->
        isInvalid (dateParse h (yearLastText hyphen a b y)) = true ->
        ExcelParser.parseDate h (VString (yearLastText hyphen a b y))
        = Some (disambiguated (tz h) (valueOf a) (valueOf b) (valueOf y))).
Proof.
  intros h. split; [ | split ].
  - intros v [Hv | Hv].
    + destruct v; cbn in Hv; try contradiction; unfold ExcelParser.parseDate;
        destruct (negb _); reflexivity.
    + unfold ExcelParser.parseDate. rewrite Hv. reflexivity.
  - intros s Hn Hp. unfold ExcelParser.parseDate.
    destruct (negb (truthy (VString s))); [ reflexivity | ].
    cbv zeta. rewrite Hn. cbn [negb].
    unfold ExcelParser.datePatterns. cbn [ExcelParser.tryPatterns].
    rewrite !Hp. reflexivity.
  - intros off hyphen a b y Hh Ha Hb Hy Hn.
    rewrite (parseDate_yearLast h hyphen a b y Ha Hb Hy Hn). cbv zeta.
    rewrite (disambiguated_valid h off a b y Hh Ha Hb Hy). reflexivity.
Qed.

Lemma parseDate_unparseable_witness :
  let h := Demo.host Demo.alwaysDown in
  ExcelParser.parseDate h VObject = None
  /\ ExcelParser.parseDate h (VString "abc/def/ghij") = None
  /\ ExcelParser.parseDate h (VString "31/12/1999")
     = Some (newDate utcZone (Some 1999) (Some 11) (Some 31)).
Proof.
  cbv zeta.
  destruct (parseDate_unparseable (Demo.host Demo.alwaysDown)) as (H1 & H2 & H3).
  split; [ | split ].
  - apply H1. left. exact I.
  - apply H2; [ reflexivity | intros p; destruct p; reflexivity ].
  - apply (H3 0 false "31"%string "12"%string "1999"%string).
    + split; [ reflexivity | unfold msPerDay; cbn; lia ].
    + split; [ reflexivity | cbn; lia ].
    + split; [ reflexivity | cbn; lia ].
    + split; [ reflexivity | cbn; lia ].
    + reflexivity.
Defined.

(** The claim fails on a text that names no calendar day: "02/30/2000" is
    not rejected, the overflow is carried into March (1 March 2000). *)
Lemma parseDate_30_february :
  let h := Demo.host Demo.alwaysDown in
  option_map (localYMD utcZone) (ExcelParser.parseDate h (VString "02/30/2000"))
  = Some (Some (2000, 2, 1)).
Proof. vm_compute. reflexivity. Qed.

(** Whatever the engine's own parser makes of it, "02/30/2000" is never
    rejected in a zone with a fixed offset. *)
Lemma parseDate_30_february_any_engine (h : Host) (off : Z) :
  fixedOffsetHost h off ->
  exists d, ExcelParser.parseDate h (VString "02/30/2000") = Some d /\ isInvalid d = false.
Proof.
  intros Hh.
  destruct (isInvalid (dateParse h "02/30/2000")) eqn:Hn.
  - assert (Ha : digitGroup 1 2 "02") by (split; [ reflexivity | cbn; lia ]).
    assert (Hb : digitGroup 1 2 "30") by (split; [ reflexivity | cbn; lia ]).
    assert (Hy : digitGroup 4 4 "2000") by (split; [ reflexivity | cbn; lia ]).
    pose proof (parseDate_yearLast h false "02" "30" "2000" Ha Hb Hy Hn) as E.
    cbv zeta in E.
    pose proof (disambiguated_valid h off "02" "30" "2000" Hh Ha Hb Hy) as V.
    rewrite V in E. eexists. split; [ exact E | exact V ].
  - exists (dateParse h "02/30/2000"). split; [ | exact Hn ].
    unfold ExcelParser.parseDate. cbn [truthy is_empty negb]. cbv zeta.
    change (trim "02/30/2000") with "02/30/2000"%string. rewrite Hn. reflexivity.
Qed.

(* ================================================================== *)
(** ** ExcelParser: serial numbers *)
(* ================================================================== *)


Lemma Qred_inject_Z (z : Z) : Qred (inject_Z z) = inject_Z z.
Proof.
  unfold Qred, inject_Z.
  generalize (Z.ggcd_gcd z 1), (Z.ggcd_correct_divisors z 1).
  destruct (Z.ggcd z 1) as [g [a b]]. cbn [fst snd]. intros Hg [Ha Hb].
  rewrite Z.gcd_1_r in Hg. subst g.
  assert (Ea : a = z) by lia. assert (Eb : b = 1) by lia. rewrite Ea, Eb. reflexivity.
Qed.

Lemma nearestEven_whole (n : Z) : nearestEven n 1 = n.
Proof. unfold nearestEven. rewrite Z.div_1_r, Z.mod_1_r. reflexivity. Qed.

Lemma binade_whole (n : Z) : 0 < n -> binade n 1 = Z.log2 n.
Proof.
  intros H. unfold binade. change (Z.log2 1) with 0. rewrite Z.sub_0_r.
  pose proof (Z.log2_nonneg n) as N. destruct (Z.log2_spec n H) as [L _].
  cbv zeta. destruct (Z.leb_spec 0 (Z.log2 n)); [ | lia ].
  rewrite Z.mul_1_r. destruct (Z.leb_spec (2 ^ Z.log2 n) n); [ reflexivity | lia ].
Qed.

(** A whole number below 2^53 is a double: rounding leaves it as it is. *)
Lemma round64_whole (q : Q) (z : Z) :
  (q == inject_Z z)%Q -> Z.abs z < 2 ^ 53 ->
  exists q', round64 q = Fin q' /\ (q' == inject_Z z)%Q.
Proof.
  intros E B. unfold round64.
  rewrite (Qred_complete _ _ E), Qred_inject_Z. cbn [Qnum Qden inject_Z].
  destruct (Z.eqb_spec (Z.abs z) 0) as [Z0 | NZ].
  - exists 0%Q. split; [ reflexivity | ].
    assert (z = 0) by lia. subst z. reflexivity.
  - assert (P : 0 < Z.abs z) by lia.
    cbv zeta. rewrite (binade_whole _ P).
    pose proof (Z.log2_nonneg (Z.abs z)) as N.
    assert (L : Z.log2 (Z.abs z) < 53) by (apply Z.log2_lt_pow2; assumption).
    replace (Z.max (Z.log2 (Z.abs z) - 52) (-1074)) with (Z.log2 (Z.abs z) - 52) by lia.
    set (e := Z.log2 (Z.abs z) - 52) in *.
    assert (S : (if 0 <? z then Z.abs z else - Z.abs z) = z)
      by (destruct (Z.ltb_spec 0 z); lia).
    destruct (Z.ltb_spec 971 e); [ lia | ].
    destruct (Z.eqb_spec e 971); [ lia | ].
    cbn [orb andb].
    destruct (Z.leb_spec 0 e) as [He | He].
    + assert (e = 0) by lia. replace e with 0 by lia.
      change (1 * 2 ^ 0) with 1. change (2 ^ 0) with 1. rewrite nearestEven_whole.
      eexists. split; [ reflexivity | ]. rewrite S, Z.mul_1_r. reflexivity.
    + rewrite nearestEven_whole.
      assert (Pw : 0 < 2 ^ (- e)) by (apply Z.pow_pos_nonneg; lia).
      eexists. split; [ reflexivity | ].
      unfold Qeq. cbn [Qnum Qden inject_Z]. rewrite Z2Pos.id by exact Pw.
      destruct (Z.ltb_spec 0 z); lia.
Qed.

Lemma Qtrunc_comp (q q' : Q) : (q == q')%Q -> Qtrunc q = Qtrunc q'.
Proof.
  intros E. unfold Qtrunc.
  rewrite (Qfloor_comp _ _ E), (Qceiling_comp _ _ E).
  destruct (Qle_bool 0 q) eqn:A, (Qle_bool 0 q') eqn:A'; try reflexivity.
  - apply Qle_bool_iff in A. rewrite E in A. apply Qle_bool_iff in A. congruence.
  - apply Qle_bool_iff in A'. rewrite <- E in A'. apply Qle_bool_iff in A'. congruence.
Qed.

Lemma Qle_bool_comp (a a' b b' : Q) :
  (a == a')%Q -> (b == b')%Q -> Qle_bool a b = Qle_bool a' b'.
Proof.
  intros Ea Eb.
  destruct (Qle_bool a b) eqn:A, (Qle_bool a' b') eqn:A'; try reflexivity.
  - apply Qle_bool_iff in A. rewrite Ea, Eb in A. apply Qle_bool_iff in A. congruence.
  - apply Qle_bool_iff in A'. rewrite <- Ea, <- Eb in A'. apply Qle_bool_iff in A'. congruence.
Qed.

Lemma newDateOfNumber_whole (q : Q) (t : Z) :
  (q == inject_Z t)%Q -> Z.abs t <= maxTime ->
  newDateOfNumber (Fin q) = mkDate (Some t).
Proof.
  intros E B. unfold newDateOfNumber.
  rewrite (Qle_bool_comp _ (inject_Z (- maxTime)) _ (inject_Z t) (Qeq_refl _) E).
  rewrite (Qle_bool_comp _ (inject_Z t) _ (inject_Z maxTime) E (Qeq_refl _)).
  replace (Qle_bool (inject_Z (- maxTime)) (inject_Z t)) with true
    by (symmetry; apply Qle_bool_iff; rewrite <- Zle_Qle; lia).
  replace (Qle_bool (inject_Z t) (inject_Z maxTime)) with true
    by (symmetry; apply Qle_bool_iff; rewrite <- Zle_Qle; lia).
  cbn [andb]. rewrite (Qtrunc_comp _ _ E).
  unfold Qtrunc. rewrite Qfloor_Z, Qceiling_Z. destruct (Qle_bool 0 (inject_Z t)); reflexivity.
Qed.

(** The sum [t + serial * msPerDay] of [excelSerialToDate], when the
    product is a whole number [ms] of milliseconds: no rounding occurs. *)
Lemma serial_sum_whole (t ms : Z) (q : Q) :
  wholeMs q ms -> Z.abs ms < 2 ^ 53 -> Z.abs (t + ms) < 2 ^ 53 ->
  exists q', num_add (Fin (inject_Z t)) (num_mul_pos (Fin q) (inject_Z msPerDay)) = Fin q'
             /\ (q' == inject_Z (t + ms))%Q.
Proof.
  intros W B1 B2. cbn [num_mul_pos].
  destruct (round64_whole _ ms W B1) as (q1 & -> & E1). cbn [num_add].
  apply round64_whole; [ | exact B2 ].
  rewrite E1, <- inject_Z_plus. reflexivity.
Qed.

Lemma excelEpoch_date (h : Host) :
  Z.abs (epochOffset h) <= msPerDay ->
  newDate (tz h) (Some 1899) (Some 11) (Some 30)
  = mkDate (Some (excelEpochLocal - epochOffset h)).
Proof.
  intros Hoff. unfold newDate. cbn [Z.leb andb].
  change ((0 <=? 1899) && (1899 <=? 99)) with false. cbv iota.
  fold excelEpochLocal. unfold UTC. fold (epochOffset h).
  unfold TimeClip.
  replace (maxTime <? Z.abs (excelEpochLocal - epochOffset h)) with false; [ reflexivity | ].
  symmetry. apply Z.ltb_ge.
  change excelEpochLocal with (-2209161600000).
  unfold maxTime, msPerDay in *. lia.
Qed.

(** A serial that is a whole number of milliseconds: the Date made is the
    instant that far from the epoch of the zone, with no rounding. *)
Lemma parseDate_serial (h : Host) (q : Q) (ms : Z) :
  Z.abs (epochOffset h) <= msPerDay ->
  ~ (q == 0)%Q -> wholeMs q ms -> Z.abs ms <= 99000000 * msPerDay ->
  ExcelParser.parseDate h (VNumber (Fin q)) = Some (mkDate (Some (serialInstant h ms))).
Proof.
  intros Hoff Hq W B.
  unfold ExcelParser.parseDate. cbn [truthy num_truthy].
  replace (Qeq_bool q 0) with false
    by (symmetry; destruct (Qeq_bool q 0) eqn:E; [ apply Qeq_bool_eq in E; contradiction | reflexivity ]).
  cbn [negb]. unfold ExcelParser.excelSerialToDate. cbv zeta.
  rewrite (excelEpoch_date h Hoff).
  unfold getTime. cbn [timeValue].
  change (24 * 60 * 60 * 1000) with msPerDay.
  assert (R : Z.abs (excelEpochLocal - epochOffset h + ms) <= 8553600000000000 + 2300000000000).
  { change excelEpochLocal with (-2209161600000). unfold msPerDay in *. lia. }
  destruct (serial_sum_whole (excelEpochLocal - epochOffset h) ms q W) as (q' & -> & E).
  - unfold msPerDay in B. change (2 ^ 53) with 9007199254740992. lia.
  - change (2 ^ 53) with 9007199254740992. lia.
  - rewrite (newDateOfNumber_whole q' _ E) by (unfold maxTime; lia).
    reflexivity.
Qed.

Lemma whole_days (n : Z) : wholeMs (inject_Z n) (n * msPerDay).
Proof. unfold wholeMs. rewrite <- inject_Z_mult. reflexivity. Qed.

(** The calendar fields of a time value depend on its day only. *)
Lemma fields_by_day (x y : Z) :
  Day x = Day y ->
  YearFromTime x = YearFromTime y /\ MonthFromTime x = MonthFromTime y
  /\ DateFromTime x = DateFromTime y.
Proof.
  intros E.
  assert (Y : YearFromTime x = YearFromTime y) by (unfold YearFromTime; rewrite E; reflexivity).
  assert (L : InLeapYear x = InLeapYear y) by (unfold InLeapYear; rewrite Y; reflexivity).
  assert (W : DayWithinYear x = DayWithinYear y)
    by (unfold DayWithinYear; rewrite E, Y; reflexivity).
  assert (M : MonthFromTime x = MonthFromTime y)
    by (unfold MonthFromTime; rewrite W, L; reflexivity).
  repeat split; try assumption.
  unfold DateFromTime. rewrite W, L, M. reflexivity.
Qed.

(** The five days from 22 to 26 February 1992. *)
Lemma february_1992 (x : Z) :
  8087 * msPerDay <= x < 8092 * msPerDay ->
  YearFromTime x = 1992 /\ MonthFromTime x = 1.
Proof.
  intros B.
  assert (D : 8087 <= Day x < 8092).
  { unfold Day, msPerDay in *. split.
    - apply Z.div_le_lower_bound; lia.
    - apply Z.div_lt_upper_bound; lia. }
  assert (C : Day x = 8087 \/ Day x = 8088 \/ Day x = 8089 \/ Day x = 8090 \/ Day x = 8091)
    by lia.
  destruct C as [C | [C | [C | [C | C]]]].
  - destruct (fields_by_day x (8087 * msPerDay) C) as (-> & -> & _). split; reflexivity.
  - destruct (fields_by_day x (8088 * msPerDay) C) as (-> & -> & _). split; reflexivity.
  - destruct (fields_by_day x (8089 * msPerDay) C) as (-> & -> & _). split; reflexivity.
  - destruct (fields_by_day x (8090 * msPerDay) C) as (-> & -> & _). split; reflexivity.
  - destruct (fields_by_day x (8091 * msPerDay) C) as (-> & -> & _). split; reflexivity.
Qed.

(** C6, as the code has it.  A numeric cell value that is neither zero nor
    NaN is taken as a number of days from local midnight of 30 December
    1899 (day 0) in the zone of the host.  When that number of days is a
    whole number of milliseconds (every whole value, and fractions such as
    a half or a quarter), the result is the instant exactly that far from
    the epoch: the fractional part is kept as time of day, not dropped.  A
    whole value n gives local midnight of the n-th day after 30 December
    1899 when the zone has the same offset at both instants.  The value
    33658 gives a day of February 1992 in every zone, and 24 February 1992
    when the offsets agree. *)
Theorem parseDate_serial_number :
  forall (h : Host),
    Z.abs (epochOffset h) <= msPerDay ->
    (forall (q : Q) (ms : Z),
        ~ (q == 0)%Q -> wholeMs q ms ->
        (inject_Z (-99000000) <= q)%Q -> (q <= inject_Z 99000000)%Q ->
        ExcelParser.parseDate h (VNumber (Fin q)) = Some (mkDate (Some (serialInstant h ms))))
    /\
    (forall n : Z,
        n <> 0 -> -99000000 <= n <= 99000000 ->
        let t := serialInstant h (n * msPerDay) in
        ExcelParser.parseDate h (VNumber (Fin (inject_Z n))) = Some (mkDate (Some t))
        /\ (LocalTZA (tz h) t true = epochOffset h ->
            LocalTime (tz h) t = MakeDate (MakeDay 1899 11 30 + n) (MakeTime 0 0 0 0)))
    /\
    (let t := serialInstant h (33658 * msPerDay) in
     let date := mkDate (Some t) in
     ExcelParser.parseDate h (VNumber (Fin (inject_Z 33658))) = Some date
     /\ (Z.abs (LocalTZA (tz h) t true) <= msPerDay ->
         getFullYear (tz h) date = Some 1992 /\ getMonth (tz h) date = Some 1)
     /\ (LocalTZA (tz h) t true = epochOffset h ->
         localYMD (tz h) date = Some (1992, 1, 24))).
Proof.
  intros h Hoff.
  assert (W : forall n : Z,
             n <> 0 -> -99000000 <= n <= 99000000 ->
             ExcelParser.parseDate h (VNumber (Fin (inject_Z n)))
             = Some (mkDate (Some (serialInstant h (n * msPerDay))))).
  { intros n Hn Hr. apply (parseDate_serial h (inject_Z n) (n * msPerDay) Hoff).
    - intros E. apply Hn. unfold Qeq, inject_Z in E. cbn in E. lia.
    - apply whole_days.
    - unfold msPerDay. lia. }
  split; [ | split ].
  - intros q ms Hq Hw Hlo Hhi. apply (parseDate_serial h q ms Hoff Hq Hw).
    unfold wholeMs in Hw.
    assert (B1 : (inject_Z (-99000000 * msPerDay) <= inject_Z ms)%Q).
    { rewrite <- Hw, inject_Z_mult. apply Qmult_le_compat_r; [ exact Hlo | ].
      rewrite <- (Zle_Qle 0). unfold msPerDay. lia. }
    assert (B2 : (inject_Z ms <= inject_Z (99000000 * msPerDay))%Q).
    { rewrite <- Hw, inject_Z_mult. apply Qmult_le_compat_r; [ exact Hhi | ].
      rewrite <- (Zle_Qle 0). unfold msPerDay. lia. }
    rewrite <- Zle_Qle in B1, B2. lia.
  - intros n Hn Hr t. split; [ exact (W n Hn Hr) | ].
    intros E. unfold LocalTime. rewrite E. unfold t, serialInstant.
    unfold excelEpochLocal, MakeDate, MakeTime. lia.
  - cbv zeta. split; [ exact (W 33658 ltac:(lia) ltac:(lia)) | split ].
    + intros B. unfold getFullYear, getMonth. cbn [timeValue option_map].
      set (x := LocalTime (tz h) (serialInstant h (33658 * msPerDay))).
      assert (R : 8087 * msPerDay <= x < 8092 * msPerDay).
      { unfold x, LocalTime.
        set (o2 := LocalTZA (tz h) (serialInstant h (33658 * msPerDay)) true) in *.
        clearbody o2. unfold serialInstant. change excelEpochLocal with (-2209161600000).
        unfold msPerDay in *. lia. }
      destruct (february_1992 x R) as [-> ->]. split; reflexivity.
    + intros E. unfold localYMD, getFullYear, getMonth, getDate. cbn [timeValue option_map].
      unfold LocalTime. rewrite E. unfold serialInstant.
      replace (excelEpochLocal - epochOffset h + 33658 * msPerDay + epochOffset h)
        with 698889600000
        by (change excelEpochLocal with (-2209161600000); unfold msPerDay; lia).
      vm_compute. reflexivity.
Qed.

Lemma parseDate_serial_number_witness :
  let h := Demo.host Demo.alwaysDown in
  Z.abs (epochOffset h) <= msPerDay
  /\ option_map (localYMD (tz h)) (ExcelParser.parseDate h (VNumber (Fin (inject_Z 33658))))
     = Some (Some (1992, 1, 24))
  /\ option_map (fun d => (localYMD (tz h) d, getHours (tz h) d))
       (ExcelParser.parseDate h (VNumber (Fin (3 # 2))))
     = Some (Some (1899, 11, 31), Some 12).
Proof.
  cbv zeta.
  assert (Hh : Z.abs (epochOffset (Demo.host Demo.alwaysDown)) <= msPerDay)
    by (vm_compute; discriminate).
  split; [ exact Hh | ].
  destruct (parseDate_serial_number (Demo.host Demo.alwaysDown) Hh) as (P1 & _ & P3 & _ & P5).
  split.
  - rewrite P3. cbn [option_map]. rewrite (P5 eq_refl). reflexivity.
  - rewrite (P1 (3 # 2) 129600000); [ reflexivity | discriminate | reflexivity
                                     | discriminate | discriminate ].
Defined.

(** The claim fails: with day 0 at 30 December 1899, 33658 is
    24 February 1992 (month index 1), not a date in January; and the
    fractional part is not dropped, 1.5 gives noon of 31 December 1899. *)
Lemma parseDate_33658_is_february :
  let h := Demo.host Demo.alwaysDown in
  option_map (localYMD utcZone) (ExcelParser.parseDate h (VNumber (Fin (inject_Z 33658))))
  = Some (Some (1992, 1, 24))
  /\ localYMD utcZone (ExcelParser.excelSerialToDate h (Fin (inject_Z 0)))
     = Some (1899, 11, 30)
  /\ option_map (fun d => (localYMD utcZone d, getHours utcZone d))
       (ExcelParser.parseDate h (VNumber (Fin (3 # 2))))
     = Some (Some (1899, 11, 31), Some 12).
Proof. vm_compute. repeat split. Qed.

(* ================================================================== *)
(** ** The monad *)
(* ================================================================== *)

Lemma bind_ret_l {A B} (a : A) (f : A -> M B) (s : Sys) : bind (ret a) f s = f a s.
Proof. unfold bind, ret. destruct (f a s) as [[c s'] e]. reflexivity. Qed.

Lemma bind_assoc {A B C} (m : M A) (f : A -> M B) (g : B -> M C) (s : Sys) :
  bind (bind m f) g s = bind m (fun a => bind (f a) g) s.
Proof.
  unfold bind.
  destruct (m s) as [[[a | msg | ] s1] e1]; try reflexivity.
  destruct (f a s1) as [[[b | msg | ] s2] e2]; try reflexivity.
  destruct (g b s2) as [[c s3] e3]. rewrite app_assoc. reflexivity.
Qed.

Lemma bind_ext {A B} (m : M A) (f g : A -> M B) (s : Sys) :
  (forall a s', f a s' = g a s') -> bind m f s = bind m g s.
Proof.
  intros H. unfold bind. destruct (m s) as [[[a | msg | ] s1] e1]; try reflexivity.
  rewrite H. reflexivity.
Qed.

Lemma bind_log (hasLogger : bool) (level message : string) {B} (k : unit -> M B) (s : Sys) :
  bind (log hasLogger level message) k s =
  (result_of (k tt s), state_of (k tt s),
   ((if hasLogger then [EvLog level message] else []) ++ events_of (k tt s))%list).
Proof.
  unfold bind, log, emit, ret. destruct hasLogger; destruct (k tt s) as [[c s'] e]; reflexivity.
Qed.

(* ================================================================== *)
(** ** ExcelParser: rows *)
(* ================================================================== *)

Lemma isEmptyRow_iff (row : Row) : ExcelParser.isEmptyRow row = true <-> blankRow row.
Proof.
  unfold blankRow. destruct row as [[ | c [ | c' cells]] | ]; cbn.
  - split; auto.
  - destruct (truthy c) eqn:E; cbn; split; intros H; try discriminate; eauto.
    destruct H as [H | [H | (x & H & Hx)]]; try discriminate.
    inversion H; subst. congruence.
  - split; [ discriminate | ].
    intros [H | [H | (x & H & Hx)]]; discriminate.
  - split; auto.
Qed.

Lemma trimEnd_empty (s : string) : is_empty (trimEnd s) = all_space s.
Proof.
  destruct s as [ | c r]; [ reflexivity | ].
  cbn [trimEnd]. destruct (all_space (String c r)); reflexivity.
Qed.

Lemma all_space_trimStart (s : string) : all_space (trimStart s) = all_space s.
Proof.
  induction s as [ | c r IH]; [ reflexivity | ].
  cbn. destruct (is_space c) eqn:E; cbn; [ exact IH | rewrite E; reflexivity ].
Qed.

Lemma trim_empty (s : string) : is_empty (trim s) = all_space s.
Proof. unfold trim. rewrite trimEnd_empty. apply all_space_trimStart. Qed.

(** The no-break space is white space: [trim] strips it at both ends and a
    name made of it alone is no name. *)
Example trim_no_break_space :
  trim (nbsp ^^ " Ann Lee" ^^ nbsp ^^ nl) = "Ann Lee"%string
  /\ ExcelParser.validName (VString (nbsp ^^ nbsp)) = None
  /\ ExcelParser.validName (VString (nbsp ^^ "Ann")) = Some (nbsp ^^ "Ann").
Proof. repeat split. Qed.

Lemma validName_None_iff (cells : list Value) :
  ExcelParser.validName (ExcelParser.cell cells 0) = None <-> nameMissing (Some cells).
Proof.
  unfold nameMissing, ExcelParser.cell.
  destruct cells as [ | v cells]; cbn; [ tauto | ].
  destruct v; cbn; try tauto.
  rewrite trim_empty.
  destruct s as [ | c r]; cbn; [ tauto | ].
  destruct (is_space c && all_space r); split; intros; congruence.
Qed.

(** The loop continues after a prefix of the rows with the index and the
    variables it has reached. *)
Lemma parseRows_app (this : ExcelParserObj) (h : Host) (d1 d2 : list Row) :
  forall (i : Z) (st : ExcelParser.LoopState) (s : Sys),
    ExcelParser.parseRows this h (d1 ++ d2) i st s =
    bind (ExcelParser.parseRows this h d1 i st)
         (fun st1 => ExcelParser.parseRows this h d2 (i + Z.of_nat (List.length d1)) st1) s.
Proof.
  induction d1 as [ | row d1 IH]; intros i st s.
  - cbn [app ExcelParser.parseRows List.length]. rewrite bind_ret_l.
    replace (i + Z.of_nat 0) with i by lia. reflexivity.
  - cbn [app ExcelParser.parseRows List.length].
    replace (i + Z.of_nat (S (List.length d1))) with (i + 1 + Z.of_nat (List.length d1)) by lia.
    destruct (ExcelParser.isEmptyRow row); [ apply IH | ].
    destruct (ExcelParser.validName _) as [nm | ].
    + destruct (ExcelParser.parseDate h _) as [dob | ].
      * apply IH.
      * rewrite bind_assoc. apply bind_ext. intros _ s'. apply IH.
    + rewrite bind_assoc. apply bind_ext. intros _ s'. apply IH.
Qed.

(** C9, as the code has it.  In the loop of [parseFile], with [before] the
    rows above it, a row that is missing, has no cell, or has a single cell
    that is empty is passed over in silence: no diagnostic, and the count of
    skipped rows is unchanged.  Any other row whose first cell is not a text
    holding something other than white space, an empty first cell followed
    by other cells included, is skipped with the diagnostic
    "Row N: Missing or invalid name, skipping row" at level WARN, N being
    its 1-based position, and is counted as skipped. *)
Theorem parseRows_blank_and_nameless_rows :
  forall (this : ExcelParserObj) (h : Host) (before after : list Row) (row : Row)
         (st : ExcelParser.LoopState) (s : Sys),
    let n := Z.of_nat (List.length before) in
    let whole := ExcelParser.parseRows this h (before ++ row :: after) 0 st s in
    (blankRow row ->
     whole = bind (ExcelParser.parseRows this h before 0 st)
                  (fun st1 => ExcelParser.parseRows this h after (n + 1) st1) s)
    /\
    (~ blankRow row -> nameMissing row ->
     whole = bind (ExcelParser.parseRows this h before 0 st)
                  (fun st1 =>
                     (if ep_logger this then emit (missingNameWarning (n + 1)) else ret tt) ;;
                     ExcelParser.parseRows this h after (n + 1) (countSkipped st1)) s).
Proof.
  intros this h before after row st s n whole. unfold whole.
  rewrite parseRows_app. cbn [Z.add]. fold n. split.
  - intros Hb. apply bind_ext. intros st1 s'.
    cbn [ExcelParser.parseRows]. apply isEmptyRow_iff in Hb. rewrite Hb. reflexivity.
  - intros Hnb Hn. apply bind_ext. intros st1 s'.
    cbn [ExcelParser.parseRows].
    destruct (ExcelParser.isEmptyRow row) eqn:E; [ apply isEmptyRow_iff in E; contradiction | ].
    assert (Hv : ExcelParser.validName
                   (ExcelParser.cell match row with Some c => c | None => [] end 0) = None).
    { destruct row as [cells | ]; [ apply validName_None_iff; exact Hn | reflexivity ]. }
    rewrite Hv. reflexivity.
Qed.

Lemma parseRows_blank_and_nameless_rows_witness :
  let h := Demo.host Demo.alwaysDown in
  let this := {| ep_logger := true |} in
  let st := {| ExcelParser.parsed := []; ExcelParser.validRows := 0;
               ExcelParser.skippedRows := 0 |} in
  let before := [Some [VString "John Doe"; VString "02/29/2000"]] in
  let row := Some [VUndefined; VString "01/15/1990"] in
  let spaces := Some [VString (nbsp ^^ " " ^^ nbsp); VString "01/15/1990"] in
  ((~ blankRow row /\ nameMissing row) /\
   ExcelParser.parseRows this h (before ++ [row]) 0 st (Demo.start true)
   = bind (ExcelParser.parseRows this h before 0 st)
          (fun st1 =>
             (if ep_logger this then emit (missingNameWarning 2) else ret tt) ;;
             ExcelParser.parseRows this h [] 2 (countSkipped st1)) (Demo.start true))
  /\
  ((~ blankRow spaces /\ nameMissing spaces) /\
   ExcelParser.parseRows this h (before ++ [spaces]) 0 st (Demo.start true)
   = bind (ExcelParser.parseRows this h before 0 st)
          (fun st1 =>
             (if ep_logger this then emit (missingNameWarning 2) else ret tt) ;;
             ExcelParser.parseRows this h [] 2 (countSkipped st1)) (Demo.start true)).
Proof.
  cbv zeta.
  assert (Hnb : ~ blankRow (Some [VUndefined; VString "01/15/1990"])).
  { intros [H | [H | (c & H & _)]]; discriminate. }
  assert (Hsp : ~ blankRow (Some [VString (nbsp ^^ " " ^^ nbsp); VString "01/15/1990"])).
  { intros [H | [H | (c & H & _)]]; discriminate. }
  split.
  - split; [ split; [ exact Hnb | exact I ] | ].
    exact (proj2 (parseRows_blank_and_nameless_rows {| ep_logger := true |}
                    (Demo.host Demo.alwaysDown)
                    [Some [VString "John Doe"; VString "02/29/2000"]] []
                    (Some [VUndefined; VString "01/15/1990"])
                    {| ExcelParser.parsed := []; ExcelParser.validRows := 0;
                       ExcelParser.skippedRows := 0 |}
                    (Demo.start true)) Hnb I).
  - split; [ split; [ exact Hsp | reflexivity ] | ].
    exact (proj2 (parseRows_blank_and_nameless_rows {| ep_logger := true |}
                    (Demo.host Demo.alwaysDown)
                    [Some [VString "John Doe"; VString "02/29/2000"]] []
                    (Some [VString (nbsp ^^ " " ^^ nbsp); VString "01/15/1990"])
                    {| ExcelParser.parsed := []; ExcelParser.validRows := 0;
                       ExcelParser.skippedRows := 0 |}
                    (Demo.start true)) Hsp eq_refl).
Defined.

(** The claim fails on a row whose first cell is empty while its second is
    not: the row is not passed over in silence, it is reported with the
    missing-name diagnostic and counted as skipped.  A row without cells in
    the same sheet leaves no trace. *)
Lemma parseFile_empty_first_cell_reported :
  let h := Demo.hostOf [Some [VUndefined; VString "01/15/1990"]; Some []] Demo.alwaysDown in
  let run := ExcelParser.parseFile {| ep_logger := true |} h "./data/associates.xlsx"
               (Demo.start true) in
  result_of run = Normal []
  /\ events_of run =
     [EvLog "INFO" "Reading Excel file: ./data/associates.xlsx";
      EvLog "INFO" "Processing worksheet: Sheet1";
      EvLog "WARN" "Row 1: Missing or invalid name, skipping row";
      EvLog "INFO" "Parsing complete: 0 valid associates, 1 rows skipped"].
Proof. vm_compute. split; reflexivity. Qed.

(** The whole demonstration sheet: header row, two well-formed rows, a row
    without cells and a row without a name. *)
Example parseFile_demo_sheet :
  let h := Demo.host Demo.alwaysDown in
  let run := ExcelParser.parseFile {| ep_logger := true |} h "./data/associates.xlsx"
               (Demo.start true) in
  option_map (map (fun a => (name a, rowNumber a)))
    (match result_of run with Normal l => Some l | _ => None end)
  = Some [("John Doe"%string, 2); ("Jane Smith"%string, 5)]
  /\ filter (fun e => match e with EvLog l _ => String.eqb l "WARN" | _ => false end)
       (events_of run)
     = [EvLog "WARN" ("Row 1: Invalid or missing date of birth for " ^^ dquote ^^ "Name"
                      ^^ dquote ^^ ", skipping row");
        EvLog "WARN" "Row 4: Missing or invalid name, skipping row"].
Proof. vm_compute. split; reflexivity. Qed.

(* ================================================================== *)
(** ** Rules for runs *)
(* ================================================================== *)

Lemma wp_run {A} (m : M A) (s : Sys) c s' e (Q : Completion A -> Sys -> list Event -> Prop) :
  m s = (c, s', e) -> Q c s' e -> wp m s Q.
Proof. intros E H. unfold wp. rewrite E. exact H. Qed.

Lemma wp_bind {A B} (m : M A) (f : A -> M B) (s : Sys) Q :
  wp m s (fun c s1 e1 =>
            match c with
            | Normal a => wp (f a) s1 (fun c2 s2 e2 => Q c2 s2 (e1 ++ e2)%list)
            | Throw x => Q (Throw x) s1 e1
            | OutOfFuel => Q OutOfFuel s1 e1
            end) ->
  wp (bind m f) s Q.
Proof.
  unfold wp, bind. destruct (m s) as [[[a | x | ] s1] e1]; cbn; auto.
  destruct (f a s1) as [[c2 s2] e2]. cbn. auto.
Qed.

Lemma wp_try_catch {A} (m : M A) (handler : string -> M A) (s : Sys) Q :
  wp m s (fun c s1 e1 =>
            match c with
            | Throw x => wp (handler x) s1 (fun c2 s2 e2 => Q c2 s2 (e1 ++ e2)%list)
            | _ => Q c s1 e1
            end) ->
  wp (try_catch m handler) s Q.
Proof.
  unfold wp, try_catch. destruct (m s) as [[[a | x | ] s1] e1]; cbn; auto.
  destruct (handler x s1) as [[c2 s2] e2]. cbn. auto.
Qed.

Lemma wp_ret {A} (a : A) (s : Sys) Q : Q (Normal a) s [] -> wp (ret a) s Q.
Proof. auto. Qed.

Lemma wp_throw {A} (x : string) (s : Sys) (Q : Completion A -> Sys -> list Event -> Prop) :
  Q (Throw x) s [] -> wp (throw x) s Q.
Proof. auto. Qed.

Lemma wp_liftS {A} (r : Settled A) (s : Sys) Q : Q (ofSettled r) s [] -> wp (liftS r) s Q.
Proof. auto. Qed.

Lemma wp_getService (s : Sys) Q : Q (Normal (service s)) s [] -> wp getService s Q.
Proof. auto. Qed.

Lemma wp_getLocals (s : Sys) Q : Q (Normal (frame s)) s [] -> wp getLocals s Q.
Proof. auto. Qed.

Lemma wp_setLocals (f : Locals -> Locals) (s : Sys) Q :
  Q (Normal tt) {| service := service s; frame := f (frame s);
                   posts := posts s; clockReads := clockReads s |} [] ->
  wp (setLocals f) s Q.
Proof. auto. Qed.

Lemma wp_setService (f : Service -> Service) (s : Sys) Q :
  Q (Normal tt) {| service := f (service s); frame := frame s;
                   posts := posts s; clockReads := clockReads s |} [] ->
  wp (setService f) s Q.
Proof. auto. Qed.

Lemma wp_log (level message : string) (s : Sys) Q :
  Q (Normal tt) s (if logger (service s) then [EvLog level message] else []) ->
  wp (BirthdayCheckService.log level message) s Q.
Proof.
  unfold wp, BirthdayCheckService.log, bind, getService, log, emit, ret.
  destruct (logger (service s)); auto.
Qed.

Lemma wp_pushError (errorMsg : string) (s : Sys) Q :
  Q (Normal tt)
    {| service := service s;
       frame := {| errors := (errors (frame s) ++ [errorMsg])%list;
                   associates := associates (frame s);
                   birthdaysFound := birthdaysFound (frame s);
                   notificationSent := notificationSent (frame s) |};
       posts := posts s; clockReads := clockReads s |} [] ->
  wp (BirthdayCheckService.pushError errorMsg) s Q.
Proof. auto. Qed.

Lemma wp_mono {A} (m : M A) (s : Sys) (Q Q' : Completion A -> Sys -> list Event -> Prop) :
  wp m s Q -> (forall c s' e, Q c s' e -> Q' c s' e) -> wp m s Q'.
Proof. unfold wp. auto. Qed.

(** One step of symbolic execution. *)
Ltac wp_step :=
  lazymatch goal with
  | |- wp (bind _ _) _ _ => apply wp_bind
  | |- wp (try_catch _ _) _ _ => apply wp_try_catch
  | |- wp (ret _) _ _ => apply wp_ret
  | |- wp (throw _) _ _ => apply wp_throw
  | |- wp (liftS _) _ _ => apply wp_liftS
  | |- wp getService _ _ => apply wp_getService
  | |- wp getLocals _ _ => apply wp_getLocals
  | |- wp (setLocals _) _ _ => apply wp_setLocals
  | |- wp (setService _) _ _ => apply wp_setService
  | |- wp (BirthdayCheckService.log _ _) _ _ => apply wp_log
  | |- wp (BirthdayCheckService.pushError _) _ _ => apply wp_pushError
  end; cbv beta iota.

Ltac wp_steps := repeat wp_step.

Lemma log_events_are_logs (b : bool) (level message : string) :
  forallb isLog (if b then [EvLog level message] else []) = true.
Proof. destruct b; reflexivity. Qed.

Lemma isLog_noSend (l : list Event) : forallb isLog l = true -> forallb noSend l = true.
Proof.
  induction l as [ | e l IH]; [ reflexivity | ].
  cbn. intros H. apply andb_true_iff in H. destruct H as [He Hl].
  rewrite (IH Hl). destruct e; try discriminate. reflexivity.
Qed.

(* ================================================================== *)
(** ** ExcelParser.parseFile reads no state *)
(* ================================================================== *)

Lemma stateless_ret {A} (a : A) : stateless (ret a).
Proof. exists (Normal a), []. repeat split. discriminate. Qed.

Lemma stateless_throw {A} (x : string) : stateless (@throw A x).
Proof. exists (Throw x), []. repeat split. discriminate. Qed.

Lemma stateless_liftS {A} (r : Settled A) : stateless (liftS r).
Proof. exists (ofSettled r), []. repeat split. destruct r; discriminate. Qed.

Lemma stateless_log (b : bool) (level message : string) : stateless (log b level message).
Proof.
  exists (Normal tt), (if b then [EvLog level message] else []).
  split; [ | split ].
  - intros s. destruct b; reflexivity.
  - discriminate.
  - apply log_events_are_logs.
Qed.

Lemma stateless_bind {A B} (m : M A) (f : A -> M B) :
  stateless m -> (forall a, stateless (f a)) -> stateless (bind m f).
Proof.
  intros (c & e & Hm & Hc & He) Hf.
  destruct c as [a | x | ]; [ | | contradiction ].
  - destruct (Hf a) as (c2 & e2 & Hfa & Hc2 & He2).
    exists c2, (e ++ e2)%list. split; [ | split ].
    + intros s. unfold bind. rewrite Hm, Hfa. reflexivity.
    + exact Hc2.
    + rewrite forallb_app, He, He2. reflexivity.
  - exists (Throw x), e. split; [ | split; [ discriminate | exact He ] ].
    intros s. unfold bind. rewrite Hm. reflexivity.
Qed.

Lemma stateless_try_catch {A} (m : M A) (handler : string -> M A) :
  stateless m -> (forall x, stateless (handler x)) -> stateless (try_catch m handler).
Proof.
  intros (c & e & Hm & Hc & He) Hh.
  destruct c as [a | x | ]; [ | | contradiction ].
  - exists (Normal a), e. split; [ | split; [ discriminate | exact He ] ].
    intros s. unfold try_catch. rewrite Hm. reflexivity.
  - destruct (Hh x) as (c2 & e2 & Hhx & Hc2 & He2).
    exists c2, (e ++ e2)%list. split; [ | split ].
    + intros s. unfold try_catch. rewrite Hm, Hhx. reflexivity.
    + exact Hc2.
    + rewrite forallb_app, He, He2. reflexivity.
Qed.

Ltac stateless_tac :=
  repeat first
    [ apply stateless_ret
    | apply stateless_throw
    | apply stateless_liftS
    | apply stateless_log
    | apply stateless_bind; [ | intros ? ]
    | apply stateless_try_catch; [ | intros ? ]
    | match goal with
      | |- stateless (if ?b then _ else _) => destruct b
      | |- stateless (match ?x with _ => _ end) => destruct x
      end ].

Lemma parseRows_is_stateless (this : ExcelParserObj) (h : Host) (data : list Row) :
  forall i st, stateless (ExcelParser.parseRows this h data i st).
Proof.
  induction data as [ | row data IH]; intros i st.
  - apply stateless_ret.
  - cbn [ExcelParser.parseRows].
    destruct (ExcelParser.isEmptyRow row); [ apply IH | ].
    destruct (ExcelParser.validName _) as [nm | ].
    + destruct (ExcelParser.parseDate h _) as [dob | ]; [ apply IH | ].
      apply stateless_bind; [ apply stateless_log | intros _; apply IH ].
    + apply stateless_bind; [ apply stateless_log | intros _; apply IH ].
Qed.

(** [parseFile] returns or throws, reads and writes no state, and its only
    effects are calls of the logger. *)
Lemma parseFile_stateless (this : ExcelParserObj) (h : Host) (filePath : string) :
  stateless (ExcelParser.parseFile this h filePath).
Proof.
  unfold ExcelParser.parseFile.
  apply stateless_try_catch; [ | intros x; stateless_tac ].
  apply stateless_bind; [ stateless_tac | intros _ ].
  apply stateless_bind; [ stateless_tac | intros _ ].
  apply stateless_bind; [ stateless_tac | intros _ ].
  apply stateless_bind; [ stateless_tac | intros workbook ].
  destruct (SheetNames workbook) as [ | firstSheetName rest]; [ stateless_tac | ].
  destruct (is_empty firstSheetName); [ stateless_tac | ].
  apply stateless_bind; [ stateless_tac | intros _ ].
  apply stateless_bind; [ apply parseRows_is_stateless | intros st ].
  stateless_tac.
Qed.

(* ================================================================== *)
(** ** SMSService: what a notification emits *)
(* ================================================================== *)

Lemma sendWithRetry_fuel_frame (fuel : nat) :
  forall this h message timestamp attempt s,
    let run := SMSService.sendWithRetry_fuel fuel this h message timestamp attempt s in
    service (state_of run) = service s
    /\ frame (state_of run) = frame s
    /\ clockReads (state_of run) = clockReads s
    /\ Forall (retryEvent this message) (events_of run).
Proof.
  induction fuel as [ | fuel IH]; intros this h message timestamp attempt s run; unfold run.
  - cbn. repeat split. constructor.
  - destruct (SMSService.sendSMS_try (axios_post h (posts s) (requestOf this message)))
      as [e | r] eqn:E.
    + destruct (Nat.leb SMSService.maxAttempts attempt) eqn:Hc.
      * rewrite (sendWithRetry_fuel_last fuel this h message timestamp attempt s e E Hc).
        cbn. repeat split. constructor; [ left; reflexivity | constructor ].
      * rewrite (sendWithRetry_fuel_fail fuel this h message timestamp attempt s e E Hc).
        cbv zeta. cbn [state_of events_of fst snd].
        destruct (IH this h message timestamp (attempt + 1)%nat (afterPost s))
          as (H1 & H2 & H3 & H4).
        repeat split; try assumption.
        constructor; [ left; reflexivity | ].
        constructor; [ right; eexists; reflexivity | exact H4 ].
    + rewrite (sendWithRetry_fuel_ok fuel this h message timestamp attempt s r E).
      cbn. repeat split. constructor; [ left; reflexivity | constructor ].
Qed.

Lemma retryEvents_no_invoke this message (l : list Event) (method : string) :
  Forall (retryEvent this message) l -> count (isInvoke method) l = 0%nat.
Proof.
  unfold count. induction 1 as [ | e l He Hl IH]; [ reflexivity | ].
  destruct He as [-> | (ms & ->)]; cbn; exact IH.
Qed.

Lemma retryEvents_carry this message (l : list Event) :
  Forall (retryEvent this message) l -> postsCarry message l.
Proof.
  intros HF req Hin. rewrite Forall_forall in HF.
  destruct (HF _ Hin) as [E | (ms & E)]; [ | discriminate ].
  inversion E. reflexivity.
Qed.

(** What one call of [sendBirthdayNotification] on a list does: it returns
    or throws, leaves the service and the local variables alone, records its
    call once, and every request it posts carries the message formatted from
    the list. *)
Lemma sendBirthdayNotification_spec (this : SMSServiceObj) (h : Host)
      (l : list Element) (s : Sys) :
  wp (SMSService.sendBirthdayNotification this h (Some l)) s
     (fun c s1 e =>
        c <> OutOfFuel
        /\ service s1 = service s /\ frame s1 = frame s
        /\ exists e', e = EvInvoke SMSService.sendBirthdayNotification_name :: e'
                      /\ count (isInvoke SMSService.sendBirthdayNotification_name) e' = 0%nat
                      /\ (forall req, In (EvHttpPost req) e' ->
                            SMSService.formatMessage (Some l) = Returned (req_message req))).
Proof.
  unfold wp, SMSService.sendBirthdayNotification, bind, emit, now.
  cbn [fst snd result_of state_of events_of].
  destruct l as [ | a l].
  - cbn. repeat split; try discriminate.
    exists []. repeat split. intros req [].
  - unfold liftS. cbn [fst snd]. 
    destruct (SMSService.formatMessage (Some (a :: l))) as [message | m] eqn:EF;
      cbn [ofSettled].
    + set (s1 := {| service := service s; frame := frame s; posts := posts s;
                    clockReads := S (clockReads s) |}).
      set (ts := mkDate (Some (clock h (clockReads s)))).
      pose proof (sendWithRetry_total this h message ts s1) as (r & n & H1 & _).
      pose proof (sendWithRetry_fuel_frame (S (SMSService.maxAttempts - 1)) this h message ts 1 s1)
        as (F1 & F2 & F3 & F4).
      fold (SMSService.sendWithRetry this h message ts 1 s1) in F1, F2, F3, F4.
      destruct (SMSService.sendWithRetry this h message ts 1 s1) as [[c s2] e2].
      cbn [fst snd result_of state_of events_of app] in *.
      subst c. repeat split; try discriminate; try assumption.
      exists e2. split; [ reflexivity | split ].
      * exact (retryEvents_no_invoke this message e2 _ F4).
      * intros req Hin. rewrite (retryEvents_carry this message e2 F4 req Hin). reflexivity.
    + cbn. repeat split; try discriminate.
      exists []. repeat split. intros req [].
Qed.

(* ================================================================== *)
(** ** BirthdayCheckService: the steps of the daily check *)
(* ================================================================== *)

Ltac logs :=
  repeat rewrite forallb_app;
  repeat rewrite log_events_are_logs;
  repeat match goal with H : forallb isLog _ = true |- _ => rewrite H end;
  reflexivity.

Lemma initialize_spec (h : Host) (s : Sys) :
  wp (BirthdayCheckService.initialize h) s
     (fun c s1 e =>
        c <> OutOfFuel /\ forallb isLog e = true
        /\ frame s1 = frame s /\ clockReads s1 = clockReads s).
Proof.
  unfold BirthdayCheckService.initialize. wp_steps.
  destruct (negb (Nat.eqb (List.length (validationErrors h)) 0)).
  - wp_steps. cbn [service logger frame clockReads].
    repeat split; try discriminate. logs.
  - wp_steps.
    destruct (SMSService.new _ _ _ _) as [sms | m]; cbn [ofSettled]; wp_steps;
      cbn [service logger frame clockReads]; repeat split; try discriminate; logs.
Qed.

Lemma sends_app (a b : list Event) : sends (a ++ b) = (sends a ++ sends b)%list.
Proof. apply filter_app. Qed.

Lemma sends_log (b : bool) (level message : string) :
  sends (if b then [EvLog level message] else []) = [].
Proof. destruct b; reflexivity. Qed.

Lemma sends_logs (l : list Event) : forallb isLog l = true -> sends l = [].
Proof.
  induction l as [ | e l IH]; [ reflexivity | ].
  cbn. intros H. apply andb_true_iff in H. destruct H as [He Hl].
  rewrite He. cbn. exact (IH Hl).
Qed.

Lemma sends_nil : sends [] = [].
Proof. reflexivity. Qed.

Lemma sends_invoke (method : string) (l : list Event) :
  sends (EvInvoke method :: l) = EvInvoke method :: sends l.
Proof. reflexivity. Qed.

Lemma count_sends (method : string) (l : list Event) :
  count (isInvoke method) (sends l) = count (isInvoke method) l.
Proof.
  unfold count, sends. induction l as [ | e l IH]; [ reflexivity | ].
  destruct e; cbn; try exact IH.
  destruct (String.eqb _ _); cbn; rewrite IH; reflexivity.
Qed.

Lemma noSend_sends (l : list Event) : forallb noSend (sends l) = forallb noSend l.
Proof.
  unfold sends. induction l as [ | e l IH]; [ reflexivity | ].
  destruct e; cbn; rewrite ?IH; reflexivity.
Qed.

Lemma In_post_sends (req : Request) (l : list Event) :
  In (EvHttpPost req) (sends l) <-> In (EvHttpPost req) l.
Proof.
  unfold sends. rewrite filter_In. cbn. tauto.
Qed.

(** [sendsFor] looks at the events other than logs only. *)
Lemma sendsFor_ext (found : list Element) (l l' : list Event) :
  sends l = sends l' -> sendsFor found l' -> sendsFor found l.
Proof.
  intros E (H1 & H2 & H3). unfold sendsFor.
  rewrite <- (count_sends _ l), <- (noSend_sends l), E, count_sends, noSend_sends.
  split; [ exact H1 | split; [ exact H2 | ] ].
  intros req Hin. apply H3. apply In_post_sends. rewrite <- E. apply In_post_sends. exact Hin.
Qed.

Lemma sendsFor_nil (found : list Element) : sendsFor found [].
Proof. split; [ cbn; lia | split; [ reflexivity | intros req [] ] ]. Qed.

Lemma sendsFor_quiet (found : list Element) (l : list Event) :
  sends l = [] -> sendsFor found l.
Proof. intros E. apply (sendsFor_ext found l []); [ exact E | apply sendsFor_nil ]. Qed.

Lemma sendsFor_call (found : list Element) (l e' : list Event) :
  found <> [] ->
  sends l = EvInvoke SMSService.sendBirthdayNotification_name :: sends e' ->
  count (isInvoke SMSService.sendBirthdayNotification_name) e' = 0%nat ->
  (forall req, In (EvHttpPost req) e' ->
     SMSService.formatMessage (Some found) = Returned (req_message req)) ->
  sendsFor found l.
Proof.
  intros Hne E Hc Hp.
  apply (sendsFor_ext found l (EvInvoke SMSService.sendBirthdayNotification_name :: e')).
  - rewrite E. reflexivity.
  - split; [ | split ].
    + unfold count in *. cbn. rewrite Hc. lia.
    + intros ->. contradiction.
    + intros req [Hin | Hin]; [ discriminate | exact (Hp req Hin) ].
Qed.

Ltac sends_simpl :=
  repeat first
    [ rewrite sends_app
    | rewrite sends_log
    | rewrite sends_invoke
    | rewrite sends_nil
    | rewrite app_nil_l
    | rewrite app_nil_r
    | match goal with H : forallb isLog ?l = true |- context [sends ?l] =>
        rewrite (sends_logs l H)
      end
    | match goal with H : sends ?l = _ |- context [sends ?l] => rewrite H end ].

Lemma logNames_spec (l : list Element) (s : Sys) :
  wp (BirthdayCheckService.logNames l) s
     (fun c s1 e => c <> OutOfFuel /\ forallb isLog e = true /\ s1 = s).
Proof.
  revert s. induction l as [ | [a | ] l IH]; intros s; cbn [BirthdayCheckService.logNames].
  - wp_steps. repeat split. discriminate.
  - wp_steps. eapply wp_mono; [ apply IH | ].
    intros c s' e (Hc & He & ->). repeat split; [ exact Hc | logs ].
  - wp_steps. repeat split. discriminate.
Qed.

Lemma findBirthdaysToday_run (h : Host) (l : list Element) (s : Sys) :
  DateMatcher.findBirthdaysToday h (Some l) s =
  (Normal (DateMatcher.findBirthdaysOnDate h (Some l)
             (VDate (mkDate (Some (clock h (clockReads s)))))),
   afterClock s, []).
Proof. reflexivity. Qed.

Lemma loadAssociates_spec (h : Host) (s : Sys) :
  wp (BirthdayCheckService.loadAssociates h) s
     (fun c s1 e =>
        forallb isLog e = true
        /\ service s1 = service s /\ clockReads s1 = clockReads s
        /\ birthdaysFound (frame s1) = birthdaysFound (frame s)
        /\ notificationSent (frame s1) = notificationSent (frame s)
        /\ exists ret, c = Normal ret
             /\ forall r, ret = Some r ->
                  BirthdayCheckService.res_birthdaysFound r = []
                  /\ BirthdayCheckService.res_notificationSent r = false).
Proof.
  unfold BirthdayCheckService.loadAssociates. wp_steps.
  destruct (excelParser (service s)) as [parser | ];
    [ destruct (config (service s)) as [cfg | ] | ].
  - wp_step.
    destruct (parseFile_stateless parser h (excelFilePath cfg)) as (c & e & E & Hc & He).
    eapply wp_run; [ apply E | ].
    destruct c as [loaded | m | ]; [ | | contradiction ]; wp_steps;
      cbn [service frame clockReads birthdaysFound notificationSent];
      (split; [ logs | ]); repeat split;
      eexists; (split; [ reflexivity | ]); intros r Hr; inversion Hr; subst; cbn; auto.
  - wp_steps. cbn [service frame clockReads birthdaysFound notificationSent].
    (split; [ logs | ]); repeat split.
    eexists; (split; [ reflexivity | ]); intros r Hr; inversion Hr; subst; cbn; auto.
  - wp_steps. cbn [service frame clockReads birthdaysFound notificationSent].
    (split; [ logs | ]); repeat split.
    eexists; (split; [ reflexivity | ]); intros r Hr; inversion Hr; subst; cbn; auto.
Qed.

Lemma matchBirthdays_spec (h : Host) (s : Sys) :
  wp (BirthdayCheckService.matchBirthdays h) s
     (fun c s1 e =>
        forallb isLog e = true
        /\ service s1 = service s
        /\ notificationSent (frame s1) = notificationSent (frame s)
        /\ exists ret, c = Normal ret
             /\ forall r, ret = Some r ->
                  BirthdayCheckService.res_birthdaysFound r = []
                  /\ BirthdayCheckService.res_notificationSent r = false).
Proof.
  unfold BirthdayCheckService.matchBirthdays. wp_steps.
  destruct (dateMatcher (service s)) as [ [] | ].
  - wp_step. eapply wp_run; [ apply findBirthdaysToday_run | ]. cbv beta iota. wp_steps.
    set (found := DateMatcher.findBirthdaysOnDate h _ _).
    destruct (0 <? BirthdayCheckService.len found).
    + wp_steps. eapply wp_mono; [ apply logNames_spec | ].
      intros c s' e (Hc & He & ->).
      destruct c as [ [] | m | ]; [ | | contradiction ]; wp_steps;
        cbn [service frame notificationSent];
        (split; [ logs | ]); repeat split;
        eexists; (split; [ reflexivity | ]); intros r Hr; inversion Hr; subst; cbn; auto.
    + wp_steps. cbn [service frame notificationSent].
      (split; [ logs | ]); repeat split.
      eexists; (split; [ reflexivity | ]); intros r Hr; inversion Hr.
  - wp_steps. cbn [service frame notificationSent].
    (split; [ logs | ]); repeat split.
    eexists; (split; [ reflexivity | ]); intros r Hr; inversion Hr; subst; cbn; auto.
Qed.

Lemma len_positive {A} (l : list A) : (0 <? BirthdayCheckService.len l) = true -> l <> [].
Proof. intros H ->. discriminate. Qed.

Lemma len_zero {A} (l : list A) : (0 <? BirthdayCheckService.len l) = false -> l = [].
Proof.
  destruct l; [ reflexivity | ]. unfold BirthdayCheckService.len. cbn [List.length].
  intros H. apply Z.ltb_ge in H. lia.
Qed.

(** Step 4 never throws; it keeps the matched list; it calls
    [sendBirthdayNotification] at most once, and not at all when the matched
    list is empty, in which case the state is left as it is. *)
Lemma sendNotification_spec (h : Host) (s : Sys) :
  wp (BirthdayCheckService.sendNotification h) s
     (fun c s1 e =>
        c = Normal tt
        /\ service s1 = service s
        /\ associates (frame s1) = associates (frame s)
        /\ birthdaysFound (frame s1) = birthdaysFound (frame s)
        /\ sendsFor (birthdaysFound (frame s)) e
        /\ (birthdaysFound (frame s) = [] -> s1 = s /\ e = [])).
Proof.
  unfold BirthdayCheckService.sendNotification. wp_steps.
  destruct (0 <? BirthdayCheckService.len (birthdaysFound (frame s))) eqn:Hpos.
  2:{ wp_steps. refine (conj _ (conj _ (conj _ (conj _ (conj _ _))))); try reflexivity.
      - apply sendsFor_nil.
      - intros _. split; reflexivity. }
  apply len_positive in Hpos.
  wp_steps.
  destruct (smsService (service s)) as [sms | ].
  2:{ wp_steps. cbn [service frame associates birthdaysFound].
      refine (conj _ (conj _ (conj _ (conj _ (conj _ _))))); try reflexivity; try contradiction.
      apply sendsFor_quiet. sends_simpl. reflexivity. }
  wp_step. eapply wp_mono; [ apply sendBirthdayNotification_spec | ].
  intros c s' e (Hc & Hs & Hf & e' & -> & Hcnt & Hcarry).
  assert (Done : forall s1 l,
             service s1 = service s ->
             associates (frame s1) = associates (frame s) ->
             birthdaysFound (frame s1) = birthdaysFound (frame s) ->
             sends l = EvInvoke SMSService.sendBirthdayNotification_name :: sends e' ->
             Normal tt = Normal tt
             /\ service s1 = service s
             /\ associates (frame s1) = associates (frame s)
             /\ birthdaysFound (frame s1) = birthdaysFound (frame s)
             /\ sendsFor (birthdaysFound (frame s)) l
             /\ (birthdaysFound (frame s) = [] -> s1 = s /\ l = [])).
  { intros s1 l H1 H2 H3 Hl.
    refine (conj _ (conj _ (conj _ (conj _ (conj _ _))))); try assumption; try reflexivity.
    - exact (sendsFor_call _ _ e' Hpos Hl Hcnt Hcarry).
    - intros E. contradiction. }
  destruct c as [smsResult | m | ]; [ | | contradiction ].
  - destruct (SMSService.success smsResult).
    + wp_steps. cbn [service frame associates birthdaysFound].
      rewrite Hs, Hf.
      destruct (config (service s)) as [cfg | ].
      2:{ wp_steps.
          apply Done; cbn [service frame associates birthdaysFound];
            rewrite ?Hs, ?Hf; try reflexivity; sends_simpl; reflexivity. }
      destruct (toISOString (SMSService.timestamp smsResult)) as [iso | ].
      2:{ wp_steps.
          apply Done; cbn [service frame associates birthdaysFound];
            rewrite ?Hs, ?Hf; try reflexivity; sends_simpl; reflexivity. }
      wp_steps.
      destruct (SMSService.truthy_str (SMSService.messageId smsResult)) as [id | ];
        wp_steps;
        (destruct (SMSService.attempts smsResult) as [n | ];
         [ destruct (Nat.ltb 1 n) | ]); wp_steps;
        apply Done; cbn [service frame associates birthdaysFound];
          rewrite ?Hs, ?Hf; try reflexivity; sends_simpl; reflexivity.
    + wp_steps.
      (destruct (SMSService.attempts smsResult) as [n | ];
       [ destruct (Nat.ltb 0 n) | ]); wp_steps;
        apply Done; cbn [service frame associates birthdaysFound];
          rewrite ?Hs, ?Hf; try reflexivity; sends_simpl; reflexivity.
  - wp_steps.
    apply Done; cbn [service frame associates birthdaysFound];
      rewrite ?Hs, ?Hf; try reflexivity; sends_simpl; reflexivity.
Qed.

(** Steps 2 to 5 of the try block, symbolically executed. *)
Ltac daily_rest Hbf Hns :=
  eapply wp_mono; [ apply loadAssociates_spec | ];
  let c := fresh "c" in
  let s2 := fresh "s2" in
  let e2 := fresh "e2" in
  let ret := fresh "ret" in
  let He2 := fresh "He2" in
  let Hs2 := fresh "Hs2" in
  let Hclk2 := fresh "Hclk2" in
  let Hbf2 := fresh "Hbf2" in
  let Hns2 := fresh "Hns2" in
  let Hret := fresh "Hret" in
  intros c s2 e2 (He2 & Hs2 & Hclk2 & Hbf2 & Hns2 & ret & -> & Hret);
  destruct ret as [r | ];
  [ wp_steps; destruct (Hret r eq_refl) as [R1 R2]; unfold dailyPost;
    split; [ apply sendsFor_quiet; sends_simpl; reflexivity | intros _; exact R2 ]
  | wp_steps;
    eapply wp_mono; [ apply matchBirthdays_spec | ];
    let c3 := fresh "c" in
    let s3 := fresh "s3" in
    let e3 := fresh "e3" in
    let ret3 := fresh "ret" in
    let He3 := fresh "He3" in
    let Hs3 := fresh "Hs3" in
    let Hns3 := fresh "Hns3" in
    let Hret3 := fresh "Hret3" in
    intros c3 s3 e3 (He3 & Hs3 & Hns3 & ret3 & -> & Hret3);
    destruct ret3 as [r | ];
    [ wp_steps; destruct (Hret3 r eq_refl) as [R1 R2]; unfold dailyPost;
      split; [ apply sendsFor_quiet; sends_simpl; reflexivity | intros _; exact R2 ]
    | wp_steps;
      eapply wp_mono; [ apply sendNotification_spec | ];
      let c4 := fresh "c" in
      let s4 := fresh "s4" in
      let e4 := fresh "e4" in
      let Hs4 := fresh "Hs4" in
      let Has4 := fresh "Has4" in
      let Hbf4 := fresh "Hbf4" in
      let Hsend := fresh "Hsend" in
      let Hempty := fresh "Hempty" in
      intros c4 s4 e4 (-> & Hs4 & Has4 & Hbf4 & Hsend & Hempty);
      wp_steps;
      destruct (0 <? BirthdayCheckService.len (errors (frame s4)));
      wp_steps; unfold dailyPost;
      cbn [BirthdayCheckService.res_birthdaysFound BirthdayCheckService.res_notificationSent];
      (split;
       [ rewrite Hbf4; apply (sendsFor_ext _ _ e4); [ sends_simpl; reflexivity | exact Hsend ]
       | let E := fresh "E" in
         intros E; rewrite Hbf4 in E; destruct (Hempty E) as [-> _]; congruence ]) ] ].

Lemma dailyCheck_spec (h : Host) (s : Sys) :
  birthdaysFound (frame s) = [] -> notificationSent (frame s) = false ->
  wp (BirthdayCheckService.dailyCheck h) s (dailyPost s).
Proof.
  intros Hbf Hns.
  unfold BirthdayCheckService.dailyCheck. wp_steps.
  destruct (config (service s)) as [cfg0 | ] eqn:Hcfg.
  - wp_steps. rewrite Hcfg. wp_steps. daily_rest Hbf Hns.
  - eapply wp_mono; [ apply initialize_spec | ].
    intros c s1 e1 (Hc & He1 & Hf1 & Hclk1).
    destruct c as [ [] | m | ]; [ | | contradiction ].
    + wp_steps.
      assert (Hbf1 : birthdaysFound (frame s1) = []) by (rewrite Hf1; exact Hbf).
      assert (Hns1 : notificationSent (frame s1) = false) by (rewrite Hf1; exact Hns).
      destruct (config (service s1)) as [cfg1 | ].
      * wp_steps. daily_rest Hbf1 Hns1.
      * wp_steps. unfold dailyPost. split; [ sends_simpl; reflexivity | exact Hf1 ].
    + unfold dailyPost. split; [ sends_simpl; reflexivity | exact Hf1 ].
Qed.

(** The whole method: it always returns a result; what it sends agrees with
    the matched list of the result. *)
Lemma performDailyCheck_spec (h : Host) (s : Sys) :
  wp (BirthdayCheckService.performDailyCheck h) s
     (fun c s1 e =>
        exists r, c = Normal r
          /\ sendsFor (BirthdayCheckService.res_birthdaysFound r) e
          /\ (BirthdayCheckService.res_birthdaysFound r = [] ->
              BirthdayCheckService.res_notificationSent r = false)).
Proof.
  unfold BirthdayCheckService.performDailyCheck. wp_steps.
  eapply wp_mono; [ apply dailyCheck_spec; reflexivity | ].
  intros c s1 e H. destruct c as [r | m | ]; [ | | contradiction ].
  - destruct H as [H1 H2]. exists r. split; [ reflexivity | split; assumption ].
  - destruct H as (H1 & H2). wp_steps.
    eexists. split; [ reflexivity | ].
    cbn [BirthdayCheckService.res_birthdaysFound BirthdayCheckService.res_notificationSent
         frame birthdaysFound notificationSent].
    rewrite H2. cbn [frame birthdaysFound notificationSent].
    split; [ apply sendsFor_quiet; sends_simpl; reflexivity | reflexivity ].
Qed.

Lemma noSend_counts (l : list Event) :
  forallb noSend l = true ->
  count (isInvoke SMSService.sendBirthdayNotification_name) l = 0%nat
  /\ count isHttpPost l = 0%nat.
Proof.
  unfold count. induction l as [ | e l IH]; [ split; reflexivity | ].
  cbn [forallb]. intros H. apply andb_true_iff in H. destruct H as [He Hl].
  destruct (IH Hl) as [I1 I2]. unfold noSend in He.
  apply andb_true_iff in He. destruct He as [N1 N2].
  apply negb_true_iff in N1. apply negb_true_iff in N2.
  cbn [filter]. rewrite N1, N2. split; assumption.
Qed.

(* ================================================================== *)
(** ** BirthdayCheckService: the claims on the whole run *)
(* ================================================================== *)

(** What the catch block of [performDailyCheck] returns when its try block
    throws. *)
Lemma performDailyCheck_catch (h : Host) (s s1 : Sys) (m : string) (e1 : list Event) :
  BirthdayCheckService.dailyCheck h (freshFrame s) = (Throw m, s1, e1) ->
  result_of (BirthdayCheckService.performDailyCheck h s)
  = Normal {| BirthdayCheckService.totalAssociatesChecked :=
                BirthdayCheckService.len (associates (frame s1));
              BirthdayCheckService.res_birthdaysFound := birthdaysFound (frame s1);
              BirthdayCheckService.res_notificationSent := notificationSent (frame s1);
              BirthdayCheckService.res_errors :=
                (errors (frame s1)
                 ++ ["Unexpected error during birthday check: " ^^ m])%list |}.
Proof.
  intros E. unfold BirthdayCheckService.performDailyCheck.
  unfold bind at 1. unfold setLocals at 1. fold (freshFrame s).
  unfold try_catch. rewrite E.
  unfold BirthdayCheckService.log, BirthdayCheckService.pushError, bind, getService,
    getLocals, setLocals, log, emit, ret.
  destruct (logger (service s1)); reflexivity.
Qed.

(** C1.  [performDailyCheck] never throws and never fails to return: from
    every state of the service and in every environment (invalid
    configuration, unreadable file, failing gateway, ...) it returns a
    result object with its four fields; and when its try block throws, the
    error is turned into the one entry of the error list of an otherwise
    empty result. *)
Theorem performDailyCheck_always_returns :
  forall (h : Host) (s : Sys),
    exists r s' evs,
      BirthdayCheckService.performDailyCheck h s = (Normal r, s', evs)
      /\ forall m,
           result_of (BirthdayCheckService.dailyCheck h (freshFrame s)) = Throw m ->
           r = {| BirthdayCheckService.totalAssociatesChecked := 0;
                  BirthdayCheckService.res_birthdaysFound := [];
                  BirthdayCheckService.res_notificationSent := false;
                  BirthdayCheckService.res_errors :=
                    ["Unexpected error during birthday check: " ^^ m] |}.
Proof.
  intros h s.
  pose proof (performDailyCheck_spec h s) as (r & Hr & _).
  destruct (BirthdayCheckService.performDailyCheck h s) as [[c s'] evs] eqn:E.
  cbn [result_of fst] in Hr. subst c.
  exists r, s', evs. split; [ reflexivity | ].
  intros m Hm.
  pose proof (dailyCheck_spec h (freshFrame s) eq_refl eq_refl) as HP.
  unfold wp in HP.
  destruct (BirthdayCheckService.dailyCheck h (freshFrame s)) as [[c1 s1] e1] eqn:E1.
  cbn [result_of state_of events_of fst snd] in *. subst c1.
  destruct HP as [_ Hf].
  pose proof (performDailyCheck_catch h s s1 m e1 E1) as HC.
  rewrite E in HC. cbn [result_of fst] in HC.
  rewrite Hf in HC. cbn in HC. inversion HC. reflexivity.
Qed.

(* ================================================================== *)
(** ** A run whose delivery fails *)
(* ================================================================== *)

Lemma logNames_allPresent (l : list Element) (s : Sys) :
  allPresent l ->
  wp (BirthdayCheckService.logNames l) s
     (fun c s1 e => c = Normal tt /\ s1 = s /\ forallb isLog e = true).
Proof.
  intros H. revert s. induction H as [ | x l Hx Hl IH]; intros s;
    cbn [BirthdayCheckService.logNames].
  - wp_steps. repeat split.
  - destruct x as [a | ]; [ | contradiction ].
    wp_steps. eapply wp_mono; [ apply IH | ].
    intros c s' e (-> & -> & He). repeat split. logs.
Qed.

Lemma appendNames_allPresent (l : list Element) :
  allPresent l -> forall message, exists text, SMSService.appendNames message l = Returned text.
Proof.
  induction 1 as [ | x l Hx Hl IH]; intros message; cbn [SMSService.appendNames].
  - eauto.
  - destruct x as [a | ]; [ apply IH | contradiction ].
Qed.

Lemma formatMessage_allPresent (l : list Element) :
  allPresent l -> exists message, SMSService.formatMessage (Some l) = Returned message.
Proof.
  intros H. unfold SMSService.formatMessage.
  destruct l as [ | x l]; [ eauto | ].
  destruct (appendNames_allPresent (x :: l) H ("Birthday Alert! Today's birthdays:" ^^ nl))
    as (text & ->).
  eauto.
Qed.

Lemma findBirthdaysOnDate_allPresent (h : Host) (l : list Associate) (date : Value) :
  allPresent (DateMatcher.findBirthdaysOnDate h (Some (map Some l)) date).
Proof.
  unfold DateMatcher.findBirthdaysOnDate, allPresent.
  destruct date; try constructor.
  destruct (isInvalid d); [ constructor | ].
  apply Forall_forall. intros x Hx. apply filter_In in Hx. destruct Hx as [Hx _].
  apply in_map_iff in Hx. destruct Hx as (a & <- & _). discriminate.
Qed.

Lemma always_fails_try (h : Host) (k : nat) (req : Request) :
  gatewayAlwaysFails h ->
  exists e, SMSService.sendSMS_try (axios_post h k req) = inl e
            /\ failureText (axios_post h k req) = SMSService.sendSMS_catch e.
Proof.
  intros H. specialize (H k req).
  destruct (classify (axios_post h k req)) as [c | ] eqn:E; [ | contradiction ].
  destruct (classify_failure _ _ E) as (e & He & _).
  exists e. split; [ exact He | ]. unfold failureText. rewrite He. reflexivity.
Qed.

(** Three failed attempts: the result of [sendWithRetry] and what it did. *)
Lemma sendWithRetry_all_fail (this : SMSServiceObj) (h : Host) (message : string)
      (timestamp : Date) (s : Sys) :
  gatewayAlwaysFails h ->
  SMSService.sendWithRetry this h message timestamp 1 s =
  (Normal {| SMSService.success := false;
             SMSService.messageId := None;
             SMSService.error :=
               Some (failureText (axios_post h (S (S (posts s))) (requestOf this message)));
             SMSService.timestamp := timestamp;
             SMSService.attempts := Some 3%nat |},
   afterThreePosts s,
   [EvHttpPost (requestOf this message); EvDelay 2000;
    EvHttpPost (requestOf this message); EvDelay 4000;
    EvHttpPost (requestOf this message)]).
Proof.
  intros H.
  destruct (always_fails_try h (posts s) (requestOf this message) H) as (e1 & E1 & _).
  destruct (always_fails_try h (S (posts s)) (requestOf this message) H) as (e2 & E2 & _).
  destruct (always_fails_try h (S (S (posts s))) (requestOf this message) H) as (e3 & E3 & T3).
  unfold SMSService.sendWithRetry. cbn [SMSService.maxAttempts Nat.sub].
  rewrite (sendWithRetry_fuel_fail 2 this h message timestamp 1 s e1 E1 eq_refl). cbv zeta.
  cbn [Nat.add].
  rewrite (sendWithRetry_fuel_fail 1 this h message timestamp 2 (afterPost s) e2 E2 eq_refl).
  cbv zeta. cbn [Nat.add].
  rewrite (sendWithRetry_fuel_last 0 this h message timestamp 3 (afterPost (afterPost s))
             e3 E3 eq_refl).
  rewrite T3. reflexivity.
Qed.

Lemma initialize_success (h : Host) (s : Sys) (sms : SMSServiceObj) :
  validationErrors h = [] ->
  SMSService.new (smsApiUrl (environment h)) (smsApiKey (environment h))
    (smsSenderId (environment h)) (recipientMobileNumber (environment h)) = Returned sms ->
  wp (BirthdayCheckService.initialize h) s
     (fun c s1 e =>
        c = Normal tt /\ forallb isLog e = true
        /\ s1 = {| service := initialized h (logger (service s)) sms; frame := frame s;
                   posts := posts s; clockReads := clockReads s |}).
Proof.
  intros Hv Hn. unfold BirthdayCheckService.initialize. wp_steps.
  rewrite Hv. cbn [List.length Nat.eqb negb]. wp_steps. rewrite Hn. cbn [ofSettled]. wp_steps.
  cbn [service logger config excelParser dateMatcher smsService frame posts clockReads].
  split; [ reflexivity | split; [ logs | reflexivity ] ].
Qed.

Lemma wp_emit (ev : Event) (s : Sys) Q : Q (Normal tt) s [ev] -> wp (emit ev) s Q.
Proof. auto. Qed.

Lemma wp_now (h : Host) (s : Sys) Q :
  Q (Normal (mkDate (Some (clock h (clockReads s))))) (afterClock s) [] -> wp (now h) s Q.
Proof. auto. Qed.

Lemma ensureInitialized_ready (h : Host) (s : Sys) cfg parser sms :
  readyWith h s cfg parser sms ->
  wp (match config (service s) with
      | Some _ => ret tt
      | None => BirthdayCheckService.initialize h
      end) s
     (fun c s1 e =>
        c = Normal tt
        /\ frame s1 = frame s /\ posts s1 = posts s /\ clockReads s1 = clockReads s
        /\ logger (service s1) = logger (service s)
        /\ config (service s1) = Some cfg /\ excelParser (service s1) = Some parser
        /\ dateMatcher (service s1) = Some tt /\ smsService (service s1) = Some sms).
Proof.
  intros [(H1 & H2 & H3 & H4) | (H1 & H2 & H3 & -> & ->)]; rewrite H1.
  - wp_steps. repeat split; assumption.
  - eapply wp_mono; [ apply (initialize_success h s sms H2 H3) | ].
    intros c s1 e (-> & _ & ->). repeat split.
Qed.

(** C8.  When the service is ready, the file is read into [loaded], the
    matcher selects a non-empty list [found] for the day of the run, and
    every send fails, [performDailyCheck] still returns: its result counts
    all the loaded records, holds the whole matched list, has
    notificationSent = false, and its error list is the description of the
    last delivery error. *)
Theorem performDailyCheck_delivery_failure :
  forall (h : Host) (s : Sys) (cfg : Configuration) (parser : ExcelParserObj)
         (sms : SMSServiceObj) (loaded : list Associate),
    readyWith h s cfg parser sms ->
    result_of (ExcelParser.parseFile parser h (excelFilePath cfg) s) = Normal loaded ->
    let found := DateMatcher.findBirthdaysOnDate h (Some (map Some loaded))
                   (VDate (mkDate (Some (clock h (clockReads s))))) in
    found <> [] ->
    gatewayAlwaysFails h ->
    exists message,
      SMSService.formatMessage (Some found) = Returned message
      /\ result_of (BirthdayCheckService.performDailyCheck h s)
         = Normal {| BirthdayCheckService.totalAssociatesChecked :=
                       Z.of_nat (List.length loaded);
                     BirthdayCheckService.res_birthdaysFound := found;
                     BirthdayCheckService.res_notificationSent := false;
                     BirthdayCheckService.res_errors :=
                       ["SMS notification failed: "
                        ^^ failureText (axios_post h (S (S (posts s))) (requestOf sms message))] |}.
Proof.
  intros h s cfg parser sms loaded Hready Hload found Hfound Hfail.
  pose proof (findBirthdaysOnDate_allPresent h loaded
                (VDate (mkDate (Some (clock h (clockReads s)))))) as Hall.
  change (allPresent found) in Hall.
  destruct (formatMessage_allPresent found Hall) as (message & Hmsg).
  exists message. split; [ exact Hmsg | ].
  destruct (parseFile_stateless parser h (excelFilePath cfg)) as (cP & eP & EP & _ & HeP).
  rewrite EP in Hload. cbn [result_of fst] in Hload. subst cP.
  change (wp (BirthdayCheckService.performDailyCheck h) s
            (fun c _ _ => c = Normal {| BirthdayCheckService.totalAssociatesChecked :=
                       Z.of_nat (List.length loaded);
                     BirthdayCheckService.res_birthdaysFound := found;
                     BirthdayCheckService.res_notificationSent := false;
                     BirthdayCheckService.res_errors :=
                       ["SMS notification failed: "
                        ^^ failureText (axios_post h (S (S (posts s))) (requestOf sms message))] |})).
  unfold BirthdayCheckService.performDailyCheck. wp_steps.
  unfold BirthdayCheckService.dailyCheck. wp_steps.
  eapply wp_mono; [ apply (ensureInitialized_ready h (freshFrame s) cfg parser sms Hready) | ].
  intros c s1 e1 (-> & Hf1 & Hp1 & Hc1 & Hl1 & Hcfg1 & Hep1 & Hdm1 & Hsms1).
  cbn [freshFrame service frame posts clockReads] in *.
  wp_steps. rewrite Hcfg1. wp_steps.
  unfold BirthdayCheckService.loadAssociates. wp_steps. rewrite Hep1, Hcfg1. wp_step.
  eapply wp_run; [ apply EP | ]. wp_steps.
  unfold BirthdayCheckService.matchBirthdays. wp_steps.
  cbn [service frame posts clockReads associates]. rewrite Hdm1. wp_step.
  eapply wp_run; [ apply findBirthdaysToday_run | ]. cbv beta iota.
  cbn [service frame posts clockReads associates afterClock]. rewrite Hc1, Hf1.
  repeat match goal with
         | |- context [DateMatcher.findBirthdaysOnDate h ?a ?d] =>
             change (DateMatcher.findBirthdaysOnDate h a d) with found
         end.
  clearbody found.
  cbn [errors birthdaysFound notificationSent]. wp_steps.
  replace (0 <? BirthdayCheckService.len found) with true.
  2:{ symmetry. destruct found; [ contradiction | reflexivity ]. }
  wp_steps. eapply wp_mono; [ apply (logNames_allPresent found _ Hall) | ].
  intros c s2 e2 (-> & -> & He2). wp_steps.
  unfold BirthdayCheckService.sendNotification. wp_steps.
  cbn [service frame posts clockReads associates birthdaysFound].
  replace (0 <? BirthdayCheckService.len found) with true.
  2:{ symmetry. destruct found; [ contradiction | reflexivity ]. }
  wp_steps. cbn [service frame posts clockReads associates birthdaysFound afterClock].
  rewrite Hsms1. wp_step.
  unfold SMSService.sendBirthdayNotification. wp_step. apply wp_emit. cbv beta iota.
  wp_step. apply wp_now. cbv beta iota.
  destruct found as [ | x found']; [ contradiction | ].
  wp_steps. rewrite Hmsg. cbn [ofSettled].
  eapply wp_run; [ apply (sendWithRetry_all_fail sms h message _ _ Hfail) | ].
  cbn [SMSService.success]. wp_steps.
  cbn [SMSService.error SMSService.attempts Nat.ltb Nat.leb]. wp_steps.
  cbn [service frame posts clockReads errors associates birthdaysFound notificationSent
       afterClock afterPost afterThreePosts app].
  change (0 <? BirthdayCheckService.len [?[x]]) with true.
  cbv iota. wp_steps. rewrite Hp1. reflexivity.
Qed.

Lemma performDailyCheck_delivery_failure_witness :
  let h := Demo.host Demo.alwaysDown in
  let s := Demo.start true in
  let john := mkAssociate "John Doe" (VDate (newDate utcZone (Some 2000) (Some 1) (Some 29))) 2 in
  let jane := mkAssociate "Jane Smith" (VDate (newDate utcZone (Some 1985) (Some 0) (Some 13))) 5 in
  (readyWith h s Demo.cfg {| ep_logger := true |} Demo.sms
   /\ result_of (ExcelParser.parseFile {| ep_logger := true |} h (excelFilePath Demo.cfg) s)
      = Normal [john; jane]
   /\ DateMatcher.findBirthdaysOnDate h (Some (map Some [john; jane]))
        (VDate (mkDate (Some (clock h (clockReads s))))) = [Some john]
   /\ gatewayAlwaysFails h)
  /\ exists message,
       SMSService.formatMessage (Some [Some john]) = Returned message
       /\ result_of (BirthdayCheckService.performDailyCheck h s)
          = Normal {| BirthdayCheckService.totalAssociatesChecked := 2;
                      BirthdayCheckService.res_birthdaysFound := [Some john];
                      BirthdayCheckService.res_notificationSent := false;
                      BirthdayCheckService.res_errors :=
                        ["SMS notification failed: "
                         ^^ failureText (axios_post h 2 (requestOf Demo.sms message))] |}.
Proof.
  cbv zeta.
  assert (Hready : readyWith (Demo.host Demo.alwaysDown) (Demo.start true) Demo.cfg
                     {| ep_logger := true |} Demo.sms).
  { right. repeat split. }
  assert (Hfail : gatewayAlwaysFails (Demo.host Demo.alwaysDown)).
  { intros k req. discriminate. }
  split; [ split; [ exact Hready | split; [ reflexivity | split; [ reflexivity | exact Hfail ] ] ] | ].
  exact (performDailyCheck_delivery_failure (Demo.host Demo.alwaysDown) (Demo.start true)
           Demo.cfg {| ep_logger := true |} Demo.sms
           [mkAssociate "John Doe" (VDate (newDate utcZone (Some 2000) (Some 1) (Some 29))) 2;
            mkAssociate "Jane Smith" (VDate (newDate utcZone (Some 1985) (Some 0) (Some 13))) 5]
           Hready eq_refl ltac:(discriminate) Hfail).
Defined.

(* ================================================================== *)
(** ** Whole runs on the demonstration host *)
(* ================================================================== *)

(** Two rows are loaded, one matches 29 February 2024, the gateway accepts
    the third request: one notification, one message, three requests. *)
Example performDailyCheck_delivered_on_third_attempt :
  let h := Demo.host Demo.failTwice in
  let run := BirthdayCheckService.performDailyCheck h (Demo.start false) in
  option_map (fun r => (BirthdayCheckService.totalAssociatesChecked r,
                        map (option_map name) (BirthdayCheckService.res_birthdaysFound r),
                        BirthdayCheckService.res_notificationSent r,
                        BirthdayCheckService.res_errors r))
    (match result_of run with Normal r => Some r | _ => None end)
  = Some (2, [Some "John Doe"%string], true, [])
  /\ events_of run =
     [EvInvoke SMSService.sendBirthdayNotification_name;
      EvHttpPost (requestOf Demo.sms ("Birthday Alert! Today's birthdays:" ^^ nl ^^ "- John Doe"));
      EvDelay 2000;
      EvHttpPost (requestOf Demo.sms ("Birthday Alert! Today's birthdays:" ^^ nl ^^ "- John Doe"));
      EvDelay 4000;
      EvHttpPost (requestOf Demo.sms ("Birthday Alert! Today's birthdays:" ^^ nl ^^ "- John Doe"))].
Proof. vm_compute. split; reflexivity. Qed.

(** An invalid configuration: the first call reports the failure of
    [initialize] as an unexpected error; the second call finds the
    configuration set but no parser, and reports that as a parse failure. *)
Example performDailyCheck_invalid_configuration :
  let h := Demo.invalidHost in
  let first := BirthdayCheckService.performDailyCheck h (Demo.start false) in
  let second := BirthdayCheckService.performDailyCheck h (state_of first) in
  result_of first
  = Normal {| BirthdayCheckService.totalAssociatesChecked := 0;
              BirthdayCheckService.res_birthdaysFound := [];
              BirthdayCheckService.res_notificationSent := false;
              BirthdayCheckService.res_errors :=
                ["Unexpected error during birthday check: Configuration validation failed:"
                 ^^ nl ^^ "  - SMS API key is required (SMS_API_KEY)"] |}
  /\ result_of second
     = Normal {| BirthdayCheckService.totalAssociatesChecked := 0;
                 BirthdayCheckService.res_birthdaysFound := [];
                 BirthdayCheckService.res_notificationSent := false;
                 BirthdayCheckService.res_errors :=
                   ["Failed to parse Excel file: Cannot read properties of null (reading 'parseFile')"%string] |}.
Proof. vm_compute. split; reflexivity. Qed.

(** The date examples of the specification, with an engine that leaves all
    texts to the patterns. *)
Example parseDate_examples :
  let h := Demo.host Demo.alwaysDown in
  let ymd v := option_map (localYMD utcZone) (ExcelParser.parseDate h v) in
  ymd (VString "01/15/1990") = Some (Some (1990, 0, 15))
  /\ ymd (VString "12-05-1988") = Some (Some (1988, 11, 5))
  /\ ymd (VString " 25/12/2000 ") = Some (Some (2000, 11, 25))
  /\ ymd (VString "not-a-date") = None
  /\ ymd VNull = None.
Proof. vm_compute. repeat split. Qed.

(** A year-first text that reaches the patterns is read by the year-last
    branch: "2000-13-45" becomes [new Date(45, 12, 2000)]. *)
Example parseDate_year_first_text :
  let h := Demo.host Demo.alwaysDown in
  ExcelParser.parseDate h (VString "2000-13-45")
  = Some (newDate utcZone (Some 45) (Some 12) (Some 2000)).
Proof. vm_compute. reflexivity. Qed.

(* ================================================================== *)
(** ** Instances of the theorems on the demonstration host *)
(* ================================================================== *)

Lemma findBirthdaysOnDate_month_day_witness :
  let h := Demo.host Demo.alwaysDown in
  let leapling := Some (mkAssociate "Leap Year Baby"
                          (VDate (newDate (tz h) (Some 2000) (Some 1) (Some 29))) 1) in
  let on M D := DateMatcher.findBirthdaysOnDate h (Some [leapling])
                  (VDate (newDate (tz h) (Some 2023) (Some M) (Some D))) in
  (fixedOffsetHost h 0 /\ plainYear 2000 /\ DaysInYear 2000 = 366 /\ plainYear 2023)
  /\ on 1 28 = [] /\ on 2 1 = [].
Proof.
  cbv zeta.
  assert (Hh : fixedOffsetHost (Demo.host Demo.alwaysDown) 0)
    by (split; [ reflexivity | unfold msPerDay; cbn; lia ]).
  assert (Hy : plainYear 2000) by (unfold plainYear; lia).
  assert (HY : plainYear 2023) by (unfold plainYear; lia).
  split; [ split; [ exact Hh | split; [ exact Hy | split; [ reflexivity | exact HY ] ] ] | ].
  destruct (proj2 (proj2 (findBirthdaysOnDate_month_day (Demo.host Demo.alwaysDown) [] 0))
              0 "Leap Year Baby"%string 1 2000 2023 Hh Hy eq_refl HY) as (H1 & H2 & _).
  split; [ exact H1 | exact H2 ].
Defined.

Lemma sendBirthdayNotification_without_associates_witness :
  let h := Demo.host Demo.alwaysDown in
  (Some (@nil Element) = None \/ Some (@nil Element) = Some [])
  /\ SMSService.sendBirthdayNotification Demo.sms h (Some []) (Demo.start true)
     = (Normal {| SMSService.success := false;
                  SMSService.messageId := None;
                  SMSService.error := Some "No associates provided for notification"%string;
                  SMSService.timestamp := mkDate (Some Demo.today);
                  SMSService.attempts := None |},
        afterClock (Demo.start true),
        [EvInvoke SMSService.sendBirthdayNotification_name]).
Proof.
  cbv zeta. split; [ right; reflexivity | ].
  exact (proj1 (sendBirthdayNotification_without_associates Demo.sms
                  (Demo.host Demo.alwaysDown) (Demo.start true))
               (Some []) (or_intror eq_refl)).
Defined.

Lemma performDailyCheck_always_returns_witness :
  let h := Demo.invalidHost in
  let s := Demo.start true in
  let text := "Configuration validation failed:" ^^ nl
              ^^ "  - SMS API key is required (SMS_API_KEY)" in
  result_of (BirthdayCheckService.dailyCheck h (freshFrame s)) = Throw text
  /\ exists r s' evs,
       BirthdayCheckService.performDailyCheck h s = (Normal r, s', evs)
       /\ r = {| BirthdayCheckService.totalAssociatesChecked := 0;
                 BirthdayCheckService.res_birthdaysFound := [];
                 BirthdayCheckService.res_notificationSent := false;
                 BirthdayCheckService.res_errors :=
                   ["Unexpected error during birthday check: " ^^ text] |}.
Proof.
  cbv zeta. split; [ reflexivity | ].
  destruct (performDailyCheck_always_returns Demo.invalidHost (Demo.start true))
    as (r & s' & evs & E & H).
  exists r, s', evs. split; [ exact E | ].
  apply H. reflexivity.
Defined.

Import Notions.

(* ================================================================== *)
(** ** The formats accepted by Configuration and Scheduler *)
(* ================================================================== *)

Lemma ascii_eqb_nat (c l : ascii) :
  Ascii.eqb c l = Nat.eqb (nat_of_ascii c) (nat_of_ascii l).
Proof.
  destruct (Ascii.eqb_spec c l) as [-> | N].
  - symmetry. apply Nat.eqb_refl.
  - symmetry. apply Nat.eqb_neq. intros E. apply N.
    rewrite <- (ascii_nat_embedding c), <- (ascii_nat_embedding l), E. reflexivity.
Qed.

(** Turns tests on characters into arithmetic on their codes. *)
Ltac codes :=
  unfold Regex.in_range, is_digit in *; cbv zeta in *;
  rewrite ?ascii_eqb_nat in *;
  repeat match goal with
         | |- context [nat_of_ascii (Ascii ?a ?b ?c ?d ?e ?f ?g ?h)] =>
             let v := eval vm_compute in (nat_of_ascii (Ascii a b c d e f g h)) in
             change (nat_of_ascii (Ascii a b c d e f g h)) with v
         | H : context [nat_of_ascii (Ascii ?a ?b ?c ?d ?e ?f ?g ?h)] |- _ =>
             let v := eval vm_compute in (nat_of_ascii (Ascii a b c d e f g h)) in
             change (nat_of_ascii (Ascii a b c d e f g h)) with v in H
         end.

Ltac props :=
  repeat (progress rewrite ?andb_true_iff, ?orb_true_iff, ?andb_false_iff, ?orb_false_iff,
            ?Nat.leb_le, ?Nat.eqb_eq, ?Nat.leb_gt, ?Nat.eqb_neq in * ).

Lemma valueOf_one (a : ascii) :
  is_digit a = true -> valueOf (String a EmptyString) = Z.of_nat (nat_of_ascii a) - 48.
Proof. intros H. unfold valueOf. cbn [digits_value]. rewrite H. lia. Qed.

Lemma valueOf_two (a b : ascii) :
  is_digit a = true -> is_digit b = true ->
  valueOf (String a (String b EmptyString))
  = 10 * (Z.of_nat (nat_of_ascii a) - 48) + (Z.of_nat (nat_of_ascii b) - 48).
Proof. intros Ha Hb. unfold valueOf. cbn [digits_value]. rewrite Ha, Hb. lia. Qed.

Lemma validateTimeFormat_chars (t : string) :
  Scheduler.validateTimeFormat t = true <->
  exists a b c d,
    t = String a (String b (String ":" (String c (String d EmptyString))))
    /\ is_digit a = true /\ is_digit b = true /\ is_digit c = true /\ is_digit d = true
    /\ 10 * (Z.of_nat (nat_of_ascii a) - 48) + (Z.of_nat (nat_of_ascii b) - 48) <= 23
    /\ 10 * (Z.of_nat (nat_of_ascii c) - 48) + (Z.of_nat (nat_of_ascii d) - 48) <= 59.
Proof.
  unfold Scheduler.validateTimeFormat, Regex.test, Scheduler.timeRegex.
  split.
  - destruct t as [ | a [ | b [ | x [ | c [ | d [ | e t]]]]]]; cbn [Regex.matchK is_empty];
      rewrite ?andb_false_r; cbn [orb andb]; try discriminate.
    intros H. exists a, b, c, d.
    assert (Hx : x = ":"%char).
    { destruct (Ascii.eqb_spec x ":"); [ assumption | ].
      rewrite ?andb_false_r in H. cbn in H. rewrite ?andb_false_r in H. discriminate. }
    subst x. split; [ reflexivity | ].
    codes. cbn [Nat.eqb andb] in H. rewrite ?andb_true_r in H. props. lia.
  - intros (a & b & c & d & -> & Ha & Hb & Hc & Hd & Hh & Hm).
    cbn [Regex.matchK is_empty]. codes. cbn [Nat.eqb andb]. rewrite ?andb_true_r. props. lia.
Qed.

Lemma validateScheduledTime_chars (t : string) :
  Configuration.validateScheduledTime (VString t) = true <->
  (exists a c d,
      t = String a (String ":" (String c (String d EmptyString)))
      /\ is_digit a = true /\ is_digit c = true /\ is_digit d = true
      /\ 10 * (Z.of_nat (nat_of_ascii c) - 48) + (Z.of_nat (nat_of_ascii d) - 48) <= 59)
  \/
  (exists a b c d,
      t = String a (String b (String ":" (String c (String d EmptyString))))
      /\ is_digit a = true /\ is_digit b = true /\ is_digit c = true /\ is_digit d = true
      /\ 10 * (Z.of_nat (nat_of_ascii a) - 48) + (Z.of_nat (nat_of_ascii b) - 48) <= 23
      /\ 10 * (Z.of_nat (nat_of_ascii c) - 48) + (Z.of_nat (nat_of_ascii d) - 48) <= 59).
Proof.
  unfold Configuration.validateScheduledTime, Regex.test, Configuration.timeRegex.
  split.
  - destruct t as [ | a [ | b [ | x [ | c [ | d [ | e t]]]]]]; cbn [Regex.matchK is_empty];
      rewrite ?andb_false_r; cbn [orb andb]; try discriminate.
    + (* four characters *)
      intros H. left. exists a, x, c.
      assert (Hb : b = ":"%char).
      { destruct (Ascii.eqb_spec b ":"); [ assumption | ].
        rewrite ?andb_false_r in H. cbn in H. rewrite ?andb_false_r in H. discriminate. }
      subst b. split; [ reflexivity | ].
      codes. cbn [Nat.eqb andb orb] in H. rewrite ?andb_true_r, ?andb_false_r in H.
      cbn [orb andb] in H. props. lia.
    + intros H. right. exists a, b, c, d.
      destruct (Ascii.eqb_spec x ":") as [-> | N].
      * split; [ reflexivity | ].
        codes. cbn [Nat.eqb andb orb] in H. rewrite ?andb_true_r, ?andb_false_r in H.
        cbn [orb andb] in H. props. lia.
      * exfalso. rewrite ?andb_false_r in H. cbn [orb andb] in H.
        rewrite ?andb_false_r in H. cbn [orb andb] in H. discriminate.
  - intros [(a & c & d & -> & Ha & Hc & Hd & Hm)
           | (a & b & c & d & -> & Ha & Hb & Hc & Hd & Hh & Hm)];
      cbn [Regex.matchK is_empty]; codes; cbn [Nat.eqb andb orb];
      rewrite ?andb_true_r, ?andb_false_r; cbn [orb andb]; props; lia.
Qed.

Lemma all_digits_two (a b : ascii) :
  all_digits (String a (String b EmptyString)) = true <-> is_digit a = true /\ is_digit b = true.
Proof. cbn [all_digits]. rewrite !andb_true_iff. tauto. Qed.

Lemma all_digits_one (a : ascii) :
  all_digits (String a EmptyString) = true <-> is_digit a = true.
Proof. cbn [all_digits]. rewrite andb_true_iff. tauto. Qed.

Lemma clockText_two (t : string) :
  (exists hh mm, t = hh ^^ ":" ^^ mm /\ clockText 2 hh mm) <->
  exists a b c d,
    t = String a (String b (String ":" (String c (String d EmptyString))))
    /\ is_digit a = true /\ is_digit b = true /\ is_digit c = true /\ is_digit d = true
    /\ 10 * (Z.of_nat (nat_of_ascii a) - 48) + (Z.of_nat (nat_of_ascii b) - 48) <= 23
    /\ 10 * (Z.of_nat (nat_of_ascii c) - 48) + (Z.of_nat (nat_of_ascii d) - 48) <= 59.
Proof.
  split.
  - intros (hh & mm & -> & Hh & Hl & Hv & Hm & Hlm & Hvm).
    destruct hh as [ | a [ | b [ | x hh]]]; cbn [String.length] in Hl; try lia.
    destruct mm as [ | c [ | d [ | y mm]]]; cbn [String.length] in Hlm; try lia.
    apply all_digits_two in Hh. apply all_digits_two in Hm.
    destruct Hh as [Ha Hb]. destruct Hm as [Hc Hd].
    rewrite (valueOf_two a b Ha Hb) in Hv. rewrite (valueOf_two c d Hc Hd) in Hvm.
    exists a, b, c, d. repeat split; assumption.
  - intros (a & b & c & d & -> & Ha & Hb & Hc & Hd & Hv & Hvm).
    exists (String a (String b EmptyString)), (String c (String d EmptyString)).
    split; [ reflexivity | ].
    unfold clockText. rewrite (valueOf_two a b Ha Hb), (valueOf_two c d Hc Hd).
    rewrite !all_digits_two. cbn [String.length]. repeat split; try assumption; lia.
Qed.

Lemma clockText_one (t : string) :
  (exists hh mm, t = hh ^^ ":" ^^ mm /\ clockText 1 hh mm /\ String.length hh = 1%nat) <->
  exists a c d,
    t = String a (String ":" (String c (String d EmptyString)))
    /\ is_digit a = true /\ is_digit c = true /\ is_digit d = true
    /\ 10 * (Z.of_nat (nat_of_ascii c) - 48) + (Z.of_nat (nat_of_ascii d) - 48) <= 59.
Proof.
  split.
  - intros (hh & mm & -> & (Hh & Hl & Hv & Hm & Hlm & Hvm) & H1).
    destruct hh as [ | a [ | b hh]]; cbn [String.length] in H1; try lia.
    destruct mm as [ | c [ | d [ | y mm]]]; cbn [String.length] in Hlm; try lia.
    apply all_digits_one in Hh. apply all_digits_two in Hm. destruct Hm as [Hc Hd].
    rewrite (valueOf_two c d Hc Hd) in Hvm.
    exists a, c, d. repeat split; assumption.
  - intros (a & c & d & -> & Ha & Hc & Hd & Hvm).
    exists (String a EmptyString), (String c (String d EmptyString)).
    split; [ reflexivity | ].
    unfold clockText. rewrite (valueOf_one a Ha), (valueOf_two c d Hc Hd).
    rewrite all_digits_one, all_digits_two. cbn [String.length].
    assert (Z.of_nat (nat_of_ascii a) - 48 <= 23) by (codes; props; lia).
    repeat split; try assumption; lia.
Qed.

Lemma validateTimeFormat_clockText (t : string) :
  Scheduler.validateTimeFormat t = true <->
  exists hh mm, t = hh ^^ ":" ^^ mm /\ clockText 2 hh mm.
Proof. rewrite validateTimeFormat_chars, clockText_two. tauto. Qed.

(** X1.  The scheduler accepts a time text exactly when it is [HH:MM] with a
    two-digit hour from 00 to 23 and a two-digit minute from 00 to 59. *)
Theorem validateTimeFormat_accepts :
  forall t : string,
    Scheduler.validateTimeFormat t = true <->
    exists hh mm, t = hh ^^ ":" ^^ mm /\ clockText 2 hh mm.
Proof. exact validateTimeFormat_clockText. Qed.

Lemma validateScheduledTime_clockText (t : string) :
  Configuration.validateScheduledTime (VString t) = true <->
  exists hh mm, t = hh ^^ ":" ^^ mm /\ clockText 1 hh mm.
Proof.
  rewrite validateScheduledTime_chars, <- clockText_one, <- clockText_two.
  split.
  - intros [(hh & mm & E & H & _) | (hh & mm & E & H)]; exists hh, mm; split; try assumption.
    unfold clockText in *. intuition lia.
  - intros (hh & mm & E & H).
    assert (L : (String.length hh = 1 \/ String.length hh = 2)%nat)
      by (unfold clockText in H; lia).
    destruct L as [L | L]; [ left | right ]; exists hh, mm; repeat split; try assumption;
      unfold clockText in *; intuition lia.
Qed.

(** X2.  The configuration accepts a scheduled time exactly when it is
    [H:MM] or [HH:MM]: an hour from 0 to 23 written with one or two digits
    and a two-digit minute from 00 to 59; a value that is not a string is
    rejected. *)
Theorem validateScheduledTime_accepts :
  forall v : Value,
    Configuration.validateScheduledTime v = true <->
    exists t hh mm, v = VString t /\ t = hh ^^ ":" ^^ mm /\ clockText 1 hh mm.
Proof.
  intros v. split.
  - destruct v as [ | | b | n | t | d | ]; cbn [Configuration.validateScheduledTime];
      try discriminate.
    intros H. apply validateScheduledTime_clockText in H.
    destruct H as (hh & mm & E & H). exists t, hh, mm. auto.
  - intros (t & hh & mm & -> & E & H). apply validateScheduledTime_clockText.
    exists hh, mm. auto.
Qed.

Lemma length_append (a b : string) :
  String.length (a ^^ b) = (String.length a + String.length b)%nat.
Proof. induction a as [ | c a IH]; cbn; [ reflexivity | rewrite IH; reflexivity ]. Qed.

(** X3.  The two validators of the scheduled time disagree: the scheduler
    accepts a text exactly when the configuration accepts it and the text
    has five characters, so a one-digit hour such as 9:00 passes
    [Configuration.validateScheduledTime] and fails
    [Scheduler.validateTimeFormat]. *)
Theorem validateTimeFormat_stricter :
  forall t : string,
    (Scheduler.validateTimeFormat t = true <->
     Configuration.validateScheduledTime (VString t) = true /\ String.length t = 5%nat)
    /\ Configuration.validateScheduledTime (VString "9:00") = true
    /\ Scheduler.validateTimeFormat "9:00" = false.
Proof.
  intros t. split; [ | split; reflexivity ].
  rewrite validateTimeFormat_clockText, validateScheduledTime_clockText. split.
  - intros (hh & mm & -> & H). split.
    + exists hh, mm. split; [ reflexivity | ]. unfold clockText in *. intuition lia.
    + rewrite !length_append. unfold clockText in H. cbn [String.length]. lia.
  - intros [(hh & mm & -> & H) L]. exists hh, mm. split; [ reflexivity | ].
    rewrite !length_append in L. cbn [String.length] in L.
    unfold clockText in *. intuition lia.
Qed.

Lemma digit_not_colon (c : ascii) : is_digit c = true -> Ascii.eqb c ":" = false.
Proof. intros H. codes. props. lia. Qed.

(** X4.  For every time the scheduler accepts, [timeToCronExpression] gives
    the five-field expression "MM HH * * *": the minute (0 to 59), the hour
    (0 to 23), every day of the month, every month, every day of the week. *)
Theorem timeToCronExpression_valid_time :
  forall t : string,
    Scheduler.validateTimeFormat t = true ->
    exists hh mm,
      t = hh ^^ ":" ^^ mm /\ clockText 2 hh mm
      /\ Scheduler.timeToCronExpression t = mm ^^ " " ^^ hh ^^ " * * *".
Proof.
  intros t H. apply validateTimeFormat_chars in H.
  destruct H as (a & b & c & d & -> & Ha & Hb & Hc & Hd & Hv & Hvm).
  exists (String a (String b EmptyString)), (String c (String d EmptyString)).
  split; [ reflexivity | split ].
  - unfold clockText. rewrite (valueOf_two a b Ha Hb), (valueOf_two c d Hc Hd).
    rewrite !all_digits_two. cbn [String.length]. repeat split; try assumption; lia.
  - unfold Scheduler.timeToCronExpression. cbn [Scheduler.split].
    rewrite (digit_not_colon a Ha), (digit_not_colon b Hb),
      (digit_not_colon c Hc), (digit_not_colon d Hd).
    reflexivity.
Qed.

Lemma timeToCronExpression_valid_time_witness :
  Scheduler.validateTimeFormat "14:30" = true
  /\ exists hh mm,
       "14:30"%string = hh ^^ ":" ^^ mm /\ clockText 2 hh mm
       /\ Scheduler.timeToCronExpression "14:30" = mm ^^ " " ^^ hh ^^ " * * *".
Proof.
  split; [ reflexivity | ].
  exact (timeToCronExpression_valid_time "14:30" eq_refl).
Defined.

Lemma matchK_Rep_S (lo hi : nat) (a : Regex.Re) (s : string) (k : string -> bool) :
  Regex.matchK (Regex.Rep lo (S hi) a) s k =
  (Regex.matchK a s (fun s' => Regex.matchK (Regex.Rep (Nat.pred lo) hi a) s' k)
   || (Nat.eqb lo 0 && k s))%bool.
Proof. reflexivity. Qed.

Lemma matchK_Rep_0 (lo : nat) (a : Regex.Re) (s : string) (k : string -> bool) :
  Regex.matchK (Regex.Rep lo 0 a) s k = (Nat.eqb lo 0 && k s)%bool.
Proof. reflexivity. Qed.

(** [\d{lo,hi}$] matches exactly the runs of [lo] to [hi] digits. *)
Lemma matchK_digits (hi : nat) :
  forall (lo : nat) (s : string),
    Regex.matchK (Regex.Rep lo hi (Regex.Range "0" "9")) s is_empty = true
    <-> digitGroup lo hi s.
Proof.
  unfold digitGroup.
  induction hi as [ | hi IH]; intros lo s.
  - rewrite matchK_Rep_0. props. destruct s as [ | c s]; cbn [is_empty all_digits String.length].
    + intuition lia.
    + intuition (try discriminate; try lia).
  - rewrite matchK_Rep_S. rewrite orb_true_iff. cbn [Regex.matchK].
    destruct s as [ | c s]; cbn [is_empty all_digits String.length].
    + props. intuition (try discriminate; try lia).
    + rewrite andb_true_iff. rewrite (IH (Nat.pred lo) s).
      change (Regex.in_range "0" "9" c) with (is_digit c).
      rewrite !andb_true_iff. props. intuition (try discriminate; try lia).
Qed.

(** X5.  A mobile number is accepted exactly when, once white space and
    hyphens are taken out, it is a plus sign followed by 10 to 15 digits;
    a value that is not a string is rejected. *)
Theorem validateMobileNumber_accepts :
  forall v : Value,
    Configuration.validateMobileNumber v = true <->
    exists s digits,
      v = VString s
      /\ Configuration.removeSeparators s = "+" ^^ digits
      /\ digitGroup 10 15 digits.
Proof.
  intros v.
  assert (T : forall cleaned,
             Regex.test Configuration.mobileRegex cleaned = true <->
             exists digits, cleaned = "+" ^^ digits /\ digitGroup 10 15 digits).
  { intros cleaned. unfold Regex.test, Configuration.mobileRegex.
    change (Regex.matchK (Regex.Seq (Regex.Chr "+") (Regex.Rep 10 15 (Regex.Range "0" "9")))
              cleaned is_empty)
      with (match cleaned with
            | String x s' =>
                Ascii.eqb x "+"
                && Regex.matchK (Regex.Rep 10 15 (Regex.Range "0" "9")) s' is_empty
            | EmptyString => false
            end).
    destruct cleaned as [ | c r].
    - split; [ discriminate | intros (digits & E & _); discriminate ].
    - rewrite andb_true_iff, matchK_digits. split.
      + intros [Hc Hr]. apply Ascii.eqb_eq in Hc. subst c. exists r. split; [ reflexivity | exact Hr ].
      + intros (digits & E & H). inversion E; subst. split; [ reflexivity | exact H ]. }
  split.
  - destruct v as [ | | b | n | s | d | ]; cbn [Configuration.validateMobileNumber];
      try discriminate.
    destruct (is_empty s); [ discriminate | ].
    intros H. apply T in H. destruct H as (digits & E & H). exists s, digits. auto.
  - intros (s & digits & -> & E & H). cbn [Configuration.validateMobileNumber].
    destruct s as [ | c s]; [ discriminate | ]. cbn [is_empty].
    apply T. exists digits. auto.
Qed.

(* ================================================================== *)
(** ** Configuration: secrets, validation and loading *)
(* ================================================================== *)

Lemma substring_prefix (a b : string) : substring 0 (String.length a) (a ^^ b) = a.
Proof.
  induction a as [ | c a IH]; cbn.
  - destruct b; reflexivity.
  - rewrite IH. reflexivity.
Qed.

Lemma substring_all (z : string) : substring 0 (String.length z) z = z.
Proof. induction z as [ | c z IH]; cbn; [ reflexivity | rewrite IH; reflexivity ]. Qed.

Lemma substring_suffix (a z : string) :
  substring (String.length a) (String.length z) (a ^^ z) = z.
Proof.
  induction a as [ | c a IH]; cbn [String.length String.append].
  - apply substring_all.
  - cbn [substring]. exact IH.
Qed.

Lemma append_assoc (a b c : string) : (a ^^ b) ^^ c = a ^^ (b ^^ c).
Proof. induction a as [ | x a IH]; cbn; [ reflexivity | rewrite IH; reflexivity ]. Qed.

Lemma is_empty_length (s : string) : is_empty s = Nat.eqb (String.length s) 0.
Proof. destruct s; reflexivity. Qed.

Lemma maskApiKey_long (head tail : string) :
  String.length head = 4%nat ->
  Configuration.maskApiKey (head ^^ tail) = head ^^ "****".
Proof.
  intros L. unfold Configuration.maskApiKey.
  rewrite is_empty_length, length_append, L. cbn [Nat.add Nat.eqb Nat.ltb Nat.leb orb].
  rewrite <- L at 1. rewrite substring_prefix. reflexivity.
Qed.

Lemma maskMobileNumber_long (head middle tail : string) :
  String.length head = 3%nat -> String.length tail = 2%nat ->
  BirthdayCheckService.maskMobileNumber (head ^^ middle ^^ tail) = head ^^ "****" ^^ tail.
Proof.
  intros L1 L2. unfold BirthdayCheckService.maskMobileNumber.
  set (m := head ^^ middle ^^ tail).
  assert (Lm : String.length m = (5 + String.length middle)%nat).
  { unfold m. rewrite !length_append, L1, L2. lia. }
  assert (E1 : substring 0 3 m = head).
  { unfold m. rewrite <- L1. apply substring_prefix. }
  assert (E2 : substring (String.length m - 2) 2 m = tail).
  { replace (String.length m - 2)%nat with (String.length (head ^^ middle))
      by (rewrite Lm, length_append, L1; lia).
    unfold m. rewrite <- (append_assoc head middle tail). rewrite <- L2.
    apply substring_suffix. }
  rewrite E1, E2, is_empty_length, Lm. reflexivity.
Qed.

(** X6.  [toSafeObject] shows of the API key its first four characters, and
    of the mobile number its first three and last two; whatever follows or
    lies between does not reach the result.  A secret shorter than four
    characters is replaced by "****" altogether; an API key of exactly four
    characters is shown in full, before the four asterisks. *)
Theorem toSafeObject_hides_secrets :
  forall (this : Configuration.ConfigurationObj)
         (keyHead keyTail numHead numMiddle numTail : string),
    String.length keyHead = 4%nat ->
    String.length numHead = 3%nat ->
    String.length numTail = 2%nat ->
    (Configuration.toSafeObject
       (withSecrets this (keyHead ^^ keyTail) (numHead ^^ numMiddle ^^ numTail))
     = withSecrets this (keyHead ^^ "****") (numHead ^^ "****" ^^ numTail))
    /\ (forall secret, (String.length secret < 4)%nat ->
          Configuration.maskApiKey secret = "****"%string
          /\ BirthdayCheckService.maskMobileNumber secret = "****"%string)
    /\ Configuration.maskApiKey keyHead = keyHead ^^ "****".
Proof.
  intros this keyHead keyTail numHead numMiddle numTail Lk Lh Lt.
  split; [ | split ].
  - unfold Configuration.toSafeObject, withSecrets.
    cbn [Configuration.excelFilePath Configuration.recipientMobileNumber
         Configuration.smsApiUrl Configuration.smsApiKey Configuration.smsSenderId
         Configuration.scheduledTime Configuration.logLevel Configuration.logFilePath].
    rewrite (maskApiKey_long keyHead keyTail Lk).
    rewrite (maskMobileNumber_long numHead numMiddle numTail Lh Lt). reflexivity.
  - intros secret L. unfold Configuration.maskApiKey, BirthdayCheckService.maskMobileNumber.
    apply Nat.ltb_lt in L. rewrite L, !orb_true_r. split; reflexivity.
  - rewrite <- (maskApiKey_long keyHead EmptyString Lk).
    f_equal. clear. induction keyHead as [ | c k IH]; cbn; [ reflexivity | rewrite <- IH; reflexivity ].
Qed.

Lemma toSafeObject_hides_secrets_witness :
  Configuration.toSafeObject
    (withSecrets Configuration.new "sk_live_0123456789" "+1234567890")
  = withSecrets Configuration.new "sk_l****" "+12****90".
Proof.
  exact (proj1 (toSafeObject_hides_secrets Configuration.new
                  "sk_l" "ive_0123456789" "+12" "345678" "90" eq_refl eq_refl eq_refl)).
Defined.

Lemma length_app_nil {A} (l1 l2 : list A) :
  Nat.eqb (List.length (l1 ++ l2)) 0 = (Nat.eqb (List.length l1) 0 && Nat.eqb (List.length l2) 0)%bool.
Proof. destruct l1; reflexivity. Qed.

Lemma validate_checks (h : Host) (this : Configuration.ConfigurationObj) :
  Configuration.isValid (Configuration.validate h this) = true <->
  (is_empty (Configuration.excelFilePath this) = false
   /\ fs_existsSync h (path_resolve h (Configuration.excelFilePath this)) = true)
  /\ (is_empty (Configuration.recipientMobileNumber this) = false
      /\ Configuration.validateMobileNumber (VString (Configuration.recipientMobileNumber this)) = true)
  /\ is_empty (Configuration.smsApiUrl this) = false
  /\ is_empty (Configuration.smsApiKey this) = false
  /\ is_empty (Configuration.smsSenderId this) = false
  /\ Configuration.validateScheduledTime (VString (Configuration.scheduledTime this)) = true.
Proof.
  unfold Configuration.validate. cbn [Configuration.isValid].
  rewrite !length_app_nil, !andb_true_iff.
  unfold Configuration.validateFilePath.
  destruct (is_empty (Configuration.excelFilePath this));
    destruct (fs_existsSync h (path_resolve h (Configuration.excelFilePath this)));
    destruct (is_empty (Configuration.recipientMobileNumber this));
    destruct (Configuration.validateMobileNumber _);
    destruct (is_empty (Configuration.smsApiUrl this));
    destruct (is_empty (Configuration.smsApiKey this));
    destruct (is_empty (Configuration.smsSenderId this));
    destruct (Configuration.validateScheduledTime _);
    cbn; intuition discriminate.
Qed.

Lemma validate_builds_SMSService (h : Host) (this : Configuration.ConfigurationObj) :
  Configuration.isValid (Configuration.validate h this) = true ->
  SMSService.new (Configuration.smsApiUrl this) (Configuration.smsApiKey this)
    (Configuration.smsSenderId this) (Configuration.recipientMobileNumber this)
  = Returned {| apiUrl := Configuration.smsApiUrl this;
                apiKey := Configuration.smsApiKey this;
                senderId := Configuration.smsSenderId this;
                recipientNumber := Configuration.recipientMobileNumber this |}.
Proof.
  intros H. apply validate_checks in H.
  destruct H as (_ & (Hn & _) & Hu & Hk & Hs & _).
  unfold SMSService.new, SMSService.validateConfiguration.
  cbn [apiUrl apiKey senderId recipientNumber]. rewrite Hn, Hu, Hk, Hs. reflexivity.
Qed.

(** X7.  A configuration that passes [validate] always lets the SMS service
    be built: the checks of [SMSService.validateConfiguration] are among
    those of [Configuration.validate], so the constructor cannot throw. *)
Theorem validate_covers_SMSService :
  forall (h : Host) (this : Configuration.ConfigurationObj),
    Configuration.isValid (Configuration.validate h this) = true ->
    SMSService.new (Configuration.smsApiUrl this) (Configuration.smsApiKey this)
      (Configuration.smsSenderId this) (Configuration.recipientMobileNumber this)
    = Returned {| apiUrl := Configuration.smsApiUrl this;
                  apiKey := Configuration.smsApiKey this;
                  senderId := Configuration.smsSenderId this;
                  recipientNumber := Configuration.recipientMobileNumber this |}.
Proof. exact validate_builds_SMSService. Qed.

Lemma validate_covers_SMSService_witness :
  let h := Demo.host Demo.alwaysDown in
  let this := Configuration.loadFromEnvironment Samples.env Configuration.new in
  Configuration.isValid (Configuration.validate h this) = true
  /\ SMSService.new (Configuration.smsApiUrl this) (Configuration.smsApiKey this)
       (Configuration.smsSenderId this) (Configuration.recipientMobileNumber this)
     = Returned Demo.sms.
Proof.
  cbv zeta. split; [ reflexivity | ].
  exact (validate_covers_SMSService (Demo.host Demo.alwaysDown)
           (Configuration.loadFromEnvironment Samples.env Configuration.new) eq_refl).
Defined.

Lemma initialize_failure (h : Host) (s : Sys) :
  validationErrors h <> [] ->
  wp (BirthdayCheckService.initialize h) s
     (fun c s1 e =>
        c = Throw (validationFailure (validationErrors h))
        /\ forallb isLog e = true
        /\ s1 = {| service := configured h (service s); frame := frame s;
                   posts := posts s; clockReads := clockReads s |}).
Proof.
  intros Hv. unfold BirthdayCheckService.initialize. wp_steps.
  destruct (validationErrors h) as [ | e0 errs] eqn:E; [ contradiction | ].
  cbn [List.length Nat.eqb negb]. wp_steps.
  cbn [service logger config excelParser dateMatcher smsService frame posts clockReads].
  split; [ reflexivity | split; [ logs | reflexivity ] ].
Qed.

(** A daily check on a service that has a configuration but no parser: it
    does not initialise; it reports a failure to parse the file and has
    read neither the file, nor the clock, nor the gateway. *)
Lemma performDailyCheck_without_parser (h : Host) (s : Sys) (cfg : Runtime.Configuration) :
  config (service s) = Some cfg ->
  excelParser (service s) = None ->
  wp (BirthdayCheckService.performDailyCheck h) s
     (fun c s2 e =>
        (exists detail,
            c = Normal {| BirthdayCheckService.totalAssociatesChecked := 0;
                          BirthdayCheckService.res_birthdaysFound := [];
                          BirthdayCheckService.res_notificationSent := false;
                          BirthdayCheckService.res_errors :=
                            ["Failed to parse Excel file: " ^^ detail] |})
        /\ forallb isLog e = true
        /\ service s2 = service s
        /\ clockReads s2 = clockReads s
        /\ posts s2 = posts s).
Proof.
  intros Hc Hp.
  unfold BirthdayCheckService.performDailyCheck. wp_steps.
  unfold BirthdayCheckService.dailyCheck. wp_steps.
  cbn [service]. rewrite Hc. wp_steps.
  cbn [service]. rewrite Hc. wp_steps.
  unfold BirthdayCheckService.loadAssociates. wp_steps.
  cbn [service]. rewrite Hp.
  wp_steps.
  cbn [service frame posts clockReads errors associates birthdaysFound notificationSent app].
  split; [ eexists; reflexivity | split; [ logs | repeat split ] ].
Qed.

(** X8.  When the configuration fails validation, [initialize] throws the
    list of the errors, having already stored the configuration and built
    none of the components; [performDailyCheck] then reports the failure as
    an unexpected error.  A second [performDailyCheck] on the same instance
    finds a configuration, so it does not initialise again: it fails on the
    parser that was never built and reports that as a failure to parse the
    file, without reading the file, the clock or the gateway. *)
Theorem performDailyCheck_after_failed_initialize :
  forall (h : Host) (s : Sys),
    config (service s) = None ->
    excelParser (service s) = None ->
    validationErrors h <> [] ->
    let first := BirthdayCheckService.performDailyCheck h s in
    let second := BirthdayCheckService.performDailyCheck h (state_of first) in
    result_of first
    = Normal {| BirthdayCheckService.totalAssociatesChecked := 0;
                BirthdayCheckService.res_birthdaysFound := [];
                BirthdayCheckService.res_notificationSent := false;
                BirthdayCheckService.res_errors :=
                  ["Unexpected error during birthday check: "
                   ^^ validationFailure (validationErrors h)] |}
    /\ service (state_of first) = configured h (service s)
    /\ (exists detail,
          result_of second
          = Normal {| BirthdayCheckService.totalAssociatesChecked := 0;
                      BirthdayCheckService.res_birthdaysFound := [];
                      BirthdayCheckService.res_notificationSent := false;
                      BirthdayCheckService.res_errors :=
                        ["Failed to parse Excel file: " ^^ detail] |})
    /\ forallb isLog (events_of second) = true
    /\ service (state_of second) = service (state_of first)
    /\ clockReads (state_of second) = clockReads s
    /\ posts (state_of second) = posts s.
Proof.
  intros h s Hc Hp Hv first second.
  assert (H1 : wp (BirthdayCheckService.performDailyCheck h) s
                 (fun c s1 e =>
                    c = Normal {| BirthdayCheckService.totalAssociatesChecked := 0;
                                  BirthdayCheckService.res_birthdaysFound := [];
                                  BirthdayCheckService.res_notificationSent := false;
                                  BirthdayCheckService.res_errors :=
                                    ["Unexpected error during birthday check: "
                                     ^^ validationFailure (validationErrors h)] |}
                    /\ service s1 = configured h (service s)
                    /\ clockReads s1 = clockReads s /\ posts s1 = posts s)).
  { unfold BirthdayCheckService.performDailyCheck. wp_steps.
    unfold BirthdayCheckService.dailyCheck. wp_steps.
    cbn [service]. rewrite Hc.
    eapply wp_mono; [ apply (initialize_failure h _ Hv) | ].
    intros c s1 e (-> & He & ->). wp_steps.
    cbn [service frame posts clockReads errors associates birthdaysFound notificationSent app].
    repeat split. }
  unfold wp in H1. fold first in H1. destruct H1 as (R1 & S1 & C1 & P1).
  split; [ exact R1 | split; [ exact S1 | ] ].
  unfold second. clear second. set (s1 := state_of first) in *. clearbody s1. clear first R1.
  assert (Hc1 : config (service s1) = Some (environment h)) by (rewrite S1; reflexivity).
  assert (Hp1 : excelParser (service s1) = None) by (rewrite S1; exact Hp).
  pose proof (performDailyCheck_without_parser h s1 _ Hc1 Hp1) as H2.
  unfold wp in H2. destruct H2 as (R2 & E2 & S2 & C2 & P2).
  rewrite C1 in C2. rewrite P1 in P2. repeat split; assumption.
Qed.

Lemma performDailyCheck_after_failed_initialize_witness :
  let h := Demo.invalidHost in
  let s := Demo.start true in
  let first := BirthdayCheckService.performDailyCheck h s in
  let second := BirthdayCheckService.performDailyCheck h (state_of first) in
  BirthdayCheckService.res_errors
    match result_of first with Normal r => r | _ => resultOf Demo.emptyFrame end
  = ["Unexpected error during birthday check: Configuration validation failed:"
     ^^ nl ^^ "  - SMS API key is required (SMS_API_KEY)"]
  /\ exists detail,
       result_of second
       = Normal {| BirthdayCheckService.totalAssociatesChecked := 0;
                   BirthdayCheckService.res_birthdaysFound := [];
                   BirthdayCheckService.res_notificationSent := false;
                   BirthdayCheckService.res_errors :=
                     ["Failed to parse Excel file: " ^^ detail] |}.
Proof.
  cbv zeta.
  destruct (performDailyCheck_after_failed_initialize Demo.invalidHost (Demo.start true)
              eq_refl eq_refl ltac:(discriminate)) as (R1 & _ & R2 & _).
  split; [ rewrite R1; reflexivity | exact R2 ].
Defined.

(** X9.  In an environment read through the Configuration class,
    [BirthdayCheckService.initialize] succeeds exactly when
    [Configuration.validate] passes, and then the service holds its
    configuration and its three components; otherwise it throws the list of
    the validation errors. *)
Theorem initialize_succeeds_iff_valid :
  forall (h : Host) (env : Configuration.Env) (s : Sys),
    readsEnvironment h env ->
    let loaded := Configuration.loadFromEnvironment env Configuration.new in
    let run := BirthdayCheckService.initialize h s in
    if Configuration.isValid (Configuration.validate h loaded)
    then result_of run = Normal tt
         /\ service (state_of run)
            = initialized h (logger (service s))
                {| apiUrl := Configuration.smsApiUrl loaded;
                   apiKey := Configuration.smsApiKey loaded;
                   senderId := Configuration.smsSenderId loaded;
                   recipientNumber := Configuration.recipientMobileNumber loaded |}
    else result_of run
         = Throw (validationFailure (Configuration.errors (Configuration.validate h loaded)))
         /\ service (state_of run) = configured h (service s).
Proof.
  intros h env s [He Hv] loaded run. fold loaded in He, Hv.
  destruct (Configuration.isValid (Configuration.validate h loaded)) eqn:V.
  - pose proof (validate_builds_SMSService h loaded V) as Hn.
    assert (Hnil : validationErrors h = []).
    { rewrite Hv. unfold Configuration.validate in V |- *.
      cbn [Configuration.isValid Configuration.errors] in *.
      apply Nat.eqb_eq in V. apply length_zero_iff_nil in V. exact V. }
    assert (Hn' : SMSService.new (smsApiUrl (environment h)) (smsApiKey (environment h))
                    (smsSenderId (environment h)) (recipientMobileNumber (environment h))
                  = Returned {| apiUrl := Configuration.smsApiUrl loaded;
                                apiKey := Configuration.smsApiKey loaded;
                                senderId := Configuration.smsSenderId loaded;
                                recipientNumber := Configuration.recipientMobileNumber loaded |}).
    { rewrite He. exact Hn. }
    pose proof (initialize_success h s _ Hnil Hn') as W. unfold wp in W. fold run in W.
    destruct W as (R & _ & S). rewrite S. split; [ exact R | reflexivity ].
  - assert (Hne : validationErrors h <> []).
    { rewrite Hv. intros E. unfold Configuration.validate in V, E.
      cbn [Configuration.isValid Configuration.errors] in *. rewrite E in V. discriminate. }
    pose proof (initialize_failure h s Hne) as W. unfold wp in W. fold run in W.
    destruct W as (R & _ & S). rewrite S, R, Hv. split; reflexivity.
Qed.

Lemma initialize_succeeds_iff_valid_witness :
  let h := Demo.host Demo.alwaysDown in
  let run := BirthdayCheckService.initialize h (Demo.start true) in
  readsEnvironment h Samples.env
  /\ result_of run = Normal tt
  /\ service (state_of run) = initialized h true Demo.sms.
Proof.
  cbv zeta.
  assert (R : readsEnvironment (Demo.host Demo.alwaysDown) Samples.env)
    by (split; reflexivity).
  split; [ exact R | ].
  exact (initialize_succeeds_iff_valid (Demo.host Demo.alwaysDown) Samples.env
           (Demo.start true) R).
Defined.

(** X10.  [getConfig] throws until [load] has been called.  After [load] it
    returns the configuration read from the environment, whether [load]
    returned it or threw because it fails validation: the manager keeps
    the configuration it rejected. *)
Theorem load_then_getConfig :
  forall (h : Host) (env : Configuration.Env)
         (this : ConfigurationManager.ConfigurationManagerObj),
    let loaded := Configuration.loadFromEnvironment env Configuration.new in
    let validation := Configuration.validate h loaded in
    ConfigurationManager.getConfig ConfigurationManager.new
    = Raised "Configuration has not been loaded. Call load() first."
    /\ fst (ConfigurationManager.load h env this)
       = (if Configuration.isValid validation then Returned loaded
          else Raised (validationFailure (Configuration.errors validation)))
    /\ ConfigurationManager.getConfig (snd (ConfigurationManager.load h env this))
       = Returned loaded
    /\ ConfigurationManager.reload h env (snd (ConfigurationManager.load h env this))
       = ConfigurationManager.load h env this.
Proof.
  intros h env this loaded validation. unfold ConfigurationManager.reload, ConfigurationManager.load.
  fold loaded. fold validation.
  destruct (Configuration.isValid validation); cbn; repeat split.
Qed.

(* ================================================================== *)
(** ** Associate: the methods of the model *)
(* ================================================================== *)

Lemma isBirthdayOnDate_Date (h : Host) (a : Associate) (b d : Date) :
  dateOfBirth a = VDate b ->
  AssociateMethods.isBirthdayOnDate h a (VDate d)
  = Returned (DateMatcher.isBirthday h (getMonth (tz h) d) (getDate (tz h) d) (Some a)).
Proof.
  intros E. unfold AssociateMethods.isBirthdayOnDate, DateMatcher.isBirthday.
  rewrite E. cbn [AssociateMethods.callGetter].
  destruct (strict_eq (getMonth (tz h) b) (getMonth (tz h) d)); reflexivity.
Qed.

(** X11.  [Associate.isBirthdayOnDate] and [DateMatcher.findBirthdaysOnDate]
    agree: an associate is in the list the matcher returns for a Date
    exactly when it is in the list given and its own method answers true,
    also when the target date is invalid (both then answer no).  They
    differ on a date of birth that is not a Date: the matcher leaves the
    associate out, the method throws. *)
Theorem isBirthdayOnDate_agrees_with_matcher :
  forall (h : Host) (a : Associate) (l : list Element) (d : Date),
    (In (Some a) (DateMatcher.findBirthdaysOnDate h (Some l) (VDate d))
     <-> In (Some a) l /\ AssociateMethods.isBirthdayOnDate h a (VDate d) = Returned true)
    /\ ((forall b, dateOfBirth a <> VDate b) ->
        (exists m, AssociateMethods.isBirthdayOnDate h a (VDate d) = Raised m)
        /\ ~ In (Some a) (DateMatcher.findBirthdaysOnDate h (Some l) (VDate d))).
Proof.
  intros h a l d.
  assert (F : In (Some a) (DateMatcher.findBirthdaysOnDate h (Some l) (VDate d))
              <-> In (Some a) l
                  /\ DateMatcher.isBirthday h (getMonth (tz h) d) (getDate (tz h) d) (Some a) = true).
  { unfold DateMatcher.findBirthdaysOnDate. destruct (isInvalid d) eqn:V.
    - split; [ intros [] | ]. intros [_ H]. unfold isInvalid in V.
      unfold DateMatcher.isBirthday, getMonth in H. destruct (timeValue d); [ discriminate | ].
      cbn [option_map] in H. destruct (dateOfBirth a); try discriminate.
      destruct (option_map _ _) in H; discriminate.
    - apply filter_In. }
  split.
  - rewrite F. destruct (dateOfBirth a) as [ | | x | n | t | b | ] eqn:E;
      try (unfold AssociateMethods.isBirthdayOnDate, DateMatcher.isBirthday; rewrite E;
           cbn [AssociateMethods.callGetter]; intuition discriminate).
    rewrite (isBirthdayOnDate_Date h a b d E). intuition congruence.
  - intros N. split.
    + unfold AssociateMethods.isBirthdayOnDate.
      destruct (dateOfBirth a) as [ | | x | n | t | b | ] eqn:E;
        cbn [AssociateMethods.callGetter]; eauto.
      exfalso. apply (N b). reflexivity.
    + rewrite F. intros [_ H]. unfold DateMatcher.isBirthday in H.
      destruct (dateOfBirth a) as [ | | x | n | t | b | ] eqn:E; try discriminate.
      apply (N b). reflexivity.
Qed.

(* ================================================================== *)
(** ** Scheduler: the life of the daily job *)
(* ================================================================== *)

Lemma wpW_bind {A B} (m : Scheduler.MW A) (f : A -> Scheduler.MW B) w Q :
  wpW m w (fun c w1 e1 =>
             match c with
             | Normal a => wpW (f a) w1 (fun c2 w2 e2 => Q c2 w2 (e1 ++ e2)%list)
             | Throw x => Q (Throw x) w1 e1
             | OutOfFuel => Q OutOfFuel w1 e1
             end) ->
  wpW (Scheduler.bindW m f) w Q.
Proof.
  unfold wpW, Scheduler.bindW. destruct (m w) as [[[a | x | ] w1] e1]; cbn; auto.
  destruct (f a w1) as [[c2 w2] e2]. cbn. auto.
Qed.

Lemma wpW_try_catch {A} (m : Scheduler.MW A) (handler : string -> Scheduler.MW A) w Q :
  wpW m w (fun c w1 e1 =>
             match c with
             | Throw x => wpW (handler x) w1 (fun c2 w2 e2 => Q c2 w2 (e1 ++ e2)%list)
             | _ => Q c w1 e1
             end) ->
  wpW (Scheduler.try_catchW m handler) w Q.
Proof.
  unfold wpW, Scheduler.try_catchW. destruct (m w) as [[[a | x | ] w1] e1]; cbn; auto.
  destruct (handler x w1) as [[c2 w2] e2]. cbn. auto.
Qed.

Lemma wpW_ret {A} (a : A) w Q : Q (Normal a) w [] -> wpW (Scheduler.retW a) w Q.
Proof. auto. Qed.

Lemma wpW_throw {A} (x : string) w (Q : Completion A -> Scheduler.World -> list Event -> Prop) :
  Q (Throw x) w [] -> wpW (Scheduler.throwW x) w Q.
Proof. auto. Qed.

Lemma wpW_getThis w Q : Q (Normal (Scheduler.this w)) w [] -> wpW Scheduler.getThis w Q.
Proof. auto. Qed.

Lemma wpW_setThis f w Q :
  Q (Normal tt) {| Scheduler.this := f (Scheduler.this w);
                   Scheduler.registry := Scheduler.registry w;
                   Scheduler.sys := Scheduler.sys w |} [] ->
  wpW (Scheduler.setThis f) w Q.
Proof. auto. Qed.

Lemma wpW_liftM {A} (m : M A) w Q :
  wp m (Scheduler.sys w) (fun c s e => Q c (withSys w s) e) ->
  wpW (Scheduler.liftM m) w Q.
Proof.
  unfold wp, wpW, Scheduler.liftM, result_of, state_of, events_of.
  destruct (m (Scheduler.sys w)) as [[c s] e]. cbn. auto.
Qed.

Lemma wpW_log (level message : string) w Q :
  Q (Normal tt) w (if Scheduler.logger (Scheduler.this w) then [EvLog level message] else []) ->
  wpW (Scheduler.log level message) w Q.
Proof.
  unfold wpW, Scheduler.log, Scheduler.bindW, Scheduler.getThis, Scheduler.liftM, log, emit, ret.
  destruct w as [this registry sys]. cbn.
  destruct (Scheduler.logger this); cbn; auto.
Qed.

Lemma wpW_mono {A} (m : Scheduler.MW A) w
      (Q Q' : Completion A -> Scheduler.World -> list Event -> Prop) :
  wpW m w Q -> (forall c w' e, Q c w' e -> Q' c w' e) -> wpW m w Q'.
Proof. unfold wpW. auto. Qed.

Lemma wpW_run {A} (m : Scheduler.MW A) w c w' e
      (Q : Completion A -> Scheduler.World -> list Event -> Prop) :
  m w = (c, w', e) -> Q c w' e -> wpW m w Q.
Proof. intros E H. unfold wpW. rewrite E. exact H. Qed.

Ltac wpW_step :=
  lazymatch goal with
  | |- wpW (Scheduler.bindW _ _) _ _ => apply wpW_bind
  | |- wpW (Scheduler.try_catchW _ _) _ _ => apply wpW_try_catch
  | |- wpW (Scheduler.retW _) _ _ => apply wpW_ret
  | |- wpW (Scheduler.throwW _) _ _ => apply wpW_throw
  | |- wpW Scheduler.getThis _ _ => apply wpW_getThis
  | |- wpW (Scheduler.setThis _) _ _ => apply wpW_setThis
  | |- wpW (Scheduler.log _ _) _ _ => apply wpW_log
  end; cbv beta iota.

Ltac wpW_steps := repeat wpW_step.

Lemma sameJob_refl w : sameJob w w.
Proof. repeat split. Qed.

Lemma sameJob_trans w1 w2 w3 : sameJob w1 w2 -> sameJob w2 w3 -> sameJob w1 w3.
Proof. unfold sameJob. intuition congruence. Qed.

Lemma sameJob_withSys w s : sameJob w (withSys w s).
Proof. repeat split. Qed.

Lemma oneJob_sameJob w w' : sameJob w w' -> oneJob w -> oneJob w'.
Proof.
  unfold sameJob, oneJob, runningTasks. intros (Hr & Hc & Hi & _) H.
  rewrite Hr, Hc, Hi. exact H.
Qed.

(** [Scheduler.initialize] returns or throws; it leaves the job alone. *)
Lemma Scheduler_initialize_spec (h : Host) w :
  wpW (Scheduler.initialize h) w
      (fun c w' e =>
         c <> OutOfFuel /\ sameJob w w' /\ forallb isLog e = true
         /\ (c = Normal tt -> Scheduler.birthdayCheckService (Scheduler.this w') = true)).
Proof.
  unfold Scheduler.initialize. wpW_steps.
  destruct (Scheduler.validateTimeFormat (Scheduler.scheduledTime (Scheduler.this w))).
  - cbn [negb]. wpW_steps.
    unfold Scheduler.createService at 1.
    eapply wpW_run; [ reflexivity | ]. cbv beta iota. wpW_step.
    apply wpW_liftM. cbn [Scheduler.sys].
    eapply wp_mono; [ apply initialize_spec | ].
    intros c s1 e (Hc & He & _).
    destruct c as [ [] | m | ]; [ | | contradiction ]; wpW_steps;
      cbn [withSys Scheduler.this Scheduler.registry Scheduler.logger];
      (split; [ discriminate | split; [ repeat split | split; [ logs | ] ] ]);
      try discriminate. intros _. reflexivity.
  - cbn [negb]. wpW_steps.
    split; [ discriminate | split; [ apply sameJob_refl | split; [ logs | discriminate ] ] ].
Qed.

Lemma count_le_sends (method : string) (l l' : list Event) :
  sends l = sends l' ->
  (count (isInvoke method) l' <= 1)%nat -> (count (isInvoke method) l <= 1)%nat.
Proof. intros E H. rewrite <- count_sends, E, count_sends. exact H. Qed.

(** What [executeTask] does in every world: it returns, leaves the
    scheduler and the registry as they are, and calls
    [sendBirthdayNotification] at most once. *)
Lemma executeTask_spec (p : Scheduler.Platform) (h : Host) w :
  wpW (Scheduler.executeTask p h) w
      (fun c w' e =>
         c = Normal tt /\ (exists s, w' = withSys w s)
         /\ (count (isInvoke SMSService.sendBirthdayNotification_name) e <= 1)%nat).
Proof.
  unfold Scheduler.executeTask. wpW_steps.
  apply wpW_liftM. apply wp_now. wpW_step.
  destruct (toISOString _) as [iso | ].
  - wpW_steps. unfold Scheduler.callPerformDailyCheck. wpW_steps.
    cbn [withSys Scheduler.this Scheduler.registry Scheduler.sys].
    destruct (Scheduler.birthdayCheckService (Scheduler.this w)) eqn:B.
    + apply wpW_liftM. cbn [Scheduler.sys].
      eapply wp_mono; [ apply performDailyCheck_spec | ].
      intros c s1 e (r & -> & (Hcount & _) & _).
      destruct (0 <? BirthdayCheckService.len (BirthdayCheckService.res_errors r));
        wpW_steps; cbn [withSys Scheduler.this Scheduler.registry Scheduler.sys];
        (split; [ reflexivity | split; [ eexists; reflexivity | ] ]);
        (eapply count_le_sends; [ | exact Hcount ]); sends_simpl; reflexivity.
    + wpW_steps. cbn [withSys Scheduler.this Scheduler.registry Scheduler.sys].
      split; [ reflexivity | split; [ eexists; reflexivity | ] ].
      eapply (count_le_sends _ _ []); [ sends_simpl; reflexivity | cbn; lia ].
  - wpW_steps. cbn [withSys Scheduler.this Scheduler.registry Scheduler.sys].
    split; [ reflexivity | split; [ eexists; reflexivity | ] ].
    eapply (count_le_sends _ _ []); [ sends_simpl; reflexivity | cbn; lia ].
Qed.

Ltac runNow_rest S1 :=
  wpW_steps; unfold Scheduler.callPerformDailyCheck; wpW_steps;
  match goal with
  | |- context [Scheduler.birthdayCheckService (Scheduler.this ?w1)] =>
      destruct (Scheduler.birthdayCheckService (Scheduler.this w1))
  end;
  [ apply wpW_liftM; eapply wp_mono; [ apply performDailyCheck_spec | ];
    let c := fresh "c" in
    let s1 := fresh "s" in
    let e := fresh "e" in
    let r := fresh "r" in
    intros c s1 e (r & -> & _); wpW_steps;
    split; [ discriminate | ];
    eapply sameJob_trans; [ exact S1 | apply sameJob_withSys ]
  | wpW_steps; split; [ discriminate | exact S1 ] ].

Lemma runNow_spec (h : Host) w :
  wpW (Scheduler.runNow h) w
      (fun c w' e => c <> OutOfFuel /\ sameJob w w').
Proof.
  unfold Scheduler.runNow. wpW_steps.
  destruct (Scheduler.birthdayCheckService (Scheduler.this w)) eqn:B; cbn [negb].
  - wpW_step. pose proof (sameJob_refl w) as S0. runNow_rest S0.
  - eapply wpW_mono; [ apply Scheduler_initialize_spec | ].
    intros c w1 e1 (Hc & S1 & _).
    destruct c as [ [] | m | ]; [ | | contradiction ].
    + runNow_rest S1.
    + wpW_steps. split; [ discriminate | exact S1 ].
Qed.

Lemma runningTasks_app (tasks : list Scheduler.CronTask) (t : Scheduler.CronTask) :
  List.length (filter Scheduler.running (tasks ++ [t]))
  = (List.length (filter Scheduler.running tasks) + (if Scheduler.running t then 1 else 0))%nat.
Proof.
  rewrite filter_app, length_app. cbn [filter]. destruct (Scheduler.running t); reflexivity.
Qed.

Lemma runningTasks_stopped (tasks : list Scheduler.CronTask) :
  forall (job : nat) (task : Scheduler.CronTask),
    nth_error tasks job = Some task -> Scheduler.running task = true ->
    S (List.length (filter Scheduler.running (Scheduler.stopped job tasks)))
    = List.length (filter Scheduler.running tasks).
Proof.
  induction tasks as [ | t tasks IH]; intros job task Hn Hr.
  - destruct job; discriminate.
  - destruct job as [ | job]; cbn [nth_error] in Hn.
    + inversion Hn; subst t. cbn [Scheduler.stopped filter Scheduler.running].
      rewrite Hr. reflexivity.
    + cbn [Scheduler.stopped filter]. destruct (Scheduler.running t); cbn [List.length];
        rewrite <- (IH job task Hn Hr); reflexivity.
Qed.

(** The second half of [start]: nothing but a warning when the scheduler is
    running already; otherwise one more task in the registry, unless
    node-cron rejects the expression. *)
Lemma startJob_spec (p : Scheduler.Platform) w :
  wpW (Scheduler.startJob p) w
      (fun c w' e =>
         forallb isLog e = true /\
         if Scheduler.isRunning (Scheduler.this w)
         then c = Normal tt /\ w' = w
         else
           match Scheduler.cron_rejects p
                   (Scheduler.timeToCronExpression (Scheduler.scheduledTime (Scheduler.this w))) with
           | Some message => c = Throw message /\ w' = w
           | None => c = Normal tt /\ w' = afterStart p w
           end).
Proof.
  unfold Scheduler.startJob. wpW_steps.
  destruct (Scheduler.isRunning (Scheduler.this w)) eqn:R.
  - wpW_steps. split; [ logs | split; reflexivity ].
  - wpW_steps. unfold Scheduler.cron_schedule at 1.
    destruct (Scheduler.cron_rejects p _) as [message | ] eqn:C.
    + eapply wpW_run; [ reflexivity | ]. cbv beta iota.
      split; [ logs | split; reflexivity ].
    + eapply wpW_run; [ reflexivity | ]. cbv beta iota. wpW_steps.
      cbn [Scheduler.this Scheduler.registry Scheduler.sys Scheduler.logger
           Scheduler.scheduledTime Scheduler.birthdayCheckService Scheduler.cronJob
           Scheduler.isRunning].
      split; [ logs | split; reflexivity ].
Qed.

(** What [start] does to the job, in every world. *)
Lemma start_spec (p : Scheduler.Platform) (h : Host) w :
  wpW (Scheduler.start p h) w
      (fun c w' e =>
         forallb isLog e = true /\
         exists w1,
           sameJob w w1
           /\ ((exists m, c = Throw m) /\ w' = w1
               \/ c = Normal tt
                  /\ Scheduler.birthdayCheckService (Scheduler.this w1) = true
                  /\ (Scheduler.isRunning (Scheduler.this w1) = true /\ w' = w1
                      \/ Scheduler.isRunning (Scheduler.this w1) = false
                         /\ w' = afterStart p w1))).
Proof.
  unfold Scheduler.start. wpW_steps.
  assert (Tail : forall w1 e1,
             sameJob w w1 -> forallb isLog e1 = true ->
             Scheduler.birthdayCheckService (Scheduler.this w1) = true ->
             wpW (Scheduler.startJob p) w1
               (fun c2 w2 e2 =>
                  match c2 with
                  | Throw x =>
                      wpW (Scheduler.bindW
                             (Scheduler.log "ERROR" ("Failed to start scheduler: " ^^ x))
                             (fun _ => Scheduler.throwW x)) w2
                        (fun c3 w3 e3 =>
                           forallb isLog ((e1 ++ e2) ++ e3) = true /\
                           exists w1,
                             sameJob w w1
                             /\ ((exists m, c3 = Throw m) /\ w3 = w1
                                 \/ c3 = Normal tt
                                    /\ Scheduler.birthdayCheckService (Scheduler.this w1) = true
                                    /\ (Scheduler.isRunning (Scheduler.this w1) = true /\ w3 = w1
                                        \/ Scheduler.isRunning (Scheduler.this w1) = false
                                           /\ w3 = afterStart p w1)))
                  | _ =>
                      forallb isLog (e1 ++ e2) = true /\
                      exists w1,
                        sameJob w w1
                        /\ ((exists m, c2 = Throw m) /\ w2 = w1
                            \/ c2 = Normal tt
                               /\ Scheduler.birthdayCheckService (Scheduler.this w1) = true
                               /\ (Scheduler.isRunning (Scheduler.this w1) = true /\ w2 = w1
                                   \/ Scheduler.isRunning (Scheduler.this w1) = false
                                      /\ w2 = afterStart p w1))
                  end)).
  { intros w1 e1 S1 L1 B1.
    eapply wpW_mono; [ apply startJob_spec | ].
    intros c w2 e2 [L2 H].
    destruct (Scheduler.isRunning (Scheduler.this w1)) eqn:R.
    - destruct H as [-> ->]. split; [ logs | ]. exists w1. split; [ exact S1 | ].
      right. split; [ reflexivity | split; [ exact B1 | left; split; [ exact R | reflexivity ] ] ].
    - destruct (Scheduler.cron_rejects p _) as [message | ].
      + destruct H as [-> ->]. wpW_steps. split; [ logs | ]. exists w1. split; [ exact S1 | ].
        left. split; [ eauto | reflexivity ].
      + destruct H as [-> ->]. split; [ logs | ]. exists w1. split; [ exact S1 | ].
        right. split; [ reflexivity | split; [ exact B1 | right; split; [ exact R | reflexivity ] ] ]. }
  destruct (Scheduler.birthdayCheckService (Scheduler.this w)) eqn:B; cbn [negb].
  - wpW_steps. eapply wpW_mono; [ apply (Tail w [] (sameJob_refl w) eq_refl B) | ].
    intros c w2 e2 H. destruct c; exact H.
  - eapply wpW_mono; [ apply Scheduler_initialize_spec | ].
    intros c w1 e1 (Hc & S1 & L1 & B1).
    destruct c as [ [] | m | ]; [ | | contradiction ].
    + eapply wpW_mono; [ apply (Tail w1 e1 S1 L1 (B1 eq_refl)) | ].
      intros c w2 e2 H. destruct c; exact H.
    + wpW_steps. split; [ logs | ]. exists w1. split; [ exact S1 | ].
      left. split; [ eauto | reflexivity ].
Qed.

Lemma stop_spec w :
  wpW Scheduler.stop w
      (fun c w' e =>
         c = Normal tt /\ forallb isLog e = true /\
         w' = if Scheduler.isRunning (Scheduler.this w)
              then {| Scheduler.this := halted (Scheduler.this w);
                      Scheduler.registry :=
                        match Scheduler.cronJob (Scheduler.this w) with
                        | Some job => Scheduler.stopped job (Scheduler.registry w)
                        | None => Scheduler.registry w
                        end;
                      Scheduler.sys := Scheduler.sys w |}
              else w).
Proof.
  unfold Scheduler.stop. wpW_steps.
  destruct (Scheduler.isRunning (Scheduler.this w)) eqn:R; cbn [negb].
  - wpW_steps. destruct (Scheduler.cronJob (Scheduler.this w)) as [job | ] eqn:J.
    + wpW_steps. unfold Scheduler.cron_stop at 1.
      eapply wpW_run; [ reflexivity | ]. cbv beta iota. wpW_steps.
      cbn [Scheduler.this Scheduler.registry Scheduler.sys Scheduler.logger
           Scheduler.scheduledTime Scheduler.birthdayCheckService Scheduler.cronJob
           Scheduler.isRunning].
      split; [ reflexivity | split; [ logs | reflexivity ] ].
    + wpW_steps.
      cbn [Scheduler.this Scheduler.registry Scheduler.sys Scheduler.logger
           Scheduler.scheduledTime Scheduler.birthdayCheckService Scheduler.cronJob
           Scheduler.isRunning].
      split; [ reflexivity | split; [ logs | ] ]. unfold halted. rewrite J. reflexivity.
  - wpW_steps. split; [ reflexivity | split; [ logs | reflexivity ] ].
Qed.

(** X12.  [executeTask] never throws, whatever the state of the scheduler and
    of the services, also when the scheduler has no service yet: it
    returns, leaves the scheduler and the registry of node-cron untouched,
    and calls [sendBirthdayNotification] at most once. *)
Theorem executeTask_never_throws :
  forall (p : Scheduler.Platform) (h : Host) (w : Scheduler.World),
    exists s e,
      Scheduler.executeTask p h w = (Normal tt, withSys w s, e)
      /\ (count (isInvoke SMSService.sendBirthdayNotification_name) e <= 1)%nat.
Proof.
  intros p h w. pose proof (executeTask_spec p h w) as H. unfold wpW in H.
  destruct (Scheduler.executeTask p h w) as [[c w'] e]. cbn [fst snd] in H.
  destruct H as (-> & (s & ->) & Hc). exists s, e. split; [ reflexivity | exact Hc ].
Qed.

Lemma oneJob_afterStart (p : Scheduler.Platform) w :
  Scheduler.isRunning (Scheduler.this w) = false -> oneJob w -> oneJob (afterStart p w).
Proof.
  unfold oneJob, runningTasks. intros R. rewrite R. intros [H0 _].
  cbn [afterStart started Scheduler.this Scheduler.registry Scheduler.isRunning Scheduler.cronJob].
  rewrite runningTasks_app, H0. cbn [dailyTask Scheduler.running]. split; [ reflexivity | ].
  exists (List.length (Scheduler.registry w)), (dailyTask p (Scheduler.scheduledTime (Scheduler.this w))).
  split; [ reflexivity | split; [ | reflexivity ] ].
  rewrite nth_error_app2, Nat.sub_diag by lia. reflexivity.
Qed.

Lemma perform_oneJob (p : Scheduler.Platform) (h : Host) (c : Call) w :
  oneJob w -> oneJob (perform p h c w).
Proof.
  intros H. destruct c; cbn [perform].
  - pose proof (Scheduler_initialize_spec h w) as (_ & S & _). exact (oneJob_sameJob _ _ S H).
  - pose proof (executeTask_spec p h w) as (_ & (s & E) & _). rewrite E.
    exact (oneJob_sameJob _ _ (sameJob_withSys w s) H).
  - pose proof (start_spec p h w) as (_ & w1 & S & [[_ E] | (_ & _ & [[_ E] | [R E]])]);
      rewrite E.
    + exact (oneJob_sameJob _ _ S H).
    + exact (oneJob_sameJob _ _ S H).
    + apply oneJob_afterStart; [ exact R | exact (oneJob_sameJob _ _ S H) ].
  - pose proof (stop_spec w) as (_ & _ & E). rewrite E.
    destruct (Scheduler.isRunning (Scheduler.this w)) eqn:R; [ | exact H ].
    unfold oneJob in H. rewrite R in H. destruct H as (H1 & job & task & J & N & T).
    unfold oneJob, runningTasks in *.
    cbn [halted Scheduler.this Scheduler.registry Scheduler.isRunning Scheduler.cronJob].
    rewrite J. split; [ | reflexivity ].
    pose proof (runningTasks_stopped _ job task N T). lia.
  - pose proof (runNow_spec h w) as (_ & S). exact (oneJob_sameJob _ _ S H).
Qed.

(** X13.  Whatever methods are called on a scheduler after its construction,
    in whatever order and however they end, node-cron never runs more than
    one of its tasks: exactly one when [isSchedulerRunning()] answers true,
    and it is the job the scheduler holds; none when it answers false. *)
Theorem scheduler_runs_at_most_one_job :
  forall (p : Scheduler.Platform) (h : Host) (calls : list Call)
         (scheduledTime : option string) (logger : bool) (s : Sys),
    let w := performAll p h calls (constructed scheduledTime logger s) in
    oneJob w
    /\ runningTasks w = (if Scheduler.isSchedulerRunning (Scheduler.this w) then 1 else 0)%nat.
Proof.
  intros p h calls scheduledTime logger s w.
  assert (H : oneJob w).
  { unfold w, performAll.
    assert (H0 : oneJob (constructed scheduledTime logger s)) by (split; reflexivity).
    revert H0. generalize (constructed scheduledTime logger s).
    induction calls as [ | c calls IH]; intros w0 H0; cbn [fold_left].
    - exact H0.
    - apply IH. apply perform_oneJob. exact H0. }
  split; [ exact H | ].
  unfold oneJob, Scheduler.isSchedulerRunning in *.
  destruct (Scheduler.isRunning (Scheduler.this w)); apply H.
Qed.

Lemma run_of_wpW {A} (m : Scheduler.MW A) w :
  m w = (fst (fst (m w)), snd (fst (m w)), snd (m w)).
Proof. destruct (m w) as [[c w'] e]. reflexivity. Qed.

Lemma start_with_service (p : Scheduler.Platform) (h : Host) w :
  Scheduler.birthdayCheckService (Scheduler.this w) = true ->
  wpW (Scheduler.start p h) w
      (fun c w' e =>
         forallb isLog e = true /\
         if Scheduler.isRunning (Scheduler.this w)
         then c = Normal tt /\ w' = w
         else
           match Scheduler.cron_rejects p
                   (Scheduler.timeToCronExpression (Scheduler.scheduledTime (Scheduler.this w))) with
           | Some message => c = Throw message /\ w' = w
           | None => c = Normal tt /\ w' = afterStart p w
           end).
Proof.
  intros B. unfold Scheduler.start. wpW_steps. rewrite B. cbn [negb]. wpW_steps.
  eapply wpW_mono; [ apply startJob_spec | ].
  intros c w2 e2 [L2 H].
  destruct (Scheduler.isRunning (Scheduler.this w)).
  - destruct H as [-> ->]. split; [ logs | split; reflexivity ].
  - destruct (Scheduler.cron_rejects p _) as [message | ]; destruct H as [-> ->].
    + wpW_steps. split; [ logs | split; reflexivity ].
    + split; [ logs | split; reflexivity ].
Qed.

Lemma stopped_last (tasks : list Scheduler.CronTask) (t : Scheduler.CronTask) :
  Scheduler.stopped (List.length tasks) (tasks ++ [t])
  = (tasks ++ [{| Scheduler.expression := Scheduler.expression t;
                  Scheduler.timezone := Scheduler.timezone t;
                  Scheduler.running := false |}])%list.
Proof.
  induction tasks as [ | x tasks IH]; cbn [List.length app Scheduler.stopped].
  - reflexivity.
  - rewrite IH. reflexivity.
Qed.

(** X14.  On a scheduler that has its service and is not running, [start]
    registers one task with node-cron, for the expression of the scheduled
    time and the time zone of the host, and records it; a second [start]
    then changes nothing; [stop] stops that task, drops it and clears
    [isRunning], and a second [stop] changes nothing.  No call touches the
    services. *)
Theorem start_then_stop :
  forall (p : Scheduler.Platform) (h : Host) (w : Scheduler.World),
    Scheduler.birthdayCheckService (Scheduler.this w) = true ->
    Scheduler.isRunning (Scheduler.this w) = false ->
    Scheduler.cron_rejects p
      (Scheduler.timeToCronExpression (Scheduler.scheduledTime (Scheduler.this w))) = None ->
    let w1 := afterStart p w in
    let w2 := {| Scheduler.this := halted (Scheduler.this w);
                 Scheduler.registry :=
                   (Scheduler.registry w
                    ++ [{| Scheduler.expression :=
                             Scheduler.timeToCronExpression
                               (Scheduler.scheduledTime (Scheduler.this w));
                           Scheduler.timezone := Scheduler.timeZone p;
                           Scheduler.running := false |}])%list;
                 Scheduler.sys := Scheduler.sys w |} in
    (fst (Scheduler.start p h w) = (Normal tt, w1))
    /\ (fst (Scheduler.start p h w1) = (Normal tt, w1))
    /\ (fst (Scheduler.stop w1) = (Normal tt, w2))
    /\ (fst (Scheduler.stop w2) = (Normal tt, w2))
    /\ Scheduler.isSchedulerRunning (Scheduler.this w1) = true
    /\ Scheduler.isSchedulerRunning (Scheduler.this w2) = false.
Proof.
  intros p h w B R C w1 w2.
  assert (H1 : fst (Scheduler.start p h w) = (Normal tt, w1)).
  { pose proof (start_with_service p h w B) as H. unfold wpW in H. rewrite R, C in H.
    destruct (Scheduler.start p h w) as [[c w'] e]. cbn [fst snd] in *.
    destruct H as (_ & -> & ->). reflexivity. }
  assert (H2 : fst (Scheduler.start p h w1) = (Normal tt, w1)).
  { pose proof (start_with_service p h w1 B) as H. unfold wpW in H.
    change (Scheduler.isRunning (Scheduler.this w1)) with true in H. cbv iota in H.
    destruct (Scheduler.start p h w1) as [[c w'] e]. cbn [fst snd] in *.
    destruct H as (_ & -> & ->). reflexivity. }
  assert (H3 : fst (Scheduler.stop w1) = (Normal tt, w2)).
  { pose proof (stop_spec w1) as H. unfold wpW in H.
    change (Scheduler.isRunning (Scheduler.this w1)) with true in H. cbv iota in H.
    destruct (Scheduler.stop w1) as [[c w'] e]. cbn [fst snd] in *.
    destruct H as (-> & _ & ->). f_equal. unfold w2, w1, afterStart.
    cbn [Scheduler.this Scheduler.registry Scheduler.sys started Scheduler.cronJob].
    rewrite stopped_last. reflexivity. }
  assert (H4 : fst (Scheduler.stop w2) = (Normal tt, w2)).
  { pose proof (stop_spec w2) as H. unfold wpW in H.
    change (Scheduler.isRunning (Scheduler.this w2)) with false in H. cbv iota in H.
    destruct (Scheduler.stop w2) as [[c w'] e]. cbn [fst snd] in *.
    destruct H as (-> & _ & ->). reflexivity. }
  repeat split; assumption.
Qed.

Lemma start_then_stop_witness :
  let h := Demo.host Demo.alwaysDown in
  let w := Samples.ready in
  let w1 := afterStart Samples.platform w in
  Scheduler.registry w1
  = [{| Scheduler.expression := "00 09 * * *"; Scheduler.timezone := "UTC";
        Scheduler.running := true |}]
  /\ fst (Scheduler.start Samples.platform h w) = (Normal tt, w1)
  /\ Scheduler.registry (snd (fst (Scheduler.stop w1)))
     = [{| Scheduler.expression := "00 09 * * *"; Scheduler.timezone := "UTC";
           Scheduler.running := false |}].
Proof.
  cbv zeta.
  destruct (start_then_stop Samples.platform (Demo.host Demo.alwaysDown)
              (Samples.ready) eq_refl eq_refl eq_refl)
    as (H1 & _ & H3 & _).
  split; [ reflexivity | split; [ exact H1 | rewrite H3; reflexivity ] ].
Defined.

(** X15.  When the scheduled time is not of the form the scheduler accepts,
    [initialize] throws before it builds the service: the scheduler, the
    registry and the services are left exactly as they were, so that
    [start] and [runNow], which initialise first, throw the same error
    every time they are called. *)
Theorem initialize_rejects_scheduled_time :
  forall (p : Scheduler.Platform) (h : Host) (w : Scheduler.World),
    Scheduler.validateTimeFormat (Scheduler.scheduledTime (Scheduler.this w)) = false ->
    let message := invalidTime (Scheduler.scheduledTime (Scheduler.this w)) in
    Scheduler.initialize h w
    = (Throw message, w,
       if Scheduler.logger (Scheduler.this w)
       then [EvLog "INFO" "Initializing Scheduler...";
             EvLog "ERROR" ("Scheduler initialization failed: " ^^ message)]
       else [])
    /\ (Scheduler.birthdayCheckService (Scheduler.this w) = false ->
        fst (Scheduler.start p h w) = (Throw message, w)
        /\ fst (Scheduler.runNow h w) = (Throw message, w)).
Proof.
  intros p h w V message.
  assert (I : Scheduler.initialize h w
              = (Throw message, w,
                 if Scheduler.logger (Scheduler.this w)
                 then [EvLog "INFO" "Initializing Scheduler...";
                       EvLog "ERROR" ("Scheduler initialization failed: " ^^ message)]
                 else [])).
  { rewrite (run_of_wpW (Scheduler.initialize h) w).
    change (wpW (Scheduler.initialize h) w
              (fun c w' e =>
                 (c, w', e)
                 = (Throw message, w,
                    if Scheduler.logger (Scheduler.this w)
                    then [EvLog "INFO" "Initializing Scheduler...";
                          EvLog "ERROR" ("Scheduler initialization failed: " ^^ message)]
                    else []))).
    unfold Scheduler.initialize. wpW_steps. rewrite V. cbn [negb]. wpW_steps.
    destruct (Scheduler.logger (Scheduler.this w)); reflexivity. }
  split; [ exact I | ].
  intros B. split.
  - rewrite (run_of_wpW (Scheduler.start p h) w). cbn [fst].
    change (wpW (Scheduler.start p h) w (fun c w' e => (c, w') = (Throw message, w))).
    unfold Scheduler.start. wpW_steps. rewrite B. cbn [negb].
    eapply wpW_run; [ exact I | ]. cbv beta iota. wpW_steps. reflexivity.
  - rewrite (run_of_wpW (Scheduler.runNow h) w). cbn [fst].
    change (wpW (Scheduler.runNow h) w (fun c w' e => (c, w') = (Throw message, w))).
    unfold Scheduler.runNow. wpW_steps. rewrite B. cbn [negb].
    eapply wpW_run; [ exact I | ]. cbv beta iota. wpW_steps. reflexivity.
Qed.

Lemma initialize_rejects_scheduled_time_witness :
  let h := Demo.host Demo.alwaysDown in
  let w := constructed (Some "9:00"%string) true (Demo.start true) in
  Configuration.validateScheduledTime (VString "9:00") = true
  /\ Scheduler.initialize h w
     = (Throw "Invalid scheduled time format: 9:00. Expected HH:MM format (24-hour).",
        w,
        [EvLog "INFO" "Initializing Scheduler...";
         EvLog "ERROR" "Scheduler initialization failed: Invalid scheduled time format: 9:00. Expected HH:MM format (24-hour)."]).
Proof.
  cbv zeta. split; [ reflexivity | ].
  exact (proj1 (initialize_rejects_scheduled_time Samples.platform (Demo.host Demo.alwaysDown)
                  (constructed (Some "9:00"%string) true (Demo.start true)) eq_refl)).
Defined.

Lemma runNow_returns_daily_check_aux (h : Host) (w : Scheduler.World) :
    Scheduler.birthdayCheckService (Scheduler.this w) = true ->
    exists r s e,
      BirthdayCheckService.performDailyCheck h (Scheduler.sys w) = (Normal r, s, e)
      /\ Scheduler.runNow h w
         = (Normal r, withSys w s,
            ((if Scheduler.logger (Scheduler.this w)
              then [EvLog "INFO" "Manual birthday check triggered"] else []) ++ e)%list).
Proof.
  intros B.
  pose proof (performDailyCheck_spec h (Scheduler.sys w)) as (r & Hr & _).
  destruct (BirthdayCheckService.performDailyCheck h (Scheduler.sys w)) as [[c s] e] eqn:E.
  cbn [result_of fst] in Hr. subst c. exists r, s, e. split; [ reflexivity | ].
  rewrite (run_of_wpW (Scheduler.runNow h) w).
  change (wpW (Scheduler.runNow h) w
            (fun c w' e' =>
               (c, w', e')
               = (Normal r, withSys w s,
                  ((if Scheduler.logger (Scheduler.this w)
                    then [EvLog "INFO" "Manual birthday check triggered"] else []) ++ e)%list))).
  unfold Scheduler.runNow. wpW_steps. rewrite B. cbn [negb]. wpW_steps.
  unfold Scheduler.callPerformDailyCheck. wpW_steps. rewrite B.
  apply wpW_liftM. eapply wp_run; [ exact E | ]. cbv beta iota. wpW_steps.
  cbn [app]. rewrite ?app_nil_r. reflexivity.
Qed.

(** X16.  On a scheduler that has its service, [runNow] runs one daily check
    and returns its result: it never throws, and it leaves the scheduler
    and the registry as they are. *)
Theorem runNow_returns_daily_check :
  forall (h : Host) (w : Scheduler.World),
    Scheduler.birthdayCheckService (Scheduler.this w) = true ->
    exists r s e,
      BirthdayCheckService.performDailyCheck h (Scheduler.sys w) = (Normal r, s, e)
      /\ Scheduler.runNow h w
         = (Normal r, withSys w s,
            ((if Scheduler.logger (Scheduler.this w)
              then [EvLog "INFO" "Manual birthday check triggered"] else []) ++ e)%list).
Proof. exact runNow_returns_daily_check_aux. Qed.

Lemma runNow_returns_daily_check_witness :
  let h := Demo.invalidHost in
  exists r s e,
    BirthdayCheckService.performDailyCheck h (Demo.start true) = (Normal r, s, e)
    /\ fst (fst (Scheduler.runNow h (Samples.ready))) = Normal r.
Proof.
  cbv zeta.
  destruct (runNow_returns_daily_check Demo.invalidHost (Samples.ready) eq_refl)
    as (r & s & e & E1 & E2).
  exists r, s, e. split; [ exact E1 | rewrite E2; reflexivity ].
Defined.

Lemma Scheduler_initialize_failure (h : Host) w :
  Scheduler.validateTimeFormat (Scheduler.scheduledTime (Scheduler.this w)) = true ->
  validationErrors h <> [] ->
  wpW (Scheduler.initialize h) w
      (fun c w' e =>
         c = Throw (validationFailure (validationErrors h))
         /\ w' = afterFailedInitialize h w).
Proof.
  intros V Hv. unfold Scheduler.initialize. wpW_steps. rewrite V. cbn [negb]. wpW_steps.
  unfold Scheduler.createService at 1.
  eapply wpW_run; [ reflexivity | ]. cbv beta iota. wpW_step.
  apply wpW_liftM. cbn [Scheduler.sys].
  eapply wp_mono; [ apply (initialize_failure h _ Hv) | ].
  intros c s1 e (-> & _ & ->). wpW_steps.
  split; reflexivity.
Qed.

(** X17.  A [start] that fails on the validation of the configuration leaves
    the scheduler with a service that was built but never initialised.
    The next [start] finds that service, does not initialise again, and
    schedules the daily job; the checks that job runs report a failure to
    parse the file, since the service has no parser. *)
Theorem start_after_failed_start :
  forall (p : Scheduler.Platform) (h : Host) (w : Scheduler.World),
    Scheduler.birthdayCheckService (Scheduler.this w) = false ->
    Scheduler.isRunning (Scheduler.this w) = false ->
    Scheduler.validateTimeFormat (Scheduler.scheduledTime (Scheduler.this w)) = true ->
    validationErrors h <> [] ->
    Scheduler.cron_rejects p
      (Scheduler.timeToCronExpression (Scheduler.scheduledTime (Scheduler.this w))) = None ->
    let w1 := afterFailedInitialize h w in
    let w2 := afterStart p w1 in
    fst (Scheduler.start p h w) = (Throw (validationFailure (validationErrors h)), w1)
    /\ fst (Scheduler.start p h w1) = (Normal tt, w2)
    /\ Scheduler.isSchedulerRunning (Scheduler.this w2) = true
    /\ exists detail,
         fst (fst (Scheduler.runNow h w2))
         = Normal {| BirthdayCheckService.totalAssociatesChecked := 0;
                     BirthdayCheckService.res_birthdaysFound := [];
                     BirthdayCheckService.res_notificationSent := false;
                     BirthdayCheckService.res_errors :=
                       ["Failed to parse Excel file: " ^^ detail] |}.
Proof.
  intros p h w B R V Hv C w1 w2.
  split; [ | split; [ | split; [ reflexivity | ] ] ].
  - rewrite (run_of_wpW (Scheduler.start p h) w). cbn [fst].
    change (wpW (Scheduler.start p h) w
              (fun c w' e => (c, w') = (Throw (validationFailure (validationErrors h)), w1))).
    unfold Scheduler.start. wpW_steps. rewrite B. cbn [negb].
    eapply wpW_mono; [ apply (Scheduler_initialize_failure h w V Hv) | ].
    intros c w' e (-> & ->). wpW_steps. reflexivity.
  - pose proof (start_with_service p h w1 eq_refl) as H. unfold wpW in H.
    change (Scheduler.isRunning (Scheduler.this w1)) with (Scheduler.isRunning (Scheduler.this w)) in H.
    change (Scheduler.scheduledTime (Scheduler.this w1))
      with (Scheduler.scheduledTime (Scheduler.this w)) in H.
    rewrite R, C in H.
    destruct (Scheduler.start p h w1) as [[c w'] e]. cbn [fst snd] in *.
    destruct H as (_ & -> & ->). reflexivity.
  - destruct (runNow_returns_daily_check_aux h w2 eq_refl) as (r & s & e & E & ->).
    cbn [fst].
    pose proof (performDailyCheck_without_parser h (Scheduler.sys w2) (environment h)
                  eq_refl eq_refl) as H.
    unfold wp in H. rewrite E in H. cbn [result_of fst] in H. destruct H as ((detail & ->) & _).
    exists detail. reflexivity.
Qed.

Lemma start_after_failed_start_witness :
  let h := Demo.invalidHost in
  let w := constructed (Some "09:00"%string) true (Demo.start true) in
  let w1 := afterFailedInitialize h w in
  fst (fst (Scheduler.start Samples.platform h w))
  = Throw ("Configuration validation failed:" ^^ nl
           ^^ "  - SMS API key is required (SMS_API_KEY)")
  /\ fst (Scheduler.start Samples.platform h w1) = (Normal tt, afterStart Samples.platform w1).
Proof.
  cbv zeta.
  destruct (start_after_failed_start Samples.platform Demo.invalidHost
              (constructed (Some "09:00"%string) true (Demo.start true))
              eq_refl eq_refl eq_refl ltac:(discriminate) eq_refl) as (H1 & H2 & _).
  split; [ rewrite H1; reflexivity | exact H2 ].
Defined.

(* ================================================================== *)
(** ** ExcelParser: dates, failures and the rows read *)
(* ================================================================== *)

Lemma tryPatterns_valid (h : Host) (trimmed : string) (patterns : list ExcelParser.Pattern) :
  forall d, ExcelParser.tryPatterns h trimmed patterns = Some d -> isInvalid d = false.
Proof.
  induction patterns as [ | p rest IH]; intros d; cbn [ExcelParser.tryPatterns].
  - discriminate.
  - destruct (ExcelParser.regexMatch p trimmed) as [m | ]; [ | apply IH ].
    destruct (ExcelParser.parseMatchedDate h m p) as [date | ]; [ | apply IH ].
    destruct (isInvalid date) eqn:V; cbn [negb]; [ apply IH | ].
    intros E. inversion E; subst. exact V.
Qed.

Lemma parseDate_valid (h : Host) (v : Value) (d : Date) :
  ExcelParser.parseDate h v = Some d -> isInvalid d = false.
Proof.
  unfold ExcelParser.parseDate.
  destruct (negb (truthy v)); [ discriminate | ].
  destruct v as [ | | b | n | s | x | ]; try discriminate.
  - destruct (isInvalid (ExcelParser.excelSerialToDate h n)) eqn:V; [ discriminate | ].
    intros E. inversion E; subst. exact V.
  - cbv zeta. destruct (isInvalid (dateParse h (trim s))) eqn:V; cbn [negb].
    + apply tryPatterns_valid.
    + intros E. inversion E; subst. exact V.
  - destruct (isInvalid x) eqn:V; [ discriminate | ].
    intros E. inversion E; subst. exact V.
Qed.

(** X18.  [parseDate] never hands out an Invalid Date: its result is null or
    a Date with a time value, whatever the value and whatever the engine's
    own parser answers.  A valid Date object is returned as it is, an
    invalid one is turned into null. *)
Theorem parseDate_returns_valid_date :
  forall (h : Host) (v : Value),
    (forall d, ExcelParser.parseDate h v = Some d -> isInvalid d = false)
    /\ (forall d, v = VDate d -> isInvalid d = false -> ExcelParser.parseDate h v = Some d)
    /\ (forall d, v = VDate d -> isInvalid d = true -> ExcelParser.parseDate h v = None).
Proof.
  intros h v. split; [ | split ].
  - intros d. apply parseDate_valid.
  - intros d -> V. unfold ExcelParser.parseDate. cbn [truthy negb]. rewrite V. reflexivity.
  - intros d -> V. unfold ExcelParser.parseDate. cbn [truthy negb]. rewrite V. reflexivity.
Qed.

Lemma parseMatchedDate_digits (h : Host) (p : ExcelParser.Pattern) (a b y : string) :
  all_digits a = true -> (1 <= String.length a)%nat ->
  all_digits b = true -> (1 <= String.length b)%nat ->
  all_digits y = true -> (1 <= String.length y)%nat ->
  ExcelParser.parseMatchedDate h
    {| ExcelParser.g1 := a; ExcelParser.g2 := b; ExcelParser.g3 := y |} p
  = Some (disambiguated (tz h) (valueOf a) (valueOf b) (valueOf y)).
Proof.
  intros Ha Hal Hb Hbl Hy Hyl.
  unfold ExcelParser.parseMatchedDate. cbv zeta.
  rewrite yearFirst_branch_unreachable. cbn [andb ExcelParser.g1 ExcelParser.g2 ExcelParser.g3].
  rewrite (parseInt_digits a Ha Hal), (parseInt_digits b Hb Hbl), (parseInt_digits y Hy Hyl).
  unfold disambiguated, num_gt, num_sub. cbn [option_map].
  destruct (12 <? valueOf a); [ reflexivity | ].
  destruct (12 <? valueOf b); reflexivity.
Qed.

Lemma newDate_wide_valid (off y m d : Z) :
  Z.abs off <= msPerDay ->
  0 <= y < 10000 -> -1 <= m < 100 -> 0 <= d < 10000 ->
  isInvalid (newDate (fixedZone off) (Some y) (Some m) (Some d)) = false.
Proof.
  intros Hoff Hy Hm Hd. unfold newDate, isInvalid, TimeClip. cbn [timeValue].
  set (yr := if (0 <=? y) && (y <=? 99) then 1900 + y else y).
  assert (Hyr : 100 <= yr < 10000).
  { unfold yr. destruct (Z.leb_spec 0 y), (Z.leb_spec y 99); cbn [andb]; lia. }
  clearbody yr.
  assert (Hb : -1000000 <= MakeDay yr m d <= 4000000).
  { unfold MakeDay. cbv zeta.
    pose proof (monthStart_range m (if DaysInYear (yr + m / 12) =? 366 then 1 else 0)
                  ltac:(destruct (DaysInYear (yr + m / 12) =? 366); lia)) as Hs.
    assert (99 <= yr + m / 12 <= 10008) by (Z.div_mod_to_equations; lia).
    set (ym := yr + m / 12) in *. clearbody ym.
    assert (-700000 <= DayFromYear ym <= 3000000)
      by (unfold DayFromYear; Z.div_mod_to_equations; lia).
    lia. }
  replace (maxTime <? Z.abs (UTC (fixedZone off) (MakeDate (MakeDay yr m d) (MakeTime 0 0 0 0))))
    with false; [ reflexivity | ].
  symmetry. apply Z.ltb_ge.
  unfold UTC, fixedZone, MakeDate, MakeTime, maxTime, msPerDay in *. cbn [LocalTZA]. lia.
Qed.

Lemma digit_not_hyphen (c : ascii) : is_digit c = true -> Ascii.eqb c "-" = false.
Proof. intros H. codes. props. lia. Qed.

Lemma digit_not_slash (c : ascii) : is_digit c = true -> Ascii.eqb c "/" = false.
Proof. intros H. codes. props. lia. Qed.

Lemma regexMatch_yearFirst (y m d : string) :
  digitGroup 4 4 y -> digitGroup 1 2 m -> digitGroup 1 2 d ->
  ExcelParser.regexMatch ExcelParser.SlashYearLast (yearFirstText y m d) = None
  /\ ExcelParser.regexMatch ExcelParser.IsoYearFirst (yearFirstText y m d)
     = Some {| ExcelParser.g1 := y; ExcelParser.g2 := m; ExcelParser.g3 := d |}.
Proof.
  intros Hy Hm Hd. split.
  - destruct Hy as [Hy [Hl1 Hl2]].
    destruct y as [ | a [ | b [ | c [ | e [ | f y]]]]]; cbn [String.length] in Hl1, Hl2; try lia.
    cbn [all_digits] in Hy. rewrite !andb_true_iff in Hy. destruct Hy as (Ha & Hb & Hc & He & _).
    unfold ExcelParser.regexMatch, ExcelParser.match3, ExcelParser.digits_then, yearFirstText.
    cbn [String.append ExcelParser.span_digits]. rewrite Ha, Hb.
    cbn [String.length Nat.leb]. rewrite (digit_not_slash c Hc). reflexivity.
  - unfold ExcelParser.regexMatch, ExcelParser.match3, yearFirstText.
    rewrite (digits_then_group 4 4 y "-" _ Hy eq_refl).
    rewrite (digits_then_group 1 2 m "-" _ Hm eq_refl).
    rewrite (digits_end_group 1 2 d Hd). reflexivity.
Qed.

(** X19.  A year-first text [YYYY-M-D] that the engine's own parser rejects
    is matched by the year-first pattern but read by the rule for year-last
    texts, because the test that selects the year-first rule looks for the
    letters YYYY in the pattern and never succeeds.  The four digits are
    taken as the first number, the last group as the year: from year 0013
    on, the date built is day YYYY of month M of the year D (1900 + D). *)
Theorem parseDate_year_first_text_read_year_last :
  forall (h : Host) (off : Z) (y m d : string),
    fixedOffsetHost h off ->
    digitGroup 4 4 y -> digitGroup 1 2 m -> digitGroup 1 2 d ->
    isInvalid (dateParse h (yearFirstText y m d)) = true ->
    ExcelParser.parseDate h (VString (yearFirstText y m d))
    = Some (disambiguated (tz h) (valueOf y) (valueOf m) (valueOf d))
    /\ (12 < valueOf y ->
        ExcelParser.parseDate h (VString (yearFirstText y m d))
        = Some (newDate (tz h) (Some (valueOf d)) (Some (valueOf m - 1)) (Some (valueOf y)))).
Proof.
  intros h off y m d [Hz Hoff] Hy Hm Hd Hn.
  destruct (regexMatch_yearFirst y m d Hy Hm Hd) as [R1 R2].
  pose proof (valueOf_bounds 4 4 y Hy) as By.
  pose proof (valueOf_bounds 1 2 m Hm) as Bm.
  pose proof (valueOf_bounds 1 2 d Hd) as Bd.
  change (10 ^ Z.of_nat 2) with 100 in *. change (10 ^ Z.of_nat 4) with 10000 in *.
  assert (V : isInvalid (disambiguated (tz h) (valueOf y) (valueOf m) (valueOf d)) = false).
  { rewrite Hz. unfold disambiguated.
    destruct (12 <? valueOf y) eqn:E.
    - apply newDate_wide_valid; assumption || lia.
    - apply Z.ltb_ge in E. apply newDate_small_valid; assumption || lia. }
  assert (P : ExcelParser.parseDate h (VString (yearFirstText y m d))
              = Some (disambiguated (tz h) (valueOf y) (valueOf m) (valueOf d))).
  { assert (Ht : trim (yearFirstText y m d) = yearFirstText y m d).
    { apply trim_no_space. unfold yearFirstText.
      apply no_space_append; [ apply no_space_digits, Hy | ].
      cbn [no_space]. change (is_space "-") with false. cbn [negb andb].
      apply no_space_append; [ apply no_space_digits, Hm | ].
      cbn [no_space]. change (is_space "-") with false. cbn [negb andb].
      apply no_space_digits, Hd. }
    unfold ExcelParser.parseDate.
    assert (Htr : truthy (VString (yearFirstText y m d)) = true).
    { destruct Hy as [_ [Hl _]]. destruct y; [ cbn in Hl; lia | reflexivity ]. }
    rewrite Htr. cbn [negb]. cbv zeta. rewrite Ht, Hn. cbn [negb].
    unfold ExcelParser.datePatterns. cbn [ExcelParser.tryPatterns]. rewrite R1, R2.
    rewrite (parseMatchedDate_digits h _ y m d); try apply Hy; try apply Hm; try apply Hd;
      try (destruct Hy as [_ [? _]]; lia); try (destruct Hm as [_ [? _]]; lia);
      try (destruct Hd as [_ [? _]]; lia).
    rewrite V. reflexivity. }
  split; [ exact P | ].
  intros G. rewrite P. unfold disambiguated. apply Z.ltb_lt in G. rewrite G. reflexivity.
Qed.

Lemma parseDate_year_first_text_read_year_last_witness :
  let h := Demo.host Demo.alwaysDown in
  ExcelParser.parseDate h (VString "1990-01-15")
  = Some (newDate utcZone (Some 15) (Some 0) (Some 1990)).
Proof.
  cbv zeta.
  refine (proj2 (parseDate_year_first_text_read_year_last (Demo.host Demo.alwaysDown) 0
                   "1990" "01" "15" _ _ _ _ eq_refl) _).
  - split; [ reflexivity | vm_compute; discriminate ].
  - split; [ reflexivity | cbn; lia ].
  - split; [ reflexivity | cbn; lia ].
  - split; [ reflexivity | cbn; lia ].
  - vm_compute. reflexivity.
Defined.

Lemma includes_startsWith (s p : string) : startsWith s p = true -> includes s p = true.
Proof. intros H. destruct s; cbn [includes]; rewrite H; reflexivity. Qed.

Lemma includes_prefix (p x : string) : includes (p ^^ x) p = true.
Proof. apply includes_startsWith, startsWith_append. Qed.

Lemma wp_logger (hasLogger : bool) (level message : string) (s : Sys) Q :
  Q (Normal tt) s (if hasLogger then [EvLog level message] else []) ->
  wp (log hasLogger level message) s Q.
Proof. unfold wp, log, emit, ret. destruct hasLogger; auto. Qed.

Lemma parseRows_returns (this : ExcelParserObj) (h : Host) (data : list Row) :
  forall i st s,
    exists st' e,
      ExcelParser.parseRows this h data i st s = (Normal st', s, e)
      /\ forallb isLog e = true.
Proof.
  induction data as [ | row data IH]; intros i st s; cbn [ExcelParser.parseRows].
  - exists st, []. split; reflexivity.
  - destruct (ExcelParser.isEmptyRow row); [ apply IH | ].
    destruct (ExcelParser.validName _) as [nm | ].
    + destruct (ExcelParser.parseDate h _) as [dob | ]; [ apply IH | ].
      rewrite bind_log.
      match goal with
      | |- context [ExcelParser.parseRows this h data ?i ?st s] =>
          destruct (IH i st s) as (st' & e & E & He); rewrite E
      end.
      eexists. eexists. split; [ reflexivity | ]. cbn [events_of snd]. logs.
    + rewrite bind_log.
      match goal with
      | |- context [ExcelParser.parseRows this h data ?i ?st s] =>
          destruct (IH i st s) as (st' & e & E & He); rewrite E
      end.
      eexists. eexists. split; [ reflexivity | ]. cbn [events_of snd]. logs.
Qed.

Lemma parseFile_result :
  forall (this : ExcelParserObj) (h : Host) (filePath : string) (s : Sys),
    let resolved := path_resolve h filePath in
    let ext := ExcelParser.lower (path_extname h resolved) in
    result_of (ExcelParser.parseFile this h filePath s) =
    if negb (fs_existsSync h resolved)
    then Throw ("Excel file not found at path: " ^^ filePath)
    else if negb (excelExtension ext)
    then Throw ("Invalid file format: " ^^ ext ^^ ". Expected .xlsx or .xls")
    else
      match xlsx_readFile h resolved with
      | Raised message =>
          Throw (if ownMessage message then message
                 else "Failed to parse Excel file: " ^^ message)
      | Returned workbook =>
          match SheetNames workbook with
          | [] => Throw "Excel file contains no worksheets"
          | firstSheetName :: _ =>
              if is_empty firstSheetName then Throw "Excel file contains no worksheets"
              else
                Normal (parsedRows this h (sheet_to_json workbook firstSheetName) s)
          end
      end.
Proof.
  intros this h filePath s resolved ext.
  change (wp (ExcelParser.parseFile this h filePath) s
            (fun c _ _ =>
               c =
               if negb (fs_existsSync h resolved)
               then Throw ("Excel file not found at path: " ^^ filePath)
               else if negb (excelExtension ext)
               then Throw ("Invalid file format: " ^^ ext ^^ ". Expected .xlsx or .xls")
               else
                 match xlsx_readFile h resolved with
                 | Raised message =>
                     Throw (if ownMessage message then message
                            else "Failed to parse Excel file: " ^^ message)
                 | Returned workbook =>
                     match SheetNames workbook with
                     | [] => Throw "Excel file contains no worksheets"
                     | firstSheetName :: _ =>
                         if is_empty firstSheetName then Throw "Excel file contains no worksheets"
                         else
                           Normal (parsedRows this h (sheet_to_json workbook firstSheetName) s)
                     end
                 end)).
  unfold ExcelParser.parseFile. fold resolved. fold ext. wp_steps.
  destruct (fs_existsSync h resolved); cbn [negb].
  2:{ wp_steps. unfold ownMessage.
      replace (includes ("Excel file not found at path: " ^^ filePath) "Excel file not found")
        with true.
      - cbn [orb]. wp_steps. reflexivity.
      - symmetry. apply includes_startsWith. reflexivity. }
  wp_steps. unfold excelExtension.
  destruct (String.eqb ext ".xlsx" || String.eqb ext ".xls") eqn:X.
  2:{ apply orb_false_iff in X. destruct X as [X1 X2]. rewrite X1, X2. cbn [negb andb].
      wp_steps.
      replace (includes ("Invalid file format: " ^^ ext ^^ ". Expected .xlsx or .xls")
                 "Invalid file format") with true.
      - rewrite orb_true_r. cbn [orb]. wp_steps. reflexivity.
      - symmetry. apply includes_startsWith. reflexivity. }
  replace (negb (String.eqb ext ".xlsx") && negb (String.eqb ext ".xls")) with false.
  2:{ symmetry. rewrite <- negb_orb, X. reflexivity. }
  cbn [negb]. wp_steps. apply wp_logger. wp_steps.
  destruct (xlsx_readFile h resolved) as [workbook | message]; cbn [ofSettled].
  2:{ wp_steps. fold (ownMessage message). destruct (ownMessage message); wp_steps; reflexivity. }
  destruct (SheetNames workbook) as [ | firstSheetName rest].
  { wp_steps. cbn [orb]. wp_steps. reflexivity. }
  destruct (is_empty firstSheetName).
  { wp_steps. cbn [orb]. wp_steps. reflexivity. }
  wp_steps. apply wp_logger. wp_steps.
  destruct (parseRows_returns this h (sheet_to_json workbook firstSheetName) 0 noRows s)
    as (st' & e & E & He).
  eapply wp_run; [ exact E | ].
  cbv beta iota. wp_steps. apply wp_logger. wp_steps.
  unfold parsedRows. rewrite E. reflexivity.
Qed.

(** X20.  [parseFile] throws in four cases and in no other: the file does not
    exist; its extension is neither .xlsx nor .xls (in any letter case);
    the workbook cannot be read, and then the text of the library's error
    is put after "Failed to parse Excel file: ", unless it contains one of
    the three phrases the catch block looks for; the workbook has no first
    sheet name.  In every other case it returns the list of associates. *)
Theorem parseFile_failures :
  forall (this : ExcelParserObj) (h : Host) (filePath : string) (s : Sys),
    let resolved := path_resolve h filePath in
    let ext := ExcelParser.lower (path_extname h resolved) in
    result_of (ExcelParser.parseFile this h filePath s) =
    if negb (fs_existsSync h resolved)
    then Throw ("Excel file not found at path: " ^^ filePath)
    else if negb (excelExtension ext)
    then Throw ("Invalid file format: " ^^ ext ^^ ". Expected .xlsx or .xls")
    else
      match xlsx_readFile h resolved with
      | Raised message =>
          Throw (if ownMessage message then message
                 else "Failed to parse Excel file: " ^^ message)
      | Returned workbook =>
          match SheetNames workbook with
          | [] => Throw "Excel file contains no worksheets"
          | firstSheetName :: _ =>
              if is_empty firstSheetName then Throw "Excel file contains no worksheets"
              else
                Normal (parsedRows this h (sheet_to_json workbook firstSheetName) s)
          end
      end.
Proof. exact parseFile_result. Qed.

Lemma ensureInitialized_logs (h : Host) (s : Sys) cfg parser sms :
  readyWith h s cfg parser sms ->
  wp (match config (service s) with
      | Some _ => ret tt
      | None => BirthdayCheckService.initialize h
      end) s
     (fun c s1 e =>
        c = Normal tt /\ forallb isLog e = true
        /\ frame s1 = frame s /\ posts s1 = posts s /\ clockReads s1 = clockReads s
        /\ logger (service s1) = logger (service s)
        /\ config (service s1) = Some cfg /\ excelParser (service s1) = Some parser
        /\ dateMatcher (service s1) = Some tt /\ smsService (service s1) = Some sms).
Proof.
  intros [(H1 & H2 & H3 & H4) | (H1 & H2 & H3 & -> & ->)]; rewrite H1.
  - wp_steps. repeat split; assumption.
  - eapply wp_mono; [ apply (initialize_success h s sms H2 H3) | ].
    intros c s1 e (-> & He & ->). repeat split. exact He.
Qed.

(** X21.  When the service is ready and [parseFile] throws, the daily check
    stops there: it returns a result that counts no associate, with the
    text of the error after "Failed to parse Excel file: " as its one
    error, and it has read neither the clock nor the gateway.  For an
    error of the workbook library the text therefore carries the prefix
    twice, once from [parseFile] and once from [performDailyCheck]. *)
Theorem performDailyCheck_parse_failure :
  forall (h : Host) (s : Sys) (cfg : Runtime.Configuration) (parser : ExcelParserObj)
         (sms : SMSServiceObj) (message : string),
    readyWith h s cfg parser sms ->
    result_of (ExcelParser.parseFile parser h (excelFilePath cfg) s) = Throw message ->
    let run := BirthdayCheckService.performDailyCheck h s in
    result_of run
    = Normal {| BirthdayCheckService.totalAssociatesChecked := 0;
                BirthdayCheckService.res_birthdaysFound := [];
                BirthdayCheckService.res_notificationSent := false;
                BirthdayCheckService.res_errors :=
                  ["Failed to parse Excel file: " ^^ message] |}
    /\ forallb isLog (events_of run) = true
    /\ clockReads (state_of run) = clockReads s
    /\ posts (state_of run) = posts s
    /\ (forall libraryError,
          fs_existsSync h (path_resolve h (excelFilePath cfg)) = true ->
          excelExtension (ExcelParser.lower (path_extname h (path_resolve h (excelFilePath cfg))))
          = true ->
          xlsx_readFile h (path_resolve h (excelFilePath cfg)) = Raised libraryError ->
          ownMessage libraryError = false ->
          message = "Failed to parse Excel file: " ^^ libraryError).
Proof.
  intros h s cfg parser sms message Hready Hload run.
  destruct (parseFile_stateless parser h (excelFilePath cfg)) as (cP & eP & EP & _ & HeP).
  pose proof Hload as Hload'.
  rewrite EP in Hload. cbn [result_of fst] in Hload. subst cP.
  assert (W : wp (BirthdayCheckService.performDailyCheck h) s
                (fun c s1 e =>
                   c = Normal {| BirthdayCheckService.totalAssociatesChecked := 0;
                                 BirthdayCheckService.res_birthdaysFound := [];
                                 BirthdayCheckService.res_notificationSent := false;
                                 BirthdayCheckService.res_errors :=
                                   ["Failed to parse Excel file: " ^^ message] |}
                   /\ forallb isLog e = true
                   /\ clockReads s1 = clockReads s /\ posts s1 = posts s)).
  { unfold BirthdayCheckService.performDailyCheck. wp_steps.
    unfold BirthdayCheckService.dailyCheck. wp_steps.
    eapply wp_mono; [ apply (ensureInitialized_logs h (freshFrame s) cfg parser sms Hready) | ].
    intros c s1 e1 (-> & He1 & Hf1 & Hp1 & Hc1 & Hl1 & Hcfg1 & Hep1 & Hdm1 & Hsms1).
    cbn [freshFrame service frame posts clockReads] in *.
    wp_steps. rewrite Hcfg1. wp_steps.
    unfold BirthdayCheckService.loadAssociates. wp_steps. rewrite Hep1, Hcfg1. wp_step.
    eapply wp_run; [ apply EP | ]. cbv beta iota. wp_steps.
    cbn [service frame posts clockReads errors associates birthdaysFound notificationSent].
    rewrite Hf1. cbn [errors app].
    split; [ reflexivity | split; [ logs | split; assumption ] ]. }
  unfold wp in W. fold run in W. destruct W as (R & L & C & P).
  split; [ exact R | split; [ exact L | split; [ exact C | split; [ exact P | ] ] ] ].
  intros libraryError He Hx Hr Ho.
  rewrite (parseFile_result parser h (excelFilePath cfg) s) in Hload'. cbv zeta in Hload'.
  rewrite He, Hx, Hr, Ho in Hload'. cbn [negb] in Hload'. inversion Hload'. reflexivity.
Qed.

Lemma performDailyCheck_parse_failure_witness :
  let h := Samples.unreadableHost in
  let s := Demo.start true in
  readyWith h s Demo.cfg {| ep_logger := true |} Demo.sms
  /\ result_of (BirthdayCheckService.performDailyCheck h s)
     = Normal {| BirthdayCheckService.totalAssociatesChecked := 0;
                 BirthdayCheckService.res_birthdaysFound := [];
                 BirthdayCheckService.res_notificationSent := false;
                 BirthdayCheckService.res_errors :=
                   ["Failed to parse Excel file: Failed to parse Excel file: Unsupported file"%string] |}.
Proof.
  cbv zeta.
  assert (R : readyWith Samples.unreadableHost (Demo.start true) Demo.cfg
                {| ep_logger := true |} Demo.sms) by (right; repeat split).
  split; [ exact R | ].
  exact (proj1 (performDailyCheck_parse_failure Samples.unreadableHost (Demo.start true)
                  Demo.cfg {| ep_logger := true |} Demo.sms
                  "Failed to parse Excel file: Unsupported file" R eq_refl)).
Defined.

Lemma all_space_trimEnd (s : string) : all_space (trimEnd s) = all_space s.
Proof.
  induction s as [ | c r IH]; [ reflexivity | ].
  cbn [trimEnd]. destruct (all_space (String c r)) eqn:E; [ reflexivity | ].
  cbn [all_space] in *. rewrite IH. exact E.
Qed.

Lemma trimEnd_idempotent (s : string) : trimEnd (trimEnd s) = trimEnd s.
Proof.
  induction s as [ | c r IH]; [ reflexivity | ].
  cbn [trimEnd]. destruct (all_space (String c r)) eqn:E; [ reflexivity | ].
  cbn [trimEnd all_space]. rewrite all_space_trimEnd.
  cbn [all_space] in E. rewrite E, IH. reflexivity.
Qed.

Lemma trimStart_head (s : string) :
  match trimStart s with
  | EmptyString => True
  | String c _ => is_space c = false
  end.
Proof.
  induction s as [ | c r IH]; cbn [trimStart]; [ exact I | ].
  destruct (is_space c) eqn:E; [ exact IH | exact E ].
Qed.

Lemma trim_idempotent (s : string) : trim (trim s) = trim s.
Proof.
  unfold trim. pose proof (trimStart_head s) as H.
  destruct (trimStart s) as [ | c r] eqn:E; [ reflexivity | ].
  assert (T : trimStart (trimEnd (String c r)) = trimEnd (String c r)).
  { cbn [trimEnd all_space]. rewrite H. cbn [andb trimStart]. rewrite H. reflexivity. }
  rewrite T. apply trimEnd_idempotent.
Qed.

Lemma reading_number (h : Host) (n m : Z) (cells : list Value) :
  reading h n cells = None <-> reading h m cells = None.
Proof.
  unfold reading. destruct (ExcelParser.validName _); [ | tauto ].
  destruct (ExcelParser.parseDate h _); [ | tauto ]. split; discriminate.
Qed.

Lemma warning_logged (b : bool) (message : string) :
  forallb isWarning (if b then [EvLog "WARN" message] else []) = true.
Proof. destruct b; reflexivity. Qed.

(** The loop of [parseFile] computes [readings], and its two counters count
    the associates and the rejected rows. *)
Lemma parseRows_readings (this : ExcelParserObj) (h : Host) (data : list Row) :
  forall i st s,
    exists e,
      ExcelParser.parseRows this h data i st s
      = (Normal {| ExcelParser.parsed := (ExcelParser.parsed st ++ readings h (i + 1) data)%list;
                   ExcelParser.validRows :=
                     ExcelParser.validRows st + BirthdayCheckService.len (readings h (i + 1) data);
                   ExcelParser.skippedRows := ExcelParser.skippedRows st + rejected h data |},
         s, e)
      /\ forallb isWarning e = true
      /\ (ep_logger this = true -> BirthdayCheckService.len e = rejected h data).
Proof.
  induction data as [ | row data IH]; intros i st s; cbn [ExcelParser.parseRows readings rejected].
  - exists []. split; [ | split; reflexivity ].
    unfold ret. rewrite app_nil_r. unfold BirthdayCheckService.len. cbn [List.length].
    rewrite !Z.add_0_r. destruct st; reflexivity.
  - destruct row as [cells | ].
    2:{ cbn [ExcelParser.isEmptyRow]. apply IH. }
    destruct (ExcelParser.isEmptyRow (Some cells)); [ apply IH | ].
    unfold reading.
    destruct (ExcelParser.validName (ExcelParser.cell cells 0)) as [nm | ].
    + destruct (ExcelParser.parseDate h (ExcelParser.cell cells 1)) as [d | ].
      * match goal with
        | |- context [ExcelParser.parseRows this h data ?i ?st s] =>
            destruct (IH i st s) as (e & E & He & Hn); rewrite E
        end.
        exists e. split; [ | split; assumption ].
        cbn [ExcelParser.parsed ExcelParser.validRows ExcelParser.skippedRows].
        rewrite <- app_assoc. cbn [app]. unfold BirthdayCheckService.len. cbn [List.length].
        f_equal. f_equal. f_equal. f_equal; lia.
      * rewrite bind_log.
        match goal with
        | |- context [ExcelParser.parseRows this h data ?i ?st s] =>
            destruct (IH i st s) as (e & E & He & Hn); rewrite E
        end.
        eexists. split; [ | split ].
        -- cbn [result_of state_of events_of fst snd ExcelParser.parsed ExcelParser.validRows
                ExcelParser.skippedRows].
           f_equal. f_equal. f_equal. f_equal; lia.
        -- rewrite forallb_app, warning_logged, He. reflexivity.
        -- intros L. rewrite L. unfold BirthdayCheckService.len in *. cbn [app List.length].
           specialize (Hn L). lia.
    + rewrite bind_log.
      match goal with
      | |- context [ExcelParser.parseRows this h data ?i ?st s] =>
          destruct (IH i st s) as (e & E & He & Hn); rewrite E
      end.
      eexists. split; [ | split ].
      * cbn [result_of state_of events_of fst snd ExcelParser.parsed ExcelParser.validRows
             ExcelParser.skippedRows].
        f_equal. f_equal. f_equal. f_equal; lia.
      * rewrite forallb_app, warning_logged, He. reflexivity.
      * intros L. rewrite L. unfold BirthdayCheckService.len in *. cbn [app List.length].
        specialize (Hn L). lia.
Qed.

Lemma validName_Some (v : Value) (nm : string) :
  ExcelParser.validName v = Some nm -> v = VString nm /\ trim nm <> EmptyString.
Proof.
  destruct v as [ | | b | n | s | x | ]; cbn [ExcelParser.validName]; try discriminate.
  destruct (is_empty s) eqn:E1; cbn [orb]; [ discriminate | ].
  destruct (is_empty (trim s)) eqn:E2; [ discriminate | ].
  intros E. inversion E; subst. split; [ reflexivity | ].
  intros T. rewrite T in E2. discriminate.
Qed.

Lemma readings_wellFormed (h : Host) (data : list Row) :
  forall first,
    Forall (fun a =>
              name a <> EmptyString /\ trim (name a) = name a
              /\ (exists d, dateOfBirth a = VDate d /\ isInvalid d = false)
              /\ first <= rowNumber a < first + Z.of_nat (List.length data))
           (readings h first data)
    /\ increasing (map rowNumber (readings h first data)).
Proof.
  induction data as [ | row data IH]; intros first; cbn [readings].
  - split; [ constructor | exact I ].
  - destruct (IH (first + 1)) as [F S].
    assert (F' : Forall (fun a =>
                name a <> EmptyString /\ trim (name a) = name a
                /\ (exists d, dateOfBirth a = VDate d /\ isInvalid d = false)
                /\ first <= rowNumber a < first + Z.of_nat (List.length (row :: data)))
                (readings h (first + 1) data)).
    { eapply Forall_impl; [ | exact F ]. cbn [List.length]. intros a (H1 & H2 & H3 & H4).
      repeat split; try assumption; lia. }
    destruct row as [cells | ]; [ | split; assumption ].
    destruct (ExcelParser.isEmptyRow (Some cells)); [ split; assumption | ].
    unfold reading.
    destruct (ExcelParser.validName (ExcelParser.cell cells 0)) as [nm | ] eqn:N;
      [ | split; assumption ].
    destruct (ExcelParser.parseDate h (ExcelParser.cell cells 1)) as [d | ] eqn:D;
      [ | split; assumption ].
    destruct (validName_Some _ _ N) as [_ Hn].
    split.
    + constructor; [ | exact F' ]. cbn [name dateOfBirth rowNumber List.length].
      split; [ exact Hn | split; [ apply trim_idempotent | split ] ].
      * exists d. split; [ reflexivity | exact (parseDate_valid h _ d D) ].
      * lia.
    + cbn [map increasing rowNumber]. split; [ | exact S ].
      intros y Hy. apply in_map_iff in Hy. destruct Hy as (a & <- & Ha).
      rewrite Forall_forall in F. destruct (F a Ha) as (_ & _ & _ & Hr). lia.
Qed.

(** X22.  What [parseFile] returns is the reading, in the order of the sheet
    and of the first sheet only, of every row that has a name and a date of
    birth that [parseDate] accepts, the header row being treated like any
    other.  Each associate carries the 1-based number of its row, a name
    without white space at either end and a valid Date; the row numbers
    are strictly increasing. *)
Theorem parseFile_returns_readings :
  forall (this : ExcelParserObj) (h : Host) (filePath : string) (s : Sys)
         (loaded : list Associate),
    result_of (ExcelParser.parseFile this h filePath s) = Normal loaded ->
    exists workbook sheet others,
      xlsx_readFile h (path_resolve h filePath) = Returned workbook
      /\ SheetNames workbook = sheet :: others
      /\ loaded = readings h 1 (sheet_to_json workbook sheet)
      /\ Forall (wellFormed (List.length (sheet_to_json workbook sheet))) loaded
      /\ increasing (map rowNumber loaded).
Proof.
  intros this h filePath s loaded H.
  rewrite parseFile_result in H. cbv zeta in H.
  destruct (negb (fs_existsSync h (path_resolve h filePath))); [ discriminate | ].
  destruct (negb (excelExtension _)); [ discriminate | ].
  destruct (xlsx_readFile h (path_resolve h filePath)) as [workbook | m]; [ | discriminate ].
  destruct (SheetNames workbook) as [ | sheet others] eqn:N; [ discriminate | ].
  destruct (is_empty sheet); [ discriminate | ].
  inversion H as [E]. clear H.
  exists workbook, sheet, others. split; [ reflexivity | split; [ exact N | ] ].
  subst loaded.
  assert (L : parsedRows this h (sheet_to_json workbook sheet) s
              = readings h 1 (sheet_to_json workbook sheet)).
  { unfold parsedRows.
    destruct (parseRows_readings this h (sheet_to_json workbook sheet) 0 noRows s)
      as (e & Er & _). rewrite Er. reflexivity. }
  rewrite L. split; [ reflexivity | ].
  destruct (readings_wellFormed h (sheet_to_json workbook sheet) 1) as [F S].
  split; [ | exact S ].
  eapply Forall_impl; [ | exact F ]. intros a (H1 & H2 & H3 & H4).
  unfold wellFormed. repeat split; try assumption; lia.
Qed.

Lemma parseFile_returns_readings_witness :
  let h := Demo.host Demo.alwaysDown in
  let john := mkAssociate "John Doe" (VDate (newDate utcZone (Some 2000) (Some 1) (Some 29))) 2 in
  let jane := mkAssociate "Jane Smith" (VDate (newDate utcZone (Some 1985) (Some 0) (Some 13))) 5 in
  result_of (ExcelParser.parseFile {| ep_logger := true |} h "./data/associates.xlsx"
               (Demo.start true)) = Normal [john; jane]
  /\ readings h 1 Demo.rows = [john; jane]
  /\ Forall (wellFormed 5) [john; jane].
Proof.
  cbv zeta.
  assert (E : result_of (ExcelParser.parseFile {| ep_logger := true |}
                           (Demo.host Demo.alwaysDown) "./data/associates.xlsx"
                           (Demo.start true))
              = Normal [mkAssociate "John Doe"
                          (VDate (newDate utcZone (Some 2000) (Some 1) (Some 29))) 2;
                        mkAssociate "Jane Smith"
                          (VDate (newDate utcZone (Some 1985) (Some 0) (Some 13))) 5])
    by reflexivity.
  split; [ exact E | ].
  destruct (parseFile_returns_readings _ _ _ _ _ E)
    as (workbook & sheet & others & W & N & R & F & _).
  injection W as <-. cbn [SheetNames] in N. injection N as <- _.
  cbn [sheet_to_json] in R, F.
  split; [ symmetry; exact R | exact F ].
Defined.

Lemma readings_rejected_bound (h : Host) (data : list Row) :
  forall first,
    0 <= rejected h data
    /\ BirthdayCheckService.len (readings h first data) + rejected h data
       <= Z.of_nat (List.length data).
Proof.
  unfold BirthdayCheckService.len.
  induction data as [ | row data IH]; intros first; cbn [readings rejected List.length].
  - cbn. lia.
  - pose proof (IH (first + 1)) as [I0 I1].
    destruct row as [cells | ]; [ | lia ].
    destruct (ExcelParser.isEmptyRow (Some cells)); [ lia | ].
    destruct (reading h first cells) as [a | ] eqn:R.
    + destruct (reading h 0 cells) eqn:R0.
      * cbn [List.length]. lia.
      * apply (reading_number h 0 first) in R0. congruence.
    + apply (reading_number h first 0) in R. rewrite R. lia.
Qed.

(** X23.  With a logger, a [parseFile] that returns has logged, in this
    order: that it reads the file, the name of the first sheet, one
    warning for each row it rejected, and a summary whose two numbers are
    the number of associates returned and the number of warnings.  Rows
    passed over as empty are in neither number, so that the two add up to
    at most the number of rows. *)
Theorem parseFile_log_accounts_for_rows :
  forall (this : ExcelParserObj) (h : Host) (filePath : string) (s : Sys)
         (loaded : list Associate),
    ep_logger this = true ->
    result_of (ExcelParser.parseFile this h filePath s) = Normal loaded ->
    exists workbook sheet others warnings,
      xlsx_readFile h (path_resolve h filePath) = Returned workbook
      /\ SheetNames workbook = sheet :: others
      /\ events_of (ExcelParser.parseFile this h filePath s)
         = ([EvLog "INFO" ("Reading Excel file: " ^^ filePath);
             EvLog "INFO" ("Processing worksheet: " ^^ sheet)]
            ++ warnings
            ++ [EvLog "INFO"
                  ("Parsing complete: " ^^ show_Z (BirthdayCheckService.len loaded)
                   ^^ " valid associates, " ^^ show_Z (BirthdayCheckService.len warnings)
                   ^^ " rows skipped")])%list
      /\ forallb isWarning warnings = true
      /\ BirthdayCheckService.len warnings = rejected h (sheet_to_json workbook sheet)
      /\ BirthdayCheckService.len loaded + BirthdayCheckService.len warnings
         <= Z.of_nat (List.length (sheet_to_json workbook sheet)).
Proof.
  intros this h filePath s loaded L H.
  pose proof H as H'.
  rewrite parseFile_result in H. cbv zeta in H.
  destruct (fs_existsSync h (path_resolve h filePath)) eqn:X1; [ | discriminate ].
  cbn [negb] in H.
  destruct (excelExtension (ExcelParser.lower (path_extname h (path_resolve h filePath))))
    eqn:X2; [ | discriminate ].
  cbn [negb] in H.
  destruct (xlsx_readFile h (path_resolve h filePath)) as [workbook | m] eqn:X3; [ | discriminate ].
  destruct (SheetNames workbook) as [ | sheet others] eqn:N; [ discriminate | ].
  destruct (is_empty sheet) eqn:X4; [ discriminate | ].
  injection H as E.
  destruct (parseRows_readings this h (sheet_to_json workbook sheet) 0 noRows s)
    as (warnings & Er & Hw & Hn).
  assert (Lr : loaded = readings h 1 (sheet_to_json workbook sheet)).
  { rewrite <- E. unfold parsedRows. rewrite Er. reflexivity. }
  exists workbook, sheet, others, warnings.
  split; [ reflexivity | split; [ exact N | ] ].
  split; [ | split; [ exact Hw | split; [ exact (Hn L) | ] ] ].
  - change (wp (ExcelParser.parseFile this h filePath) s
              (fun _ _ e =>
                 e = ([EvLog "INFO" ("Reading Excel file: " ^^ filePath);
                       EvLog "INFO" ("Processing worksheet: " ^^ sheet)]
                      ++ warnings
                      ++ [EvLog "INFO"
                            ("Parsing complete: " ^^ show_Z (BirthdayCheckService.len loaded)
                             ^^ " valid associates, "
                             ^^ show_Z (BirthdayCheckService.len warnings)
                             ^^ " rows skipped")])%list)).
    unfold ExcelParser.parseFile. wp_steps. rewrite X1. cbn [negb]. wp_steps.
    unfold excelExtension in X2. apply orb_true_iff in X2.
    replace (negb (String.eqb (ExcelParser.lower (path_extname h (path_resolve h filePath))) ".xlsx")
             && negb (String.eqb (ExcelParser.lower (path_extname h (path_resolve h filePath))) ".xls"))
      with false by (symmetry; destruct X2 as [-> | ->]; rewrite ?andb_false_r; reflexivity).
    wp_steps. apply wp_logger. wp_steps. rewrite X3. cbn [ofSettled]. rewrite N, X4.
    wp_steps. apply wp_logger. wp_steps.
    eapply wp_run; [ exact Er | ]. cbv beta iota. wp_steps. apply wp_logger. wp_steps.
    cbn [ExcelParser.validRows ExcelParser.skippedRows noRows].
    rewrite L, (Hn L), Lr, !Z.add_0_l. cbn [app]. rewrite ?app_nil_r. reflexivity.
  - rewrite (Hn L), Lr. apply readings_rejected_bound.
Qed.

Lemma parseFile_log_accounts_for_rows_witness :
  let h := Demo.host Demo.alwaysDown in
  let run := ExcelParser.parseFile {| ep_logger := true |} h "./data/associates.xlsx"
               (Demo.start true) in
  exists (loaded : list Associate) (warnings : list Event),
    result_of run = Normal loaded
    /\ BirthdayCheckService.len loaded = 2
    /\ BirthdayCheckService.len warnings = rejected h Demo.rows
    /\ rejected h Demo.rows = 2.
Proof.
  cbv zeta.
  assert (E : result_of (ExcelParser.parseFile {| ep_logger := true |}
                           (Demo.host Demo.alwaysDown) "./data/associates.xlsx"
                           (Demo.start true))
              = Normal [mkAssociate "John Doe"
                          (VDate (newDate utcZone (Some 2000) (Some 1) (Some 29))) 2;
                        mkAssociate "Jane Smith"
                          (VDate (newDate utcZone (Some 1985) (Some 0) (Some 13))) 5])
    by reflexivity.
  destruct (parseFile_log_accounts_for_rows {| ep_logger := true |} _ _ _ _ eq_refl E)
    as (workbook & sheet & others & warnings & W & N & _ & _ & L & _).
  injection W as <-. cbn [SheetNames] in N. injection N as <- _.
  cbn [sheet_to_json] in L.
  eexists. exists warnings.
  split; [ exact E | split; [ reflexivity | split; [ exact L | reflexivity ] ] ].
Defined.

(* ================================================================== *)
(** ** SMSService: the message and the retry loop *)
(* ================================================================== *)

Lemma all_space_append (x y : string) : all_space (x ^^ y) = all_space x && all_space y.
Proof.
  induction x as [ | c r IH]; cbn [String.append all_space]; [ reflexivity | ].
  rewrite IH, andb_assoc. reflexivity.
Qed.

Lemma trimEnd_all_space (w : string) : all_space w = true -> trimEnd w = EmptyString.
Proof. intros H. destruct w as [ | c r]; [ reflexivity | ]. cbn [trimEnd]. rewrite H. reflexivity. Qed.

Lemma trimEnd_append_blank (s w : string) :
  all_space w = true -> trimEnd (s ^^ w) = trimEnd s.
Proof.
  intros Hw. induction s as [ | c r IH]; cbn [String.append].
  - apply trimEnd_all_space, Hw.
  - cbn [trimEnd]. change (all_space (String c (r ^^ w))) with (is_space c && all_space (r ^^ w)).
    rewrite all_space_append, Hw, andb_true_r, IH. reflexivity.
Qed.

Lemma trimEnd_append_text (x y : string) :
  all_space y = false -> trimEnd (x ^^ y) = x ^^ trimEnd y.
Proof.
  intros Hy. induction x as [ | c r IH]; cbn [String.append]; [ reflexivity | ].
  cbn [trimEnd]. change (all_space (String c (r ^^ y))) with (is_space c && all_space (r ^^ y)).
  rewrite all_space_append, Hy, !andb_false_r, IH. reflexivity.
Qed.

Lemma trimmed_trimEnd (s : string) : trim s = s -> trimEnd s = s.
Proof.
  intros H. rewrite <- H at 1. unfold trim. rewrite trimEnd_idempotent. exact H.
Qed.

Lemma trimmed_not_blank (s : string) : s <> EmptyString -> trim s = s -> all_space s = false.
Proof.
  intros Hn H. destruct (all_space s) eqn:E; [ | reflexivity ].
  exfalso. apply Hn. rewrite <- H. pose proof (trim_empty s) as T. rewrite E in T.
  destruct (trim s); [ reflexivity | discriminate ].
Qed.

Lemma appendNames_lines (l : list Associate) :
  forall message,
    SMSService.appendNames message (map Some l)
    = Returned (message ^^ fold_right (fun a rest => nameLine a ^^ nl ^^ rest) EmptyString l).
Proof.
  induction l as [ | a l IH]; intros message; cbn [map SMSService.appendNames fold_right].
  - f_equal. clear. induction message as [ | c m IH]; cbn; [ reflexivity | rewrite <- IH; reflexivity ].
  - rewrite IH. f_equal. unfold nameLine. rewrite !append_assoc. reflexivity.
Qed.

Lemma trimEnd_lines (l : list Associate) :
  Forall trimmedName l -> l <> [] ->
  forall x,
    trimEnd (x ^^ fold_right (fun a rest => nameLine a ^^ nl ^^ rest) EmptyString l)
    = x ^^ SMSService.join nl (map nameLine l).
Proof.
  induction 1 as [ | a l Ha Hl IH]; intros Hne x; [ contradiction | ].
  cbn [fold_right map].
  assert (Ba : all_space (nameLine a) = false).
  { unfold nameLine. cbn [String.append all_space]. reflexivity. }
  destruct l as [ | b l].
  - cbn [fold_right SMSService.join map].
    change (nameLine a ^^ nl ^^ EmptyString) with (nameLine a ^^ nl).
    rewrite <- append_assoc, trimEnd_append_blank by reflexivity.
    rewrite trimEnd_append_text by exact Ba. f_equal.
    unfold nameLine. destruct Ha as [Hn Ht].
    rewrite (trimEnd_append_text "- " (name a) (trimmed_not_blank _ Hn Ht)).
    rewrite (trimmed_trimEnd _ Ht). reflexivity.
  - specialize (IH ltac:(discriminate)).
    change (SMSService.join nl (nameLine a :: map nameLine (b :: l)))
      with (nameLine a ^^ nl ^^ SMSService.join nl (map nameLine (b :: l))).
    rewrite <- !append_assoc. rewrite IH. reflexivity.
Qed.

(** The message for a list of associates with trimmed names: the heading,
    then one line for each associate. *)
Lemma formatMessage_lines :
  forall (l : list Associate),
    Forall trimmedName l -> l <> [] ->
    SMSService.formatMessage (Some (map Some l))
    = Returned (heading ^^ nl ^^ SMSService.join nl (map nameLine l)).
Proof.
  intros l Hl Hne. unfold SMSService.formatMessage.
  destruct l as [ | a l]; [ contradiction | ].
  change (map Some (a :: l)) with (Some a :: map Some l).
  change (Some a :: map Some l) with (map Some (a :: l)).
  assert (E : SMSService.appendNames ("Birthday Alert! Today's birthdays:" ^^ nl) (map Some (a :: l))
              = Returned ((heading ^^ nl)
                          ^^ fold_right (fun a rest => nameLine a ^^ nl ^^ rest) EmptyString (a :: l))).
  { apply appendNames_lines. }
  cbn [map] in E |- *. rewrite E. f_equal.
  unfold trim.
  assert (S : trimStart ((heading ^^ nl)
                         ^^ fold_right (fun a rest => nameLine a ^^ nl ^^ rest) EmptyString (a :: l))
              = (heading ^^ nl)
                ^^ fold_right (fun a rest => nameLine a ^^ nl ^^ rest) EmptyString (a :: l)).
  { reflexivity. }
  rewrite S. rewrite (trimEnd_lines (a :: l) Hl Hne (heading ^^ nl)).
  rewrite append_assoc. reflexivity.
Qed.

(** X24.  For a list of associates whose names are trimmed and not empty, as
    [parseFile] leaves them, the message is the heading followed by one
    line "- name" for each associate, in the order of the list, the lines
    separated by line feeds and nothing after the last name. *)
Theorem formatMessage_lists_every_name :
  forall (l : list Associate),
    Forall trimmedName l -> l <> [] ->
    SMSService.formatMessage (Some (map Some l))
    = Returned (heading ^^ nl ^^ SMSService.join nl (map nameLine l)).
Proof. exact formatMessage_lines. Qed.

Lemma formatMessage_lists_every_name_witness :
  let john := mkAssociate "John Doe" (VDate (newDate utcZone (Some 2000) (Some 1) (Some 29))) 2 in
  let jane := mkAssociate "Jane Smith" (VDate (newDate utcZone (Some 1985) (Some 0) (Some 13))) 5 in
  SMSService.formatMessage (Some [Some john; Some jane])
  = Returned ("Birthday Alert! Today's birthdays:" ^^ nl ^^ "- John Doe" ^^ nl ^^ "- Jane Smith").
Proof.
  cbv zeta.
  refine (formatMessage_lists_every_name
            [mkAssociate "John Doe" (VDate (newDate utcZone (Some 2000) (Some 1) (Some 29))) 2;
             mkAssociate "Jane Smith" (VDate (newDate utcZone (Some 1985) (Some 0) (Some 13))) 5]
            _ _).
  - repeat constructor; discriminate.
  - discriminate.
Defined.

Lemma or_else_not_empty (o : option string) (d : string) :
  d <> EmptyString -> SMSService.or_else o d <> EmptyString.
Proof.
  intros Hd. unfold SMSService.or_else, SMSService.truthy_str.
  destruct o as [s | ]; [ | exact Hd ].
  destruct s; cbn [is_empty]; [ exact Hd | discriminate ].
Qed.

(** X25.  One call of [sendSMS] makes exactly one request, to the configured
    URL, for the configured recipient and sender, with the API key as
    bearer token and a timeout of ten seconds.  When it returns, the
    message id is never empty: it is the [messageId] of the response, its
    [id] when that is missing, and "unknown" when both are.  When it
    throws, the text starts with the prefix of the class of the failure. *)
Theorem sendSMS_one_request :
  forall (this : SMSServiceObj) (h : Host) (message : string) (s : Sys),
    let run := SMSService.sendSMS this h message s in
    let outcome := axios_post h (posts s) (requestOf this message) in
    events_of run = [EvHttpPost (requestOf this message)]
    /\ state_of run = afterPost s
    /\ match result_of run with
       | Normal r =>
           classify outcome = None
           /\ SMSService.api_messageId r <> EmptyString
           /\ SMSService.api_status r <> EmptyString
       | Throw text =>
           classify outcome <> None
           /\ text = failureText outcome
           /\ startsWith text (errorPrefix outcome) = true
       | OutOfFuel => False
       end.
Proof.
  intros this h message s run outcome. unfold run. rewrite sendSMS_run.
  fold outcome. cbn [events_of state_of result_of fst snd].
  split; [ reflexivity | split; [ reflexivity | ] ].
  destruct (classify outcome) as [c | ] eqn:C.
  - destruct (classify_failure outcome c C) as (e & E & P).
    unfold failureText. rewrite E. split; [ discriminate | split; [ reflexivity | exact P ] ].
  - destruct (classify_success outcome C) as (r & E). rewrite E.
    split; [ reflexivity | ].
    unfold SMSService.sendSMS_try in E.
    destruct outcome as [status data | status data | | m]; try discriminate.
    destruct ((200 <=? status) && (status <? 300)); [ | discriminate ].
    destruct data as [d | ]; [ | discriminate ].
    inversion E; subst. cbn [SMSService.api_messageId SMSService.api_status].
    split; apply or_else_not_empty; discriminate.
Qed.

Lemma posts_afterPosts (n : nat) : forall s, posts (afterPosts n s) = (posts s + n)%nat.
Proof.
  induction n as [ | n IH]; intros s; cbn [afterPosts]; [ lia | ].
  rewrite IH. cbn [afterPost posts]. lia.
Qed.

(** The run of [sendWithRetry] when the next [failures] sends fail and the
    one after them succeeds, all before the cap. *)
Lemma sendWithRetry_fuel_first_success (failures : nat) :
  forall fuel this h message timestamp attempt s,
    (failures < fuel)%nat ->
    (attempt + failures <= SMSService.maxAttempts)%nat ->
    (forall i, (i < failures)%nat ->
       classify (axios_post h (posts s + i) (requestOf this message)) <> None) ->
    classify (axios_post h (posts s + failures) (requestOf this message)) = None ->
    exists id,
      SMSService.sendWithRetry_fuel fuel this h message timestamp attempt s
      = (Normal {| SMSService.success := true;
                   SMSService.messageId := Some id;
                   SMSService.error := None;
                   SMSService.timestamp := timestamp;
                   SMSService.attempts := Some (attempt + failures)%nat |},
         afterPosts (S failures) s,
         retryTrace (requestOf this message) attempt failures)
      /\ id <> EmptyString.
Proof.
  induction failures as [ | failures IH];
    intros fuel this h message timestamp attempt s Hf Ha Hfail Hok.
  - destruct fuel as [ | fuel]; [ lia | ].
    rewrite Nat.add_0_r in Hok.
    destruct (classify_success _ Hok) as (r & E).
    rewrite (sendWithRetry_fuel_ok fuel this h message timestamp attempt s r E).
    rewrite Nat.add_0_r. exists (SMSService.api_messageId r). split; [ reflexivity | ].
    unfold SMSService.sendSMS_try in E.
    destruct (axios_post h (posts s) (requestOf this message)) as [status data | status data | | m];
      try discriminate.
    destruct ((200 <=? status) && (status <? 300)); [ | discriminate ].
    destruct data as [d | ]; [ | discriminate ].
    inversion E; subst. cbn [SMSService.api_messageId].
    apply or_else_not_empty. discriminate.
  - destruct fuel as [ | fuel]; [ lia | ].
    pose proof (Hfail 0%nat ltac:(lia)) as H0. rewrite Nat.add_0_r in H0.
    destruct (classify (axios_post h (posts s) (requestOf this message))) as [c | ] eqn:C;
      [ | contradiction ].
    destruct (classify_failure _ c C) as (e & E & _).
    assert (Hc : Nat.leb SMSService.maxAttempts attempt = false)
      by (apply Nat.leb_gt; lia).
    rewrite (sendWithRetry_fuel_fail fuel this h message timestamp attempt s e E Hc). cbv zeta.
    destruct (IH fuel this h message timestamp (attempt + 1)%nat (afterPost s)) as (id & R & Hid).
    + lia.
    + lia.
    + intros i Hi. cbn [afterPost posts].
      replace (S (posts s) + i)%nat with (posts s + S i)%nat by lia. apply Hfail. lia.
    + cbn [afterPost posts].
      replace (S (posts s) + failures)%nat with (posts s + S failures)%nat by lia. exact Hok.
    + rewrite R. cbn [result_of state_of events_of fst snd].
      exists id. split; [ | exact Hid ].
      replace (attempt + 1 + failures)%nat with (attempt + S failures)%nat by lia.
      replace (attempt + 1)%nat with (S attempt) by lia. reflexivity.
Qed.

(** X26.  [sendWithRetry] stops at the first send that succeeds.  When the
    first [failures] sends fail, whatever the class of each failure, and
    the next one succeeds (0, 1 or 2 failures), it returns success with an
    attempt count of [failures + 1] and a message id that is not empty; it
    has made [failures + 1] requests, with a delay of 2 s after the first
    failure and 4 s after the second, and no request after the successful
    one. *)
Theorem sendWithRetry_stops_at_first_success :
  forall (this : SMSServiceObj) (h : Host) (message : string) (timestamp : Date) (s : Sys)
         (failures : nat),
    (failures < 3)%nat ->
    (forall i, (i < failures)%nat ->
       classify (axios_post h (posts s + i) (requestOf this message)) <> None) ->
    classify (axios_post h (posts s + failures) (requestOf this message)) = None ->
    exists id,
      SMSService.sendWithRetry this h message timestamp 1 s
      = (Normal {| SMSService.success := true;
                   SMSService.messageId := Some id;
                   SMSService.error := None;
                   SMSService.timestamp := timestamp;
                   SMSService.attempts := Some (S failures) |},
         afterPosts (S failures) s,
         retryTrace (requestOf this message) 1 failures)
      /\ id <> EmptyString
      /\ filter isDelay (retryTrace (requestOf this message) 1 failures)
         = firstn failures [EvDelay 2000; EvDelay 4000].
Proof.
  intros this h message timestamp s failures Hf Hfail Hok.
  unfold SMSService.sendWithRetry.
  destruct (sendWithRetry_fuel_first_success failures (S (SMSService.maxAttempts - 1))
              this h message timestamp 1 s) as (id & R & Hid).
  - unfold SMSService.maxAttempts. lia.
  - unfold SMSService.maxAttempts. lia.
  - exact Hfail.
  - exact Hok.
  - exists id. split; [ exact R | split; [ exact Hid | ] ].
    destruct failures as [ | [ | [ | failures]]]; try lia; reflexivity.
Qed.

Lemma sendWithRetry_stops_at_first_success_witness :
  let h := Demo.host Demo.failTwice in
  let req := requestOf Demo.sms "Happy birthday" in
  exists id,
    SMSService.sendWithRetry Demo.sms h "Happy birthday" invalidDate 1 (Demo.start true)
    = (Normal {| SMSService.success := true;
                 SMSService.messageId := Some id;
                 SMSService.error := None;
                 SMSService.timestamp := invalidDate;
                 SMSService.attempts := Some 3%nat |},
       afterPosts 3 (Demo.start true),
       [EvHttpPost req; EvDelay 2000; EvHttpPost req; EvDelay 4000; EvHttpPost req]).
Proof.
  cbv zeta.
  destruct (sendWithRetry_stops_at_first_success Demo.sms (Demo.host Demo.failTwice)
              "Happy birthday" invalidDate (Demo.start true) 2) as (id & E & _).
  - lia.
  - intros i Hi. destruct i as [ | [ | i]]; [ discriminate | discriminate | lia ].
  - reflexivity.
  - exists id. exact E.
Defined.

Lemma sendWithRetry_fuel_counts (fuel : nat) :
  forall this h message timestamp attempt s,
    (SMSService.maxAttempts - attempt < fuel)%nat ->
    let run := SMSService.sendWithRetry_fuel fuel this h message timestamp attempt s in
    exists r n,
      result_of run = Normal r
      /\ SMSService.attempts r = Some n
      /\ (attempt <= n <= Nat.max attempt SMSService.maxAttempts)%nat
      /\ count isHttpPost (events_of run) = S (n - attempt)
      /\ count isDelay (events_of run) = (n - attempt)%nat
      /\ posts (state_of run) = (posts s + S (n - attempt))%nat
      /\ (SMSService.success r = false -> n = Nat.max attempt SMSService.maxAttempts).
Proof.
  induction fuel as [ | fuel IH]; intros this h message timestamp attempt s Hf run; [ lia | ].
  unfold run. clear run.
  destruct (SMSService.sendSMS_try (axios_post h (posts s) (requestOf this message)))
    as [e | r] eqn:E.
  - destruct (Nat.leb SMSService.maxAttempts attempt) eqn:Hc.
    + rewrite (sendWithRetry_fuel_last fuel this h message timestamp attempt s e E Hc).
      apply Nat.leb_le in Hc. eexists. exists attempt.
      cbn [result_of state_of events_of fst snd SMSService.attempts SMSService.success
           afterPost posts].
      rewrite Nat.sub_diag. unfold count. cbn [filter isHttpPost isDelay List.length].
      repeat split; lia.
    + rewrite (sendWithRetry_fuel_fail fuel this h message timestamp attempt s e E Hc).
      cbv zeta. apply Nat.leb_gt in Hc. unfold SMSService.maxAttempts in *.
      destruct (IH this h message timestamp (attempt + 1)%nat (afterPost s)
                  ltac:(unfold SMSService.maxAttempts; lia))
        as (r & n & Hr & Hn & Hb & Hp & Hd & Hs & Hfail).
      exists r, n. cbn [result_of state_of events_of fst snd] in *.
      unfold count in *. cbn [filter isHttpPost isDelay List.length].
      cbn [afterPost posts] in Hs.
      repeat split; try assumption; try lia.
      intros F. specialize (Hfail F). lia.
  - rewrite (sendWithRetry_fuel_ok fuel this h message timestamp attempt s r E).
    eexists. exists attempt.
    cbn [result_of state_of events_of fst snd SMSService.attempts SMSService.success
         afterPost posts].
    rewrite Nat.sub_diag. unfold count. cbn [filter isHttpPost isDelay List.length].
    repeat split; try lia. discriminate.
Qed.

(** X27.  The attempt count of the result of [sendWithRetry] is the number of
    the last attempt made: starting at [attempt], a result with count [n]
    stands for [n - attempt + 1] requests and [n - attempt] delays.  A
    failure is reported only at the cap of three, or at once when the call
    starts at or beyond the cap; a call that starts at 1 makes at most
    three requests, and one that starts at 0 at most four. *)
Theorem sendWithRetry_counts_its_requests :
  forall (this : SMSServiceObj) (h : Host) (message : string) (timestamp : Date)
         (attempt : nat) (s : Sys),
    let run := SMSService.sendWithRetry this h message timestamp attempt s in
    exists r n,
      result_of run = Normal r
      /\ SMSService.attempts r = Some n
      /\ (attempt <= n <= Nat.max attempt 3)%nat
      /\ count isHttpPost (events_of run) = S (n - attempt)
      /\ count isDelay (events_of run) = (n - attempt)%nat
      /\ posts (state_of run) = (posts s + S (n - attempt))%nat
      /\ (SMSService.success r = false -> n = Nat.max attempt 3).
Proof.
  intros this h message timestamp attempt s.
  apply (sendWithRetry_fuel_counts (S (SMSService.maxAttempts - attempt))). lia.
Qed.

(* ================================================================== *)
(** ** BirthdayCheckService: the result of a run *)
(* ================================================================== *)

Lemma coherent_failure (total : Z) (message : string) :
  0 <= total ->
  coherent {| BirthdayCheckService.totalAssociatesChecked := total;
              BirthdayCheckService.res_birthdaysFound := [];
              BirthdayCheckService.res_notificationSent := false;
              BirthdayCheckService.res_errors := [message] |}.
Proof.
  intros H. unfold coherent, allPresent, BirthdayCheckService.len. cbn.
  repeat split; try lia; try discriminate; try constructor;
    try (intros [E _]; discriminate); try (intros [_ E]; contradiction).
Qed.

Lemma len_nonneg {A} (l : list A) : 0 <= BirthdayCheckService.len l.
Proof. unfold BirthdayCheckService.len. lia. Qed.

Ltac failure_case He :=
  wp_steps; cbn [service frame errors]; rewrite ?He; cbn [app];
  split; [ reflexivity | ]; eexists; (split; [ reflexivity | ]);
  apply coherent_failure; first [ lia | apply len_nonneg ].

Lemma loadAssociates_coherent (h : Host) (s : Sys) :
  errors (frame s) = [] ->
  wp (BirthdayCheckService.loadAssociates h) s
     (fun c s1 e =>
        service s1 = service s
        /\ exists ret, c = Normal ret
             /\ match ret with
                | Some r => coherent r
                | None =>
                    errors (frame s1) = []
                    /\ birthdaysFound (frame s1) = birthdaysFound (frame s)
                    /\ notificationSent (frame s1) = notificationSent (frame s)
                end).
Proof.
  intros He. unfold BirthdayCheckService.loadAssociates. wp_steps.
  destruct (excelParser (service s)) as [parser | ];
    [ destruct (config (service s)) as [cfg | ] | ].
  - wp_step.
    destruct (parseFile_stateless parser h (excelFilePath cfg)) as (c & e & E & Hc & Hl).
    eapply wp_run; [ apply E | ]. cbv beta iota.
    destruct c as [loaded | m | ]; [ | | contradiction ].
    + wp_steps. cbn [service frame errors birthdaysFound notificationSent].
      split; [ reflexivity | ]. eexists. split; [ reflexivity | ]. repeat split. exact He.
    + failure_case He.
  - failure_case He.
  - failure_case He.
Qed.

Lemma filter_length_le {A} (p : A -> bool) (l : list A) :
  (List.length (filter p l) <= List.length l)%nat.
Proof.
  induction l as [ | x l IH]; cbn [filter List.length]; [ lia | ].
  destruct (p x); cbn [List.length]; lia.
Qed.

Lemma findBirthdaysOnDate_length (h : Host) (l : list Associate) (date : Value) :
  BirthdayCheckService.len (DateMatcher.findBirthdaysOnDate h (Some (map Some l)) date)
  <= BirthdayCheckService.len l.
Proof.
  unfold BirthdayCheckService.len, DateMatcher.findBirthdaysOnDate.
  destruct date; cbn [List.length]; try lia.
  destruct (isInvalid d); cbn [List.length]; try lia.
  pose proof (filter_length_le
                (DateMatcher.isBirthday h (getMonth (tz h) d) (getDate (tz h) d)) (map Some l)) as H.
  rewrite length_map in H. lia.
Qed.

Lemma matchBirthdays_coherent (h : Host) (s : Sys) :
  errors (frame s) = [] ->
  wp (BirthdayCheckService.matchBirthdays h) s
     (fun c s1 e =>
        service s1 = service s
        /\ exists ret, c = Normal ret
             /\ match ret with
                | Some r => coherent r
                | None =>
                    errors (frame s1) = []
                    /\ notificationSent (frame s1) = notificationSent (frame s)
                    /\ associates (frame s1) = associates (frame s)
                    /\ allPresent (birthdaysFound (frame s1))
                    /\ BirthdayCheckService.len (birthdaysFound (frame s1))
                       <= BirthdayCheckService.len (associates (frame s1))
                end).
Proof.
  intros He. unfold BirthdayCheckService.matchBirthdays. wp_steps.
  destruct (dateMatcher (service s)) as [ [] | ].
  - wp_step. eapply wp_run; [ apply findBirthdaysToday_run | ]. cbv beta iota. wp_steps.
    set (found := DateMatcher.findBirthdaysOnDate h _ _).
    assert (Hall : allPresent found) by apply findBirthdaysOnDate_allPresent.
    assert (Hlen : BirthdayCheckService.len found <= BirthdayCheckService.len (associates (frame s)))
      by apply findBirthdaysOnDate_length.
    destruct (0 <? BirthdayCheckService.len found).
    + wp_steps. eapply wp_mono; [ apply (logNames_allPresent found _ Hall) | ].
      intros c s' e (-> & -> & Hl). wp_steps.
      cbn [service frame errors associates birthdaysFound notificationSent afterClock].
      split; [ reflexivity | ]. eexists. split; [ reflexivity | ].
      repeat split; assumption.
    + wp_steps.
      cbn [service frame errors associates birthdaysFound notificationSent afterClock].
      split; [ reflexivity | ]. eexists. split; [ reflexivity | ].
      repeat split; assumption.
  - failure_case He.
Qed.

Lemma sendWithRetry_fuel_timestamp (fuel : nat) :
  forall this h message ts attempt s r,
    result_of (SMSService.sendWithRetry_fuel fuel this h message ts attempt s) = Normal r ->
    SMSService.timestamp r = ts.
Proof.
  induction fuel as [ | fuel IH]; intros this h message ts attempt s r.
  - cbn. discriminate.
  - destruct (SMSService.sendSMS_try (axios_post h (posts s) (requestOf this message)))
      as [e | ok] eqn:E.
    + destruct (Nat.leb SMSService.maxAttempts attempt) eqn:Hc.
      * rewrite (sendWithRetry_fuel_last fuel this h message ts attempt s e E Hc).
        cbn. intros H. injection H as <-. reflexivity.
      * rewrite (sendWithRetry_fuel_fail fuel this h message ts attempt s e E Hc).
        cbv zeta. cbn [result_of fst snd]. apply IH.
    + rewrite (sendWithRetry_fuel_ok fuel this h message ts attempt s ok E).
      cbn. intros H. injection H as <-. reflexivity.
Qed.

(** The result of [sendBirthdayNotification] carries the Date made when the
    method was entered, which is a valid Date. *)
Lemma sendBirthdayNotification_timestamp (this : SMSServiceObj) (h : Host)
      (l : list Element) (s : Sys) (r : SMSService.SMSResult) :
  result_of (SMSService.sendBirthdayNotification this h (Some l) s) = Normal r ->
  SMSService.timestamp r = mkDate (Some (clock h (clockReads s))).
Proof.
  unfold SMSService.sendBirthdayNotification, bind, emit, now.
  cbn [fst snd result_of state_of events_of].
  destruct l as [ | a l].
  - cbn. intros H. injection H as <-. reflexivity.
  - unfold liftS. cbn [fst snd].
    destruct (SMSService.formatMessage (Some (a :: l))) as [message | m]; cbn [ofSettled].
    + set (s1 := {| service := service s; frame := frame s; posts := posts s;
                    clockReads := S (clockReads s) |}).
      set (ts := mkDate (Some (clock h (clockReads s)))).
      pose proof (sendWithRetry_fuel_timestamp (S (SMSService.maxAttempts - 1))
                    this h message ts 1 s1) as T.
      fold (SMSService.sendWithRetry this h message ts 1 s1) in T.
      destruct (SMSService.sendWithRetry this h message ts 1 s1) as [[c s2] e2].
      cbn [fst snd result_of] in *. exact (T r).
    + cbn. discriminate.
Qed.

Lemma toISOString_valid (t : Z) : toISOString (mkDate (Some t)) <> None.
Proof. unfold toISOString. cbn [timeValue]. discriminate. Qed.

Lemma sendNotification_coherent (h : Host) (s : Sys) (cfg : Runtime.Configuration) :
  errors (frame s) = [] ->
  notificationSent (frame s) = false ->
  config (service s) = Some cfg ->
  wp (BirthdayCheckService.sendNotification h) s
     (fun c s1 e =>
        c = Normal tt
        /\ associates (frame s1) = associates (frame s)
        /\ birthdaysFound (frame s1) = birthdaysFound (frame s)
        /\ (List.length (errors (frame s1)) <= 1)%nat
        /\ (notificationSent (frame s1) = true
            <-> errors (frame s1) = [] /\ birthdaysFound (frame s) <> [])).
Proof.
  intros He Hns Hcfg.
  unfold BirthdayCheckService.sendNotification. wp_steps.
  destruct (0 <? BirthdayCheckService.len (birthdaysFound (frame s))) eqn:Hpos.
  2:{ wp_steps. apply len_zero in Hpos. rewrite He, Hns, Hpos. cbn [List.length].
      repeat split; try lia; try discriminate. intros [_ N]. contradiction. }
  apply len_positive in Hpos.
  assert (Failed : forall s1 message,
             associates (frame s1) = associates (frame s) ->
             birthdaysFound (frame s1) = birthdaysFound (frame s) ->
             errors (frame s1) = [message] ->
             notificationSent (frame s1) = false ->
             Normal tt = Normal tt
             /\ associates (frame s1) = associates (frame s)
             /\ birthdaysFound (frame s1) = birthdaysFound (frame s)
             /\ (List.length (errors (frame s1)) <= 1)%nat
             /\ (notificationSent (frame s1) = true
                 <-> errors (frame s1) = [] /\ birthdaysFound (frame s) <> [])).
  { intros s1 message H1 H2 H3 H4. rewrite H3, H4. cbn [List.length].
    repeat split; try assumption; try lia; try discriminate.
    intros [N _]. discriminate. }
  wp_steps.
  destruct (smsService (service s)) as [sms | ].
  2:{ wp_steps. eapply Failed;
        cbn [service frame associates birthdaysFound errors notificationSent];
        rewrite ?He, ?Hns; reflexivity. }
  wp_step.
  pose proof (sendBirthdayNotification_timestamp sms h (birthdaysFound (frame s)) s) as Ts.
  pose proof (sendBirthdayNotification_spec sms h (birthdaysFound (frame s)) s) as Sp.
  unfold wp in Sp.
  destruct (SMSService.sendBirthdayNotification sms h (Some (birthdaysFound (frame s))) s)
    as [[c s'] e] eqn:Run.
  cbn [result_of state_of events_of fst snd] in Sp, Ts.
  destruct Sp as (Hc & Hs & Hf & _).
  eapply wp_run; [ exact Run | ]. cbv beta iota.
  destruct c as [smsResult | m | ]; [ | | contradiction ].
  - destruct (SMSService.success smsResult).
    + wp_steps. cbn [service frame associates birthdaysFound].
      rewrite Hs, Hf, Hcfg.
      rewrite (Ts smsResult eq_refl).
      destruct (toISOString _) as [iso | ] eqn:Iso;
        [ | exfalso; exact (toISOString_valid _ Iso) ].
      wp_steps.
      destruct (SMSService.truthy_str (SMSService.messageId smsResult)) as [id | ];
        wp_steps;
        (destruct (SMSService.attempts smsResult) as [n | ];
         [ destruct (Nat.ltb 1 n) | ]); wp_steps;
        cbn [service frame associates birthdaysFound errors notificationSent];
        rewrite ?Hf, ?He; cbn [List.length];
        repeat split; try lia; try assumption.
    + wp_steps.
      (destruct (SMSService.attempts smsResult) as [n | ];
       [ destruct (Nat.ltb 0 n) | ]); wp_steps;
        eapply Failed;
        cbn [service frame associates birthdaysFound errors notificationSent];
        rewrite ?Hf, ?He, ?Hns; reflexivity.
  - wp_steps. eapply Failed;
      cbn [service frame associates birthdaysFound errors notificationSent];
      rewrite ?Hf, ?He, ?Hns; reflexivity.
Qed.

(** [initialize] stores the configuration before anything can fail. *)
Lemma initialize_config (h : Host) (s : Sys) :
  wp (BirthdayCheckService.initialize h) s
     (fun c s1 e =>
        c <> OutOfFuel /\ frame s1 = frame s
        /\ config (service s1) = Some (environment h)).
Proof.
  unfold BirthdayCheckService.initialize. wp_steps.
  destruct (negb (Nat.eqb (List.length (validationErrors h)) 0)).
  - wp_steps. cbn [service config frame]. repeat split; discriminate.
  - wp_steps.
    destruct (SMSService.new _ _ _ _) as [sms | m]; cbn [ofSettled]; wp_steps;
      cbn [service config frame]; repeat split; discriminate.
Qed.

Lemma coherent_resultOf (f : Locals) :
  (List.length (errors f) <= 1)%nat ->
  (notificationSent f = true <-> errors f = [] /\ birthdaysFound f <> []) ->
  allPresent (birthdaysFound f) ->
  BirthdayCheckService.len (birthdaysFound f) <= BirthdayCheckService.len (associates f) ->
  coherent (resultOf f).
Proof.
  intros Hle Hiff Hall Hlen. unfold coherent, resultOf.
  cbn [BirthdayCheckService.totalAssociatesChecked BirthdayCheckService.res_birthdaysFound
       BirthdayCheckService.res_notificationSent BirthdayCheckService.res_errors].
  split; [ exact Hle | split; [ exact Hiff | split; [ | exact Hall ] ] ].
  split; [ apply len_nonneg | exact Hlen ].
Qed.

(** Steps 2 to 5 of the try block, on a service that has the configuration
    [cfg] and fresh local variables. *)
Ltac rest_coherent h cfg He Hns Hcfg :=
  eapply wp_mono; [ apply loadAssociates_coherent; exact He | ];
  let c := fresh "c" in
  let s2 := fresh "s2" in
  let e2 := fresh "e2" in
  let ret := fresh "ret" in
  let Hs2 := fresh "Hs2" in
  let Hret := fresh "Hret" in
  let He2 := fresh "He2" in
  let Hbf2 := fresh "Hbf2" in
  let Hns2 := fresh "Hns2" in
  intros c s2 e2 (Hs2 & ret & -> & Hret);
  destruct ret as [r | ]; [ wp_steps; exact Hret | ];
  destruct Hret as (He2 & Hbf2 & Hns2);
  wp_steps;
  eapply wp_mono; [ apply matchBirthdays_coherent; exact He2 | ];
  let c3 := fresh "c" in
  let s3 := fresh "s3" in
  let e3 := fresh "e3" in
  let ret3 := fresh "ret" in
  let Hs3 := fresh "Hs3" in
  let Hret3 := fresh "Hret3" in
  let He3 := fresh "He3" in
  let Hns3 := fresh "Hns3" in
  let Has3 := fresh "Has3" in
  let Hall := fresh "Hall" in
  let Hlen := fresh "Hlen" in
  intros c3 s3 e3 (Hs3 & ret3 & -> & Hret3);
  destruct ret3 as [r | ]; [ wp_steps; exact Hret3 | ];
  destruct Hret3 as (He3 & Hns3 & Has3 & Hall & Hlen);
  wp_steps;
  eapply wp_mono;
    [ apply (sendNotification_coherent h s3 cfg He3);
      [ rewrite Hns3, Hns2; exact Hns | rewrite Hs3, Hs2; exact Hcfg ] | ];
  let c4 := fresh "c" in
  let s4 := fresh "s4" in
  let e4 := fresh "e4" in
  let Has4 := fresh "Has4" in
  let Hbf4 := fresh "Hbf4" in
  let Hle := fresh "Hle" in
  let Hiff := fresh "Hiff" in
  intros c4 s4 e4 (-> & Has4 & Hbf4 & Hle & Hiff);
  wp_steps;
  let Done := fresh "Done" in
  assert (Done : coherent (resultOf (frame s4)))
    by (apply coherent_resultOf;
        [ exact Hle | rewrite Hbf4; exact Hiff | rewrite Hbf4; exact Hall
        | rewrite Hbf4, Has4; exact Hlen ]);
  destruct (0 <? BirthdayCheckService.len (errors (frame s4))); wp_steps; exact Done.

Lemma dailyCheck_coherent (h : Host) (s : Sys) :
  errors (frame s) = [] -> notificationSent (frame s) = false ->
  wp (BirthdayCheckService.dailyCheck h) s
     (fun c s1 e =>
        match c with
        | Normal r => coherent r
        | Throw _ => frame s1 = frame s
        | OutOfFuel => False
        end).
Proof.
  intros He Hns.
  unfold BirthdayCheckService.dailyCheck. wp_steps.
  destruct (config (service s)) as [cfg0 | ] eqn:Hcfg.
  - wp_steps. rewrite Hcfg. wp_steps. rest_coherent h cfg0 He Hns Hcfg.
  - eapply wp_mono; [ apply initialize_config | ].
    intros c s1 e1 (Hc & Hf1 & Hcfg1).
    destruct c as [ [] | m | ]; [ | | contradiction ].
    + wp_steps. rewrite Hcfg1. wp_steps.
      assert (He1 : errors (frame s1) = []) by (rewrite Hf1; exact He).
      assert (Hns1 : notificationSent (frame s1) = false) by (rewrite Hf1; exact Hns).
      rest_coherent h (environment h) He1 Hns1 Hcfg1.
    + exact Hf1.
Qed.

(** X28.  Whatever the host and the state of the service, [performDailyCheck]
    returns a result whose fields agree with one another: it holds at most
    one error; the notification is marked as sent exactly when there is no
    error and the list of birthdays is not empty; the birthdays are records
    of associates and are no more than the associates counted. *)
Theorem performDailyCheck_result_coherent (h : Host) (s : Sys) :
  exists r,
    result_of (BirthdayCheckService.performDailyCheck h s) = Normal r
    /\ coherent r.
Proof.
  assert (W : wp (BirthdayCheckService.performDailyCheck h) s
                 (fun c _ _ => exists r, c = Normal r /\ coherent r)).
  { unfold BirthdayCheckService.performDailyCheck. wp_steps.
    eapply wp_mono; [ apply dailyCheck_coherent; reflexivity | ].
    intros c s1 e H. destruct c as [r | m | ]; [ | | contradiction ].
    - exists r. split; [ reflexivity | exact H ].
    - wp_steps. eexists. split; [ reflexivity | ].
      cbn [frame errors associates birthdaysFound notificationSent].
      rewrite H. cbn [frame errors associates birthdaysFound notificationSent app].
      apply coherent_failure. apply len_nonneg. }
  exact W.
Qed.

(* ================================================================== *)
(** ** index.js: starting and stopping the application *)
(* ================================================================== *)

Lemma wpP_bind {A B} (m : Index.MP A) (f : A -> Index.MP B) app Q :
  wpP m app (fun c app1 e1 =>
               match c with
               | Normal a => wpP (f a) app1 (fun c2 app2 e2 => Q c2 app2 (e1 ++ e2)%list)
               | Throw x => Q (Throw x) app1 e1
               | OutOfFuel => Q OutOfFuel app1 e1
               end) ->
  wpP (Index.bindP m f) app Q.
Proof.
  unfold wpP, Index.bindP. destruct (m app) as [[[a | x | ] app1] e1]; cbn; auto.
  destruct (f a app1) as [[c2 app2] e2]. cbn. auto.
Qed.

Lemma wpP_try_catch {A} (m : Index.MP A) (handler : string -> Index.MP A) app Q :
  wpP m app (fun c app1 e1 =>
               match c with
               | Throw x => wpP (handler x) app1 (fun c2 app2 e2 => Q c2 app2 (e1 ++ e2)%list)
               | _ => Q c app1 e1
               end) ->
  wpP (Index.try_catchP m handler) app Q.
Proof.
  unfold wpP, Index.try_catchP. destruct (m app) as [[[a | x | ] app1] e1]; cbn; auto.
  destruct (handler x app1) as [[c2 app2] e2]. cbn. auto.
Qed.

Lemma wpP_ret {A} (a : A) app Q : Q (Normal a) app [] -> wpP (Index.retP a) app Q.
Proof. auto. Qed.

Lemma wpP_getApp app Q : Q (Normal app) app [] -> wpP Index.getApp app Q.
Proof. auto. Qed.

Lemma wpP_info (message : string) app Q :
  Q (Normal tt) app [EvLog "INFO" message] -> wpP (Index.info message) app Q.
Proof. auto. Qed.

Lemma wpP_error (message : string) app Q :
  Q (Normal tt) app [EvLog "ERROR" message] -> wpP (Index.error message) app Q.
Proof. auto. Qed.

Lemma wpP_newScheduler (time : string) app Q :
  Q (Normal tt)
    {| Index.scheduler := Some (Scheduler.new (Some time) true);
       Index.registry := Index.registry app; Index.sys := Index.sys app |} [] ->
  wpP (Index.newScheduler time) app Q.
Proof. auto. Qed.

Lemma wpP_call {A} (method : string) (m : Scheduler.MW A) (self : Scheduler.SchedulerObj) app Q :
  Index.scheduler app = Some self ->
  wpW m (worldOf self app) (fun c w e => Q c (appOf w) e) ->
  wpP (Index.call method m) app Q.
Proof.
  intros E. unfold wpP, wpW, Index.call, worldOf, appOf. rewrite E.
  destruct (m _) as [[c w] e]. cbn. auto.
Qed.

Ltac wpP_step :=
  lazymatch goal with
  | |- wpP (Index.bindP _ _) _ _ => apply wpP_bind
  | |- wpP (Index.try_catchP _ _) _ _ => apply wpP_try_catch
  | |- wpP (Index.retP _) _ _ => apply wpP_ret
  | |- wpP Index.getApp _ _ => apply wpP_getApp
  | |- wpP (Index.info _) _ _ => apply wpP_info
  | |- wpP (Index.error _) _ _ => apply wpP_error
  | |- wpP (Index.newScheduler _) _ _ => apply wpP_newScheduler
  end; cbv beta iota.

Ltac wpP_steps := repeat wpP_step.

Lemma Scheduler_initialize_invalid_time (h : Host) w :
  Scheduler.validateTimeFormat (Scheduler.scheduledTime (Scheduler.this w)) = false ->
  wpW (Scheduler.initialize h) w (fun c w' e => (exists m, c = Throw m) /\ w' = w).
Proof.
  intros V. unfold Scheduler.initialize. wpW_steps. rewrite V. cbn [negb]. wpW_steps.
  split; [ eexists; reflexivity | reflexivity ].
Qed.

Lemma Scheduler_initialize_success (h : Host) w (sms : SMSServiceObj) :
  Scheduler.validateTimeFormat (Scheduler.scheduledTime (Scheduler.this w)) = true ->
  validationErrors h = [] ->
  SMSService.new (smsApiUrl (environment h)) (smsApiKey (environment h))
    (smsSenderId (environment h)) (recipientMobileNumber (environment h)) = Returned sms ->
  wpW (Scheduler.initialize h) w
      (fun c w' e =>
         c = Normal tt /\ sameJob w w'
         /\ Scheduler.birthdayCheckService (Scheduler.this w') = true).
Proof.
  intros V Hv Hn. unfold Scheduler.initialize. wpW_steps. rewrite V. cbn [negb]. wpW_steps.
  unfold Scheduler.createService at 1.
  eapply wpW_run; [ reflexivity | ]. cbv beta iota. wpW_step.
  apply wpW_liftM. cbn [Scheduler.sys].
  eapply wp_mono; [ apply (initialize_success h _ sms Hv Hn) | ].
  intros c s1 e (-> & _ & ->). wpW_steps.
  cbn [withSys Scheduler.this Scheduler.registry Scheduler.logger].
  split; [ reflexivity | split; [ repeat split | reflexivity ] ].
Qed.

(** What [startApplication] leaves: the scheduler it has built, with one
    more running task exactly when the application could start. *)
Lemma startApplication_spec (p : Scheduler.Platform) (h : Host) (env : Configuration.Env)
      (app : Index.App) :
  readsEnvironment h env ->
  let time := Configuration.scheduledTime
                (Configuration.loadFromEnvironment env Configuration.new) in
  wpP (Index.startApplication p h env) app
      (fun c app' e =>
         c = Normal (if startable p h env then None else Some 1)
         /\ Index.registry app'
            = (if startable p h env then Index.registry app ++ [dailyTask p time]
               else Index.registry app)%list
         /\ exists self,
              Index.scheduler app' = Some self
              /\ Scheduler.scheduledTime self = time
              /\ Scheduler.isRunning self = startable p h env
              /\ Scheduler.cronJob self
                 = if startable p h env then Some (List.length (Index.registry app)) else None).
Proof.
  intros [He Hv] time. unfold startable. fold time.
  set (loaded := Configuration.loadFromEnvironment env Configuration.new) in *.
  unfold Index.startApplication.
  change (SMSService.or_else (env "SCHEDULED_TIME"%string) "09:00") with time.
  wpP_steps.
  set (self := Scheduler.new (Some time) true).
  assert (Ht : Scheduler.scheduledTime self = time).
  { unfold self, Scheduler.new. cbn [Scheduler.scheduledTime].
    unfold time, loaded, Configuration.loadFromEnvironment.
    cbn [Configuration.scheduledTime].
    unfold SMSService.or_else at 1. cbn [SMSService.truthy_str].
    destruct (SMSService.or_else (env "SCHEDULED_TIME"%string) "09:00") as [ | c0 r0] eqn:E.
    - exfalso. revert E. unfold SMSService.or_else.
      destruct (SMSService.truthy_str (env "SCHEDULED_TIME"%string)) as [x | ] eqn:T;
        [ | discriminate ].
      intros ->. unfold SMSService.truthy_str in T.
      destruct (env "SCHEDULED_TIME"%string) as [ [ | ? ? ] | ]; discriminate.
    - reflexivity. }
  assert (Hr : Scheduler.isRunning self = false) by reflexivity.
  assert (Hj : Scheduler.cronJob self = None) by reflexivity.
  clearbody self.
  eapply wpP_call; [ reflexivity | ].
  unfold worldOf at 1. cbn [Index.registry Index.sys].
  set (w := {| Scheduler.this := self; Scheduler.registry := Index.registry app;
               Scheduler.sys := Index.sys app |}).
  assert (Hw : Scheduler.scheduledTime (Scheduler.this w) = time) by exact Ht.
  destruct (Scheduler.validateTimeFormat time) eqn:V; cbn [andb].
  2:{ eapply wpW_mono;
        [ apply Scheduler_initialize_invalid_time; rewrite Hw; exact V | ].
      intros c w' e ((m & ->) & ->). wpP_steps.
      split; [ reflexivity | split; [ reflexivity | ] ].
      exists self. repeat split; assumption. }
  destruct (Configuration.isValid (Configuration.validate h loaded)) eqn:Valid; cbn [andb].
  2:{ assert (Hne : validationErrors h <> []).
      { rewrite Hv. intros E. unfold Configuration.validate in Valid, E.
        cbn [Configuration.isValid Configuration.errors] in *. rewrite E in Valid. discriminate. }
      eapply wpW_mono;
        [ apply Scheduler_initialize_failure;
          [ rewrite Hw; exact V | exact Hne ] | ].
      intros c w' e (-> & ->). wpP_steps.
      split; [ reflexivity | split; [ reflexivity | ] ].
      exists (withService self). repeat split; assumption. }
  assert (Hnil : validationErrors h = []).
  { rewrite Hv. unfold Configuration.validate in Valid |- *.
    cbn [Configuration.isValid Configuration.errors] in *.
    apply Nat.eqb_eq in Valid. apply length_zero_iff_nil in Valid. exact Valid. }
  pose proof (validate_builds_SMSService h loaded Valid) as Hn.
  rewrite <- (f_equal smsApiUrl He : smsApiUrl (environment h) = _),
          <- (f_equal smsApiKey He : smsApiKey (environment h) = _),
          <- (f_equal smsSenderId He : smsSenderId (environment h) = _),
          <- (f_equal recipientMobileNumber He : recipientMobileNumber (environment h) = _)
    in Hn at 1.
  eapply wpW_mono;
    [ eapply Scheduler_initialize_success;
      [ rewrite Hw; exact V | exact Hnil | exact Hn ] | ].
  intros c w1 e1 (-> & (R1 & J1 & I1 & T1 & L1) & B1). wpP_steps.
  eapply wpP_call; [ reflexivity | ].
  change (worldOf (Scheduler.this w1) (appOf w1)) with
    {| Scheduler.this := Scheduler.this w1; Scheduler.registry := Scheduler.registry w1;
       Scheduler.sys := Scheduler.sys w1 |}.
  replace {| Scheduler.this := Scheduler.this w1; Scheduler.registry := Scheduler.registry w1;
             Scheduler.sys := Scheduler.sys w1 |} with w1 by (destruct w1; reflexivity).
  eapply wpW_mono; [ apply (start_with_service p h w1 B1) | ].
  intros c w2 e2 [_ H2].
  assert (R1' : Scheduler.registry w1 = Index.registry app) by exact R1.
  assert (I1' : Scheduler.isRunning (Scheduler.this w1) = false)
    by (rewrite I1; exact Hr).
  assert (J1' : Scheduler.cronJob (Scheduler.this w1) = None)
    by (rewrite J1; exact Hj).
  assert (T1' : Scheduler.scheduledTime (Scheduler.this w1) = time)
    by (rewrite T1; exact Hw).
  rewrite I1', T1' in H2.
  destruct (Scheduler.cron_rejects p (Scheduler.timeToCronExpression time)) as [message | ].
  - destruct H2 as [-> ->]. wpP_steps.
    split; [ reflexivity | split; [ exact R1' | ] ].
    exists (Scheduler.this w1). cbn [appOf Index.scheduler].
    repeat split; assumption.
  - destruct H2 as [-> ->]. wpP_steps.
    split; [ reflexivity | ].
    cbn [appOf afterStart Index.registry Index.scheduler Scheduler.this Scheduler.registry].
    rewrite R1', T1'.
    split; [ reflexivity | ].
    eexists. split; [ reflexivity | ].
    cbn [started Scheduler.scheduledTime Scheduler.isRunning Scheduler.cronJob].
    repeat split. exact T1'.
Qed.

(** X29.  When the configuration of the host is the one read from the
    environment, [startApplication] never throws and leaves the process
    (with code 1) exactly when the application cannot start: the scheduled
    time, SCHEDULED_TIME or 09:00, is not of the form the scheduler accepts,
    the configuration fails validation, or node-cron rejects the
    expression.  When it can start, node-cron has one more running task,
    for that time, and the scheduler says it is running; otherwise no task
    is added and the scheduler says it is not running. *)
Theorem startApplication_starts_when_startable :
  forall (p : Scheduler.Platform) (h : Host) (env : Configuration.Env) (app : Index.App),
    readsEnvironment h env ->
    let run := Index.startApplication p h env app in
    let time := SMSService.or_else (env "SCHEDULED_TIME"%string) "09:00" in
    fst (fst run) = Normal (if startable p h env then None else Some 1)
    /\ Index.registry (snd (fst run))
       = (if startable p h env then Index.registry app ++ [dailyTask p time]
          else Index.registry app)%list
    /\ option_map Scheduler.isSchedulerRunning (Index.scheduler (snd (fst run)))
       = Some (startable p h env).
Proof.
  intros p h env app R run time.
  pose proof (startApplication_spec p h env app R) as W. unfold wpP in W. fold run in W.
  cbv zeta in W. destruct W as (C & G & self & S & _ & I & _).
  split; [ exact C | split; [ exact G | ] ].
  rewrite S. cbn [option_map]. unfold Scheduler.isSchedulerRunning. rewrite I. reflexivity.
Qed.

Lemma startApplication_starts_when_startable_witness :
  let h := Demo.host Demo.alwaysDown in
  let run := Index.startApplication Samples.platform h Samples.env (launched (Demo.start true)) in
  readsEnvironment h Samples.env
  /\ fst (fst run) = Normal None
  /\ Index.registry (snd (fst run))
     = [{| Scheduler.expression := "00 09 * * *"; Scheduler.timezone := "UTC";
           Scheduler.running := true |}].
Proof.
  cbv zeta.
  assert (R : readsEnvironment (Demo.host Demo.alwaysDown) Samples.env)
    by (split; reflexivity).
  split; [ exact R | ].
  destruct (startApplication_starts_when_startable Samples.platform
              (Demo.host Demo.alwaysDown) Samples.env (launched (Demo.start true)) R)
    as (C & G & _).
  split; [ exact C | exact G ].
Defined.

Lemma oneJob_new (time : option string) (logger : bool) (app : Index.App) :
  runningJobs app = 0%nat -> oneJob (worldOf (Scheduler.new time logger) app).
Proof. intros H. split; [ exact H | reflexivity ]. Qed.

(** Whatever [startApplication] does, the scheduler it leaves holds the
    only running task, if there is one. *)
Lemma startApplication_oneJob (p : Scheduler.Platform) (h : Host) (env : Configuration.Env)
      (app : Index.App) :
  runningJobs app = 0%nat ->
  wpP (Index.startApplication p h env) app
      (fun c app' e => exists w, app' = appOf w /\ oneJob w).
Proof.
  intros H0. unfold Index.startApplication. wpP_steps.
  set (time := SMSService.or_else (env "SCHEDULED_TIME"%string) "09:00").
  pose proof (oneJob_new (Some time) true app H0) as O0.
  eapply wpP_call; [ reflexivity | ].
  unfold worldOf at 1. cbn [Index.registry Index.sys].
  unfold worldOf in O0.
  set (w0 := {| Scheduler.this := Scheduler.new (Some time) true;
                Scheduler.registry := Index.registry app;
                Scheduler.sys := Index.sys app |}) in *.
  eapply wpW_mono; [ apply Scheduler_initialize_spec | ].
  intros c w1 e1 (Hc & J1 & _ & _).
  pose proof (oneJob_sameJob _ _ J1 O0) as O1.
  destruct c as [ [] | m | ]; [ | | contradiction ].
  2:{ wpP_steps. exists w1. split; [ reflexivity | exact O1 ]. }
  wpP_steps.
  eapply wpP_call; [ reflexivity | ].
  replace (worldOf (Scheduler.this w1) (appOf w1)) with w1 by (destruct w1; reflexivity).
  eapply wpW_mono; [ apply start_spec | ].
  intros c w2 e2 (_ & w1' & J2 & H2).
  pose proof (oneJob_sameJob _ _ J2 O1) as O2.
  destruct H2 as [[(m & ->) ->] | (-> & _ & [[_ ->] | [I ->]])]; wpP_steps.
  - exists w1'. split; [ reflexivity | exact O2 ].
  - exists w1'. split; [ reflexivity | exact O2 ].
  - exists (afterStart p w1'). split; [ reflexivity | exact (oneJob_afterStart p w1' I O2) ].
Qed.

(** [shutdown], when the scheduler holds the only running task: the
    process leaves with code 0 and no task is running any more. *)
Lemma shutdown_oneJob (p : Scheduler.Platform) (h : Host) (signal : string)
      (w : Scheduler.World) :
  oneJob w ->
  wpP (Index.shutdown signal) (appOf w)
      (fun c app' e =>
         c = Normal (Some 0)
         /\ runningJobs app' = 0%nat
         /\ Index.sys app' = Scheduler.sys w
         /\ option_map Scheduler.isSchedulerRunning (Index.scheduler app') = Some false).
Proof.
  intros O. unfold Index.shutdown. wpP_steps. cbn [appOf Index.scheduler].
  unfold Scheduler.isSchedulerRunning at 1.
  destruct (Scheduler.isRunning (Scheduler.this w)) eqn:I.
  - wpP_steps. eapply wpP_call; [ reflexivity | ].
    replace (worldOf (Scheduler.this w) (appOf w)) with w by (destruct w; reflexivity).
    pose proof (perform_oneJob p h CallStop w O) as O'. cbn [perform] in O'.
    eapply wpW_mono; [ apply stop_spec | ].
    intros c w' e (-> & _ & E). rewrite I in E.
    unfold wpW in E.
    assert (E' : snd (fst (Scheduler.stop w)) = w').
    { pose proof (stop_spec w) as S. unfold wpW in S. destruct S as (_ & _ & S).
      rewrite I in S. rewrite S, E. reflexivity. }
    rewrite E' in O'. wpP_steps.
    unfold oneJob in O'. rewrite E in O'. cbn [Scheduler.this halted Scheduler.isRunning] in O'.
    destruct O' as [N _].
    split; [ reflexivity | split; [ | split ] ].
    + rewrite E. exact N.
    + rewrite E. reflexivity.
    + rewrite E. reflexivity.
  - wpP_steps. unfold oneJob in O. rewrite I in O. destruct O as [N _].
    split; [ reflexivity | split; [ exact N | split; [ reflexivity | ] ] ].
    cbn [appOf Index.scheduler option_map]. unfold Scheduler.isSchedulerRunning.
    rewrite I. reflexivity.
Qed.

(** X30.  [shutdown] always leaves the process with code 0.  Before
    [startApplication] it finds no scheduler and changes nothing.  After
    [startApplication], whether that started the daily job or failed, it
    leaves no task of node-cron running and a scheduler that says it is not
    running, and it does not touch the services. *)
Theorem shutdown_leaves_no_job :
  forall (p : Scheduler.Platform) (h : Host) (env : Configuration.Env) (signal : string)
         (s : Sys),
    let app1 := snd (fst (Index.startApplication p h env (launched s))) in
    fst (Index.shutdown signal (launched s)) = (Normal (Some 0), launched s)
    /\ exists app2,
         fst (Index.shutdown signal app1) = (Normal (Some 0), app2)
         /\ runningJobs app2 = 0%nat
         /\ Index.sys app2 = Index.sys app1
         /\ option_map Scheduler.isSchedulerRunning (Index.scheduler app2) = Some false.
Proof.
  intros p h env signal s app1. split; [ reflexivity | ].
  pose proof (startApplication_oneJob p h env (launched s) eq_refl) as W.
  unfold wpP in W. fold app1 in W. cbv beta in W. destruct W as (w & E & O).
  pose proof (shutdown_oneJob p h signal w O) as S. unfold wpP in S. rewrite <- E in S.
  destruct S as (C & N & Y & R).
  exists (snd (fst (Index.shutdown signal app1))).
  split; [ | split; [ exact N | split; [ | exact R ] ] ].
  - rewrite <- C. destruct (Index.shutdown signal app1) as [[c a] e]. reflexivity.
  - rewrite Y, E. reflexivity.
Qed.

(* ================================================================== *)
(** ** BirthdayCheckService: the one message of a run *)
(* ================================================================== *)

(** The associates [parseFile] returns have names that are trimmed and not
    empty. *)
Lemma parseFile_trimmed (this : ExcelParserObj) (h : Host) (filePath : string) (s : Sys)
      (loaded : list Associate) :
  result_of (ExcelParser.parseFile this h filePath s) = Normal loaded ->
  Forall trimmedName loaded.
Proof.
  intros H. rewrite parseFile_result in H. cbv zeta in H.
  destruct (negb (fs_existsSync h (path_resolve h filePath))); [ discriminate | ].
  destruct (negb (excelExtension _)); [ discriminate | ].
  destruct (xlsx_readFile h (path_resolve h filePath)) as [workbook | m]; [ | discriminate ].
  destruct (SheetNames workbook) as [ | sheet others]; [ discriminate | ].
  destruct (is_empty sheet); [ discriminate | ].
  injection H as <-.
  unfold parsedRows.
  destruct (parseRows_readings this h (sheet_to_json workbook sheet) 0 noRows s)
    as (e & -> & _).
  cbn [result_of fst ExcelParser.parsed noRows app].
  destruct (readings_wellFormed h (sheet_to_json workbook sheet) (0 + 1)) as [F _].
  eapply Forall_impl; [ | exact F ]. intros a (H1 & H2 & _). split; assumption.
Qed.

Lemma filter_Some {A} (p : option A -> bool) (l : list A) :
  filter p (map Some l) = map Some (filter (fun a => p (Some a)) l).
Proof.
  induction l as [ | a l IH]; [ reflexivity | ].
  cbn [map filter]. destruct (p (Some a)); cbn [map]; rewrite IH; reflexivity.
Qed.

(** The matcher returns associates of the list it is given. *)
Lemma findBirthdaysOnDate_sublist (h : Host) (l : list Associate) (date : Value)
      (P : Associate -> Prop) :
  Forall P l ->
  exists found,
    DateMatcher.findBirthdaysOnDate h (Some (map Some l)) date = map Some found
    /\ Forall P found.
Proof.
  intros F. unfold DateMatcher.findBirthdaysOnDate.
  destruct date; try (exists []; split; [ reflexivity | constructor ]).
  destruct (isInvalid d); [ exists []; split; [ reflexivity | constructor ] | ].
  cbv zeta. eexists. split; [ apply filter_Some | ].
  apply Forall_forall. intros a Ha. apply filter_In in Ha.
  rewrite Forall_forall in F. apply F. apply Ha.
Qed.

Lemma allPresent_map (l : list Associate) : allPresent (map Some l).
Proof. unfold allPresent. induction l; constructor; [ discriminate | assumption ]. Qed.

Lemma count_posts_sends (l : list Event) : count isHttpPost (sends l) = count isHttpPost l.
Proof.
  unfold count, sends. induction l as [ | e l IH]; [ reflexivity | ].
  destruct e; cbn; try exact IH; rewrite IH; reflexivity.
Qed.

Lemma count_zero_not_In (req : Request) (l : list Event) :
  count isHttpPost l = 0%nat -> ~ In (EvHttpPost req) l.
Proof.
  unfold count. intros H Hin.
  assert (I : In (EvHttpPost req) (filter isHttpPost l)) by (apply filter_In; split; auto).
  destruct (filter isHttpPost l); [ contradiction | discriminate ].
Qed.

(** A notification for a list of associates makes at least one request. *)
Lemma sendBirthdayNotification_posts (this : SMSServiceObj) (h : Host)
      (l : list Element) (s : Sys) :
  allPresent l -> l <> [] ->
  (1 <= count isHttpPost
          (events_of (SMSService.sendBirthdayNotification this h (Some l) s)))%nat.
Proof.
  intros A N. destruct (formatMessage_allPresent l A) as (message & EF).
  destruct l as [ | x l]; [ contradiction | ].
  unfold SMSService.sendBirthdayNotification, bind, emit, now, liftS.
  cbn [fst snd result_of events_of].
  rewrite EF. cbn [fst snd result_of events_of ofSettled].
  pose proof (sendWithRetry_total this h message
                (mkDate (Some (clock h (clockReads s))))
                {| service := service s; frame := frame s; posts := posts s;
                   clockReads := S (clockReads s) |})
    as (r' & n & H1 & H2 & H3 & H4 & H5).
  destruct (SMSService.sendWithRetry this h message _ _) as [[c s'] ev].
  cbn [fst snd result_of events_of app] in *.
  destruct c; cbn [events_of snd app]; unfold count in *; cbn; exact H5.
Qed.

Lemma loadAssociates_trimmed (h : Host) (s : Sys) :
  wp (BirthdayCheckService.loadAssociates h) s
     (fun c s1 e =>
        forallb isLog e = true
        /\ service s1 = service s
        /\ exists ret, c = Normal ret
             /\ match ret with
                | Some r => BirthdayCheckService.res_birthdaysFound r = []
                | None => Forall trimmedName (associates (frame s1))
                end).
Proof.
  unfold BirthdayCheckService.loadAssociates. wp_steps.
  destruct (excelParser (service s)) as [parser | ];
    [ destruct (config (service s)) as [cfg | ] | ].
  - wp_step.
    destruct (parseFile_stateless parser h (excelFilePath cfg)) as (c & e & E & Hc & He).
    pose proof (parseFile_trimmed parser h (excelFilePath cfg) s) as T.
    rewrite (E s) in T. cbn [result_of fst] in T.
    eapply wp_run; [ apply E | ]. cbv beta iota.
    destruct c as [loaded | m | ]; [ | | contradiction ]; wp_steps;
      cbn [service frame associates];
      (split; [ logs | ]); (split; [ reflexivity | ]);
      eexists; (split; [ reflexivity | ]).
    + exact (T loaded eq_refl).
    + reflexivity.
  - wp_steps. cbn [service frame]. (split; [ logs | ]); (split; [ reflexivity | ]).
    eexists; (split; [ reflexivity | ]). reflexivity.
  - wp_steps. cbn [service frame]. (split; [ logs | ]); (split; [ reflexivity | ]).
    eexists; (split; [ reflexivity | ]). reflexivity.
Qed.

Lemma matchBirthdays_trimmed (h : Host) (s : Sys) :
  Forall trimmedName (associates (frame s)) ->
  wp (BirthdayCheckService.matchBirthdays h) s
     (fun c s1 e =>
        forallb isLog e = true
        /\ service s1 = service s
        /\ exists ret, c = Normal ret
             /\ match ret with
                | Some r => BirthdayCheckService.res_birthdaysFound r = []
                | None =>
                    exists found,
                      birthdaysFound (frame s1) = map Some found
                      /\ Forall trimmedName found
                end).
Proof.
  intros F. unfold BirthdayCheckService.matchBirthdays. wp_steps.
  destruct (dateMatcher (service s)) as [ [] | ].
  - wp_step. eapply wp_run; [ apply findBirthdaysToday_run | ]. cbv beta iota. wp_steps.
    set (matched := DateMatcher.findBirthdaysOnDate h _ _).
    assert (X : exists found, matched = map Some found /\ Forall trimmedName found)
      by (unfold matched; apply findBirthdaysOnDate_sublist; exact F).
    destruct X as (found & Ef & Ff). clearbody matched.
    assert (Ha : allPresent matched) by (rewrite Ef; apply allPresent_map).
    destruct (0 <? BirthdayCheckService.len matched).
    + wp_steps.
      eapply wp_mono; [ apply (logNames_allPresent matched _ Ha) | ].
      intros c s' e (-> & -> & Hl). wp_steps.
      cbn [service frame birthdaysFound afterClock].
      (split; [ logs | ]); (split; [ reflexivity | ]).
      eexists; (split; [ reflexivity | ]). exists found. split; [ exact Ef | exact Ff ].
    + wp_steps. cbn [service frame birthdaysFound afterClock].
      (split; [ logs | ]); (split; [ reflexivity | ]).
      eexists; (split; [ reflexivity | ]). exists found. split; [ exact Ef | exact Ff ].
  - wp_steps. cbn [service frame]. (split; [ logs | ]); (split; [ reflexivity | ]).
    eexists; (split; [ reflexivity | ]). reflexivity.
Qed.

(** When somebody has a birthday and the SMS service is there,
    [sendNotification] calls it exactly once and at least one request is
    made. *)
Lemma sendNotification_once (h : Host) (s : Sys) :
  allPresent (birthdaysFound (frame s)) ->
  wp (BirthdayCheckService.sendNotification h) s
     (fun c s1 e =>
        c = Normal tt
        /\ service s1 = service s
        /\ birthdaysFound (frame s1) = birthdaysFound (frame s)
        /\ (birthdaysFound (frame s) <> [] -> smsService (service s) <> None ->
            count (isInvoke SMSService.sendBirthdayNotification_name) e = 1%nat
            /\ (1 <= count isHttpPost e)%nat)).
Proof.
  intros A.
  unfold BirthdayCheckService.sendNotification. wp_steps.
  destruct (0 <? BirthdayCheckService.len (birthdaysFound (frame s))) eqn:Hpos.
  2:{ wp_steps. apply len_zero in Hpos.
      split; [ reflexivity | split; [ reflexivity | split; [ reflexivity | ] ] ].
      intros N. contradiction. }
  apply len_positive in Hpos.
  wp_steps.
  destruct (smsService (service s)) as [sms | ].
  2:{ wp_steps. cbn [service frame birthdaysFound].
      split; [ reflexivity | split; [ reflexivity | split; [ reflexivity | ] ] ].
      intros _ N. contradiction. }
  wp_step.
  pose proof (sendBirthdayNotification_spec sms h (birthdaysFound (frame s)) s) as Sp.
  pose proof (sendBirthdayNotification_posts sms h (birthdaysFound (frame s)) s A Hpos) as Po.
  unfold wp in Sp.
  destruct (SMSService.sendBirthdayNotification sms h (Some (birthdaysFound (frame s))) s)
    as [[c s'] e] eqn:Run.
  cbn [result_of state_of events_of fst snd] in Sp, Po.
  destruct Sp as (Hc & Hs & Hf & e' & -> & Hcnt & _).
  eapply wp_run; [ exact Run | ]. cbv beta iota.
  assert (Po' : (1 <= count isHttpPost e')%nat) by exact Po.
  assert (Done : forall s1 l,
             service s1 = service s ->
             birthdaysFound (frame s1) = birthdaysFound (frame s) ->
             sends l = EvInvoke SMSService.sendBirthdayNotification_name :: sends e' ->
             Normal tt = Normal tt
             /\ service s1 = service s
             /\ birthdaysFound (frame s1) = birthdaysFound (frame s)
             /\ (birthdaysFound (frame s) <> [] -> Some sms <> None ->
                 count (isInvoke SMSService.sendBirthdayNotification_name) l = 1%nat
                 /\ (1 <= count isHttpPost l)%nat)).
  { intros s1 l H1 H2 Hl.
    split; [ reflexivity | split; [ exact H1 | split; [ exact H2 | ] ] ].
    intros _ _.
    rewrite <- (count_sends _ l), <- (count_posts_sends l), Hl. split.
    - unfold count in *. cbn [filter isInvoke]. rewrite String.eqb_refl. cbn [List.length].
      fold (count (isInvoke SMSService.sendBirthdayNotification_name) (sends e')).
      rewrite count_sends. unfold count. rewrite Hcnt. reflexivity.
    - unfold count. cbn [filter isHttpPost].
      fold (count isHttpPost (sends e')). rewrite count_posts_sends. exact Po'. }
  destruct c as [smsResult | m | ]; [ | | contradiction ].
  - destruct (SMSService.success smsResult).
    + wp_steps. cbn [service frame associates birthdaysFound].
      rewrite Hs.
      destruct (config (service s)) as [cfg | ].
      2:{ wp_steps.
          apply Done; cbn [service frame associates birthdaysFound];
            rewrite ?Hs, ?Hf; try reflexivity; sends_simpl; reflexivity. }
      destruct (toISOString (SMSService.timestamp smsResult)) as [iso | ].
      2:{ wp_steps.
          apply Done; cbn [service frame associates birthdaysFound];
            rewrite ?Hs, ?Hf; try reflexivity; sends_simpl; reflexivity. }
      wp_steps.
      destruct (SMSService.truthy_str (SMSService.messageId smsResult)) as [id | ];
        wp_steps;
        (destruct (SMSService.attempts smsResult) as [n | ];
         [ destruct (Nat.ltb 1 n) | ]); wp_steps;
        apply Done; cbn [service frame associates birthdaysFound];
          rewrite ?Hs, ?Hf; try reflexivity; sends_simpl; reflexivity.
    + wp_steps.
      (destruct (SMSService.attempts smsResult) as [n | ];
       [ destruct (Nat.ltb 0 n) | ]); wp_steps;
        apply Done; cbn [service frame associates birthdaysFound];
          rewrite ?Hs, ?Hf; try reflexivity; sends_simpl; reflexivity.
  - wp_steps.
    apply Done; cbn [service frame associates birthdaysFound];
      rewrite ?Hs, ?Hf; try reflexivity; sends_simpl; reflexivity.
Qed.

(** When [initialize] returns, the SMS service is there. *)
Lemma initialize_sms (h : Host) (s : Sys) :
  wp (BirthdayCheckService.initialize h) s
     (fun c s1 e =>
        c <> OutOfFuel /\ forallb isLog e = true /\ frame s1 = frame s
        /\ (c = Normal tt -> config (service s1) <> None /\ smsService (service s1) <> None)).
Proof.
  unfold BirthdayCheckService.initialize. wp_steps.
  destruct (negb (Nat.eqb (List.length (validationErrors h)) 0)).
  - wp_steps. cbn [service config smsService frame].
    split; [ discriminate | split; [ logs | split; [ reflexivity | discriminate ] ] ].
  - wp_steps.
    destruct (SMSService.new _ _ _ _) as [sms | m]; cbn [ofSettled]; wp_steps;
      cbn [service config smsService frame];
      (split; [ discriminate | split; [ logs | split; [ reflexivity | ] ] ]).
    + intros _. split; discriminate.
    + discriminate.
Qed.

Lemma counts_ext (l l' : list Event) :
  sends l = sends l' ->
  count (isInvoke SMSService.sendBirthdayNotification_name) l
  = count (isInvoke SMSService.sendBirthdayNotification_name) l'
  /\ count isHttpPost l = count isHttpPost l'.
Proof.
  intros E. split.
  - rewrite <- (count_sends _ l), <- (count_sends _ l'), E. reflexivity.
  - rewrite <- (count_posts_sends l), <- (count_posts_sends l'), E. reflexivity.
Qed.

Ltac returned_early R :=
  wp_steps; unfold oncePost; exists [];
  split; [ exact R | split; [ constructor | intros N; contradiction ] ].

(** Steps 2 to 5 of the try block, on a service whose SMS service is there
    when [R] holds. *)
Ltac rest_once h Hsms :=
  eapply wp_mono; [ apply loadAssociates_trimmed | ];
  let c := fresh "c" in
  let s2 := fresh "s2" in
  let e2 := fresh "e2" in
  let ret := fresh "ret" in
  let He2 := fresh "He2" in
  let Hs2 := fresh "Hs2" in
  let Hret := fresh "Hret" in
  intros c s2 e2 (He2 & Hs2 & ret & -> & Hret);
  destruct ret as [r | ]; [ returned_early Hret | ];
  wp_steps;
  eapply wp_mono; [ apply matchBirthdays_trimmed; exact Hret | ];
  let c3 := fresh "c" in
  let s3 := fresh "s3" in
  let e3 := fresh "e3" in
  let ret3 := fresh "ret" in
  let He3 := fresh "He3" in
  let Hs3 := fresh "Hs3" in
  let Hret3 := fresh "Hret3" in
  let found := fresh "found" in
  let Ef := fresh "Ef" in
  let Ff := fresh "Ff" in
  intros c3 s3 e3 (He3 & Hs3 & ret3 & -> & Hret3);
  destruct ret3 as [r | ]; [ returned_early Hret3 | ];
  destruct Hret3 as (found & Ef & Ff);
  wp_steps;
  eapply wp_mono;
    [ apply sendNotification_once; rewrite Ef; apply allPresent_map | ];
  let c4 := fresh "c" in
  let s4 := fresh "s4" in
  let e4 := fresh "e4" in
  let Hs4 := fresh "Hs4" in
  let Hbf4 := fresh "Hbf4" in
  let Hcnt := fresh "Hcnt" in
  intros c4 s4 e4 (-> & Hs4 & Hbf4 & Hcnt);
  wp_steps;
  destruct (0 <? BirthdayCheckService.len (errors (frame s4)));
  wp_steps; unfold oncePost;
  cbn [BirthdayCheckService.res_birthdaysFound];
  exists found;
  (split; [ rewrite Hbf4; exact Ef | split; [ exact Ff | ] ]);
  (let N := fresh "N" in
   let HR := fresh "HR" in
   let C := fresh "C" in
   intros N HR;
   assert (C : count (isInvoke SMSService.sendBirthdayNotification_name) e4 = 1%nat
               /\ (1 <= count isHttpPost e4)%nat)
     by (apply Hcnt;
         [ rewrite Ef; destruct found; [ contradiction | discriminate ]
         | rewrite Hs3, Hs2; exact (Hsms HR) ]);
   match goal with
   | |- count _ ?l = _ /\ (_ <= count _ ?l)%nat =>
       destruct (counts_ext l e4 ltac:(sends_simpl; reflexivity)) as [X1 X2];
       rewrite X1, X2; exact C
   end).

Lemma dailyCheck_once (h : Host) (s : Sys) :
  birthdaysFound (frame s) = [] ->
  wp (BirthdayCheckService.dailyCheck h) s
     (oncePost (config (service s) = None \/ smsService (service s) <> None) s).
Proof.
  intros Hbf.
  unfold BirthdayCheckService.dailyCheck. wp_steps.
  destruct (config (service s)) as [cfg0 | ] eqn:Hcfg.
  - wp_steps. rewrite Hcfg. wp_steps.
    assert (Hsms : Some cfg0 = None \/ smsService (service s) <> None ->
                   smsService (service s) <> None)
      by (intros [X | X]; [ discriminate | exact X ]).
    rest_once h Hsms.
  - eapply wp_mono; [ apply initialize_sms | ].
    intros c s1 e1 (Hc & He1 & Hf1 & Hok).
    destruct c as [ [] | m | ]; [ | | contradiction ].
    + destruct (Hok eq_refl) as [Hcfg1 Hsms1].
      wp_steps.
      destruct (config (service s1)) as [cfg1 | ]; [ | contradiction ].
      wp_steps.
      assert (Hsms : @None Configuration = None \/ smsService (service s) <> None ->
                     smsService (service s1) <> None)
        by (intros _; exact Hsms1).
      rest_once h Hsms.
    + exact Hf1.
Qed.

(** The whole method: the matched list of the result holds associates with
    trimmed names; when it is not empty and the SMS service is there, the
    service is called exactly once and at least one request is made. *)
Lemma performDailyCheck_once (h : Host) (s : Sys) :
  wp (BirthdayCheckService.performDailyCheck h) s
     (fun c s1 e =>
        exists r found,
          c = Normal r
          /\ BirthdayCheckService.res_birthdaysFound r = map Some found
          /\ Forall trimmedName found
          /\ (found <> [] -> config (service s) = None \/ smsService (service s) <> None ->
              count (isInvoke SMSService.sendBirthdayNotification_name) e = 1%nat
              /\ (1 <= count isHttpPost e)%nat)).
Proof.
  unfold BirthdayCheckService.performDailyCheck. wp_steps.
  eapply wp_mono; [ apply dailyCheck_once; reflexivity | ].
  intros c s1 e H. destruct c as [r | m | ]; [ | | contradiction ].
  - destruct H as (found & H1 & H2 & H3). exists r, found.
    split; [ reflexivity | split; [ exact H1 | split; [ exact H2 | ] ] ].
    intros N HR. exact (H3 N HR).
  - cbn [oncePost] in H. wp_steps.
    eexists. exists [].
    split; [ reflexivity | ].
    cbn [BirthdayCheckService.res_birthdaysFound frame birthdaysFound].
    rewrite H. cbn [frame birthdaysFound].
    split; [ reflexivity | split; [ constructor | intros N; contradiction ] ].
Qed.

Lemma map_Some_nil {A} (l : list A) : map Some l = [] -> l = [].
Proof. destruct l; [ reflexivity | discriminate ]. Qed.

(** C2.  In every run of [performDailyCheck] the matched birthdays of the
    result are a list [found] of associates, and [sendBirthdayNotification]
    is called at most once.  When [found] is empty it is not called, no HTTP
    request is made and the result has notificationSent = false.  When
    [found] is not empty and the service has its SMS service (it had no
    configuration yet, so that [initialize] runs, or it holds one), it is
    called exactly once and at least one request is made.  Every request of
    the run carries the one message of the whole list: the heading, then one
    line "- name" for each associate of [found] in order, separated by line
    feeds; this is the text that [formatMessage] returns for the matched
    list. *)
Theorem performDailyCheck_single_notification :
  forall (h : Host) (s : Sys),
    let run := BirthdayCheckService.performDailyCheck h s in
    let calls := count (isInvoke SMSService.sendBirthdayNotification_name) (events_of run) in
    let requests := count isHttpPost (events_of run) in
    exists r found,
      result_of run = Normal r
      /\ BirthdayCheckService.res_birthdaysFound r = map Some found
      /\ (calls <= 1)%nat
      /\ (found = [] ->
          calls = 0%nat /\ requests = 0%nat
          /\ BirthdayCheckService.res_notificationSent r = false)
      /\ (found <> [] ->
          config (service s) = None \/ smsService (service s) <> None ->
          calls = 1%nat /\ (1 <= requests)%nat)
      /\ (forall req,
             In (EvHttpPost req) (events_of run) ->
             req_message req = heading ^^ nl ^^ SMSService.join nl (map nameLine found)
             /\ SMSService.formatMessage (Some (BirthdayCheckService.res_birthdaysFound r))
                = Returned (req_message req)).
Proof.
  intros h s run calls requests.
  pose proof (performDailyCheck_spec h s) as (r & Hr & (H1 & H2 & H3) & H4).
  pose proof (performDailyCheck_once h s) as (r' & found & Hr' & Ef & Ff & Hone).
  fold run in Hr, H1, H2, H3, Hr', Hone.
  assert (r' = r) by congruence. subst r'.
  exists r, found.
  split; [ exact Hr | split; [ exact Ef | split; [ exact H1 | ] ] ].
  split; [ | split; [ exact Hone | ] ].
  - intros E. assert (E' : BirthdayCheckService.res_birthdaysFound r = [])
      by (rewrite Ef, E; reflexivity).
    destruct (noSend_counts _ (H2 E')) as [C1 C2].
    split; [ exact C1 | split; [ exact C2 | exact (H4 E') ] ].
  - intros req Hin. pose proof (H3 req Hin) as Hm. split; [ | exact Hm ].
    destruct found as [ | a found].
    + destruct (noSend_counts _ (H2 Ef)) as [_ C2].
      exfalso. exact (count_zero_not_In req _ C2 Hin).
    + rewrite Ef in Hm.
      pose proof (formatMessage_lines (a :: found) Ff ltac:(discriminate)) as L.
      pose proof (eq_trans (eq_sym Hm) L) as X. injection X as X'. exact X'.
Qed.

Lemma performDailyCheck_single_notification_witness :
  let h := Demo.host Demo.failTwice in
  let run := BirthdayCheckService.performDailyCheck h (Demo.start true) in
  let john := mkAssociate "John Doe" (VDate (newDate utcZone (Some 2000) (Some 1) (Some 29))) 2 in
  let text := "Birthday Alert! Today's birthdays:" ^^ nl ^^ "- John Doe" in
  exists r,
    result_of run = Normal r
    /\ BirthdayCheckService.res_birthdaysFound r = [Some john]
    /\ count (isInvoke SMSService.sendBirthdayNotification_name) (events_of run) = 1%nat
    /\ count isHttpPost (events_of run) = 3%nat
    /\ (forall req, In (EvHttpPost req) (events_of run) -> req_message req = text).
Proof.
  cbv zeta.
  destruct (performDailyCheck_single_notification (Demo.host Demo.failTwice) (Demo.start true))
    as (r & found & Hr & Ef & _ & _ & Hone & Hmsg).
  assert (E : found
              = [mkAssociate "John Doe"
                   (VDate (newDate utcZone (Some 2000) (Some 1) (Some 29))) 2]).
  { vm_compute in Hr. inversion Hr as [Hr']. rewrite <- Hr' in Ef.
    cbn [BirthdayCheckService.res_birthdaysFound] in Ef.
    destruct found as [ | a [ | b l ] ]; [ discriminate | | discriminate ].
    inversion Ef. reflexivity. }
  subst found.
  exists r. split; [ exact Hr | split; [ exact Ef | ] ].
  split; [ exact (proj1 (Hone ltac:(discriminate) (or_introl eq_refl))) | ].
  split; [ reflexivity | ].
  intros req Hin. exact (proj1 (Hmsg req Hin)).
Defined.
